(** * Quagga pselect support (lib/qpselect.c): a shallow embedding

    The development models the selection of lib/qpselect.c: the descriptor
    sets with their word and byte overlay, the files vector in its sparse
    and direct forms, the mode bookkeeping, the wait (qps_pselect) and the
    dispatch (qps_dispatch_next) operations, and the debug check
    qps_selection_validate which both of them run first.

    Part I holds the definitions, translated function by function from the C
    source.  Part II holds the lemmas and the theorems about them. *)

From Stdlib Require Import ZArith Lia List Bool String.
From stdpp Require Import base numbers list sorting gmap.

Local Open Scope Z_scope.

(* ====================================================================== *)
(** * Part I: the model                                                    *)
(* ====================================================================== *)

(** ** Outcomes

    Every routine of qpselect.c either returns, or stops the process through
    zabort(), passert(), dassert() or assert().  The assertions are modelled
    as active, as in a debug build.  [Unmodelled] marks what C leaves
    undefined (a NULL or dangling pointer dereferenced, an array indexed out
    of its bounds) and references to a selection other than the modelled one. *)

Inductive result (A : Type) : Type :=
| Ok (a : A)
| Abort (msg : string)
| Unmodelled (why : string).

Arguments Ok {A} a.
Arguments Abort {A} msg.
Arguments Unmodelled {A} why.

Definition bind {A B : Type} (r : result A) (k : A -> result B) : result B :=
  match r with
  | Ok a => k a
  | Abort msg => Abort msg
  | Unmodelled why => Unmodelled why
  end.

Notation "x <- r ;; k" := (bind r (fun x => k))
  (at level 100, r at next level, right associativity, only parsing).

(** [ensure c msg]: an assertion; the process is aborted when [c] fails. *)
Definition ensure (c : bool) (msg : string) : result unit :=
  if c then Ok tt else Abort msg.

Definition is_ok {A : Type} (r : result A) : bool :=
  match r with Ok _ => true | _ => false end.

Definition is_abort {A : Type} (r : result A) : bool :=
  match r with Abort _ => true | _ => false end.

(** ** Constants of qpselect.h

    Modelled from the spec: qpselect.h is not among the sources.  The spec
    gives the mode count (3), the priority order error < read < write which
    is also the numbering, the mode bit [1 << mode], the mask of all modes
    (0b111) and the 32-bit word of the overlay. *)

Definition qps_mnum_count : Z := 3.
Definition qps_error_mnum : Z := 0.
Definition qps_read_mnum : Z := 1.
Definition qps_write_mnum : Z := 2.
Definition qps_mbit (mnum : Z) : Z := Z.shiftl 1 mnum.
Definition qps_all_mbits : Z := 7.

(** FD_SETSIZE is the host's; 1024 is the usual value.  The proofs only use
    that it is a positive multiple of the word size. *)
Definition FD_SETSIZE : Z := 1024.
Definition FD_WORD_BITS : Z := 32.
Definition FD_WORD_BYTES : Z := 4.
Definition FD_SUPER_SET_WORD_SIZE : Z := FD_SETSIZE / FD_WORD_BITS.
Definition FD_SUPER_SET_BYTE_SIZE : Z := FD_SETSIZE / 8.

Definition EINTR : Z := 4.

(** ** Arrays indexed by mode

    [qps_mnum_count] entries.  The accessors are total; every routine checks
    the index with [mode_index] where the C code would index out of bounds. *)

Record arr3 (A : Type) : Type := Arr3 { at0 : A; at1 : A; at2 : A }.

Arguments Arr3 {A} _ _ _.
Arguments at0 {A} _.
Arguments at1 {A} _.
Arguments at2 {A} _.

Definition aget {A : Type} (a : arr3 A) (i : Z) : A :=
  if i =? 0 then at0 a else if i =? 1 then at1 a else at2 a.

Definition aset {A : Type} (a : arr3 A) (i : Z) (x : A) : arr3 A :=
  if i =? 0 then Arr3 x (at1 a) (at2 a)
  else if i =? 1 then Arr3 (at0 a) x (at2 a)
  else Arr3 (at0 a) (at1 a) x.

Definition afill {A : Type} (x : A) : arr3 A := Arr3 x x x.

Definition mode_index (mnum : Z) : result unit :=
  if (0 <=? mnum) && (mnum <? qps_mnum_count) then Ok tt
  else Unmodelled "mode array indexed out of bounds".

(** ** Descriptor sets

    An fd_super_set is the host's fd_set overlaid with a word array and a
    byte array.  It is modelled as the bit vector itself, a [Z] whose bit
    [fd] is what FD_ISSET(fd) reads.

    Modelled from the spec: the layout tables of qps_make_super_set_map are
    the ones of the layout where descriptor [fd] lives in word [fd / 32], in
    byte [fd / 8] and under the byte mask [1 << (fd mod 8)]; the word and
    byte views below read the bit vector accordingly. *)

Abbreviation fd_super_set := Z (only parsing).

Definition FD_SET (fd : Z) (set : fd_super_set) : fd_super_set := Z.setbit set fd.
Definition FD_CLR (fd : Z) (set : fd_super_set) : fd_super_set := Z.clearbit set fd.
Definition FD_ISSET (fd : Z) (set : fd_super_set) : bool := Z.testbit set fd.

(** [set.words[iw]] and [set.bytes[ib]]. *)
Definition words (set : fd_super_set) (iw : Z) : Z :=
  Z.land (Z.shiftr set (iw * FD_WORD_BITS)) (Z.ones FD_WORD_BITS).

Definition bytes (set : fd_super_set) (ib : Z) : Z :=
  Z.land (Z.shiftr set (ib * 8)) (Z.ones 8).

Definition fd_word_map (fd : Z) : Z := fd / FD_WORD_BITS.
Definition fd_byte_map (fd : Z) : Z := fd / 8.
Definition fd_bit_map (fd : Z) : Z := Z.shiftl 1 (Z.land fd 7).

(** Step (7) of qps_make_super_set_map: the running maximum of
    [fd_byte_map[fd] + 1], which in this layout is the count itself. *)
Definition fd_byte_count (fd : Z) : Z := fd_byte_map fd + 1.

(** Step (6) of qps_make_super_set_map: fd_first_map, from byte value to the
    lowest descriptor (mod 8) set in the byte. *)
Definition fd_first_map_init : list Z := repeat (-1) 256.

Definition fd_first_map_mark (fd : Z) (tbl : list Z) : list Z :=
  let fdb := fd_bit_map fd in
  imap (fun i e =>
          if (1 <=? Z.of_nat i) && (e =? -1) && negb (Z.land (Z.of_nat i) fdb =? 0)
          then fd else e) tbl.

Definition fd_first_map_table : list Z :=
  Eval vm_compute in
    fold_left (fun tbl fd => fd_first_map_mark fd tbl)
              [0; 1; 2; 3; 4; 5; 6; 7] fd_first_map_init.

Definition fd_first_map (b : Z) : Z := nth (Z.to_nat b) fd_first_map_table (-1).

(** qps_super_set_zero: [n] contiguous sets are cleared. *)
Definition qps_super_set_zero : arr3 fd_super_set := afill 0.

(** qps_super_set_cmp is memcmp: only its being zero or not is used. *)
Definition qps_super_set_cmp (a b : arr3 fd_super_set) : Z :=
  if (at0 a =? at0 b) && (at1 a =? at1 b) && (at2 a =? at2 b) then 0 else 1.

(** qps_super_set_count: the inner loop [w &= (w - 1)] clears one bit per
    turn, so 32 turns exhaust a word. *)
Fixpoint count_word (fuel : nat) (w : Z) : Z :=
  match fuel with
  | O => 0
  | S k => if w =? 0 then 0 else 1 + count_word k (Z.land w (w - 1))
  end.

Definition qps_super_set_count1 (set : fd_super_set) : Z :=
  fold_left (fun count iw => count + count_word 32 (words set iw))
            (seqZ 0 FD_SUPER_SET_WORD_SIZE) 0.

Definition qps_super_set_count (sets : list fd_super_set) : Z :=
  fold_left (fun count set => count + qps_super_set_count1 set) sets 0.

(** ** qps_next_fd_pending

    The two while loops step [fd] upwards and leave through [return -1] once
    it passes [fd_last]; [fuel] bounds the number of tests of the loop
    condition and [None] is fuel exhausted, which the bound given in
    [qps_next_fd_pending] excludes (lemma [qps_next_fd_pending_total]). *)

Inductive scan_exit : Type :=
| ScanAt (fd : Z)      (* the loop ended with this [fd] *)
| ScanNone             (* return -1 *)
| ScanBounds.          (* a table indexed outside [0, FD_SETSIZE) *)

(** The tables fd_word_map, fd_byte_map, fd_bit_map and fd_byte_count, and
    the FD_SET, FD_CLR and FD_ISSET macros, take a descriptor in
    [0, FD_SETSIZE). *)
Definition fd_in_range (fd : Z) : bool := (0 <=? fd) && (fd <? FD_SETSIZE).

Definition fd_index (fd : Z) : result unit :=
  if fd_in_range fd then Ok tt else Unmodelled "descriptor table indexed out of bounds".

Fixpoint step_past_zero_words (fuel : nat) (pending : fd_super_set) (fd fd_last : Z)
  : option scan_exit :=
  match fuel with
  | O => None
  | S k =>
      if negb (fd_in_range fd) then Some ScanBounds
      else if words pending (fd_word_map fd) =? 0 then
        let fd' := Z.land fd (Z.lnot (FD_WORD_BITS - 1)) + FD_WORD_BITS in
        if fd' >? fd_last then Some ScanNone
        else step_past_zero_words k pending fd' fd_last
      else Some (ScanAt fd)
  end.

Fixpoint step_past_zero_bytes (fuel : nat) (pending : fd_super_set) (fd fd_last : Z)
  : option scan_exit :=
  match fuel with
  | O => None
  | S k =>
      if negb (fd_in_range fd) then Some ScanBounds
      else if bytes pending (fd_byte_map fd) =? 0 then
        let fd' := fd + 8 in
        if fd' >? fd_last then Some ScanNone
        else step_past_zero_bytes k pending fd' fd_last
      else Some (ScanAt fd)
  end.

Definition scan_fuel (fd fd_last : Z) : nat := S (Z.to_nat (fd_last - fd)).

(** Returns the descriptor found (or -1) and the set after FD_CLR. *)
Definition qps_next_fd_pending (pending : fd_super_set) (fd fd_last : Z)
  : result (Z * fd_super_set) :=
  match step_past_zero_words (scan_fuel fd fd_last) pending fd fd_last with
  | None => Unmodelled "fuel"
  | Some ScanBounds => Unmodelled "descriptor table indexed out of bounds"
  | Some ScanNone => Ok (-1, pending)
  | Some (ScanAt fd1) =>
      let fd2 := Z.land fd1 (Z.lnot 7) in
      match step_past_zero_bytes (scan_fuel fd2 fd_last) pending fd2 fd_last with
      | None => Unmodelled "fuel"
      | Some ScanBounds => Unmodelled "descriptor table indexed out of bounds"
      | Some ScanNone => Ok (-1, pending)
      | Some (ScanAt fd3) =>
          let b := bytes pending (fd_byte_map fd3) in
          let fd4 := fd3 + fd_first_map b in
          _ <- ensure (fd4 <=? fd_last) "dassert(fd <= fd_last)" ;;
          _ <- ensure (Z.land b (fd_bit_map fd4) =? fd_bit_map fd4)
                      "dassert((b & fd_bit_map[fd]) == fd_bit_map[fd])" ;;
          let pending' := FD_CLR fd4 pending in
          _ <- ensure (Z.lxor b (fd_bit_map fd4) =? bytes pending' (fd_byte_map fd4))
                      "dassert((b ^ fd_bit_map[fd]) == pending->bytes[fd_byte_map[fd]])" ;;
          Ok (fd4, pending')
      end
  end.

(** ** File records and the files vector *)

Abbreviation file_ptr := positive (only parsing).
Abbreviation sel_ptr := positive (only parsing).

(** A qps_action is a function pointer; the model names it by a number and
    leaves what it does to the environment ([run_action] below). *)
Abbreviation qps_action := nat (only parsing).

Record qps_file : Type := QpsFile {
  f_selection : option sel_ptr;             (* NULL when not in a selection *)
  f_file_info : Z;
  f_fd : Z;
  f_enabled_bits : Z;
  f_actions : arr3 (option qps_action)
}.

(** Modelled from the spec: lib/vector.c is not among the sources.  A vector
    is its items [0 .. end), each a pointer or NULL.  The operations are the
    ones the spec lists as consumed: get-by-index and set-by-index (which
    extends with NULLs), last item, pop-last (stepping past NULLs),
    unset-by-index (which then drops trailing NULLs), delete and insert by
    index, insert with a before/at/after hint, and the binary search that
    returns an index and a comparison result. *)
Module Vector.

Abbreviation vector := (list (option file_ptr)) (only parsing).

Definition vector_end (v : vector) : Z := Z.of_nat (length v).

Definition vector_get_item (v : vector) (i : nat) : option file_ptr :=
  default None (v !! i).

Definition vector_get_last_item (v : vector) : option file_ptr :=
  default None (last v).

(** Drops the NULL items at the end. *)
Fixpoint vector_trim (v : vector) : vector :=
  match v with
  | [] => []
  | x :: v' =>
      match vector_trim v' with
      | [] => match x with None => [] | Some _ => [x] end
      | t => x :: t
      end
  end.

Definition vector_extend (v : vector) (n : nat) : vector :=
  v ++ replicate (n - length v)%nat None.

Definition vector_set_item (v : vector) (i : nat) (p : option file_ptr) : vector :=
  <[i := p]> (vector_extend v (S i)).

Definition vector_unset_item (v : vector) (i : nat) : option file_ptr * vector :=
  (vector_get_item v i, vector_trim (<[i := None]> v)).

Definition vector_delete_item (v : vector) (i : nat) : option file_ptr * vector :=
  (vector_get_item v i, delete i v).

Definition vector_insert_item (v : vector) (i : nat) (p : option file_ptr) : vector :=
  let v' := vector_extend v i in take i v' ++ p :: drop i v'.

(** [rider < 0]: insert before item [i]; [rider = 0]: set item [i];
    [rider > 0]: insert after item [i]. *)
Definition vector_insert_item_here (v : vector) (i : nat) (rider : Z)
           (p : option file_ptr) : vector :=
  if rider =? 0 then vector_set_item v i p
  else if rider >? 0 then vector_insert_item v (S i) p
  else vector_insert_item v i p.

(** Pops the last item that is not NULL; NULL when there is none. *)
Definition vector_pop_item (v : vector) : option file_ptr * vector :=
  let t := vector_trim v in
  (default None (last t), removelast t).

Definition vector_ream_keep (v : vector) : option file_ptr * vector :=
  vector_pop_item v.

(** Binary chop between [il] and [ih], where item [il] is below the value
    sought and item [ih] above it. *)
Fixpoint bsearch_chop (fuel : nat) (cmp : option file_ptr -> result Z)
         (v : vector) (il ih : nat) : result (nat * Z) :=
  match fuel with
  | O => Unmodelled "fuel"
  | S k =>
      let iv := ((il + ih) / 2)%nat in
      if (iv =? il)%nat then Ok (il, 1)
      else
        c <- cmp (vector_get_item v iv) ;;
        if c =? 0 then Ok (iv, 0)
        else if c <? 0 then bsearch_chop k cmp v il iv
        else bsearch_chop k cmp v iv ih
  end.

(** Returns [(i, result)]: [result = 0] when item [i] is the value sought,
    [result > 0] when the value belongs just after item [i], [result < 0]
    when it belongs before item [i] (which is then item 0). *)
Definition vector_bsearch (cmp : option file_ptr -> result Z) (v : vector)
  : result (nat * Z) :=
  match v with
  | [] => Ok (O, -1)
  | _ =>
      let ih := (length v - 1)%nat in
      c <- cmp (vector_get_item v ih) ;;
      if c >=? 0 then Ok (ih, c)
      else
        c <- cmp (vector_get_item v O) ;;
        if c <=? 0 then Ok (O, c)
        else bsearch_chop (length v) cmp v O ih
  end.

End Vector.

Export Vector.

(** ** The selection *)

Record qps_selection : Type := QpsSelection {
  fd_count : Z;
  fd_direct : bool;
  files : vector;
  fd_last : Z;
  enabled_count : arr3 Z;
  enabled : arr3 fd_super_set;
  tried_fd_last : Z;
  tried_count : arr3 Z;
  results : arr3 fd_super_set;
  pend_count : Z;
  pend_mnum : Z;
  pend_fd : Z;
  signum : Z;
  sigmask : Z                                 (* a sigset_t, as a bit vector *)
}.

(** The state: one selection, at address [this], and the file records that
    exist, by address. *)
Record world : Type := World {
  this : sel_ptr;
  sel : qps_selection;
  heap : gmap file_ptr qps_file
}.

Definition set_sel (w : world) (q : qps_selection) : world :=
  World (this w) q (heap w).

Definition set_file (w : world) (p : file_ptr) (qf : qps_file) : world :=
  World (this w) (sel w) (<[p := qf]> (heap w)).

(** [*qf]: the record a pointer refers to. *)
Definition deref (w : world) (p : file_ptr) : result qps_file :=
  match heap w !! p with
  | Some qf => Ok qf
  | None => Unmodelled "dangling file pointer"
  end.

Definition deref_item (w : world) (item : option file_ptr) : result qps_file :=
  match item with
  | Some p => deref w p
  | None => Unmodelled "NULL file pointer"
  end.

(** [qf->selection] used as the selection to work on. *)
Definition same_selection (w : world) (s : option sel_ptr) : bool :=
  match s with
  | Some a => bool_decide (a = this w)
  | None => false
  end.

(** The memset of qps_selection_init_new and qps_selection_re_init. *)
Definition zero_selection : qps_selection :=
  {| fd_count := 0; fd_direct := false; files := [];
     fd_last := 0; enabled_count := afill 0; enabled := afill 0;
     tried_fd_last := 0; tried_count := afill 0; results := afill 0;
     pend_count := 0; pend_mnum := 0; pend_fd := 0;
     signum := 0; sigmask := 0 |}.

Definition with_files (q : qps_selection) (v : vector) : qps_selection :=
  {| fd_count := fd_count q; fd_direct := fd_direct q; files := v;
     fd_last := fd_last q; enabled_count := enabled_count q; enabled := enabled q;
     tried_fd_last := tried_fd_last q; tried_count := tried_count q;
     results := results q; pend_count := pend_count q; pend_mnum := pend_mnum q;
     pend_fd := pend_fd q; signum := signum q; sigmask := sigmask q |}.

Definition with_membership (q : qps_selection) (n : Z) (direct : bool) (v : vector)
           (last : Z) : qps_selection :=
  {| fd_count := n; fd_direct := direct; files := v;
     fd_last := last; enabled_count := enabled_count q; enabled := enabled q;
     tried_fd_last := tried_fd_last q; tried_count := tried_count q;
     results := results q; pend_count := pend_count q; pend_mnum := pend_mnum q;
     pend_fd := pend_fd q; signum := signum q; sigmask := sigmask q |}.

Definition with_enabled (q : qps_selection) (counts : arr3 Z) (sets : arr3 fd_super_set)
  : qps_selection :=
  {| fd_count := fd_count q; fd_direct := fd_direct q; files := files q;
     fd_last := fd_last q; enabled_count := counts; enabled := sets;
     tried_fd_last := tried_fd_last q; tried_count := tried_count q;
     results := results q; pend_count := pend_count q; pend_mnum := pend_mnum q;
     pend_fd := pend_fd q; signum := signum q; sigmask := sigmask q |}.

Definition with_batch (q : qps_selection) (t_last : Z) (tried : arr3 Z)
           (res : arr3 fd_super_set) (count mnum fd : Z) : qps_selection :=
  {| fd_count := fd_count q; fd_direct := fd_direct q; files := files q;
     fd_last := fd_last q; enabled_count := enabled_count q; enabled := enabled q;
     tried_fd_last := t_last; tried_count := tried;
     results := res; pend_count := count; pend_mnum := mnum;
     pend_fd := fd; signum := signum q; sigmask := sigmask q |}.

Definition with_signal (q : qps_selection) (sig mask : Z) : qps_selection :=
  {| fd_count := fd_count q; fd_direct := fd_direct q; files := files q;
     fd_last := fd_last q; enabled_count := enabled_count q; enabled := enabled q;
     tried_fd_last := tried_fd_last q; tried_count := tried_count q;
     results := results q; pend_count := pend_count q; pend_mnum := pend_mnum q;
     pend_fd := pend_fd q; signum := sig; sigmask := mask |}.

Definition with_file_enabled (qf : qps_file) (bits : Z) : qps_file :=
  {| f_selection := f_selection qf; f_file_info := f_file_info qf; f_fd := f_fd qf;
     f_enabled_bits := bits; f_actions := f_actions qf |}.

Definition with_file_actions (qf : qps_file) (acts : arr3 (option qps_action)) : qps_file :=
  {| f_selection := f_selection qf; f_file_info := f_file_info qf; f_fd := f_fd qf;
     f_enabled_bits := f_enabled_bits qf; f_actions := acts |}.

Definition with_file_selection (qf : qps_file) (s : option sel_ptr) : qps_file :=
  {| f_selection := s; f_file_info := f_file_info qf; f_fd := f_fd qf;
     f_enabled_bits := f_enabled_bits qf; f_actions := f_actions qf |}.

(** ** The environment

    Modelled from the spec: the poll primitive (pselect), the monotonic
    clock and the actions are outside qpselect.c.  [pselect] maps the
    arguments of one call to its return value, errno and the three sets as
    the call leaves them; [run_action] is what calling an action does. *)

Record pselect_args : Type := PselectArgs {
  a_nfds : Z;
  a_readfds : option fd_super_set;            (* None: NULL *)
  a_writefds : option fd_super_set;
  a_errorfds : option fd_super_set;
  a_timeout : Z;                              (* the interval *)
  a_sigmask : option Z                        (* None: no mask swap *)
}.

Record pselect_ret : Type := PselectRet {
  r_n : Z;
  r_errno : Z;
  r_readfds : fd_super_set;
  r_writefds : fd_super_set;
  r_errorfds : fd_super_set
}.

Record environment : Type := Env {
  pselect : pselect_args -> pselect_ret;
  qt_get_monotonic : Z;
  run_action : qps_action -> file_ptr -> Z -> world -> result world
}.

(** Modelled from the spec: the clock gives absolute times, and the
    difference of two of them is an interval (lib/qtime.h is not among the
    sources).  qtime_mono_t, the type of the [timeout] parameter of
    qps_pselect, is a signed 64-bit count of nanoseconds, so the difference
    is taken in 64 bits: [wrap64 z] is what two's complement arithmetic
    leaves of [z]. *)
Definition wrap64 (z : Z) : Z := (z + 2 ^ 63) mod 2 ^ 64 - 2 ^ 63.

(** Modelled from the spec: the host's sigset_t, as a bit vector with the
    bit [signum - 1] for signal [signum]; sigismember answers -1 for a
    signal number out of range, sigdelset then leaves the mask alone. *)
Definition sig_valid (sig : Z) : bool := (1 <=? sig) && (sig <=? 64).

Definition sigismember (mask sig : Z) : Z :=
  if sig_valid sig then (if Z.testbit mask (sig - 1) then 1 else 0) else -1.

Definition sigdelset (mask sig : Z) : Z :=
  if sig_valid sig then Z.clearbit mask (sig - 1) else mask.

(** ** Loops *)

Fixpoint foldM {A B : Type} (f : B -> A -> result A) (l : list B) (a : A) : result A :=
  match l with
  | [] => Ok a
  | x :: l' => a' <- f x a ;; foldM f l' a'
  end.

(** [for (mnum = 0 ; mnum < qps_mnum_count ; ++mnum)] *)
Definition mnums : list Z := [0; 1; 2].

(** [for (fd = 0 ; fd < FD_SETSIZE ; ++fd)] *)
Definition all_fds : list Z := seqZ 0 FD_SETSIZE.

(** ** qps_selection_validate *)

Record vstate : Type := VState {
  v_n : Z;
  v_fd_last : Z;
  v_enabled_count : arr3 Z;
  v_enabled : arr3 fd_super_set
}.

Definition capture_enabled (qf : qps_file) (mnum : Z) (st : vstate) : result vstate :=
  if negb (Z.land (f_enabled_bits qf) (qps_mbit mnum) =? 0) then
    _ <- fd_index (f_fd qf) ;;
    Ok (VState (v_n st) (v_fd_last st)
               (aset (v_enabled_count st) mnum (aget (v_enabled_count st) mnum + 1))
               (aset (v_enabled st) mnum (FD_SET (f_fd qf) (aget (v_enabled st) mnum))))
  else Ok st.

Definition validate_item (w : world) (i : nat) (item : option file_ptr) (st : vstate)
  : result vstate :=
  match item with
  | Some p =>
      qf <- deref w p ;;
      _ <- (if fd_direct (sel w)
            then ensure (f_fd qf =? Z.of_nat i) "File vector index and fd mismatch"
            else ensure (negb (f_fd qf <=? v_fd_last st)) "File vector not in order") ;;
      _ <- ensure (bool_decide (f_selection qf = Some (this w)))
                  "File does not refer to its selection" ;;
      _ <- ensure (negb ((f_enabled_bits qf <? 0) || (f_enabled_bits qf >? qps_all_mbits)))
                  "File enabled bits are invalid" ;;
      foldM (capture_enabled qf) mnums
            (VState (v_n st + 1) (f_fd qf) (v_enabled_count st) (v_enabled st))
  | None =>
      if fd_direct (sel w) then Ok st
      else Abort "Found NULL entry in !fd_direct files vector"
  end.

(** [for (VECTOR_ITEMS(&qps->files, qf, i))] *)
Fixpoint validate_items (w : world) (i : nat) (v : vector) (st : vstate) : result vstate :=
  match v with
  | [] => Ok st
  | item :: v' => st' <- validate_item w i item st ;; validate_items w (S i) v' st'
  end.

Definition validate_tried (q : qps_selection) (mnum : Z) (u : unit) : result unit :=
  let p_mnum := pend_mnum q in
  _ <- ensure (negb ((mnum <? p_mnum) && negb (aget (tried_count q) mnum =? 0)))
              "Non-zero tried_count for mode < pend_mnum" ;;
  _ <- (if mnum =? p_mnum
        then ensure (negb (aget (tried_count q) (pend_mnum q) <=? 0))
                    "Zero tried_count for pend_mnum"
        else Ok tt) ;;
  ensure (negb ((mnum >? p_mnum) && (aget (tried_count q) mnum <? 0)))
         "Invalid tried_count for mode > pend_mnum".

Definition validate_untried (q : qps_selection) (mnum : Z) (u : unit) : result unit :=
  ensure (negb ((aget (tried_count q) mnum =? 0)
                && negb (qps_super_set_count [aget (results q) mnum] =? 0)))
         "Non-empty bit vector where tried count == 0".

Definition validate_result_fd (q : qps_selection) (mnum : Z) (fd : Z) (n : Z) : result Z :=
  if FD_ISSET fd (aget (results q) mnum) then
    _ <- ensure (negb (fd >? tried_fd_last q)) "Found pending fd beyond tried_fd_last" ;;
    _ <- ensure (FD_ISSET fd (aget (results q) mnum))
                "Found pending fd which is not enabled" ;;
    _ <- ensure (negb ((mnum =? pend_mnum q) && (fd <? pend_fd q)))
                "Found pending fd < current next pending" ;;
    Ok (n + 1)
  else Ok n.

Definition validate_results (q : qps_selection) (mnum : Z) (n : Z) : result Z :=
  if negb (aget (tried_count q) mnum =? 0)
  then foldM (validate_result_fd q mnum) all_fds n
  else Ok n.

Definition is_null (item : option file_ptr) : bool :=
  match item with None => true | Some _ => false end.

Definition qps_selection_validate (w : world) : result unit :=
  let q := sel w in
  st <- validate_items w 0 (files q) (VState 0 (-1) (afill 0) (afill 0)) ;;
  _ <- ensure (negb (negb (v_n st =? 0) && is_null (vector_get_last_item (files q))))
              "Last entry in file vector is NULL" ;;
  _ <- ensure (v_n st =? fd_count q)
              "Number of files in the selection does not tally" ;;
  _ <- ensure (negb (((v_n st =? 0) && negb (fd_last q =? 0))
                     || negb (v_fd_last st =? fd_last q)))
              "The last fd does not tally" ;;
  _ <- foldM (fun mnum (u : unit) =>
                ensure (aget (v_enabled_count st) mnum =? aget (enabled_count q) mnum)
                       "Enabled counts do not tally") mnums tt ;;
  _ <- ensure (qps_super_set_cmp (v_enabled st) (enabled q) =? 0)
              "Enabled bit vectors do not tally" ;;
  if pend_count q =? 0 then
    ensure (qps_super_set_count [at0 (results q); at1 (results q); at2 (results q)] =? 0)
           "Nothing pending, but result vectors not empty"
  else
    _ <- ensure (negb ((pend_mnum q <? 0) || (pend_mnum q >? qps_mnum_count)
                       || (pend_fd q <? 0) || (pend_fd q >? tried_fd_last q)))
                "Invalid pend_mnum or pend_fd" ;;
    _ <- foldM (validate_tried q) mnums tt ;;
    _ <- foldM (validate_untried q) mnums tt ;;
    n <- foldM (validate_results q) mnums 0 ;;
    ensure (n =? pend_count q) "Non-empty bit vector where tried count == 0".

(** ** Mode management *)

(** The table qps_first_mnum, as the source fills it. *)
Definition qps_first_mnum (mbits : Z) : Z :=
  nth (Z.to_nat mbits) [-1; 0; 1; 1; 2; 2; 2; 2] (-1).

(** The while loop of qps_disable_modes, on the selection.  It ends once
    [mbits] is zero; each turn clears one of its at most three bits. *)
Fixpoint disable_loop (fuel : nat) (fd : Z) (q : qps_selection) (mbits : Z)
  : result qps_selection :=
  if mbits =? 0 then Ok q
  else
    match fuel with
    | O => Unmodelled "fuel"
    | S k =>
        let mnum := qps_first_mnum mbits in
        _ <- mode_index mnum ;;
        _ <- ensure (aget (enabled_count q) mnum >? 0)
                    "dassert(qps->enabled_count[mnum] > 0)" ;;
        _ <- fd_index fd ;;
        _ <- ensure (FD_ISSET fd (aget (enabled q) mnum))
                    "dassert(FD_ISSET(qf->fd, &(qps->enabled[mnum].fdset)))" ;;
        let q1 := with_enabled q
                    (aset (enabled_count q) mnum (aget (enabled_count q) mnum - 1))
                    (aset (enabled q) mnum (FD_CLR fd (aget (enabled q) mnum))) in
        let q2 :=
          if negb (pend_count q1 =? 0) && negb (aget (tried_count q1) mnum =? 0)
             && FD_ISSET fd (aget (results q1) mnum)
          then with_batch q1 (tried_fd_last q1) (tried_count q1)
                          (aset (results q1) mnum (FD_CLR fd (aget (results q1) mnum)))
                          (pend_count q1 - 1) (pend_mnum q1) (pend_fd q1)
          else q1 in
        disable_loop k fd q2 (Z.lxor mbits (qps_mbit mnum))
    end.

Definition qps_disable_modes (w : world) (p : file_ptr) (mbits : Z) : result world :=
  qf <- deref w p ;;
  _ <- ensure ((mbits >=? 0) && (mbits <=? qps_all_mbits))
              "dassert((mbits >= 0) && (mbits <= qps_all_mbits))" ;;
  let mbits := Z.land mbits (f_enabled_bits qf) in
  let w1 := set_file w p (with_file_enabled qf (Z.lxor (f_enabled_bits qf) mbits)) in
  if mbits =? 0 then Ok w1
  else if same_selection w (f_selection qf) then
    q <- disable_loop 3 (f_fd qf) (sel w1) mbits ;;
    Ok (set_sel w1 q)
  else Unmodelled "qps is NULL or another selection".

Definition qps_enable_mode (w : world) (p : file_ptr) (mnum : Z) (action : option qps_action)
  : result world :=
  qf <- deref w p ;;
  let mbit := qps_mbit mnum in
  _ <- ensure (bool_decide (f_selection qf <> None)) "dassert(qps != NULL)" ;;
  _ <- ensure ((mnum >=? 0) && (mnum <=? qps_mnum_count))
              "dassert((mnum >= 0) && (mnum <= qps_mnum_count))" ;;
  _ <- mode_index mnum ;;
  qf1 <- match action with
         | Some a => Ok (with_file_actions qf (aset (f_actions qf) mnum (Some a)))
         | None =>
             _ <- ensure (bool_decide (aget (f_actions qf) mnum <> None))
                         "dassert(qf->actions[mnum] != NULL)" ;;
             Ok qf
         end ;;
  if negb (same_selection w (f_selection qf)) then Unmodelled "another selection"
  else
    let q := sel w in
    _ <- fd_index (f_fd qf1) ;;
    if negb (Z.land (f_enabled_bits qf1) mbit =? 0) then
      _ <- ensure (FD_ISSET (f_fd qf1) (aget (enabled q) mnum))
                  "dassert(FD_ISSET(qf->fd, &(qps->enabled[mnum].fdset)))" ;;
      Ok (set_file w p qf1)
    else
      _ <- ensure (negb (FD_ISSET (f_fd qf1) (aget (enabled q) mnum)))
                  "dassert( ! FD_ISSET(qf->fd, &(qps->enabled[mnum].fdset)))" ;;
      let q1 := with_enabled q
                  (aset (enabled_count q) mnum (aget (enabled_count q) mnum + 1))
                  (aset (enabled q) mnum (FD_SET (f_fd qf1) (aget (enabled q) mnum))) in
      Ok (set_file (set_sel w q1) p
                   (with_file_enabled qf1 (Z.lor (f_enabled_bits qf1) mbit))).

Definition qps_set_action (w : world) (p : file_ptr) (mnum : Z) (action : option qps_action)
  : result world :=
  qf <- deref w p ;;
  _ <- ensure ((mnum >=? 0) && (mnum <=? qps_mnum_count))
              "dassert((mnum >= 0) && (mnum <= qps_mnum_count))" ;;
  _ <- (match action with
        | None => ensure (Z.land (f_enabled_bits qf) (qps_mbit mnum) =? 0)
                         "passert((qf->enabled_bits & qps_mbit(mnum)) == 0)"
        | Some _ => Ok tt
        end) ;;
  _ <- mode_index mnum ;;
  Ok (set_file w p (with_file_actions qf (aset (f_actions qf) mnum action))).

(** ** The files vector *)

Definition qps_fd_cmp (w : world) (fd : Z) (item : option file_ptr) : result Z :=
  qf <- deref_item w item ;;
  Ok (if fd <? f_fd qf then -1 else if fd >? f_fd qf then 1 else 0).

(** [while ((qf = vector_pop_item(tmp)) != NULL)
       vector_set_item(&qps->files, qf->fd, qf) ;] *)
Fixpoint move_to_direct (fuel : nat) (w : world) (tmp v : vector) : result vector :=
  match fuel with
  | O => Unmodelled "fuel"
  | S k =>
      match vector_pop_item tmp with
      | (None, _) => Ok v
      | (Some p, tmp') =>
          qf <- deref w p ;;
          if f_fd qf <? 0 then Unmodelled "negative vector index"
          else move_to_direct k w tmp' (vector_set_item v (Z.to_nat (f_fd qf)) (Some p))
      end
  end.

Definition qps_file_lookup_fd (w : world) (fd : Z) (insert : option file_ptr)
  : result (world * option file_ptr) :=
  let q := sel w in
  _ <- ensure ((fd >=? 0) && (fd <? FD_SETSIZE)) "dassert((fd >= 0) && (fd < FD_SETSIZE))" ;;
  ir <- (if fd_direct q then Ok (Z.to_nat fd, 0)
         else vector_bsearch (qps_fd_cmp w fd) (files q)) ;;
  let i := fst ir in
  let ret := snd ir in
  let qf := if ret =? 0 then vector_get_item (files q) i else None in
  wq <- match insert with
        | Some ins =>
            _ <- ensure (is_null qf) "File with given fd already exists in qps_selection" ;;
            cv <- (if negb (fd_direct q) && (fd_count q >? 9) then
                     v <- move_to_direct (S (length (files q))) w (files q) [] ;;
                     Ok (v, Z.to_nat fd, 0)
                   else Ok (files q, i, ret)) ;;
            let v := fst (fst cv) in
            let direct := fd_direct q || (negb (fd_direct q) && (fd_count q >? 9)) in
            let v' := vector_insert_item_here v (snd (fst cv)) (snd cv) (Some ins) in
            Ok (set_sel w (with_membership q (fd_count q + 1) direct v'
                                           (if fd >? fd_last q then fd else fd_last q)),
                Some ins)
        | None => Ok (w, qf)
        end ;;
  let w' := fst wq in
  _ <- match snd wq with
       | None => Ok tt
       | Some p =>
           f <- deref w' p ;;
           ensure (bool_decide (f_selection f = Some (this w')) && (fd =? f_fd f))
                  "dassert( (qf == NULL) || ((qps == qf->selection) && (fd == qf->fd)) )"
       end ;;
  Ok wq.

Definition qps_file_remove (w : world) (p : file_ptr) : result world :=
  let q := sel w in
  qf <- deref w p ;;
  _ <- ensure ((f_fd qf >=? 0) && (f_fd qf <=? fd_last q)
               && bool_decide (f_selection qf = Some (this w)))
              "passert((qf->fd >= 0) && (qf->fd <= qps->fd_last) && (qps == qf->selection))" ;;
  r <- (if fd_direct q then
          let u := vector_unset_item (files q) (Z.to_nat (f_fd qf)) in
          Ok (fst u, snd u, vector_end (snd u) - 1)
        else
          ir <- vector_bsearch (qps_fd_cmp w (f_fd qf)) (files q) ;;
          let d := if snd ir =? 0 then vector_delete_item (files q) (fst ir)
                   else (None, files q) in
          match vector_get_last_item (snd d) with
          | Some pl => qf_last <- deref w pl ;; Ok (fst d, snd d, f_fd qf_last)
          | None => Ok (fst d, snd d, -1)
          end) ;;
  let qfd := fst (fst r) in
  let v := snd (fst r) in
  let last := snd r in
  _ <- ensure (bool_decide (qfd = Some p)) "passert(qfd == qf)" ;;
  _ <- ensure (fd_count q >? 0) "dassert(qps->fd_count > 0)" ;;
  let n := fd_count q - 1 in
  _ <- ensure ((negb (n =? 0) && (last >=? 0)) || ((n =? 0) && (last <? 0)))
              "dassert(fd_count and fd_last agree)" ;;
  let w1 := set_sel w (with_membership q n (fd_direct q) v (if last >=? 0 then last else 0)) in
  w2 <- qps_disable_modes w1 p qps_all_mbits ;;
  qf2 <- deref w2 p ;;
  Ok (set_file w2 p (with_file_selection qf2 None)).

(** ** Membership *)

Definition qps_selection_init_new (w : world) : world := set_sel w zero_selection.

Definition qps_selection_re_init (w : world) : world := set_sel w zero_selection.

Definition qps_add_file (w : world) (p : file_ptr) (fd : Z) (file_info : Z) : result world :=
  qf <- deref w p ;;
  _ <- ensure (bool_decide (f_selection qf = None)) "passert(qf->selection == NULL)" ;;
  let w1 := set_file w p {| f_selection := Some (this w); f_file_info := file_info;
                            f_fd := fd; f_enabled_bits := 0;
                            f_actions := f_actions qf |} in
  r <- qps_file_lookup_fd w1 fd (Some p) ;;
  Ok (fst r).

Definition qps_remove_file (w : world) (p : file_ptr) : result world :=
  qf <- deref w p ;;
  match f_selection qf with
  | None => Ok w
  | Some a =>
      if bool_decide (a = this w) then qps_file_remove w p
      else Unmodelled "another selection"
  end.

(** When the selection is empty and [free_structure] is set the storage is
    released; the model leaves a zeroed selection in its place. *)
Definition qps_selection_ream (w : world) (free_structure : bool)
  : result (world * option file_ptr) :=
  let r := vector_ream_keep (files (sel w)) in
  let w1 := set_sel w (with_files (sel w) (snd r)) in
  match fst r with
  | Some p => w2 <- qps_file_remove w1 p ;; Ok (w2, Some p)
  | None =>
      _ <- ensure (fd_count (sel w1) =? 0) "passert(qps->fd_count == 0)" ;;
      Ok (qps_selection_re_init w1, None)
  end.

Definition qps_set_signal (w : world) (sig : Z) (mask : Z) : result world :=
  let q := with_signal (sel w) sig (sigmask (sel w)) in
  if negb (sig =? 0) then
    _ <- ensure (negb (sigismember mask sig =? 0)) "assert(sigismember(&sigmask, signum))" ;;
    Ok (set_sel w (with_signal q sig (sigdelset mask sig)))
  else Ok (set_sel w q).

(** ** File records *)

Definition zero_file : qps_file :=
  {| f_selection := None; f_file_info := 0; f_fd := 0; f_enabled_bits := 0;
     f_actions := afill None |}.

(** [qf = None]: a record is allocated, at an address not in use. *)
Definition qps_file_init_new (w : world) (qf : option file_ptr) (template : option file_ptr)
  : result (world * file_ptr) :=
  p <- match qf with
       | Some p => _ <- deref w p ;; Ok p
       | None => Ok (fresh (dom (heap w)))
       end ;;
  let w1 := set_file w p zero_file in
  acts <- match template with
          | Some t => tf <- deref w1 t ;; Ok (f_actions tf)
          | None => Ok (afill None)
          end ;;
  Ok (set_file w1 p (with_file_actions zero_file acts), p).

Definition qps_file_free (w : world) (p : file_ptr) : result world :=
  qf <- deref w p ;;
  _ <- ensure (bool_decide (f_selection qf = None)) "assert(qf->selection == NULL)" ;;
  Ok (World (this w) (sel w) (delete p (heap w))).

(** ** qps_pselect *)

(** [memcpy(dst.bytes, src.bytes, n)] *)
Definition memcpy_bytes (dst src : fd_super_set) (n : Z) : fd_super_set :=
  Z.lor (Z.land src (Z.ones (8 * n))) (Z.ldiff dst (Z.ones (8 * n))).

Record prepared : Type := Prepared {
  p_tried : arr3 Z;
  p_results : arr3 fd_super_set;
  p_fds : arr3 bool;                          (* false: p_fds[mnum] is NULL *)
  p_pend_mnum : Z
}.

(** One turn of the loop that captures tried_count[] and pend_mnum. *)
Definition prepare_mode (q : qps_selection) (n : Z) (pr : prepared) (mnum : Z) : prepared :=
  let tried := aset (p_tried pr) mnum (aget (enabled_count q) mnum) in
  if negb (aget tried mnum =? 0) then
    Prepared tried
             (aset (p_results pr) mnum
                   (memcpy_bytes (aget (p_results pr) mnum) (aget (enabled q) mnum) n))
             (aset (p_fds pr) mnum true)
             (if mnum <? p_pend_mnum pr then mnum else p_pend_mnum pr)
  else Prepared tried (p_results pr) (aset (p_fds pr) mnum false) (p_pend_mnum pr).

Definition prepare (q : qps_selection) : prepared :=
  let res := if negb (pend_count q =? 0) then qps_super_set_zero else results q in
  let n := fd_byte_count (fd_last q) in
  fold_left (prepare_mode q n) mnums
            (Prepared (tried_count q) res (afill false) qps_mnum_count).

Definition fds_arg (pr : prepared) (mnum : Z) : option fd_super_set :=
  if aget (p_fds pr) mnum then Some (aget (p_results pr) mnum) else None.

(** The arguments of the pselect call. *)
Definition pselect_call (e : environment) (q : qps_selection) (timeout : Z) : pselect_args :=
  let pr := prepare q in
  let timeout := wrap64 (timeout - qt_get_monotonic e) in
  let timeout := if timeout <? 0 then 0 else timeout in
  {| a_nfds := fd_last q + 1;
     a_readfds := fds_arg pr qps_read_mnum;
     a_writefds := fds_arg pr qps_write_mnum;
     a_errorfds := fds_arg pr qps_error_mnum;
     a_timeout := timeout;
     a_sigmask := if negb (signum q =? 0) then Some (sigmask q) else None |}.

(** The results vectors once pselect has written through the pointers it
    was given. *)
Definition pselect_results (pr : prepared) (r : pselect_ret) : arr3 fd_super_set :=
  Arr3 (if aget (p_fds pr) qps_error_mnum then r_errorfds r else at0 (p_results pr))
       (if aget (p_fds pr) qps_read_mnum then r_readfds r else at1 (p_results pr))
       (if aget (p_fds pr) qps_write_mnum then r_writefds r else at2 (p_results pr)).

Definition qps_pselect (e : environment) (w : world) (timeout : Z) : result (world * Z) :=
  _ <- qps_selection_validate w ;;
  let q := sel w in
  _ <- fd_index (fd_last q) ;;
  let pr := prepare q in
  let r := pselect e (pselect_call e q timeout) in
  let n := r_n r in
  if n >? 0 then
    _ <- ensure (p_pend_mnum pr <? qps_mnum_count) "assert(qps->pend_mnum < qps_mnum_count)" ;;
    Ok (set_sel w (with_batch q (fd_last q) (p_tried pr) (pselect_results pr r)
                              n (p_pend_mnum pr) 0), n)
  else
    let w' := set_sel w (with_batch q (fd_last q) (p_tried pr) qps_super_set_zero
                                    0 (p_pend_mnum pr) 0) in
    if (n =? 0) || (r_errno r =? EINTR) then Ok (w', n)
    else Abort "Failed in pselect".

(** ** qps_dispatch_next *)

(** The do-while loop: step to the next mode that was not empty. *)
Fixpoint next_tried_mode (fuel : nat) (tried : arr3 Z) (mnum : Z) : result (arr3 Z * Z) :=
  match fuel with
  | O => Unmodelled "fuel"
  | S k =>
      _ <- mode_index mnum ;;
      let tried' := aset tried mnum 0 in
      let mnum' := mnum + 1 in
      if mnum' >=? qps_mnum_count then Abort "Unexpectedly ran out of pending stuff"
      else if aget tried' mnum' =? 0 then next_tried_mode k tried' mnum'
      else Ok (tried', mnum')
  end.

(** The while (1) loop.  Every turn but the last moves to a higher mode, so
    there are at most [qps_mnum_count] turns. *)
Fixpoint next_pending (fuel : nat) (q : qps_selection) (mnum fd : Z)
  : result (qps_selection * Z * Z) :=
  match fuel with
  | O => Unmodelled "fuel"
  | S k =>
      _ <- mode_index mnum ;;
      r <- qps_next_fd_pending (aget (results q) mnum) fd (tried_fd_last q) ;;
      let q1 := with_batch q (tried_fd_last q) (tried_count q)
                           (aset (results q) mnum (snd r))
                           (pend_count q) (pend_mnum q) (pend_fd q) in
      if fst r >=? 0 then Ok (q1, mnum, fst r)
      else
        tm <- next_tried_mode 3 (tried_count q1) mnum ;;
        let q2 := with_batch q1 (tried_fd_last q1) (fst tm) (results q1)
                             (pend_count q1) (snd tm) (pend_fd q1) in
        next_pending k q2 (snd tm) 0
  end.

(** What a callback is called for: the mode and the descriptor of its file. *)
Abbreviation event := (Z * Z)%type (only parsing).

(** Returns the state, the value returned and the callback made, if any. *)
Definition qps_dispatch_next (e : environment) (w : world)
  : result (world * Z * option event) :=
  _ <- qps_selection_validate w ;;
  let q := sel w in
  if pend_count q =? 0 then Ok (w, 0, None)
  else
    let fd := pend_fd q in
    let mnum := pend_mnum q in
    _ <- ensure ((mnum >=? 0) && (mnum <? qps_mnum_count)
                 && negb (aget (tried_count q) mnum =? 0) && (pend_count q >? 0))
                "dassert(mnum, tried_count and pend_count are valid)" ;;
    np <- next_pending 4 q mnum fd ;;
    let q1 := fst (fst np) in
    let mnum := snd (fst np) in
    let fd := snd np in
    let w1 := set_sel w (with_batch q1 (tried_fd_last q1) (tried_count q1) (results q1)
                                    (pend_count q1 - 1) (pend_mnum q1) fd) in
    lk <- qps_file_lookup_fd w1 fd None ;;
    qf <- deref_item w1 (snd lk) ;;
    _ <- ensure (negb (f_enabled_bits qf =? 0) && negb (qps_mbit mnum =? 0)
                 && bool_decide (aget (f_actions qf) mnum <> None))
                "dassert(mode enabled and action set)" ;;
    match snd lk, aget (f_actions qf) mnum with
    | Some p, Some action =>
        w2 <- run_action e action p (f_file_info qf) w1 ;;
        Ok (w2, pend_count (sel w2), Some (mnum, f_fd qf))
    | _, _ => Unmodelled "NULL action called"
    end.

(** ** Predicates used in the statements *)

(** No descriptor of [lo .. hi) is in the set. *)
Definition clear_between (s : fd_super_set) (lo hi : Z) : Prop :=
  forall k, lo <= k < hi -> Z.testbit s k = false.

(** fd_first_map, checked on every byte value it is used for. *)
Definition first_map_ok (b : Z) : bool :=
  let r := fd_first_map b in
  (0 <=? r) && (r <? 8) && Z.testbit b r
  && forallb (fun j => negb (Z.testbit b j)) (seqZ 0 r)
  && (Z.land b (Z.shiftl 1 r) =? Z.shiftl 1 r)
  && (Z.lxor b (Z.shiftl 1 r) =? Z.clearbit b r).

(** The number of descriptors of [l] that are in the set. *)
Fixpoint count_set (s : fd_super_set) (l : list Z) : Z :=
  match l with
  | [] => 0
  | x :: l' => (if Z.testbit s x then 1 else 0) + count_set s l'
  end.

(** The number of descriptors in the set. *)
Definition popcount (s : fd_super_set) : Z := count_set s all_fds.

(** What scan_next is specified to return, for one set and one range: the
    smallest descriptor of the range that is in the set, with exactly that
    bit cleared, and -1 when the range holds none. *)
Definition scan_next_claim (s : fd_super_set) (fd_start fd_last : Z) : Prop :=
  (forall x, fd_start <= x <= fd_last -> Z.testbit s x = true ->
             clear_between s fd_start x ->
             qps_next_fd_pending s fd_start fd_last = Ok (x, Z.clearbit s x))
  /\ (clear_between s fd_start (fd_last + 1) ->
      qps_next_fd_pending s fd_start fd_last = Ok (-1, s)).

(** The contract of the poll primitive: when it returns [n > 0], each set it
    was given holds only descriptors that were in it and are below [nfds],
    and [n] is the number of descriptors left in those sets. *)
Definition set_within (nfds : Z) (arg : option fd_super_set) (out : fd_super_set) : Prop :=
  match arg with
  | Some s => forall x, Z.testbit out x = true -> Z.testbit s x = true /\ x < nfds
  | None => True
  end.

Definition count_within (arg : option fd_super_set) (out : fd_super_set) : Z :=
  match arg with
  | Some _ => popcount out
  | None => 0
  end.

Definition pselect_contract (a : pselect_args) (r : pselect_ret) : Prop :=
  r_n r > 0 ->
  set_within (a_nfds a) (a_readfds a) (r_readfds r)
  /\ set_within (a_nfds a) (a_writefds a) (r_writefds r)
  /\ set_within (a_nfds a) (a_errorfds a) (r_errorfds r)
  /\ r_n r = count_within (a_readfds a) (r_readfds r)
             + count_within (a_writefds a) (r_writefds r)
             + count_within (a_errorfds a) (r_errorfds r).

(** ** Concrete selections, for the examples *)

(** [n] file records at the addresses 1 .. n, none in a selection, each with
    the action 1 for error, 2 for read and 3 for write. *)
Definition example_file : qps_file :=
  with_file_actions zero_file (Arr3 (Some 1%nat) (Some 2%nat) (Some 3%nat)).

Definition example_heap (n : nat) : gmap file_ptr qps_file :=
  list_to_map (map (fun i => (Pos.of_nat i, example_file)) (seq 1 n)).

Definition example_start (n : nat) : world := World 1%positive zero_selection (example_heap n).

Definition attach_all (l : list (file_ptr * Z)) (w : world) : result world :=
  foldM (fun pf w => qps_add_file w (fst pf) (snd pf) 0) l w.

Definition world_of (r : result world) : world :=
  match r with
  | Ok w => w
  | _ => example_start 0
  end.

(** Nine descriptors attached in scrambled order, then a tenth. *)
Definition example_nine : world :=
  world_of (attach_all [(1%positive, 5); (2%positive, 3); (3%positive, 20);
                        (4%positive, 7); (5%positive, 1); (6%positive, 9);
                        (7%positive, 11); (8%positive, 2); (9%positive, 15)]
                       (example_start 12)).

Definition example_ten : world := world_of (qps_add_file example_nine 10%positive 4 0).

(** One descriptor, 6, attached. *)
Definition example_one : world := world_of (qps_add_file (example_start 2) 1%positive 6 0).

(** A poll primitive that times out, and actions that do nothing. *)
Definition quiet_environment : environment :=
  Env (fun _ => PselectRet 0 0 0 0 0) 0 (fun _ _ _ w => Ok w).

(** A poll primitive that reports every descriptor asked about as ready. *)
Definition all_ready (a : pselect_args) : pselect_ret :=
  let rd := default 0 (a_readfds a) in
  let wr := default 0 (a_writefds a) in
  let er := default 0 (a_errorfds a) in
  PselectRet (popcount rd + popcount wr + popcount er) 0 rd wr er.

Definition eager_environment : environment :=
  Env all_ready 0 (fun _ _ _ w => Ok w).

(** Modes enabled on some of the nine records: read and write on the record
    with descriptor 5, read on the one with descriptor 3, error on the one
    with descriptor 20. *)
Definition enable_all (l : list (file_ptr * Z)) (w : world) : result world :=
  foldM (fun pm w => qps_enable_mode w (fst pm) (snd pm) None) l w.

Definition example_armed : world :=
  world_of (enable_all [(1%positive, 2); (1%positive, 1); (2%positive, 1); (3%positive, 0)]
                       example_nine).

(** The state a wait leaves, and the value it returns. *)
Definition waited (e : environment) (w : world) (timeout : Z) : world :=
  match qps_pselect e w timeout with
  | Ok r => fst r
  | _ => w
  end.

Definition wait_value (e : environment) (w : world) (timeout : Z) : Z :=
  match qps_pselect e w timeout with
  | Ok r => snd r
  | _ => 0
  end.

(** ** Claims of the specification, read word for word *)

(** Attach into the sparse form: once the record is in, a population above
    nine means the direct form. *)
Definition attach_converts_claim (w : world) (p : file_ptr) (fd info : Z) : Prop :=
  forall w', fd_direct (sel w) = false ->
             qps_add_file w p fd info = Ok w' ->
             fd_count (sel w') > 9 -> fd_direct (sel w') = true.

(** Attach then detach gives the selection back as it was, read field by
    field, the form of the files vector included. *)
Definition attach_detach_claim (w : world) (p : file_ptr) (fd info : Z) : Prop :=
  forall w1 w2, qps_add_file w p fd info = Ok w1 ->
                qps_remove_file w1 p = Ok w2 ->
                sel w2 = sel w.

(** ** The legal states

    What qps_selection_validate checks, and what the operations rely on
    besides, as a predicate on states. *)

Definition fd_of (h : gmap file_ptr qps_file) (p : file_ptr) : Z :=
  match h !! p with
  | Some qf => f_fd qf
  | None => -1
  end.

Definition item_key (h : gmap file_ptr qps_file) (item : option file_ptr) : Z :=
  match item with
  | Some p => fd_of h p
  | None => -1
  end.

(** A record that is in the selection at [a]. *)
Definition file_ok (a : sel_ptr) (qf : qps_file) : Prop :=
  f_selection qf = Some a
  /\ 0 <= f_fd qf < FD_SETSIZE
  /\ 0 <= f_enabled_bits qf <= qps_all_mbits
  /\ (forall m, 0 <= m < 3 -> Z.testbit (f_enabled_bits qf) m = true ->
                aget (f_actions qf) m <> None).

(** The files vector kept as a list in fd order. *)
Definition sparse_shape (h : gmap file_ptr qps_file) (v : vector) : Prop :=
  (None ∉ v) /\ StronglySorted Z.lt (item_key h <$> v).

(** The files vector kept as an array indexed by fd. *)
Definition dense_shape (h : gmap file_ptr qps_file) (v : vector) : Prop :=
  (forall i p, v !! i = Some (Some p) -> fd_of h p = Z.of_nat i)
  /\ last v <> Some None.

(** The records in a vector, in order. *)
Fixpoint records (v : vector) : list file_ptr :=
  match v with
  | [] => []
  | Some p :: v' => p :: records v'
  | None :: v' => records v'
  end.

(** [x] is the largest descriptor in the vector, or 0 when there is none. *)
Definition largest_fd (h : gmap file_ptr qps_file) (v : vector) (x : Z) : Prop :=
  (forall p, Some p ∈ v -> fd_of h p <= x)
  /\ ((exists p, Some p ∈ v /\ fd_of h p = x) \/ (x = 0 /\ records v = [])).

Record files_ok (w : world) : Prop := FilesOk {
  fo_heap : forall p, Some p ∈ files (sel w) ->
                      exists qf, heap w !! p = Some qf /\ file_ok (this w) qf;
  fo_back : forall p qf, heap w !! p = Some qf -> f_selection qf = Some (this w) ->
                         Some p ∈ files (sel w);
  fo_shape : if fd_direct (sel w) then dense_shape (heap w) (files (sel w))
             else sparse_shape (heap w) (files (sel w));
  fo_count : fd_count (sel w) = Z.of_nat (length (records (files (sel w))));
  fo_last : largest_fd (heap w) (files (sel w)) (fd_last (sel w))
}.

Record enabled_ok (w : world) : Prop := EnabledOk {
  eo_bits : forall m x, 0 <= m < 3 ->
      (Z.testbit (aget (enabled (sel w)) m) x = true
       <-> exists p qf, Some p ∈ files (sel w) /\ heap w !! p = Some qf
                        /\ f_fd qf = x /\ Z.testbit (f_enabled_bits qf) m = true);
  eo_count : forall m, 0 <= m < 3 ->
      aget (enabled_count (sel w)) m = popcount (aget (enabled (sel w)) m)
}.

Record batch_ok (q : qps_selection) : Prop := BatchOk {
  bo_last : 0 <= tried_fd_last q < FD_SETSIZE;
  bo_bits : forall m x, 0 <= m < 3 -> Z.testbit (aget (results q) m) x = true ->
      0 <= x <= tried_fd_last q
      /\ Z.testbit (aget (enabled q) m) x = true
      /\ aget (tried_count q) m <> 0;
  bo_count : popcount (at0 (results q)) + popcount (at1 (results q))
             + popcount (at2 (results q)) = pend_count q;
  bo_tried : forall m, 0 <= m < 3 -> 0 <= aget (tried_count q) m;
  bo_cursor : pend_count q <> 0 ->
      0 <= pend_mnum q < 3
      /\ 0 <= pend_fd q <= tried_fd_last q
      /\ aget (tried_count q) (pend_mnum q) <> 0
      /\ (forall m, 0 <= m < pend_mnum q -> aget (tried_count q) m = 0)
      /\ clear_between (aget (results q) (pend_mnum q)) 0 (pend_fd q)
}.

Record legal (w : world) : Prop := Legal {
  l_files : files_ok w;
  l_enabled : enabled_ok w;
  l_batch : batch_ok (sel w)
}.

(** The batch invariant, as the specification words it. *)
Definition batch_invariant (q : qps_selection) : Prop :=
  (pend_count q = 0 -> results q = qps_super_set_zero)
  /\ (pend_count q > 0 ->
      (forall m x, 0 <= m < 3 -> Z.testbit (aget (results q) m) x = true ->
                   Z.testbit (aget (enabled q) m) x = true)
      /\ (forall m x, 0 <= m < 3 -> Z.testbit (aget (results q) m) x = true ->
                      x <= tried_fd_last q)
      /\ clear_between (aget (results q) (pend_mnum q)) 0 (pend_fd q)
      /\ (forall m, 0 <= m < pend_mnum q -> aget (tried_count q) m = 0)
      /\ popcount (at0 (results q)) + popcount (at1 (results q))
         + popcount (at2 (results q)) = pend_count q).

(** ** Dispatching a batch *)

(** qps_dispatch_next called [n] times; the callbacks made, in order. *)
Fixpoint dispatch_all (e : environment) (n : nat) (w : world) : result (world * list event) :=
  match n with
  | O => Ok (w, [])
  | S k =>
      r <- qps_dispatch_next e w ;;
      rest <- dispatch_all e k (fst (fst r)) ;;
      Ok (fst rest, option_list (snd r) ++ snd rest)
  end.

(** Mode first, then descriptor. *)
Definition event_lt (a b : event) : Prop :=
  fst a < fst b \/ (fst a = fst b /\ snd a < snd b).

(** Actions that leave the state alone. *)
Definition actions_mutate_nothing (e : environment) : Prop :=
  forall a p info w, run_action e a p info w = Ok w.

(** The comparison of qps_fd_cmp. *)
Definition sgn_cmp (a b : Z) : Z := if a <? b then -1 else if a >? b then 1 else 0.

(** Every item of the vector is a record that exists. *)
Definition items_exist (h : gmap file_ptr qps_file) (v : vector) : Prop :=
  forall item, item ∈ v -> exists p qf, item = Some p /\ h !! p = Some qf.


(** ** Predicates used in the proofs *)

(** The descriptor of the last record of a vector, -1 when it has none: what
    the loop of qps_selection_validate holds in [fd_last]. *)
Definition last_key (h : gmap file_ptr qps_file) (v : vector) : Z :=
  match last (records v) with
  | Some p => fd_of h p
  | None => -1
  end.

(** The state of qps_selection_validate once the items [v] are behind it. *)
Definition collected (h : gmap file_ptr qps_file) (v : vector) (st : vstate) : Prop :=
  v_n st = Z.of_nat (length (records v))
  /\ v_fd_last st = last_key h v
  /\ forall m, 0 <= m < 3 ->
       (forall x, Z.testbit (aget (v_enabled st) m) x = true
                  <-> exists p qf, Some p ∈ v /\ h !! p = Some qf /\ f_fd qf = x
                                   /\ Z.testbit (f_enabled_bits qf) m = true)
       /\ aget (v_enabled_count st) m = popcount (aget (v_enabled st) m).

(** An event that is still to be dispatched: a descriptor in the results of
    a mode. *)
Definition pending (q : qps_selection) (ev : event) : Prop :=
  0 <= fst ev < 3 /\ Z.testbit (aget (results q) (fst ev)) (snd ev) = true.

Definition event_le (a b : event) : Prop := event_lt a b \/ a = b.

(** The enabled sets while qps_disable_modes is at work on a record with
    descriptor [fd]: the record has given up its modes already, the sets
    still hold [fd] for the modes of [mbits]. *)
Definition enabled_with (h : gmap file_ptr qps_file) (v : vector) (q : qps_selection)
           (fd mbits : Z) : Prop :=
  forall m x, 0 <= m < 3 ->
    (Z.testbit (aget (enabled q) m) x = true
     <-> (exists p qf, Some p ∈ v /\ h !! p = Some qf /\ f_fd qf = x
                       /\ Z.testbit (f_enabled_bits qf) m = true)
         \/ (x = fd /\ Z.testbit mbits m = true)).

(** No record of the vector with descriptor [fd] has a mode of [mbits] on. *)
Definition modes_given_up (h : gmap file_ptr qps_file) (v : vector) (fd mbits : Z) : Prop :=
  forall p qf m, Some p ∈ v -> h !! p = Some qf -> f_fd qf = fd -> 0 <= m < 3 ->
                 Z.testbit mbits m = true -> Z.testbit (f_enabled_bits qf) m = false.


(** The record qps_add_file leaves at [qf]. *)
Definition attached_record (a : sel_ptr) (fd info : Z) (qf : qps_file) : qps_file :=
  {| f_selection := Some a; f_file_info := info; f_fd := fd; f_enabled_bits := 0;
     f_actions := f_actions qf |}.

(** The selection qps_add_file leaves, given the files vector [v']. *)
Definition attached_selection (q : qps_selection) (fd : Z) (v' : vector) : qps_selection :=
  with_membership q (fd_count q + 1)
                  (fd_direct q || (negb (fd_direct q) && (fd_count q >? 9))) v'
                  (if fd >? fd_last q then fd else fd_last q).



(** The files vector once item [i] is taken out: unset and trimmed in the
    array form, deleted in the list form. *)
Definition removed_item (direct : bool) (v : vector) (i : nat) : vector :=
  if direct then vector_trim (<[i := None]> v) else delete i v.



(** ** The exposed operations *)

Inductive operation : Type :=
| OpSelectionInitNew
| OpSetSignal (signum mask : Z)
| OpSelectionReam (free_structure : bool)
| OpFileInitNew (qf template : option file_ptr)
| OpFileFree (qf : file_ptr)
| OpAddFile (qf : file_ptr) (fd file_info : Z)
| OpRemoveFile (qf : file_ptr)
| OpEnableMode (qf : file_ptr) (mnum : Z) (action : option qps_action)
| OpSetAction (qf : file_ptr) (mnum : Z) (action : option qps_action)
| OpDisableModes (qf : file_ptr) (mbits : Z)
| OpPselect (timeout : Z)
| OpDispatchNext.

(** The state an operation leaves. *)
Definition exec (e : environment) (o : operation) (w : world) : result world :=
  match o with
  | OpSelectionInitNew => Ok (qps_selection_init_new w)
  | OpSetSignal signum mask => qps_set_signal w signum mask
  | OpSelectionReam free_structure => r <- qps_selection_ream w free_structure ;; Ok (fst r)
  | OpFileInitNew qf template => r <- qps_file_init_new w qf template ;; Ok (fst r)
  | OpFileFree qf => qps_file_free w qf
  | OpAddFile qf fd file_info => qps_add_file w qf fd file_info
  | OpRemoveFile qf => qps_remove_file w qf
  | OpEnableMode qf mnum action => qps_enable_mode w qf mnum action
  | OpSetAction qf mnum action => qps_set_action w qf mnum action
  | OpDisableModes qf mbits => qps_disable_modes w qf mbits
  | OpPselect timeout => r <- qps_pselect e w timeout ;; Ok (fst r)
  | OpDispatchNext => r <- qps_dispatch_next e w ;; Ok (fst (fst r))
  end.

(** No record is in the selection of the state. *)
Definition no_file_attached (w : world) : Prop :=
  forall p qf, heap w !! p = Some qf -> f_selection qf <> Some (this w).

(** The two operations that wipe a structure are for structures not in
    use: a selection no record is in, a record that is in no selection. *)
Definition wipes_unused (o : operation) (w : world) : Prop :=
  match o with
  | OpSelectionInitNew => no_file_attached w
  | OpFileInitNew (Some p) _ =>
      forall qf, heap w !! p = Some qf -> f_selection qf <> Some (this w)
  | _ => True
  end.

(** The poll primitive keeps to its contract for the wait the operation is. *)
Definition poll_keeps_contract (e : environment) (o : operation) (w : world) : Prop :=
  match o with
  | OpPselect timeout =>
      pselect_contract (pselect_call e (sel w) timeout)
                       (pselect e (pselect_call e (sel w) timeout))
  | _ => True
  end.

(** Actions that leave a legal state legal, as the ones do that are made
    of exposed operations. *)
Definition actions_keep_legal (e : environment) : Prop :=
  forall a p info w w', legal w -> run_action e a p info w = Ok w' -> legal w'.

(** The membership operations. *)
Definition is_membership (o : operation) : bool :=
  match o with
  | OpAddFile _ _ _ | OpRemoveFile _ | OpSelectionReam _ => true
  | _ => false
  end.

(** fd_last is the largest descriptor in files, 0 when there is none. *)
Definition fd_last_invariant (w : world) : Prop :=
  largest_fd (heap w) (files (sel w)) (fd_last (sel w)).



(** What the poll primitive answers to the call a wait on [w] makes. *)
Definition poll_result (e : environment) (w : world) (timeout : Z) : pselect_ret :=
  pselect e (pselect_call e (sel w) timeout).



(** The loop of qps_pselect over the modes, once the modes below [k] are
    behind it: which modes are asked about and which is the first of them. *)
Definition modes_upto (q : qps_selection) (k : Z) (pr : prepared) : Prop :=
  (forall m, 0 <= m < k -> aget (p_fds pr) m = negb (aget (enabled_count q) m =? 0))
  /\ ((p_pend_mnum pr = qps_mnum_count
       /\ forall m, 0 <= m < k -> aget (enabled_count q) m = 0)
      \/ (0 <= p_pend_mnum pr < k
          /\ aget (enabled_count q) (p_pend_mnum pr) <> 0
          /\ forall m, 0 <= m < p_pend_mnum pr -> aget (enabled_count q) m = 0)).

(** The same loop: what it has copied. *)
Definition copied_upto (q : qps_selection) (k : Z) (pr : prepared) : Prop :=
  (forall m, 0 <= m < k -> aget (p_tried pr) m = aget (enabled_count q) m)
  /\ (forall m, 0 <= m < k -> aget (p_results pr) m = aget (enabled q) m)
  /\ (forall m, k <= m < 3 -> aget (p_results pr) m = 0).



(** ** Parts of a selection that an operation leaves alone *)

(** The membership and the signal settings. *)
Definition same_membership (q q' : qps_selection) : Prop :=
  files q' = files q /\ fd_count q' = fd_count q /\ fd_direct q' = fd_direct q
  /\ fd_last q' = fd_last q /\ signum q' = signum q /\ sigmask q' = sigmask q.

(** The enabled sets and their counts. *)
Definition same_enabled (q q' : qps_selection) : Prop :=
  enabled q' = enabled q /\ enabled_count q' = enabled_count q.

(** Where the dispatch of the batch stands, the results apart. *)
Definition same_cursor (q q' : qps_selection) : Prop :=
  tried_fd_last q' = tried_fd_last q /\ tried_count q' = tried_count q
  /\ pend_mnum q' = pend_mnum q /\ pend_fd q' = pend_fd q.

(** The pending events of descriptor [fd] in the modes of [mbits]. *)
Definition pending_of (q : qps_selection) (fd mbits : Z) : Z :=
  (if Z.testbit mbits 0 && Z.testbit (at0 (results q)) fd then 1 else 0)
  + (if Z.testbit mbits 1 && Z.testbit (at1 (results q)) fd then 1 else 0)
  + (if Z.testbit mbits 2 && Z.testbit (at2 (results q)) fd then 1 else 0).


(** The items [v] of the files vector as qps_selection_validate has found
    them once it is past them, with [st] what it has collected: every record
    is there, points to the selection and has valid enabled bits; in the
    array form a record's descriptor is its index, in the list form there is
    no NULL, the descriptors ascend and none is above the last one seen. *)
Definition scanned (w : world) (v : vector) (st : vstate) : Prop :=
  collected (heap w) v st
  /\ (forall p, Some p ∈ v ->
        exists qf, heap w !! p = Some qf /\ f_selection qf = Some (this w)
                   /\ 0 <= f_enabled_bits qf <= qps_all_mbits)
  /\ (if fd_direct (sel w)
      then forall i p, v !! i = Some (Some p) -> fd_of (heap w) p = Z.of_nat i
      else sparse_shape (heap w) v
           /\ forall q, Some q ∈ v -> fd_of (heap w) q <= v_fd_last st).

(** Two selections that differ at most in the form of the files vector:
    the same records in the same order, and every other field equal.  The
    list form and the array form hold the records in descriptor order, so
    with the form the records fix the vector. *)
Definition same_up_to_form (q q' : qps_selection) : Prop :=
  records (files q') = records (files q)
  /\ fd_count q' = fd_count q /\ fd_last q' = fd_last q
  /\ enabled_count q' = enabled_count q /\ enabled q' = enabled q
  /\ tried_fd_last q' = tried_fd_last q /\ tried_count q' = tried_count q
  /\ results q' = results q /\ pend_count q' = pend_count q
  /\ pend_mnum q' = pend_mnum q /\ pend_fd q' = pend_fd q
  /\ signum q' = signum q /\ sigmask q' = sigmask q.

(* ====================================================================== *)
(** * Part II: lemmas and theorems                                         *)
(* ====================================================================== *)

(** ** The outcome monad *)

Lemma bind_ok {A B : Type} (r : result A) (k : A -> result B) (b : B) :
  bind r k = Ok b -> exists a, r = Ok a /\ k a = Ok b.
Proof. destruct r as [a| |]; simpl; intros H; [eauto | discriminate | discriminate]. Qed.

Lemma ensure_ok (c : bool) (msg : string) (u : unit) : ensure c msg = Ok u -> c = true.
Proof. destruct c; simpl; [reflexivity | discriminate]. Qed.

Lemma ensure_true (c : bool) (msg : string) : c = true -> ensure c msg = Ok tt.
Proof. intros ->. reflexivity. Qed.

Lemma fd_index_ok (fd : Z) (u : unit) : fd_index fd = Ok u -> 0 <= fd < FD_SETSIZE.
Proof.
  unfold fd_index, fd_in_range. destruct (0 <=? fd) eqn:E1; destruct (fd <? FD_SETSIZE) eqn:E2;
    simpl; intros H; try discriminate. lia.
Qed.

Lemma fd_index_in (fd : Z) : 0 <= fd < FD_SETSIZE -> fd_index fd = Ok tt.
Proof.
  intros H. unfold fd_index, fd_in_range.
  replace (0 <=? fd) with true by lia. replace (fd <? FD_SETSIZE) with true by lia.
  reflexivity.
Qed.

Lemma mode_index_ok (mnum : Z) (u : unit) : mode_index mnum = Ok u -> 0 <= mnum < 3.
Proof.
  unfold mode_index, qps_mnum_count.
  destruct (0 <=? mnum) eqn:E1; destruct (mnum <? 3) eqn:E2; simpl; intros H;
    try discriminate. lia.
Qed.

Lemma mode_index_in (mnum : Z) : 0 <= mnum < 3 -> mode_index mnum = Ok tt.
Proof.
  intros H. unfold mode_index, qps_mnum_count.
  replace (0 <=? mnum) with true by lia. replace (mnum <? 3) with true by lia.
  reflexivity.
Qed.

(** Inversion of a successful computation, one bind at a time. *)
Ltac inv_ok :=
  repeat match goal with
    | H : bind _ _ = Ok _ |- _ =>
        let a := fresh "a" in
        let Ha := fresh "Ha" in
        apply bind_ok in H; destruct H as (a & Ha & H)
    | H : ensure _ _ = Ok _ |- _ => apply ensure_ok in H
    | H : fd_index _ = Ok _ |- _ => apply fd_index_ok in H
    | H : mode_index _ = Ok _ |- _ => apply mode_index_ok in H
    | H : Ok _ = Ok _ |- _ => injection H as H
    end.

Lemma mode_cases (m : Z) : 0 <= m < 3 -> m = 0 \/ m = 1 \/ m = 2.
Proof. lia. Qed.

Lemma aget_aset_same {A : Type} (a : arr3 A) (i : Z) (x : A) :
  aget (aset a i x) i = x.
Proof.
  unfold aget, aset. destruct (i =? 0) eqn:E0; simpl; [reflexivity |].
  destruct (i =? 1) eqn:E1; reflexivity.
Qed.

Lemma aget_aset_other {A : Type} (a : arr3 A) (i j : Z) (x : A) :
  0 <= i < 3 -> 0 <= j < 3 -> i <> j -> aget (aset a i x) j = aget a j.
Proof.
  intros Hi Hj Hne.
  destruct (mode_cases i Hi) as [-> | [-> | ->]];
    destruct (mode_cases j Hj) as [-> | [-> | ->]]; try reflexivity; lia.
Qed.

Lemma aset_aget {A : Type} (a : arr3 A) (i : Z) : aset a i (aget a i) = a.
Proof.
  unfold aget, aset. destruct a as [x y z]. simpl.
  destruct (i =? 0); [reflexivity |]. destruct (i =? 1); reflexivity.
Qed.

(** ** Bits, bytes and words of a descriptor set *)

Lemma clear_between_narrow (s : fd_super_set) (lo hi lo' hi' : Z) :
  clear_between s lo hi -> lo <= lo' -> hi' <= hi -> clear_between s lo' hi'.
Proof. intros H Hl Hh k Hk. apply H. lia. Qed.

Lemma clear_between_join (s : fd_super_set) (lo mid hi : Z) :
  clear_between s lo mid -> clear_between s mid hi -> clear_between s lo hi.
Proof.
  intros H1 H2 k Hk. destruct (Z_lt_ge_dec k mid); [apply H1 | apply H2]; lia.
Qed.

Lemma chunk_testbit (s : Z) (i n j : Z) :
  0 <= i -> 0 <= n -> 0 <= j ->
  Z.testbit (Z.land (Z.shiftr s (i * n)) (Z.ones n)) j
  = Z.testbit s (i * n + j) && (j <? n).
Proof.
  intros Hi Hn Hj.
  rewrite Z.land_spec, Z.shiftr_spec by lia.
  rewrite Z.testbit_ones by lia.
  replace (j + i * n) with (i * n + j) by lia.
  replace (0 <=? j) with true by lia. reflexivity.
Qed.

Lemma chunk_zero_iff (s : Z) (i n : Z) :
  0 <= i -> 0 <= n ->
  Z.land (Z.shiftr s (i * n)) (Z.ones n) = 0 <-> clear_between s (i * n) (i * n + n).
Proof.
  intros Hi Hn. split.
  - intros H k Hk.
    assert (Hb : Z.testbit (Z.land (Z.shiftr s (i * n)) (Z.ones n)) (k - i * n) = false)
      by (rewrite H; apply Z.bits_0).
    rewrite chunk_testbit in Hb by lia.
    replace (i * n + (k - i * n)) with k in Hb by lia.
    replace (k - i * n <? n) with true in Hb by lia.
    now rewrite andb_true_r in Hb.
  - intros H. apply Z.bits_inj'. intros j Hj.
    rewrite chunk_testbit, Z.bits_0 by lia.
    destruct (j <? n) eqn:E; [| apply andb_false_r].
    rewrite H by lia. reflexivity.
Qed.

Lemma words_zero_iff (s : fd_super_set) (iw : Z) :
  0 <= iw -> words s iw = 0 <-> clear_between s (iw * 32) (iw * 32 + 32).
Proof. intros H. unfold words, FD_WORD_BITS. apply chunk_zero_iff; lia. Qed.

Lemma bytes_zero_iff (s : fd_super_set) (ib : Z) :
  0 <= ib -> bytes s ib = 0 <-> clear_between s (ib * 8) (ib * 8 + 8).
Proof. intros H. unfold bytes. apply chunk_zero_iff; lia. Qed.

Lemma bytes_testbit (s : fd_super_set) (ib j : Z) :
  0 <= ib -> 0 <= j -> Z.testbit (bytes s ib) j = Z.testbit s (ib * 8 + j) && (j <? 8).
Proof. intros. unfold bytes. apply chunk_testbit; lia. Qed.

Lemma bytes_range (s : fd_super_set) (ib : Z) : 0 <= bytes s ib < 256.
Proof.
  unfold bytes. rewrite Z.land_ones by lia.
  change (2 ^ 8) with 256. apply Z.mod_pos_bound. lia.
Qed.

Lemma land_lnot_ones (a n : Z) : 0 <= n -> Z.land a (Z.lnot (Z.ones n)) = 2 ^ n * (a / 2 ^ n).
Proof.
  intros Hn. rewrite <- Z.ldiff_land, Z.ldiff_ones_r by lia.
  rewrite Z.shiftl_mul_pow2, Z.shiftr_div_pow2 by lia. lia.
Qed.

Lemma word_start (fd : Z) : Z.land fd (Z.lnot (FD_WORD_BITS - 1)) = 32 * (fd / 32).
Proof. change (FD_WORD_BITS - 1) with (Z.ones 5). rewrite land_lnot_ones by lia. reflexivity. Qed.

Lemma byte_start (fd : Z) : Z.land fd (Z.lnot 7) = 8 * (fd / 8).
Proof. change 7 with (Z.ones 3). rewrite land_lnot_ones by lia. reflexivity. Qed.

Lemma bytes_clearbit (s : fd_super_set) (ib r : Z) :
  0 <= ib -> 0 <= r < 8 ->
  bytes (Z.clearbit s (ib * 8 + r)) ib = Z.clearbit (bytes s ib) r.
Proof.
  intros Hi Hr. apply Z.bits_inj'. intros j Hj.
  rewrite bytes_testbit, !Z.clearbit_eqb, bytes_testbit by lia.
  destruct (Z.eqb_spec (ib * 8 + r) (ib * 8 + j)) as [E | E];
    destruct (Z.eqb_spec r j) as [E' | E']; try lia; simpl;
    destruct (Z.testbit s (ib * 8 + j)); destruct (j <? 8); reflexivity.
Qed.

Lemma first_map_table_ok : forallb first_map_ok (seqZ 1 255) = true.
Proof. vm_compute. reflexivity. Qed.

Lemma fd_first_map_spec (b : Z) :
  0 < b < 256 ->
  let r := fd_first_map b in
  0 <= r < 8 /\ Z.testbit b r = true
  /\ (forall j, 0 <= j < r -> Z.testbit b j = false)
  /\ Z.land b (Z.shiftl 1 r) = Z.shiftl 1 r
  /\ Z.lxor b (Z.shiftl 1 r) = Z.clearbit b r.
Proof.
  intros Hb r.
  pose proof first_map_table_ok as H.
  rewrite forallb_forall in H.
  assert (Hin : In b (seqZ 1 255)).
  { apply list_elem_of_In, elem_of_seqZ. lia. }
  specialize (H b Hin). unfold first_map_ok in H. fold r in H.
  repeat (apply andb_prop in H; destruct H as [H ?]).
  repeat split; try lia; try assumption.
  - intros j Hj.
    match goal with Hf : forallb _ _ = true |- _ => rewrite forallb_forall in Hf;
      specialize (Hf j) end.
    match goal with Hf : In j _ -> _ |- _ =>
      apply negb_true_iff, Hf, list_elem_of_In, elem_of_seqZ; lia end.
Qed.

(** ** qps_next_fd_pending: the two loops *)

Ltac divmod := Z.div_mod_to_equations; lia.

Lemma step_past_zero_words_total (s : fd_super_set) (fd_last : Z) :
  forall fuel fd, (Z.to_nat (fd_last - fd) < fuel)%nat ->
    step_past_zero_words fuel s fd fd_last <> None.
Proof.
  induction fuel as [| k IH]; intros fd Hf; [lia |].
  simpl. destruct (fd_in_range fd); simpl; [| discriminate].
  destruct (words s (fd_word_map fd) =? 0); [| discriminate].
  rewrite word_start. unfold FD_WORD_BITS.
  destruct (32 * (fd / 32) + 32 >? fd_last) eqn:E; [discriminate |].
  apply IH. assert (fd < 32 * (fd / 32) + 32) by divmod. lia.
Qed.

Lemma step_past_zero_bytes_total (s : fd_super_set) (fd_last : Z) :
  forall fuel fd, (Z.to_nat (fd_last - fd) < fuel)%nat ->
    step_past_zero_bytes fuel s fd fd_last <> None.
Proof.
  induction fuel as [| k IH]; intros fd Hf; [lia |].
  simpl. destruct (fd_in_range fd); simpl; [| discriminate].
  destruct (bytes s (fd_byte_map fd) =? 0); [| discriminate].
  destruct (fd + 8 >? fd_last) eqn:E; [discriminate |].
  apply IH. lia.
Qed.

(** The scan never runs out of fuel. *)
Lemma qps_next_fd_pending_total (s : fd_super_set) (fd fd_last : Z) :
  qps_next_fd_pending s fd fd_last <> Unmodelled "fuel".
Proof.
  unfold qps_next_fd_pending.
  pose proof (step_past_zero_words_total s fd_last (scan_fuel fd fd_last) fd) as H1.
  destruct (step_past_zero_words _ s fd fd_last) as [[fd1 | |] |];
    [| discriminate | discriminate | exfalso; apply H1; [unfold scan_fuel; lia | reflexivity]].
  pose proof (step_past_zero_bytes_total s fd_last
                (scan_fuel (Z.land fd1 (Z.lnot 7)) fd_last) (Z.land fd1 (Z.lnot 7))) as H2.
  destruct (step_past_zero_bytes _ s _ fd_last) as [[fd3 | |] |];
    [| discriminate | discriminate | exfalso; apply H2; [unfold scan_fuel; lia | reflexivity]].
  unfold ensure.
  repeat match goal with
         | |- context [if ?c then _ else _] => destruct c; simpl; try discriminate
         end.
Qed.

Lemma step_past_zero_words_spec (s : fd_super_set) (fd_last : Z) :
  fd_last < FD_SETSIZE ->
  forall fuel fd,
    0 <= fd <= fd_last -> (Z.to_nat (fd_last - fd) < fuel)%nat ->
    (exists fd', step_past_zero_words fuel s fd fd_last = Some (ScanAt fd')
                 /\ 0 <= fd' <= fd_last
                 /\ (fd' = fd \/ (fd < fd' /\ fd' = 8 * (fd' / 8)
                                  /\ clear_between s (32 * (fd / 32)) fd')))
    \/ (step_past_zero_words fuel s fd fd_last = Some ScanNone
        /\ clear_between s (32 * (fd / 32)) (32 * (fd_last / 32) + 32)).
Proof.
  intros Hlast. induction fuel as [| k IH]; intros fd Hfd Hf; [lia |].
  simpl. unfold fd_in_range.
  replace (0 <=? fd) with true by lia. replace (fd <? FD_SETSIZE) with true by lia. simpl.
  destruct (Z.eqb_spec (words s (fd_word_map fd)) 0) as [E | E].
  - unfold fd_word_map, FD_WORD_BITS in E.
    apply words_zero_iff in E; [| divmod].
    rewrite word_start. unfold FD_WORD_BITS.
    destruct (32 * (fd / 32) + 32 >? fd_last) eqn:G.
    + right. split; [reflexivity |].
      assert (fd_last / 32 = fd / 32) as -> by divmod.
      eapply clear_between_narrow; [exact E | lia | lia].
    + assert (Hlt : fd < 32 * (fd / 32) + 32) by divmod.
      destruct (IH (32 * (fd / 32) + 32)) as [(fd' & Hs & Hr & Hc) | (Hs & Hc)]; [lia | lia | |].
      * left. exists fd'. split; [exact Hs |]. split; [lia |]. right.
        destruct Hc as [-> | (Hlt' & Hm & Hc)].
        -- split; [lia |]. split; [divmod |].
           eapply clear_between_narrow; [exact E | lia | lia].
        -- split; [lia |]. split; [exact Hm |].
           eapply clear_between_join.
           ++ eapply clear_between_narrow; [exact E | lia | reflexivity].
           ++ eapply clear_between_narrow; [exact Hc | divmod | lia].
      * right. split; [exact Hs |].
        eapply clear_between_join.
        -- eapply clear_between_narrow; [exact E | lia | reflexivity].
        -- eapply clear_between_narrow; [exact Hc | divmod | lia].
  - left. exists fd. split; [reflexivity |]. split; [lia |]. left. reflexivity.
Qed.

Lemma step_past_zero_bytes_spec (s : fd_super_set) (fd_last : Z) :
  fd_last < FD_SETSIZE ->
  forall fuel fd,
    0 <= fd <= fd_last -> fd = 8 * (fd / 8) -> (Z.to_nat (fd_last - fd) < fuel)%nat ->
    (exists fd', step_past_zero_bytes fuel s fd fd_last = Some (ScanAt fd')
                 /\ fd <= fd' <= fd_last /\ fd' = 8 * (fd' / 8)
                 /\ bytes s (fd' / 8) <> 0 /\ clear_between s fd fd')
    \/ (step_past_zero_bytes fuel s fd fd_last = Some ScanNone
        /\ clear_between s fd (8 * (fd_last / 8) + 8)).
Proof.
  intros Hlast. induction fuel as [| k IH]; intros fd Hfd Hm Hf; [lia |].
  simpl. unfold fd_in_range.
  replace (0 <=? fd) with true by lia. replace (fd <? FD_SETSIZE) with true by lia. simpl.
  destruct (Z.eqb_spec (bytes s (fd_byte_map fd)) 0) as [E | E].
  - unfold fd_byte_map in E.
    apply bytes_zero_iff in E; [| divmod].
    replace (fd / 8 * 8) with fd in E by lia.
    destruct (fd + 8 >? fd_last) eqn:G.
    + right. split; [reflexivity |].
      eapply clear_between_narrow; [exact E | lia | divmod].
    + destruct (IH (fd + 8)) as [(fd' & Hs & Hr & Hm' & Hb & Hc) | (Hs & Hc)];
        [lia | divmod | lia | |].
      * left. exists fd'. split; [exact Hs |]. split; [lia |]. split; [exact Hm' |].
        split; [exact Hb |]. eapply clear_between_join; [exact E | exact Hc].
      * right. split; [exact Hs |]. eapply clear_between_join; [exact E | exact Hc].
  - left. exists fd. split; [reflexivity |]. split; [lia |]. split; [exact Hm |].
    split; [exact E |]. intros j Hj. lia.
Qed.

(** What the scan does on any set: it starts at the first descriptor of the
    byte of [fd], and looks at whole bytes. *)
Lemma qps_next_fd_pending_spec (s : fd_super_set) (fd fd_last : Z) :
  0 <= fd <= fd_last -> fd_last < FD_SETSIZE ->
  (qps_next_fd_pending s fd fd_last = Ok (-1, s)
   /\ clear_between s (8 * (fd / 8)) (8 * (fd_last / 8) + 8))
  \/ (exists x, 8 * (fd / 8) <= x < 8 * (fd_last / 8) + 8
                /\ Z.testbit s x = true /\ clear_between s (8 * (fd / 8)) x
                /\ qps_next_fd_pending s fd fd_last
                   = if x <=? fd_last then Ok (x, Z.clearbit s x)
                     else Abort "dassert(fd <= fd_last)").
Proof.
  intros Hfd Hlast. unfold qps_next_fd_pending.
  destruct (step_past_zero_words_spec s fd_last Hlast (scan_fuel fd fd_last) fd)
    as [(fd1 & -> & Hr1 & Hc1) | (-> & Hc1)]; [lia | unfold scan_fuel; lia | |].
  2:{ left. split; [reflexivity |].
      eapply clear_between_narrow; [exact Hc1 | divmod | divmod]. }
  rewrite byte_start.
  assert (Hpre : clear_between s (8 * (fd / 8)) (8 * (fd1 / 8))).
  { destruct Hc1 as [-> | (Hlt & Hm & Hc)]; [intros k Hk; lia |].
    eapply clear_between_narrow; [exact Hc | divmod | lia]. }
  assert (Hge : 8 * (fd / 8) <= 8 * (fd1 / 8)) by (destruct Hc1 as [-> | (? & ? & ?)]; divmod).
  destruct (step_past_zero_bytes_spec s fd_last Hlast
              (scan_fuel (8 * (fd1 / 8)) fd_last) (8 * (fd1 / 8)))
    as [(fd3 & -> & Hr3 & Hm3 & Hb3 & Hc3) | (-> & Hc3)];
    [divmod | divmod | unfold scan_fuel; lia | |].
  2:{ left. split; [reflexivity |]. eapply clear_between_join; [exact Hpre | exact Hc3]. }
  right.
  pose proof (bytes_range s (fd3 / 8)) as Hbr.
  destruct (fd_first_map_spec (bytes s (fd3 / 8))) as (Hr & Hset & Hlow & Hand & Hxor); [lia |].
  unfold fd_byte_map.
  set (b := bytes s (fd3 / 8)) in *. set (r := fd_first_map b) in *.
  assert (Hdiv : fd3 / 8 * 8 = fd3) by lia.
  assert (Hx : Z.testbit s (fd3 + r) = true).
  { unfold b in Hset. rewrite bytes_testbit in Hset by divmod.
    rewrite Hdiv in Hset. apply andb_prop in Hset. tauto. }
  exists (fd3 + r). split; [divmod |]. split; [exact Hx |]. split.
  { eapply clear_between_join; [exact Hpre |].
    eapply clear_between_join; [exact Hc3 |].
    intros k Hk. specialize (Hlow (k - fd3)).
    unfold b in Hlow. rewrite bytes_testbit in Hlow by divmod.
    rewrite Hdiv in Hlow. replace (fd3 + (k - fd3)) with k in Hlow by lia.
    replace (k - fd3 <? 8) with true in Hlow by lia.
    rewrite andb_true_r in Hlow. apply Hlow. lia. }
  destruct (fd3 + r <=? fd_last) eqn:Hle; simpl; [| reflexivity].
  assert (Hbit : fd_bit_map (fd3 + r) = Z.shiftl 1 r).
  { unfold fd_bit_map. change 7 with (Z.ones 3). rewrite Z.land_ones by lia.
    f_equal. change (2 ^ 3) with 8. divmod. }
  rewrite Hbit, Hand, Z.eqb_refl. simpl.
  unfold FD_CLR. replace ((fd3 + r) / 8) with (fd3 / 8) by divmod.
  replace (Z.clearbit s (fd3 + r)) with (Z.clearbit s (fd3 / 8 * 8 + r)) by (f_equal; lia).
  rewrite bytes_clearbit by divmod. fold b. rewrite Hxor, Z.eqb_refl. simpl.
  reflexivity.
Qed.

(** ** C4: the scan *)

(** C4, refuted as stated: on the set {0} the scan from 1 to 1 does not
    return -1; it steps back to the first descriptor of the byte, returns 0
    and clears it. *)
Lemma scan_next_claim_fails : ~ scan_next_claim 1 1 1.
Proof.
  intros [_ H].
  assert (Hc : clear_between 1 1 (1 + 1)).
  { intros k Hk. assert (k = 1) as -> by lia. reflexivity. }
  specialize (H Hc). vm_compute in H. discriminate H.
Qed.

(** The lowest descriptor of [lo .. hi) that is in the set, if there is one. *)
Lemma first_set_between (s : fd_super_set) (lo : Z) :
  forall (n : nat),
    clear_between s lo (lo + Z.of_nat n)
    \/ exists x, lo <= x < lo + Z.of_nat n /\ Z.testbit s x = true /\ clear_between s lo x.
Proof.
  induction n as [| n IH].
  - left. intros k Hk. lia.
  - destruct IH as [Hc | (x & Hx & Hs & Hc)].
    + destruct (Z.testbit s (lo + Z.of_nat n)) eqn:E.
      * right. exists (lo + Z.of_nat n). split; [lia |]. split; [exact E | exact Hc].
      * left. intros k Hk. destruct (Z.eq_dec k (lo + Z.of_nat n)) as [-> | Hne]; [exact E |].
        apply Hc. lia.
    + right. exists x. split; [lia |]. split; [exact Hs | exact Hc].
Qed.

(** C4, amended: for 0 <= fd_start <= fd_last < FD_SETSIZE,
    qps_next_fd_pending returns the smallest descriptor of
    fd_start .. fd_last that is in the set, clearing exactly that bit, and
    returns -1, leaving the set alone, when there is none, exactly for the
    sets that hold no descriptor below fd_start in the byte of fd_start and,
    when they hold none in fd_start .. fd_last, none above fd_last in the
    byte of fd_last.  A descriptor above fd_last does no harm when the range
    holds one. *)
Theorem qps_next_fd_pending_in_range (s : fd_super_set) (fd_start fd_last : Z) :
  0 <= fd_start <= fd_last -> fd_last < FD_SETSIZE ->
  (scan_next_claim s fd_start fd_last
   <-> clear_between s (8 * (fd_start / 8)) fd_start
       /\ (clear_between s fd_start (fd_last + 1) ->
           clear_between s (fd_last + 1) (8 * (fd_last / 8) + 8))).
Proof.
  intros Hfd Hlast.
  assert (Hb0 : 8 * (fd_start / 8) <= fd_start) by divmod.
  assert (Hb1 : fd_last < 8 * (fd_last / 8) + 8) by divmod.
  assert (Hb2 : 0 <= 8 * (fd_start / 8)) by divmod.
  split.
  - (* the claim holds only for these sets *)
    intros [HA HB].
    assert (Hrange : clear_between s fd_start (fd_last + 1)
                     \/ exists x, fd_start <= x <= fd_last /\ Z.testbit s x = true
                                  /\ clear_between s fd_start x).
    { destruct (first_set_between s fd_start (Z.to_nat (fd_last + 1 - fd_start)))
        as [Hc | (x & Hx & Hs & Hc)].
      - left. intros k Hk. apply Hc. lia.
      - right. exists x. split; [lia |]. split; [exact Hs | exact Hc]. }
    assert (Hres : forall y, 0 <= y ->
              qps_next_fd_pending s fd_start fd_last
              = (if y <=? fd_last then Ok (y, Z.clearbit s y)
                 else Abort "dassert(fd <= fd_last)") ->
              fd_start <= y <= fd_last).
    { intros y Hy Hr. destruct Hrange as [Hc | (x & Hx & Hs & Hc)].
      - rewrite (HB Hc) in Hr. destruct (y <=? fd_last); [| discriminate].
        injection Hr as E _. lia.
      - rewrite (HA x Hx Hs Hc) in Hr. destruct (y <=? fd_last); [| discriminate].
        injection Hr as E _. lia. }
    split.
    + intros k Hk. destruct (Z.testbit s k) eqn:E; [| reflexivity]. exfalso.
      destruct (qps_next_fd_pending_spec s fd_start fd_last Hfd Hlast)
        as [(_ & Hc) | (y & Hy & Hset & Hc & Hr)].
      * rewrite Hc in E; [discriminate | lia].
      * assert (Hyk : y <= k).
        { destruct (Z_le_gt_dec y k) as [L | G]; [exact L |].
          rewrite Hc in E; [discriminate | lia]. }
        pose proof (Hres y ltac:(lia) Hr). lia.
    + intros Hnone k Hk. destruct (Z.testbit s k) eqn:E; [| reflexivity]. exfalso.
      destruct (qps_next_fd_pending_spec s fd_start fd_last Hfd Hlast)
        as [(_ & Hc) | (y & Hy & Hset & Hc & Hr)].
      * rewrite Hc in E; [discriminate | lia].
      * pose proof (Hres y ltac:(lia) Hr) as Hin.
        rewrite Hnone in Hset; [discriminate | lia].
  - (* and for each of them *)
    intros [Hlo Hhi].
    destruct (qps_next_fd_pending_spec s fd_start fd_last Hfd Hlast)
      as [(Hr & Hc) | (y & Hy & Hset & Hc & Hr)]; split.
    + intros x Hx Hxs _. rewrite Hc in Hxs; [discriminate | lia].
    + intros _. exact Hr.
    + intros x Hx Hxs Hxc.
      assert (Hyf : fd_start <= y).
      { destruct (Z_le_gt_dec fd_start y) as [L | G]; [exact L |].
        rewrite Hlo in Hset; [discriminate | lia]. }
      assert (y = x) as <-.
      { destruct (Z.lt_trichotomy y x) as [L | [E | G]]; [| exact E |].
        - rewrite Hxc in Hset; [discriminate | lia].
        - rewrite Hc in Hxs; [discriminate | lia]. }
      rewrite Hr. replace (y <=? fd_last) with true by lia. reflexivity.
    + intros Hnone.
      assert (Hyf : fd_start <= y).
      { destruct (Z_le_gt_dec fd_start y) as [L | G]; [exact L |].
        rewrite Hlo in Hset; [discriminate | lia]. }
      destruct (Z_le_gt_dec y fd_last) as [L | G].
      * rewrite Hnone in Hset; [discriminate | lia].
      * rewrite (Hhi Hnone) in Hset; [discriminate | lia].
Qed.

(** The amended C4 at the set {9, 13} scanned from 8 to 12: the descriptor
    13, above fd_last in the byte of fd_last, does not keep the scan from
    returning 9. *)
Lemma qps_next_fd_pending_in_range_witness :
  qps_next_fd_pending 8704 8 12 = Ok (9, 8192).
Proof.
  refine (proj1 (proj2 (qps_next_fd_pending_in_range 8704 8 12 _ _) _) 9 _ _ _).
  - lia.
  - reflexivity.
  - split.
    + intros k Hk. change (8 * (8 / 8)) with 8 in Hk. lia.
    + intros Hnone. specialize (Hnone 9 ltac:(lia)). discriminate Hnone.
  - lia.
  - reflexivity.
  - intros k Hk. assert (k = 8) as -> by lia. reflexivity.
Defined.

(** ** C10: qps_set_signal with signum 0 *)

(** C10: qps_set_signal(qps, 0, mask) stores signum 0 and changes nothing
    else: the stored sigmask, every other field of the selection and every
    file record are as before, whatever the mask given; and the next
    qps_pselect passes no mask to pselect. *)
Theorem qps_set_signal_zero (e : environment) (w : world) (mask timeout : Z) :
  exists w',
    qps_set_signal w 0 mask = Ok w'
    /\ signum (sel w') = 0
    /\ sigmask (sel w') = sigmask (sel w)
    /\ with_signal (sel w') (signum (sel w)) (sigmask (sel w)) = sel w
    /\ heap w' = heap w /\ this w' = this w
    /\ a_sigmask (pselect_call e (sel w') timeout) = None.
Proof.
  exists (set_sel w (with_signal (sel w) 0 (sigmask (sel w)))).
  repeat split.
  destruct w as [t q h]. destruct q. reflexivity.
Qed.

(** ** C6: the range check on the mode *)

(** C6 at mode 3 (qps_mnum_count): neither qps_enable_mode nor
    qps_set_action aborts.  The check [mnum <= qps_mnum_count] lets the mode
    through, and the code goes on to index actions[3], outside the array. *)
Lemma mode_three_is_not_fatal :
  is_abort (qps_enable_mode example_one 1%positive 3 (Some 2%nat)) = false
  /\ is_abort (qps_set_action example_one 1%positive 3 (Some 2%nat)) = false
  /\ is_abort (qps_enable_mode example_one 1%positive 4 (Some 2%nat)) = true
  /\ is_abort (qps_set_action example_one 1%positive 4 (Some 2%nat)) = true.
Proof. vm_compute. repeat split. Qed.

(** ** Counting the descriptors of a set *)

Lemma elem_of_all_fds (x : Z) : x ∈ all_fds <-> 0 <= x < FD_SETSIZE.
Proof. unfold all_fds. rewrite elem_of_seqZ. lia. Qed.

Lemma NoDup_all_fds : NoDup all_fds.
Proof. apply NoDup_seqZ. Qed.

Lemma count_set_nonneg (s : fd_super_set) (l : list Z) : 0 <= count_set s l.
Proof. induction l as [| x l IH]; simpl; [lia |]. destruct (Z.testbit s x); lia. Qed.

Lemma count_set_zero (l : list Z) : count_set 0 l = 0.
Proof. induction l as [| x l IH]; simpl; [reflexivity |]. rewrite Z.bits_0. lia. Qed.

Lemma count_set_ext (s s' : fd_super_set) (l : list Z) :
  (forall x, x ∈ l -> Z.testbit s x = Z.testbit s' x) -> count_set s l = count_set s' l.
Proof.
  induction l as [| y l IH]; intros H; simpl; [reflexivity |].
  rewrite (H y) by apply list_elem_of_here.
  rewrite IH; [reflexivity |]. intros x Hx. apply H. now apply list_elem_of_further.
Qed.

Lemma count_set_absent (s : fd_super_set) (l : list Z) :
  (forall x, x ∈ l -> Z.testbit s x = false) -> count_set s l = 0.
Proof.
  intros H. rewrite (count_set_ext s 0 l); [apply count_set_zero |].
  intros x Hx. rewrite Z.bits_0. now apply H.
Qed.

Lemma count_set_pos (s : fd_super_set) (l : list Z) (x : Z) :
  x ∈ l -> Z.testbit s x = true -> 0 < count_set s l.
Proof.
  induction l as [| y l IH]; intros Hin Hx; [inversion Hin |]. simpl.
  pose proof (count_set_nonneg s l).
  apply elem_of_cons in Hin. destruct Hin as [-> | Hin].
  - rewrite Hx. lia.
  - specialize (IH Hin Hx). destruct (Z.testbit s y); lia.
Qed.

Lemma count_set_clearbit (s : fd_super_set) (l : list Z) (x : Z) :
  NoDup l ->
  count_set (Z.clearbit s x) l
  = count_set s l - (if bool_decide (x ∈ l) && Z.testbit s x then 1 else 0).
Proof.
  induction l as [| y l IH]; intros Hnd; simpl.
  - reflexivity.
  - apply NoDup_cons in Hnd. destruct Hnd as [Hy Hnd]. rewrite IH by exact Hnd.
    rewrite Z.clearbit_eqb.
    destruct (Z.eqb_spec x y) as [-> | Hne].
    + rewrite (bool_decide_eq_false_2 (y ∈ l)) by exact Hy.
      rewrite (bool_decide_eq_true_2 (y ∈ y :: l)) by apply list_elem_of_here.
      simpl. destruct (Z.testbit s y); simpl; lia.
    + rewrite andb_true_r.
      assert (bool_decide (x ∈ y :: l) = bool_decide (x ∈ l)) as ->.
      { apply bool_decide_ext. rewrite elem_of_cons. tauto. }
      lia.
Qed.

Lemma count_set_setbit (s : fd_super_set) (l : list Z) (x : Z) :
  0 <= x -> NoDup l ->
  count_set (Z.setbit s x) l
  = count_set s l + (if bool_decide (x ∈ l) && negb (Z.testbit s x) then 1 else 0).
Proof.
  intros Hx. induction l as [| y l IH]; intros Hnd; simpl.
  - reflexivity.
  - apply NoDup_cons in Hnd. destruct Hnd as [Hy Hnd]. rewrite IH by exact Hnd.
    rewrite Z.setbit_eqb by exact Hx.
    destruct (Z.eqb_spec x y) as [-> | Hne].
    + rewrite (bool_decide_eq_false_2 (y ∈ l)) by exact Hy.
      rewrite (bool_decide_eq_true_2 (y ∈ y :: l)) by apply list_elem_of_here.
      simpl. destruct (Z.testbit s y); simpl; lia.
    + simpl.
      assert (bool_decide (x ∈ y :: l) = bool_decide (x ∈ l)) as ->.
      { apply bool_decide_ext. rewrite elem_of_cons. tauto. }
      lia.
Qed.

Lemma count_set_mono (s s' : fd_super_set) (l : list Z) :
  (forall x, Z.testbit s x = true -> Z.testbit s' x = true) ->
  count_set s l <= count_set s' l.
Proof.
  intros H. induction l as [| y l IH]; simpl; [lia |].
  specialize (H y). destruct (Z.testbit s y); destruct (Z.testbit s' y); lia.
Qed.

Lemma popcount_nonneg (s : fd_super_set) : 0 <= popcount s.
Proof. apply count_set_nonneg. Qed.

Lemma popcount_zero : popcount 0 = 0.
Proof. apply count_set_zero. Qed.

Lemma popcount_clearbit (s : fd_super_set) (x : Z) :
  0 <= x < FD_SETSIZE -> Z.testbit s x = true ->
  popcount (Z.clearbit s x) = popcount s - 1.
Proof.
  intros Hx Hs. unfold popcount. rewrite count_set_clearbit by apply NoDup_all_fds.
  rewrite bool_decide_eq_true_2 by now apply elem_of_all_fds. rewrite Hs. reflexivity.
Qed.

Lemma popcount_setbit (s : fd_super_set) (x : Z) :
  0 <= x < FD_SETSIZE -> Z.testbit s x = false ->
  popcount (Z.setbit s x) = popcount s + 1.
Proof.
  intros Hx Hs. unfold popcount. rewrite count_set_setbit by (apply NoDup_all_fds || lia).
  rewrite bool_decide_eq_true_2 by now apply elem_of_all_fds. rewrite Hs. reflexivity.
Qed.

Lemma popcount_pos (s : fd_super_set) (x : Z) :
  0 <= x < FD_SETSIZE -> Z.testbit s x = true -> 0 < popcount s.
Proof. intros Hx Hs. apply (count_set_pos s all_fds x); [now apply elem_of_all_fds | exact Hs]. Qed.

Lemma popcount_ext (s s' : fd_super_set) :
  (forall x, 0 <= x < FD_SETSIZE -> Z.testbit s x = Z.testbit s' x) ->
  popcount s = popcount s'.
Proof. intros H. apply count_set_ext. intros x Hx. apply H. now apply elem_of_all_fds. Qed.

(** A set all of whose descriptors are below [FD_SETSIZE]. *)
Lemma set_empty (s : fd_super_set) :
  (forall x, Z.testbit s x = false) -> s = 0.
Proof. intros H. apply Z.bits_inj'. intros n _. rewrite H, Z.bits_0. reflexivity. Qed.

Lemma popcount_zero_inv (s : fd_super_set) :
  (forall x, Z.testbit s x = true -> 0 <= x < FD_SETSIZE) -> popcount s = 0 -> s = 0.
Proof.
  intros Hb Hc. apply set_empty. intros x.
  destruct (Z.testbit s x) eqn:E; [| reflexivity].
  pose proof (popcount_pos s x (Hb x E) E). lia.
Qed.

Lemma land_mbit (b m : Z) :
  0 <= m -> (Z.land b (qps_mbit m) =? 0) = negb (Z.testbit b m).
Proof.
  intros Hm. unfold qps_mbit. rewrite Z.shiftl_1_l.
  destruct (Z.testbit b m) eqn:E; simpl.
  - apply Z.eqb_neq. intros H.
    assert (Hb : Z.testbit (Z.land b (2 ^ m)) m = false) by (rewrite H; apply Z.bits_0).
    rewrite Z.land_spec, E, Z.pow2_bits_true in Hb by lia. discriminate.
  - apply Z.eqb_eq. apply Z.bits_inj'. intros n Hn.
    rewrite Z.land_spec, Z.bits_0, Z.pow2_bits_eqb by lia.
    destruct (Z.eqb_spec m n) as [-> | Hne]; [rewrite E; reflexivity | apply andb_false_r].
Qed.

(** ** The dispatch cursor *)

Lemma with_batch_same (q : qps_selection) :
  with_batch q (tried_fd_last q) (tried_count q) (results q)
             (pend_count q) (pend_mnum q) (pend_fd q) = q.
Proof. destruct q. reflexivity. Qed.

(** The do-while loop stops at the first later mode that was tried. *)
Lemma next_tried_mode_spec (tried : arr3 Z) (mnum m' : Z) :
  0 <= mnum -> mnum < m' < 3 -> aget tried m' <> 0 ->
  (forall m, mnum < m < m' -> aget tried m = 0) ->
  exists tried',
    next_tried_mode 3 tried mnum = Ok (tried', m')
    /\ (forall m, 0 <= m < 3 ->
                  aget tried' m = if (mnum <=? m) && (m <? m') then 0 else aget tried m).
Proof.
  intros H0 Hm Hne Hz. destruct tried as [t0 t1 t2].
  assert (Hc : (mnum = 0 /\ m' = 1) \/ (mnum = 0 /\ m' = 2) \/ (mnum = 1 /\ m' = 2)) by lia.
  destruct Hc as [[-> ->] | [[-> ->] | [-> ->]]]; unfold aget in Hne; simpl in Hne.
  - exists (Arr3 0 t1 t2). split.
    + simpl. unfold aget, aset. simpl. destruct (Z.eqb_spec t1 0); [contradiction | reflexivity].
    + intros m Hr. destruct (mode_cases m Hr) as [-> | [-> | ->]]; reflexivity.
  - assert (Ht1 : t1 = 0) by (apply (Hz 1); lia).
    exists (Arr3 0 0 t2). split.
    + subst t1. simpl. unfold aget, aset. simpl.
      destruct (Z.eqb_spec t2 0); [contradiction | reflexivity].
    + intros m Hr. destruct (mode_cases m Hr) as [-> | [-> | ->]]; reflexivity.
  - exists (Arr3 t0 0 t2). split.
    + simpl. unfold aget, aset. simpl. destruct (Z.eqb_spec t2 0); [contradiction | reflexivity].
    + intros m Hr. destruct (mode_cases m Hr) as [-> | [-> | ->]]; reflexivity.
Qed.

(** The while (1) loop finds the first pending event at or after the cursor:
    the lowest mode from [mnum] with a descriptor in its results, and the
    lowest descriptor there. *)
Lemma next_pending_spec :
  forall (fuel : nat) (q : qps_selection) (mnum fd : Z),
    (Z.to_nat (3 - mnum) < fuel)%nat ->
    0 <= mnum < 3 -> 0 <= fd <= tried_fd_last q -> tried_fd_last q < FD_SETSIZE ->
    (forall m x, 0 <= m < 3 -> Z.testbit (aget (results q) m) x = true ->
                 0 <= x <= tried_fd_last q /\ aget (tried_count q) m <> 0) ->
    clear_between (aget (results q) mnum) 0 fd ->
    (exists m x, mnum <= m < 3 /\ Z.testbit (aget (results q) m) x = true) ->
    exists m' x tried',
      mnum <= m' < 3
      /\ Z.testbit (aget (results q) m') x = true
      /\ clear_between (aget (results q) m') 0 x
      /\ (m' = mnum -> fd <= x)
      /\ (forall m, mnum <= m < m' -> aget (results q) m = 0)
      /\ (forall m, 0 <= m < 3 ->
                    aget tried' m = if (mnum <=? m) && (m <? m') then 0
                                    else aget (tried_count q) m)
      /\ next_pending fuel q mnum fd
         = Ok (with_batch q (tried_fd_last q) tried'
                          (aset (results q) m' (Z.clearbit (aget (results q) m') x))
                          (pend_count q) (if m' =? mnum then pend_mnum q else m')
                          (pend_fd q),
               m', x).
Proof.
  induction fuel as [| k IH]; intros q mnum fd Hfuel Hm Hfd Hlast Hbits Hclr Hex; [lia |].
  cbn [next_pending]. rewrite mode_index_in by exact Hm. cbn [bind].
  destruct (qps_next_fd_pending_spec (aget (results q) mnum) fd (tried_fd_last q) Hfd Hlast)
    as [(Hr & Hc) | (x & Hx & Hset & Hc & Hr)].
  - (* nothing left in this mode *)
    rewrite Hr. cbn [bind fst snd]. rewrite aset_aget, with_batch_same.
    replace (-1 >=? 0) with false by reflexivity.
    assert (Hempty : aget (results q) mnum = 0).
    { apply set_empty. intros y. destruct (Z.testbit (aget (results q) mnum) y) eqn:E;
        [| reflexivity].
      destruct (Hbits mnum y Hm E) as [Hy _].
      destruct (Z_lt_ge_dec y fd) as [L | G].
      - rewrite Hclr in E; [discriminate | lia].
      - rewrite Hc in E; [discriminate | divmod]. }
    destruct Hex as (m & y & Hmr & Hy).
    assert (Hgt : mnum < m).
    { destruct (Z.eq_dec m mnum) as [-> | Hne]; [| lia].
      rewrite Hempty, Z.bits_0 in Hy. discriminate. }
    assert (Hfirst : exists m1, mnum < m1 <= m /\ aget (tried_count q) m1 <> 0
                                /\ forall m2, mnum < m2 < m1 -> aget (tried_count q) m2 = 0).
    { destruct (Z.eq_dec (aget (tried_count q) (mnum + 1)) 0) as [E0 | N0].
      - exists m. split; [lia |]. split; [apply (Hbits m y); [lia | exact Hy] |].
        intros m2 Hm2. assert (m2 = mnum + 1) as -> by lia. exact E0.
      - exists (mnum + 1). split; [lia |]. split; [exact N0 |]. intros m2 Hm2. lia. }
    destruct Hfirst as (m1 & Hm1 & Ht1 & Hz1).
    destruct (next_tried_mode_spec (tried_count q) mnum m1) as (tried1 & Hnt & Htr1);
      [lia | lia | exact Ht1 | exact Hz1 |].
    rewrite Hnt. cbn [bind fst snd].
    set (q2 := with_batch q (tried_fd_last q) tried1 (results q) (pend_count q) m1 (pend_fd q)).
    assert (Hskip : forall m2, mnum <= m2 < m1 -> aget (results q) m2 = 0).
    { intros m2 Hm2. destruct (Z.eq_dec m2 mnum) as [-> | Hne]; [exact Hempty |].
      apply set_empty. intros z. destruct (Z.testbit (aget (results q) m2) z) eqn:E;
        [| reflexivity].
      destruct (Hbits m2 z) as [_ Hnz]; [lia | exact E |].
      exfalso. apply Hnz. apply Hz1. lia. }
    destruct (IH q2 m1 0) as (m' & x & tried' & Hm' & Hsx & Hcx & _ & Hz & Htr & Hnp).
    + lia.
    + lia.
    + unfold q2. cbn [tried_fd_last with_batch]. lia.
    + exact Hlast.
    + unfold q2. cbn [results tried_fd_last tried_count with_batch]. intros m2 z Hm2 Hz.
      destruct (Hbits m2 z Hm2 Hz) as [Hr2 Hn2]. split; [exact Hr2 |].
      rewrite Htr1 by exact Hm2.
      destruct ((mnum <=? m2) && (m2 <? m1)) eqn:E; [| exact Hn2].
      rewrite Hskip, Z.bits_0 in Hz by lia. discriminate.
    + intros z Hz. lia.
    + exists m, y. split; [lia | exact Hy].
    + unfold q2 in Hnp, Hsx, Hcx, Hz, Htr.
      cbn [results tried_fd_last tried_count pend_count pend_fd pend_mnum with_batch] in *.
      exists m', x, tried'. split; [lia |]. split; [exact Hsx |]. split; [exact Hcx |].
      split; [lia |]. split.
      { intros m2 Hm2. destruct (Z_lt_ge_dec m2 m1); [apply Hskip | apply Hz]; lia. }
      split.
      { intros m2 Hm2. rewrite Htr, Htr1 by exact Hm2.
        destruct (Z.leb_spec mnum m2); destruct (Z.ltb_spec m2 m1);
          destruct (Z.leb_spec m1 m2); destruct (Z.ltb_spec m2 m'); simpl;
          try reflexivity; try lia. }
      unfold q2. rewrite Hnp.
      replace (m' =? mnum) with false by lia.
      destruct (Z.eqb_spec m' m1) as [-> | Hne]; reflexivity.
  - (* a descriptor is found *)
    assert (Hxl : x <= tried_fd_last q) by (apply (Hbits mnum x Hm Hset)).
    rewrite Hr. replace (x <=? tried_fd_last q) with true by lia.
    cbn [bind fst snd].
    replace (x >=? 0) with true by divmod.
    assert (Hxf : fd <= x).
    { destruct (Z_le_gt_dec fd x) as [L | G]; [exact L |].
      rewrite Hclr in Hset; [discriminate | divmod]. }
    exists mnum, x, (tried_count q). split; [lia |]. split; [exact Hset |]. split.
    { intros z Hz. destruct (Z_lt_ge_dec z fd) as [L | G]; [apply Hclr; lia |].
      apply Hc. divmod. }
    split; [intros _; exact Hxf |]. split; [intros m2 Hm2; lia |]. split.
    { intros m2 Hm2. replace ((mnum <=? m2) && (m2 <? mnum)) with false; [reflexivity |].
      destruct (Z.leb_spec mnum m2); destruct (Z.ltb_spec m2 mnum); simpl; try reflexivity; lia. }
    rewrite Z.eqb_refl. reflexivity.
Qed.

(** ** The vector *)

Lemma vector_trim_lookup_some (v : vector) (i : nat) (p : file_ptr) :
  vector_trim v !! i = Some (Some p) <-> v !! i = Some (Some p).
Proof.
  revert i. induction v as [| x v IH]; intros i; simpl; [reflexivity |].
  destruct (vector_trim v) as [| y t] eqn:E.
  - destruct x as [q |]; destruct i as [| i]; simpl.
    + reflexivity.
    + apply IH.
    + split; discriminate.
    + rewrite <- IH. split; discriminate.
  - destruct i as [| i]; simpl; [reflexivity | apply IH].
Qed.

Lemma vector_trim_elem (v : vector) (p : file_ptr) :
  Some p ∈ vector_trim v <-> Some p ∈ v.
Proof.
  rewrite !list_elem_of_lookup. split; intros [i Hi]; exists i;
    now apply vector_trim_lookup_some.
Qed.

Lemma vector_trim_last (v : vector) : last (vector_trim v) <> Some None.
Proof.
  induction v as [| x v IH]; simpl; [discriminate |].
  destruct (vector_trim v) as [| y t] eqn:E.
  - destruct x; simpl; discriminate.
  - rewrite last_cons. destruct (last (y :: t)) eqn:L; [exact IH |].
    apply last_None in L. discriminate L.
Qed.

Lemma vector_trim_records (v : vector) : records (vector_trim v) = records v.
Proof.
  induction v as [| x v IH]; simpl; [reflexivity |].
  destruct (vector_trim v) as [| y t] eqn:E.
  - simpl in IH. destruct x as [q |]; simpl; rewrite <- IH; reflexivity.
  - destruct x as [q |]; simpl; simpl in IH; rewrite IH; reflexivity.
Qed.

Lemma vector_trim_id (v : vector) : last v <> Some None -> vector_trim v = v.
Proof.
  induction v as [| x v IH]; intros H; simpl; [reflexivity |].
  destruct v as [| y v'].
  - simpl. destruct x; [reflexivity | contradiction].
  - rewrite last_cons in H. destruct (last (y :: v')) eqn:L.
    + rewrite IH by exact H. reflexivity.
    + apply last_None in L. discriminate L.
Qed.

Lemma vector_trim_length (v : vector) : (length (vector_trim v) <= length v)%nat.
Proof.
  induction v as [| x v IH]; simpl; [lia |].
  destruct (vector_trim v) as [| y t]; [destruct x; simpl; lia | simpl in *; lia].
Qed.

Lemma no_null_trim (v : vector) : None ∉ v -> vector_trim v = v.
Proof.
  intros H. apply vector_trim_id. intros L.
  apply H. apply list_elem_of_lookup. exists (pred (length v)).
  rewrite <- last_lookup. exact L.
Qed.

Lemma vector_extend_le (v : vector) (n : nat) : (n <= length v)%nat -> vector_extend v n = v.
Proof.
  intros H. unfold vector_extend. replace (n - length v)%nat with O by lia.
  simpl. apply app_nil_r.
Qed.

Lemma vector_extend_length (v : vector) (n : nat) :
  length (vector_extend v n) = Nat.max (length v) n.
Proof. unfold vector_extend. rewrite length_app, length_replicate. lia. Qed.

Lemma vector_extend_lookup (v : vector) (n i : nat) :
  vector_extend v n !! i
  = if decide (i < length v)%nat then v !! i
    else if decide (i < n)%nat then Some None else None.
Proof.
  unfold vector_extend. destruct (decide (i < length v)%nat) as [L | G].
  - apply lookup_app_l. exact L.
  - rewrite lookup_app_r by lia. destruct (decide (i < n)%nat) as [L' | G'].
    + apply lookup_replicate_2. lia.
    + apply lookup_replicate_None. lia.
Qed.

Lemma vector_extend_lookup_some (v : vector) (n i : nat) (p : file_ptr) :
  vector_extend v n !! i = Some (Some p) <-> v !! i = Some (Some p).
Proof.
  rewrite vector_extend_lookup. destruct (decide (i < length v)%nat) as [L | G];
    [reflexivity |].
  rewrite (lookup_ge_None_2 v i) by lia.
  destruct (decide (i < n)%nat); split; discriminate.
Qed.

Lemma vector_set_item_lookup (v : vector) (i j : nat) (x : option file_ptr) (p : file_ptr) :
  vector_set_item v i x !! j = Some (Some p)
  <-> (i = j /\ x = Some p) \/ (i <> j /\ v !! j = Some (Some p)).
Proof.
  unfold vector_set_item. destruct (decide (i = j)) as [-> | Hne].
  - rewrite list_lookup_insert_eq by (rewrite vector_extend_length; lia).
    split; [intros [= ->]; left; auto | intros [[_ ->] | [H _]]; [reflexivity | contradiction]].
  - rewrite list_lookup_insert_ne by exact Hne. rewrite vector_extend_lookup_some.
    split; [intros H; right; auto | intros [[H _] | [_ H]]; [contradiction | exact H]].
Qed.

Lemma vector_set_item_length (v : vector) (i : nat) (x : option file_ptr) :
  length (vector_set_item v i x) = Nat.max (length v) (S i).
Proof. unfold vector_set_item. rewrite length_insert, vector_extend_length. reflexivity. Qed.

Lemma vector_get_item_some (v : vector) (i : nat) (p : file_ptr) :
  vector_get_item v i = Some p <-> v !! i = Some (Some p).
Proof.
  unfold vector_get_item. destruct (v !! i) as [[q |] |]; simpl; split; congruence.
Qed.

Lemma vector_get_item_none (v : vector) (i : nat) :
  vector_get_item v i = None <-> (forall p, v !! i <> Some (Some p)).
Proof.
  unfold vector_get_item. destruct (v !! i) as [[q |] |]; simpl; split; try congruence.
  intros H. exfalso. apply (H q). reflexivity.
Qed.

(** The number of records in a vector. *)
Lemma records_insert_vacant (v : vector) (i : nat) (p : file_ptr) :
  v !! i = Some None ->
  length (records (<[i := Some p]> v)) = S (length (records v)).
Proof.
  revert i. induction v as [| x v IH]; intros i H; [discriminate |].
  destruct i as [| i]; simpl in *.
  - injection H as ->. reflexivity.
  - destruct x as [q |]; simpl; rewrite IH by exact H; reflexivity.
Qed.

Lemma records_insert_occupied (v : vector) (i : nat) (p : file_ptr) :
  v !! i = Some (Some p) ->
  S (length (records (<[i := None]> v))) = length (records v).
Proof.
  revert i. induction v as [| x v IH]; intros i H; [discriminate |].
  destruct i as [| i]; simpl in *.
  - injection H as ->. reflexivity.
  - destruct x as [q |]; simpl; rewrite <- (IH i) by exact H; reflexivity.
Qed.

Lemma records_app (v1 v2 : vector) : records (v1 ++ v2) = records v1 ++ records v2.
Proof.
  induction v1 as [| x v1 IH]; simpl; [reflexivity |].
  destruct x; simpl; rewrite IH; reflexivity.
Qed.

Lemma records_extend (v : vector) (n : nat) : records (vector_extend v n) = records v.
Proof.
  unfold vector_extend. rewrite records_app.
  assert (H : forall k, records (replicate k None) = []).
  { induction k as [| k IH]; simpl; [reflexivity | exact IH]. }
  rewrite H. apply app_nil_r.
Qed.

Lemma records_elem (v : vector) (p : file_ptr) : p ∈ records v <-> Some p ∈ v.
Proof.
  induction v as [| x v IH]; simpl.
  - rewrite !elem_of_nil. reflexivity.
  - destruct x as [q |].
    + rewrite !elem_of_cons, IH.
      split; [intros [-> | H]; auto | intros [[= ->] | H]; auto].
    + rewrite elem_of_cons, IH.
      split; [intros H; auto | intros [[=] | H]; auto].
Qed.

Lemma records_nil (v : vector) : records v = [] <-> (forall p, Some p ∉ v).
Proof.
  split.
  - intros H p Hp. apply records_elem in Hp. rewrite H in Hp. inversion Hp.
  - intros H. apply elem_of_nil_inv. intros p Hp. apply (H p). now apply records_elem.
Qed.

(** ** Sorted keys *)

Lemma sorted_lookup_lt (ks : list Z) (i j : nat) (a b : Z) :
  StronglySorted Z.lt ks -> (i < j)%nat -> ks !! i = Some a -> ks !! j = Some b -> a < b.
Proof.
  intros Hs Hij Hi Hj.
  rewrite <- (take_drop j ks) in Hs.
  apply (StronglySorted_app_1_elem_of _ _ _ a b Hs).
  - apply list_elem_of_lookup. exists i. rewrite lookup_take_lt by exact Hij. exact Hi.
  - apply list_elem_of_lookup. exists O. rewrite lookup_drop, Nat.add_0_r. exact Hj.
Qed.

Lemma sorted_lookup_inj (ks : list Z) (i j : nat) (a : Z) :
  StronglySorted Z.lt ks -> ks !! i = Some a -> ks !! j = Some a -> i = j.
Proof.
  intros Hs Hi Hj. destruct (Nat.lt_trichotomy i j) as [L | [E | G]]; [| exact E |].
  - pose proof (sorted_lookup_lt ks i j a a Hs L Hi Hj). lia.
  - pose proof (sorted_lookup_lt ks j i a a Hs G Hj Hi). lia.
Qed.

(** ** The binary search *)

Lemma qps_fd_cmp_item (w : world) (fd : Z) (v : vector) (i : nat) (k : Z) :
  items_exist (heap w) v ->
  (item_key (heap w) <$> v) !! i = Some k ->
  qps_fd_cmp w fd (vector_get_item v i) = Ok (sgn_cmp fd k).
Proof.
  intros Hex Hk. rewrite list_lookup_fmap in Hk.
  destruct (v !! i) as [item |] eqn:E; [| discriminate]. simpl in Hk. injection Hk as <-.
  destruct (Hex item) as (p & qf & -> & Hp); [eapply list_elem_of_lookup_2; exact E |].
  unfold vector_get_item. rewrite E. simpl.
  unfold qps_fd_cmp, deref_item, deref. rewrite Hp. simpl.
  unfold item_key, fd_of. rewrite Hp. reflexivity.
Qed.

Lemma bsearch_chop_spec (w : world) (fd : Z) (v : vector) :
  items_exist (heap w) v ->
  StronglySorted Z.lt (item_key (heap w) <$> v) ->
  forall (fuel il ih : nat) (kl kh : Z),
    (ih - il <= fuel)%nat -> (il < ih)%nat ->
    (item_key (heap w) <$> v) !! il = Some kl ->
    (item_key (heap w) <$> v) !! ih = Some kh ->
    kl < fd < kh ->
    exists i ret,
      bsearch_chop fuel (qps_fd_cmp w fd) v il ih = Ok (i, ret)
      /\ ((ret = 0 /\ (item_key (heap w) <$> v) !! i = Some fd)
          \/ (ret = 1 /\ exists a b, (item_key (heap w) <$> v) !! i = Some a
                                     /\ (item_key (heap w) <$> v) !! S i = Some b
                                     /\ a < fd < b)).
Proof.
  intros Hex Hs. set (ks := item_key (heap w) <$> v) in *.
  induction fuel as [| k IH]; intros il ih kl kh Hf Hlt Hl Hh Hr; [lia |].
  cbn [bsearch_chop].
  pose proof (Nat.div_mod (il + ih) 2 ltac:(lia)) as Hd.
  pose proof (Nat.mod_upper_bound (il + ih) 2 ltac:(lia)) as Hm.
  set (iv := ((il + ih) / 2)%nat) in *.
  destruct (Nat.eqb_spec iv il) as [E | N].
  - assert (ih = S il) as -> by lia.
    exists il, 1. split; [reflexivity |]. right. split; [reflexivity |].
    exists kl, kh. auto.
  - assert (Hiv : (il < iv < ih)%nat) by lia.
    destruct (lookup_lt_is_Some_2 ks iv) as [kv Hkv].
    { apply lookup_lt_Some in Hh. lia. }
    rewrite (qps_fd_cmp_item w fd v iv kv Hex Hkv). cbn [bind].
    unfold sgn_cmp.
    destruct (Z.ltb_spec fd kv) as [L | G].
    + simpl. apply (IH il iv kl kv); [lia | lia | exact Hl | exact Hkv | lia].
    + destruct (Z.gtb_spec fd kv) as [G' | L'].
      * simpl. apply (IH iv ih kv kh); [lia | lia | exact Hkv | exact Hh | lia].
      * simpl. exists iv, 0. split; [reflexivity |]. left. split; [reflexivity |].
        rewrite Hkv. f_equal. lia.
Qed.

Lemma vector_bsearch_nonempty (cmp : option file_ptr -> result Z) (v : vector) :
  v <> [] ->
  vector_bsearch cmp v
  = (c <- cmp (vector_get_item v (length v - 1)) ;;
     if c >=? 0 then Ok ((length v - 1)%nat, c)
     else
       c <- cmp (vector_get_item v O) ;;
       if c <=? 0 then Ok (O, c)
       else bsearch_chop (length v) cmp v O (length v - 1)).
Proof. intros H. destruct v; [contradiction | reflexivity]. Qed.

(** What vector_bsearch returns on a vector in fd order. *)
Lemma vector_bsearch_spec (w : world) (fd : Z) (v : vector) :
  items_exist (heap w) v ->
  StronglySorted Z.lt (item_key (heap w) <$> v) ->
  exists i ret,
    vector_bsearch (qps_fd_cmp w fd) v = Ok (i, ret)
    /\ ((ret = 0 /\ (item_key (heap w) <$> v) !! i = Some fd)
        \/ (ret > 0 /\ (i < length v)%nat
            /\ Forall (fun k => k < fd) (item_key (heap w) <$> take (S i) v)
            /\ Forall (fun k => fd < k) (item_key (heap w) <$> drop (S i) v))
        \/ (ret < 0 /\ i = O /\ Forall (fun k => fd < k) (item_key (heap w) <$> v))).
Proof.
  intros Hex Hs. set (ks := item_key (heap w) <$> v) in *.
  assert (Hlen : length ks = length v) by (unfold ks; apply length_fmap).
  assert (Hsplit : forall n a b, ks !! n = Some a -> ks !! S n = Some b -> a < fd < b ->
            Forall (fun k => k < fd) (item_key (heap w) <$> take (S n) v)
            /\ Forall (fun k => fd < k) (item_key (heap w) <$> drop (S n) v)).
  { intros n a b Ha Hb Hab. rewrite fmap_take, fmap_drop. fold ks. split.
    - apply Forall_lookup. intros j x Hj.
      assert (Hjn : (j < S n)%nat).
      { apply lookup_lt_Some in Hj. rewrite length_take in Hj. lia. }
      rewrite lookup_take_lt in Hj by exact Hjn.
      destruct (decide (j = n)) as [-> | Hne]; [assert (x = a) by congruence; lia |].
      pose proof (sorted_lookup_lt ks j n x a Hs ltac:(lia) Hj Ha). lia.
    - apply Forall_lookup. intros j x Hj. rewrite lookup_drop in Hj.
      destruct j as [| j].
      + rewrite Nat.add_0_r in Hj. assert (x = b) by congruence. lia.
      + pose proof (sorted_lookup_lt ks (S n) (S n + S j) b x Hs ltac:(lia) Hb Hj). lia. }
  destruct (decide (v = [])) as [-> | Hv].
  { exists O, (-1). split; [reflexivity |]. right. right.
    split; [lia |]. split; [reflexivity | constructor]. }
  rewrite vector_bsearch_nonempty by exact Hv.
  assert (Hpos : (0 < length v)%nat) by (destruct v; [contradiction | simpl; lia]).
  destruct (lookup_lt_is_Some_2 ks (length v - 1)) as [kh Hkh]; [lia |].
  destruct (lookup_lt_is_Some_2 ks 0) as [kl Hkl]; [lia |].
  rewrite (qps_fd_cmp_item w fd v _ kh Hex Hkh). cbn [bind].
  unfold sgn_cmp at 1 2.
  destruct (Z.ltb_spec fd kh) as [L | G].
  2:{ destruct (Z.gtb_spec fd kh) as [G' | L'].
      - simpl. exists (length v - 1)%nat, 1. split; [reflexivity |]. right. left.
        split; [lia |]. split; [lia |].
        replace (S (length v - 1)) with (length v) by lia.
        rewrite take_ge, drop_ge by lia. split; [| constructor]. fold ks.
        apply Forall_lookup. intros j y Hj.
        destruct (decide (j = length v - 1)%nat) as [-> | Hne]; [assert (y = kh) by congruence; lia |].
        apply lookup_lt_Some in Hj as Hjl.
        pose proof (sorted_lookup_lt ks j (length v - 1) y kh Hs ltac:(lia) Hj Hkh). lia.
      - simpl. exists (length v - 1)%nat, 0. split; [reflexivity |]. left.
        split; [reflexivity |]. rewrite Hkh. f_equal. lia. }
  simpl. rewrite (qps_fd_cmp_item w fd v _ kl Hex Hkl). cbn [bind].
  unfold sgn_cmp at 1 2.
  destruct (Z.ltb_spec fd kl) as [L0 | G0].
  { simpl. exists O, (-1). split; [reflexivity |]. right. right.
    split; [lia |]. split; [reflexivity |]. fold ks.
    apply Forall_lookup. intros j y Hj.
    destruct j as [| j]; [assert (y = kl) by congruence; lia |].
    pose proof (sorted_lookup_lt ks 0 (S j) kl y Hs ltac:(lia) Hkl Hj). lia. }
  destruct (Z.gtb_spec fd kl) as [G1 | L1].
  2:{ simpl. exists O, 0. split; [reflexivity |]. left. split; [reflexivity |].
      rewrite Hkl. f_equal. lia. }
  simpl.
  assert (Hne : (0 < length v - 1)%nat).
  { destruct (decide (length v - 1 = 0)%nat) as [E | N]; [| lia].
    rewrite E in Hkh. assert (kh = kl) by congruence. lia. }
  destruct (bsearch_chop_spec w fd v Hex Hs (length v) 0 (length v - 1) kl kh)
    as (i & ret & Hb & Hres); [lia | lia | exact Hkl | exact Hkh | lia |].
  exists i, ret. split; [exact Hb |].
  destruct Hres as [[-> Hi] | [-> (a & b & Ha & Hb' & Hab)]].
  - left. split; [reflexivity | exact Hi].
  - right. left. split; [lia |]. split.
    + apply lookup_lt_Some in Ha. unfold ks in Ha. rewrite length_fmap in Ha. exact Ha.
    + exact (Hsplit i a b Ha Hb' Hab).
Qed.

(** ** Looking a descriptor up *)

Lemma fd_of_some (h : gmap file_ptr qps_file) (p : file_ptr) (qf : qps_file) :
  h !! p = Some qf -> fd_of h p = f_fd qf.
Proof. intros H. unfold fd_of. rewrite H. reflexivity. Qed.

Lemma sparse_items_exist (w : world) :
  files_ok w -> fd_direct (sel w) = false -> items_exist (heap w) (files (sel w)).
Proof.
  intros Hf Hd item Hin. pose proof (fo_shape w Hf) as Hs. rewrite Hd in Hs.
  destruct Hs as [Hnn _]. destruct item as [p |]; [| contradiction].
  destruct (fo_heap w Hf p Hin) as (qf & Hp & _). eauto.
Qed.

Lemma sparse_key_lookup (h : gmap file_ptr qps_file) (v : vector) (i : nat) (p : file_ptr) :
  v !! i = Some (Some p) -> (item_key h <$> v) !! i = Some (fd_of h p).
Proof. intros H. rewrite list_lookup_fmap, H. reflexivity. Qed.

(** Two records of the vector with the same descriptor are the same. *)
Lemma shape_key_inj (h : gmap file_ptr qps_file) (v : vector) (direct : bool)
      (p q : file_ptr) :
  (if direct then dense_shape h v else sparse_shape h v) ->
  Some p ∈ v -> Some q ∈ v -> fd_of h p = fd_of h q -> p = q.
Proof.
  intros Hs Hp Hq Hk.
  apply list_elem_of_lookup in Hp. destruct Hp as [i Hi].
  apply list_elem_of_lookup in Hq. destruct Hq as [j Hj].
  assert (i = j) as ->.
  { destruct direct.
    - destruct Hs as [Hidx _]. apply Hidx in Hi. apply Hidx in Hj. lia.
    - destruct Hs as [_ Hsort].
      apply (sorted_lookup_inj _ i j (fd_of h p) Hsort).
      + now apply sparse_key_lookup.
      + rewrite Hk. now apply sparse_key_lookup. }
  congruence.
Qed.

Lemma files_key_inj (w : world) (p q : file_ptr) :
  files_ok w -> Some p ∈ files (sel w) -> Some q ∈ files (sel w) ->
  fd_of (heap w) p = fd_of (heap w) q -> p = q.
Proof. intros Hf. apply (shape_key_inj _ _ (fd_direct (sel w))). apply (fo_shape w Hf). Qed.

Lemma lookup_item_found (w : world) (fd : Z) (p : file_ptr) :
  files_ok w -> Some p ∈ files (sel w) -> fd_of (heap w) p = fd -> 0 <= fd ->
  exists i ret,
    (if fd_direct (sel w) then Ok (Z.to_nat fd, 0)
     else vector_bsearch (qps_fd_cmp w fd) (files (sel w))) = Ok (i, ret)
    /\ ret = 0 /\ files (sel w) !! i = Some (Some p).
Proof.
  intros Hf Hp Hk Hfd. pose proof (fo_shape w Hf) as Hs.
  apply list_elem_of_lookup in Hp as Hi. destruct Hi as [j Hj].
  destruct (fd_direct (sel w)) eqn:Hd.
  - exists (Z.to_nat fd), 0. split; [reflexivity |]. split; [reflexivity |].
    destruct Hs as [Hidx _]. pose proof (Hidx j p Hj) as E.
    replace (Z.to_nat fd) with j by lia. exact Hj.
  - destruct Hs as [Hnn Hsort].
    pose proof (sparse_key_lookup (heap w) _ j p Hj) as Hkj. rewrite Hk in Hkj.
    destruct (vector_bsearch_spec w fd (files (sel w)) (sparse_items_exist w Hf Hd) Hsort)
      as (i & ret & Hb & Hres).
    exists i, ret. split; [exact Hb |].
    destruct Hres as [[-> Hi] | [(Hr & Hil & Hlo & Hhi) | (Hr & -> & Hall)]].
    + split; [reflexivity |].
      assert (i = j) as -> by (apply (sorted_lookup_inj _ i j fd Hsort Hi Hkj)).
      exact Hj.
    + exfalso. rewrite Forall_lookup in Hlo, Hhi.
      rewrite fmap_take in Hlo. rewrite fmap_drop in Hhi.
      destruct (decide (j < S i)%nat) as [L | G].
      * specialize (Hlo j fd). rewrite lookup_take_lt in Hlo by exact L.
        specialize (Hlo Hkj). lia.
      * specialize (Hhi (j - S i)%nat fd). rewrite lookup_drop in Hhi.
        replace (S i + (j - S i))%nat with j in Hhi by lia. specialize (Hhi Hkj). lia.
    + exfalso. rewrite Forall_lookup in Hall. specialize (Hall j fd Hkj). lia.
Qed.

Lemma lookup_fd_found (w : world) (p : file_ptr) (qf : qps_file) :
  files_ok w -> Some p ∈ files (sel w) -> heap w !! p = Some qf ->
  qps_file_lookup_fd w (f_fd qf) None = Ok (w, Some p).
Proof.
  intros Hf Hp Hh.
  destruct (fo_heap w Hf p Hp) as (qf' & Hh' & Hsel & Hfd & _).
  assert (qf' = qf) as -> by congruence.
  destruct (lookup_item_found w (f_fd qf) p Hf Hp (fd_of_some _ _ _ Hh) ltac:(lia))
    as (i & ret & Hl & -> & Hi).
  unfold qps_file_lookup_fd.
  rewrite ensure_true by (apply andb_true_intro; split; lia). cbn [bind].
  rewrite Hl. cbn [bind fst snd]. rewrite Z.eqb_refl.
  rewrite (proj2 (vector_get_item_some _ i p) Hi). cbn [fst snd].
  unfold deref. rewrite Hh. cbn [bind].
  rewrite ensure_true; [reflexivity |].
  apply andb_true_intro. split; [apply bool_decide_eq_true_2; exact Hsel | lia].
Qed.

(** ** qps_selection_validate on a legal state *)

Lemma capture_all (qf : qps_file) (st : vstate) :
  0 <= f_fd qf < FD_SETSIZE ->
  exists st',
    foldM (capture_enabled qf) mnums st = Ok st'
    /\ v_n st' = v_n st /\ v_fd_last st' = v_fd_last st
    /\ forall m, 0 <= m < 3 ->
         aget (v_enabled st') m
         = (if Z.testbit (f_enabled_bits qf) m
            then Z.setbit (aget (v_enabled st) m) (f_fd qf) else aget (v_enabled st) m)
         /\ aget (v_enabled_count st') m
            = aget (v_enabled_count st) m + (if Z.testbit (f_enabled_bits qf) m then 1 else 0).
Proof.
  intros Hfd. destruct st as [n l [c0 c1 c2] [e0 e1 e2]].
  unfold mnums, foldM, capture_enabled.
  rewrite !land_mbit by lia. rewrite !negb_involutive.
  rewrite (fd_index_in _ Hfd).
  destruct (Z.testbit (f_enabled_bits qf) 0) eqn:B0;
    destruct (Z.testbit (f_enabled_bits qf) 1) eqn:B1;
    destruct (Z.testbit (f_enabled_bits qf) 2) eqn:B2;
    cbn [bind v_n v_fd_last v_enabled v_enabled_count];
    (eexists; split; [reflexivity |]; split; [reflexivity |]; split; [reflexivity |];
     intros m Hm; destruct (mode_cases m Hm) as [-> | [-> | ->]];
     rewrite ?B0, ?B1, ?B2; cbn; unfold FD_SET; split; (reflexivity || lia)).
Qed.

Lemma records_snoc_some (v : vector) (p : file_ptr) : records (v ++ [Some p]) = records v ++ [p].
Proof. rewrite records_app. reflexivity. Qed.

Lemma records_snoc_none (v : vector) : records (v ++ [None]) = records v.
Proof. rewrite records_app. simpl. apply app_nil_r. Qed.

Lemma last_key_snoc_some (h : gmap file_ptr qps_file) (v : vector) (p : file_ptr) :
  last_key h (v ++ [Some p]) = fd_of h p.
Proof. unfold last_key. rewrite records_snoc_some, last_snoc. reflexivity. Qed.

Lemma last_key_snoc_none (h : gmap file_ptr qps_file) (v : vector) :
  last_key h (v ++ [None]) = last_key h v.
Proof. unfold last_key. rewrite records_snoc_none. reflexivity. Qed.

(** The last record of a vector, by index. *)
Lemma last_record_index (v : vector) (p : file_ptr) :
  last (records v) = Some p ->
  exists i, v !! i = Some (Some p) /\ forall j q, v !! j = Some (Some q) -> (j <= i)%nat.
Proof.
  induction v as [| x v IH] using rev_ind; intros H; [discriminate |].
  destruct x as [q |].
  - rewrite records_snoc_some, last_snoc in H. injection H as ->.
    exists (length v). split; [apply list_lookup_middle; reflexivity |].
    intros j q Hj. apply lookup_lt_Some in Hj. rewrite length_app in Hj. simpl in Hj. lia.
  - rewrite records_snoc_none in H. destruct (IH H) as (i & Hi & Hmax).
    exists i. split; [apply lookup_app_l_Some; exact Hi |].
    intros j q Hj. apply lookup_app_Some in Hj. destruct Hj as [Hj | [_ Hj]].
    + exact (Hmax j q Hj).
    + destruct (j - length v)%nat as [| k]; [discriminate | destruct k; discriminate].
Qed.

Lemma last_record_none (v : vector) : last (records v) = None -> records v = [].
Proof. apply last_None. Qed.

(** With either shape the descriptors grow with the index. *)
Lemma shape_index_mono (h : gmap file_ptr qps_file) (v : vector) (direct : bool)
      (i j : nat) (p q : file_ptr) :
  (if direct then dense_shape h v else sparse_shape h v) ->
  v !! i = Some (Some p) -> v !! j = Some (Some q) -> (i < j)%nat ->
  fd_of h p < fd_of h q.
Proof.
  intros Hs Hi Hj Hij. destruct direct.
  - destruct Hs as [Hidx _]. rewrite (Hidx i p Hi), (Hidx j q Hj). lia.
  - destruct Hs as [_ Hsort].
    apply (sorted_lookup_lt _ i j _ _ Hsort Hij); now apply sparse_key_lookup.
Qed.

(** The largest descriptor is the one of the last record. *)
Lemma largest_fd_last_key (h : gmap file_ptr qps_file) (v : vector) (direct : bool) (x : Z) :
  (if direct then dense_shape h v else sparse_shape h v) ->
  largest_fd h v x -> records v <> [] -> x = last_key h v.
Proof.
  intros Hs [Hub Hwit] Hne. unfold last_key.
  destruct (last (records v)) as [pl |] eqn:L; [| apply last_None in L; contradiction].
  destruct (last_record_index v pl L) as (i & Hi & Hmax).
  assert (Hpl : Some pl ∈ v) by (eapply list_elem_of_lookup_2; exact Hi).
  destruct Hwit as [(p & Hp & Hk) | [_ Hnil]]; [| contradiction].
  pose proof (Hub pl Hpl) as Hle.
  apply list_elem_of_lookup in Hp. destruct Hp as [j Hj].
  pose proof (Hmax j p Hj) as Hji.
  destruct (decide (j = i)) as [-> | Hne'].
  - assert (p = pl) by congruence. subst p. lia.
  - pose proof (shape_index_mono h v direct j i p pl Hs Hj Hi ltac:(lia)). lia.
Qed.

Lemma last_key_largest (h : gmap file_ptr qps_file) (v : vector) (direct : bool) :
  (if direct then dense_shape h v else sparse_shape h v) ->
  records v <> [] -> largest_fd h v (last_key h v).
Proof.
  intros Hs Hne. unfold last_key.
  destruct (last (records v)) as [pl |] eqn:L; [| apply last_None in L; contradiction].
  destruct (last_record_index v pl L) as (i & Hi & Hmax).
  assert (Hpl : Some pl ∈ v) by (eapply list_elem_of_lookup_2; exact Hi).
  split.
  - intros p Hp. apply list_elem_of_lookup in Hp. destruct Hp as [j Hj].
    pose proof (Hmax j p Hj) as Hji.
    destruct (decide (j = i)) as [-> | Hne'].
    + assert (p = pl) by congruence. subst p. lia.
    + pose proof (shape_index_mono h v direct j i p pl Hs Hj Hi ltac:(lia)). lia.
  - left. exists pl. auto.
Qed.

Lemma collected_start (h : gmap file_ptr qps_file) :
  collected h [] (VState 0 (-1) (afill 0) (afill 0)).
Proof.
  split; [reflexivity |]. split; [reflexivity |].
  intros m Hm. split.
  - intros x. destruct (mode_cases m Hm) as [-> | [-> | ->]]; cbn; rewrite Z.bits_0;
      (split; [discriminate | intros (p & qf & Hp & _); inversion Hp]).
  - destruct (mode_cases m Hm) as [-> | [-> | ->]]; cbn; symmetry; apply popcount_zero.
Qed.

Lemma validate_item_ok (w : world) (v1 v2 : vector) (item : option file_ptr) (st : vstate) :
  files_ok w -> files (sel w) = v1 ++ item :: v2 ->
  collected (heap w) v1 st ->
  exists st', validate_item w (length v1) item st = Ok st'
              /\ collected (heap w) (v1 ++ [item]) st'.
Proof.
  intros Hf Hv (Hn & Hl & Hsets).
  pose proof (fo_shape w Hf) as Hs.
  assert (Hi : files (sel w) !! length v1 = Some item).
  { rewrite Hv. apply list_lookup_middle. reflexivity. }
  destruct item as [p |].
  - assert (Hin : Some p ∈ files (sel w)) by (eapply list_elem_of_lookup_2; exact Hi).
    destruct (fo_heap w Hf p Hin) as (qf & Hp & Hsel & Hfd & Hbits & Hact).
    assert (Hbelow : forall q, Some q ∈ v1 -> fd_of (heap w) q < f_fd qf).
    { intros q Hq. apply list_elem_of_lookup in Hq. destruct Hq as [j Hj].
      assert (Hjl : (j < length v1)%nat) by (eapply lookup_lt_Some; exact Hj).
      rewrite <- (fd_of_some _ _ _ Hp).
      apply (shape_index_mono _ _ _ j (length v1) q p Hs); [| exact Hi | exact Hjl].
      rewrite Hv. apply lookup_app_l_Some. exact Hj. }
    assert (Hlt : last_key (heap w) v1 < f_fd qf).
    { unfold last_key. destruct (last (records v1)) as [pl |] eqn:L; [| lia].
      apply Hbelow. apply records_elem. apply list_elem_of_lookup.
      exists (pred (length (records v1))). rewrite <- last_lookup. exact L. }
    unfold validate_item, deref. rewrite Hp. cbn [bind].
    assert (Hshape : (if fd_direct (sel w)
                      then ensure (f_fd qf =? Z.of_nat (length v1))
                                  "File vector index and fd mismatch"
                      else ensure (negb (f_fd qf <=? v_fd_last st))
                                  "File vector not in order") = Ok tt).
    { destruct (fd_direct (sel w)).
      - destruct Hs as [Hidx _]. pose proof (Hidx _ p Hi) as E.
        rewrite (fd_of_some _ _ _ Hp) in E. apply ensure_true. lia.
      - apply ensure_true. rewrite Hl. lia. }
    rewrite Hshape. cbn [bind].
    rewrite ensure_true by (apply bool_decide_eq_true_2; exact Hsel). cbn [bind].
    rewrite ensure_true by (unfold qps_all_mbits in *; lia). cbn [bind].
    destruct (capture_all qf (VState (v_n st + 1) (f_fd qf) (v_enabled_count st) (v_enabled st)) Hfd)
      as (st' & Hcap & Hn' & Hl' & Hm').
    exists st'. split; [exact Hcap |].
    cbn [v_n v_fd_last v_enabled v_enabled_count] in *.
    split; [rewrite Hn', Hn, records_snoc_some, length_app; simpl; lia |].
    split; [rewrite Hl', last_key_snoc_some; symmetry; apply fd_of_some; exact Hp |].
    intros m Hm. destruct (Hm' m Hm) as [He Hc]. destruct (Hsets m Hm) as [Hbit Hcnt].
    assert (Hfresh : Z.testbit (aget (v_enabled st) m) (f_fd qf) = false).
    { destruct (Z.testbit (aget (v_enabled st) m) (f_fd qf)) eqn:E; [| reflexivity].
      apply Hbit in E. destruct E as (q & qf' & Hq & Hq' & Hk & _).
      pose proof (Hbelow q Hq) as Hb. rewrite (fd_of_some _ _ _ Hq') in Hb. lia. }
    split.
    + intros x. rewrite He. destruct (Z.testbit (f_enabled_bits qf) m) eqn:B.
      * rewrite Z.setbit_eqb by lia. rewrite orb_true_iff, Hbit. split.
        -- intros [E | (q & qf' & Hq & Hrest)].
           ++ exists p, qf. split; [apply elem_of_app; right; apply list_elem_of_singleton; reflexivity |].
              split; [exact Hp |]. split; [lia | exact B].
           ++ exists q, qf'. split; [apply elem_of_app; left; exact Hq | exact Hrest].
        -- intros (q & qf' & Hq & Hq' & Hk & Hb).
           apply elem_of_app in Hq. destruct Hq as [Hq | Hq].
           ++ right. exists q, qf'. auto.
           ++ apply list_elem_of_singleton in Hq. injection Hq as ->.
              assert (qf' = qf) by congruence. subst qf'. left. lia.
      * rewrite Hbit. split.
        -- intros (q & qf' & Hq & Hrest). exists q, qf'.
           split; [apply elem_of_app; left; exact Hq | exact Hrest].
        -- intros (q & qf' & Hq & Hq' & Hk & Hb).
           apply elem_of_app in Hq. destruct Hq as [Hq | Hq].
           ++ exists q, qf'. auto.
           ++ apply list_elem_of_singleton in Hq. injection Hq as ->.
              assert (qf' = qf) by congruence. subst qf'. congruence.
    + rewrite Hc, He, Hcnt. destruct (Z.testbit (f_enabled_bits qf) m).
      * rewrite popcount_setbit by (exact Hfd || exact Hfresh). reflexivity.
      * lia.
  - unfold validate_item. destruct (fd_direct (sel w)).
    + exists st. split; [reflexivity |].
      split; [rewrite records_snoc_none; exact Hn |].
      split; [rewrite last_key_snoc_none; exact Hl |].
      intros m Hm. destruct (Hsets m Hm) as [Hbit Hcnt]. split; [| exact Hcnt].
      intros x. rewrite Hbit. split; intros (q & qf' & Hq & Hrest); exists q, qf'.
      * split; [apply elem_of_app; left; exact Hq | exact Hrest].
      * split; [| exact Hrest]. apply elem_of_app in Hq. destruct Hq as [Hq | Hq]; [exact Hq |].
        apply list_elem_of_singleton in Hq. discriminate Hq.
    + exfalso. destruct Hs as [Hnn _]. apply Hnn.
      eapply list_elem_of_lookup_2. exact Hi.
Qed.

Lemma validate_items_ok (w : world) :
  files_ok w ->
  forall (v2 v1 : vector) (st : vstate),
    files (sel w) = v1 ++ v2 -> collected (heap w) v1 st ->
    exists st', validate_items w (length v1) v2 st = Ok st'
                /\ collected (heap w) (files (sel w)) st'.
Proof.
  intros Hf. induction v2 as [| item v2 IH]; intros v1 st Hv Hc.
  - exists st. split; [reflexivity |]. rewrite Hv, app_nil_r. exact Hc.
  - destruct (validate_item_ok w v1 v2 item st Hf Hv Hc) as (st1 & Hst1 & Hc1).
    cbn [validate_items]. rewrite Hst1. cbn [bind].
    replace (S (length v1)) with (length (v1 ++ [item])) by (rewrite length_app; simpl; lia).
    apply IH; [rewrite <- app_assoc; exact Hv | exact Hc1].
Qed.

Lemma validate_results_loop (q : qps_selection) (m : Z) :
  (forall x, Z.testbit (aget (results q) m) x = true ->
             x <= tried_fd_last q /\ (m = pend_mnum q -> pend_fd q <= x)) ->
  forall (l : list Z) (n : Z),
    foldM (validate_result_fd q m) l n = Ok (n + count_set (aget (results q) m) l).
Proof.
  intros Hb. induction l as [| x l IH]; intros n; cbn [foldM count_set].
  - f_equal. lia.
  - unfold validate_result_fd at 1. unfold FD_ISSET.
    destruct (Z.testbit (aget (results q) m) x) eqn:E.
    + destruct (Hb x E) as [Hle Hge].
      rewrite ensure_true by lia. cbn [bind]. cbn [ensure bind].
      rewrite ensure_true.
      * cbn [bind]. rewrite IH. f_equal. lia.
      * destruct (Z.eqb_spec m (pend_mnum q)) as [Em | Nm]; [| reflexivity].
        specialize (Hge Em). simpl. lia.
    + cbn [bind]. rewrite IH. f_equal.
Qed.

Lemma batch_results_empty (q : qps_selection) (m : Z) :
  batch_ok q -> 0 <= m < 3 -> aget (tried_count q) m = 0 -> aget (results q) m = 0.
Proof.
  intros Hb Hm Ht. apply set_empty. intros x.
  destruct (Z.testbit (aget (results q) m) x) eqn:E; [| reflexivity].
  destruct (bo_bits q Hb m x Hm E) as (_ & _ & Hne). contradiction.
Qed.

Lemma batch_results_bounded (q : qps_selection) (m x : Z) :
  batch_ok q -> 0 <= m < 3 -> Z.testbit (aget (results q) m) x = true ->
  0 <= x < FD_SETSIZE.
Proof.
  intros Hb Hm E. destruct (bo_bits q Hb m x Hm E) as (Hx & _ & _).
  pose proof (bo_last q Hb). lia.
Qed.

Lemma batch_idle_results (q : qps_selection) :
  batch_ok q -> pend_count q = 0 -> results q = qps_super_set_zero.
Proof.
  intros Hb H0. pose proof (bo_count q Hb) as Hc. rewrite H0 in Hc.
  pose proof (popcount_nonneg (at0 (results q))).
  pose proof (popcount_nonneg (at1 (results q))).
  pose proof (popcount_nonneg (at2 (results q))).
  assert (H0' : at0 (results q) = 0).
  { apply popcount_zero_inv; [| lia]. intros x. apply (batch_results_bounded q 0 x Hb). lia. }
  assert (H1' : at1 (results q) = 0).
  { apply popcount_zero_inv; [| lia]. intros x. apply (batch_results_bounded q 1 x Hb). lia. }
  assert (H2' : at2 (results q) = 0).
  { apply popcount_zero_inv; [| lia]. intros x. apply (batch_results_bounded q 2 x Hb). lia. }
  destruct (results q) as [r0 r1 r2]. simpl in *. subst. reflexivity.
Qed.

Lemma super_set_count_zero3 : qps_super_set_count [0; 0; 0] = 0.
Proof. vm_compute. reflexivity. Qed.

Lemma super_set_count_zero1 : qps_super_set_count [0] = 0.
Proof. vm_compute. reflexivity. Qed.

Lemma validate_batch_ok (q : qps_selection) :
  batch_ok q ->
  (if pend_count q =? 0 then
     ensure (qps_super_set_count [at0 (results q); at1 (results q); at2 (results q)] =? 0)
            "Nothing pending, but result vectors not empty"
   else
     _ <- ensure (negb ((pend_mnum q <? 0) || (pend_mnum q >? qps_mnum_count)
                        || (pend_fd q <? 0) || (pend_fd q >? tried_fd_last q)))
                 "Invalid pend_mnum or pend_fd" ;;
     _ <- foldM (validate_tried q) mnums tt ;;
     _ <- foldM (validate_untried q) mnums tt ;;
     n <- foldM (validate_results q) mnums 0 ;;
     ensure (n =? pend_count q) "Non-empty bit vector where tried count == 0") = Ok tt.
Proof.
  intros Hb. destruct (Z.eqb_spec (pend_count q) 0) as [E0 | N0].
  - rewrite (batch_idle_results q Hb E0). unfold qps_super_set_zero, afill. cbn [at0 at1 at2].
    rewrite super_set_count_zero3. reflexivity.
  - destruct (bo_cursor q Hb N0) as (Hpm & Hpf & Hpt & Hlow & Hclr).
    pose proof (bo_tried q Hb) as Htr.
    rewrite ensure_true by (unfold qps_mnum_count; lia). cbn [bind].
    assert (Htried : forall m, 0 <= m < 3 -> validate_tried q m tt = Ok tt).
    { intros m Hm. unfold validate_tried. specialize (Htr m Hm).
      rewrite ensure_true.
      2:{ destruct (Z.ltb_spec m (pend_mnum q)) as [L | G]; [| reflexivity].
          rewrite Hlow by lia. reflexivity. }
      cbn [bind]. destruct (Z.eqb_spec m (pend_mnum q)) as [-> | Nm].
      - rewrite ensure_true by lia. cbn [bind]. apply ensure_true. lia.
      - cbn [bind]. apply ensure_true. lia. }
    unfold mnums. cbn [foldM].
    rewrite (Htried 0) by lia. cbn [bind]. rewrite (Htried 1) by lia. cbn [bind].
    rewrite (Htried 2) by lia. cbn [bind].
    assert (Hunt : forall m, 0 <= m < 3 -> validate_untried q m tt = Ok tt).
    { intros m Hm. unfold validate_untried.
      destruct (Z.eqb_spec (aget (tried_count q) m) 0) as [E | N]; [| reflexivity].
      rewrite (batch_results_empty q m Hb Hm E), super_set_count_zero1. reflexivity. }
    rewrite (Hunt 0) by lia. cbn [bind]. rewrite (Hunt 1) by lia. cbn [bind].
    rewrite (Hunt 2) by lia. cbn [bind].
    assert (Hres : forall m n, 0 <= m < 3 ->
               validate_results q m n = Ok (n + popcount (aget (results q) m))).
    { intros m n Hm. unfold validate_results.
      destruct (Z.eqb_spec (aget (tried_count q) m) 0) as [E | N]; cbn [negb].
      - rewrite (batch_results_empty q m Hb Hm E), popcount_zero. f_equal. lia.
      - apply validate_results_loop. intros x Hx.
        destruct (bo_bits q Hb m x Hm Hx) as (Hr & _ & _). split; [lia |].
        intros ->. destruct (Z_le_gt_dec (pend_fd q) x) as [L | G]; [exact L |].
        rewrite Hclr in Hx; [discriminate | lia]. }
    rewrite (Hres 0) by lia. cbn [bind]. rewrite (Hres 1) by lia. cbn [bind].
    rewrite (Hres 2) by lia. cbn [bind].
    apply ensure_true. pose proof (bo_count q Hb) as Hc.
    unfold aget. simpl. lia.
Qed.

Lemma get_last_item_records (v : vector) :
  last v <> Some None -> records v <> [] -> is_null (vector_get_last_item v) = false.
Proof.
  intros Hl Hr. unfold vector_get_last_item.
  destruct (last v) as [[p |] |] eqn:L; [reflexivity | contradiction |].
  apply last_None in L. subst v. contradiction.
Qed.

(** qps_selection_validate passes on a legal state that holds a record.  (On
    an empty selection its check of the last fd compares -1 with 0.) *)
Lemma validate_legal (w : world) :
  legal w -> records (files (sel w)) <> [] -> qps_selection_validate w = Ok tt.
Proof.
  intros [Hf He Hb] Hne. unfold qps_selection_validate.
  destruct (validate_items_ok w Hf (files (sel w)) [] _ eq_refl (collected_start (heap w)))
    as (st & Hst & Hn & Hl & Hsets).
  change (length (@nil (option file_ptr))) with O in Hst. rewrite Hst. cbn [bind].
  pose proof (fo_shape w Hf) as Hs.
  assert (Hnz : v_n st <> 0).
  { rewrite Hn. destruct (records (files (sel w))); [contradiction | simpl; lia]. }
  assert (Hlast : last (files (sel w)) <> Some None).
  { destruct (fd_direct (sel w)); [apply Hs |].
    destruct Hs as [Hnn _]. intros L. apply Hnn.
    apply list_elem_of_lookup. exists (pred (length (files (sel w)))).
    rewrite <- last_lookup. exact L. }
  rewrite ensure_true.
  2:{ rewrite (get_last_item_records _ Hlast Hne). rewrite andb_false_r. reflexivity. }
  cbn [bind].
  rewrite ensure_true by (rewrite Hn, (fo_count w Hf); apply Z.eqb_refl). cbn [bind].
  rewrite ensure_true.
  2:{ rewrite Hl, <- (largest_fd_last_key _ _ _ _ Hs (fo_last w Hf) Hne).
      rewrite Z.eqb_refl. replace (v_n st =? 0) with false by lia. reflexivity. }
  cbn [bind].
  assert (Hsame : forall m, 0 <= m < 3 -> aget (v_enabled st) m = aget (enabled (sel w)) m).
  { intros m Hm. apply Z.bits_inj'. intros x _.
    destruct (Hsets m Hm) as [Hbit _]. pose proof (eo_bits w He m x Hm) as Hbit'.
    apply eq_iff_eq_true. rewrite Hbit, Hbit'. reflexivity. }
  assert (Hcnt : forall m, 0 <= m < 3 ->
             aget (v_enabled_count st) m = aget (enabled_count (sel w)) m).
  { intros m Hm. destruct (Hsets m Hm) as [_ Hc].
    rewrite Hc, (eo_count w He m Hm), Hsame by exact Hm. reflexivity. }
  unfold mnums at 1. cbn [foldM].
  rewrite !Hcnt by lia. rewrite !Z.eqb_refl. cbn [ensure bind].
  rewrite ensure_true.
  2:{ unfold qps_super_set_cmp.
      pose proof (Hsame 0 ltac:(lia)) as H0. pose proof (Hsame 1 ltac:(lia)) as H1.
      pose proof (Hsame 2 ltac:(lia)) as H2. unfold aget in H0, H1, H2. simpl in H0, H1, H2.
      rewrite H0, H1, H2, !Z.eqb_refl. reflexivity. }
  cbn [bind]. apply validate_batch_ok. exact Hb.
Qed.

(** ** Legal states: what the parts depend on *)

Lemma files_ok_frame (w w' : world) :
  this w' = this w -> heap w' = heap w -> files (sel w') = files (sel w) ->
  fd_count (sel w') = fd_count (sel w) -> fd_direct (sel w') = fd_direct (sel w) ->
  fd_last (sel w') = fd_last (sel w) ->
  files_ok w -> files_ok w'.
Proof.
  intros Ht Hh Hv Hc Hd Hl [H1 H2 H3 H4 H5].
  constructor; rewrite ?Ht, ?Hh, ?Hv, ?Hc, ?Hd, ?Hl; assumption.
Qed.

Lemma enabled_ok_frame (w w' : world) :
  heap w' = heap w -> files (sel w') = files (sel w) ->
  enabled (sel w') = enabled (sel w) -> enabled_count (sel w') = enabled_count (sel w) ->
  enabled_ok w -> enabled_ok w'.
Proof.
  intros Hh Hv He Hc [H1 H2].
  constructor; rewrite ?Hh, ?Hv, ?He, ?Hc; assumption.
Qed.

Lemma count_set_exists (s : fd_super_set) (l : list Z) :
  count_set s l <> 0 -> exists x, x ∈ l /\ Z.testbit s x = true.
Proof.
  induction l as [| y l IH]; simpl; intros H; [contradiction |].
  destruct (Z.testbit s y) eqn:E.
  - exists y. split; [apply list_elem_of_here | exact E].
  - destruct IH as (x & Hx & Hs); [lia |]. exists x. split; [now apply list_elem_of_further | exact Hs].
Qed.

Lemma popcount_exists (s : fd_super_set) :
  popcount s <> 0 -> exists x, 0 <= x < FD_SETSIZE /\ Z.testbit s x = true.
Proof.
  intros H. destruct (count_set_exists s all_fds H) as (x & Hx & Hs).
  exists x. split; [now apply elem_of_all_fds | exact Hs].
Qed.

(** A batch that is not finished holds an event. *)
Lemma batch_has_event (q : qps_selection) :
  batch_ok q -> pend_count q <> 0 ->
  exists m x, 0 <= m < 3 /\ Z.testbit (aget (results q) m) x = true.
Proof.
  intros Hb Hn. pose proof (bo_count q Hb) as Hc.
  destruct (Z.eq_dec (popcount (at0 (results q))) 0) as [E0 | N0].
  - destruct (Z.eq_dec (popcount (at1 (results q))) 0) as [E1 | N1].
    + destruct (popcount_exists (at2 (results q))) as (x & _ & Hx); [lia |].
      exists 2, x. split; [lia | exact Hx].
    + destruct (popcount_exists _ N1) as (x & _ & Hx). exists 1, x. split; [lia | exact Hx].
  - destruct (popcount_exists _ N0) as (x & _ & Hx). exists 0, x. split; [lia | exact Hx].
Qed.

(** An event of the batch belongs to a record of the selection. *)
Lemma event_file (w : world) (m x : Z) :
  legal w -> 0 <= m < 3 -> Z.testbit (aget (results (sel w)) m) x = true ->
  exists p qf, Some p ∈ files (sel w) /\ heap w !! p = Some qf /\ f_fd qf = x
               /\ Z.testbit (f_enabled_bits qf) m = true.
Proof.
  intros [Hf He Hb] Hm Hx.
  destruct (bo_bits _ Hb m x Hm Hx) as (_ & Hen & _).
  apply (eo_bits w He m x Hm). exact Hen.
Qed.

Lemma popcount_aset_clear (r : arr3 fd_super_set) (m x : Z) :
  0 <= m < 3 -> 0 <= x < FD_SETSIZE -> Z.testbit (aget r m) x = true ->
  popcount (at0 (aset r m (Z.clearbit (aget r m) x)))
  + popcount (at1 (aset r m (Z.clearbit (aget r m) x)))
  + popcount (at2 (aset r m (Z.clearbit (aget r m) x)))
  = popcount (at0 r) + popcount (at1 r) + popcount (at2 r) - 1.
Proof.
  intros Hm Hx Hs. destruct r as [r0 r1 r2].
  destruct (mode_cases m Hm) as [-> | [-> | ->]]; unfold aget, aset in *; simpl in *;
    rewrite popcount_clearbit by assumption; lia.
Qed.

Lemma testbit_aset_clear (r : arr3 fd_super_set) (m x m2 x2 : Z) :
  0 <= m < 3 -> 0 <= m2 < 3 ->
  Z.testbit (aget (aset r m (Z.clearbit (aget r m) x)) m2) x2
  = Z.testbit (aget r m2) x2 && negb ((m =? m2) && (x =? x2)).
Proof.
  intros Hm Hm2. destruct (Z.eqb_spec m m2) as [<- | Hne].
  - rewrite aget_aset_same, Z.clearbit_eqb. reflexivity.
  - rewrite aget_aset_other by assumption. simpl. rewrite andb_true_r. reflexivity.
Qed.

(** ** One call of qps_dispatch_next *)

Lemma legal_has_record (w : world) :
  legal w -> pend_count (sel w) <> 0 -> records (files (sel w)) <> [].
Proof.
  intros Hl Hn. destruct (batch_has_event _ (l_batch w Hl) Hn) as (m & x & Hm & Hx).
  destruct (event_file w m x Hl Hm Hx) as (p & qf & Hp & _).
  intros E. apply records_elem in Hp. rewrite E in Hp. inversion Hp.
Qed.

(** One call with something pending, up to the call of the action: the
    state is legal when the action is called, with the event taken out. *)
Lemma dispatch_step_pre (e : environment) (w : world) :
  legal w -> pend_count (sel w) <> 0 ->
  exists w1 m x p action info,
    qps_dispatch_next e w
    = (w2 <- run_action e action p info w1 ;;
       Ok (w2, pend_count (sel w2), Some (m, x)))
    /\ legal w1
    /\ pend_count (sel w1) = pend_count (sel w) - 1
    /\ pending (sel w) (m, x)
    /\ (forall ev, pending (sel w) ev -> event_le (m, x) ev)
    /\ (forall ev, pending (sel w1) ev <-> pending (sel w) ev /\ ev <> (m, x)).
Proof.
  intros Hl Hn. pose proof Hl as [Hf He Hb].
  set (q := sel w) in *.
  destruct (bo_cursor q Hb Hn) as (Hpm & Hpf & Hpt & Hlow & Hclr).
  pose proof (bo_last q Hb) as Hlast.
  pose proof (bo_count q Hb) as Hcnt.
  assert (Hpos : pend_count q > 0).
  { pose proof (popcount_nonneg (at0 (results q))).
    pose proof (popcount_nonneg (at1 (results q))).
    pose proof (popcount_nonneg (at2 (results q))). lia. }
  assert (Hbelow : forall m, 0 <= m < pend_mnum q -> aget (results q) m = 0).
  { intros m Hm. apply (batch_results_empty q m Hb); [lia | apply Hlow; exact Hm]. }
  destruct (next_pending_spec 4 q (pend_mnum q) (pend_fd q))
    as (m & x & tried' & Hm & Hx & Hcx & _ & Hskip & Htr & Hnp).
  { lia. }
  { exact Hpm. }
  { exact Hpf. }
  { lia. }
  { intros m2 y Hm2 Hy. destruct (bo_bits q Hb m2 y Hm2 Hy) as (H1 & _ & H3). auto. }
  { exact Hclr. }
  { destruct (batch_has_event q Hb Hn) as (m2 & y & Hm2 & Hy).
    exists m2, y. split; [| exact Hy].
    destruct (Z_lt_ge_dec m2 (pend_mnum q)) as [L | G]; [| lia].
    rewrite Hbelow, Z.bits_0 in Hy by lia. discriminate. }
  destruct (bo_bits q Hb m x ltac:(lia) Hx) as (Hxr & Hxe & Hxt).
  destruct (event_file w m x Hl ltac:(lia) Hx) as (p & qf & Hp & Hh & Hfd & Hbit).
  destruct (fo_heap w Hf p Hp) as (qf' & Hh' & Hsel & Hfdr & Hbr & Hacts).
  assert (qf' = qf) by congruence. subst qf'.
  set (q1 := with_batch q (tried_fd_last q) tried'
                        (aset (results q) m (Z.clearbit (aget (results q) m) x))
                        (pend_count q) (if m =? pend_mnum q then pend_mnum q else m)
                        (pend_fd q)) in *.
  set (w1 := set_sel w (with_batch q1 (tried_fd_last q1) (tried_count q1) (results q1)
                                   (pend_count q1 - 1) (pend_mnum q1) x)).
  assert (Hmn : pend_mnum q1 = m).
  { unfold q1. cbn [pend_mnum with_batch]. destruct (Z.eqb_spec m (pend_mnum q)); congruence. }
  assert (Hf1 : files_ok w1) by (apply (files_ok_frame w w1); try reflexivity; exact Hf).
  assert (He1 : enabled_ok w1) by (apply (enabled_ok_frame w w1); try reflexivity; exact He).
  assert (Hb1 : batch_ok (sel w1)).
  { constructor; unfold w1, q1;
      cbn [sel set_sel tried_fd_last results enabled tried_count pend_count pend_mnum pend_fd
           with_batch].
    - exact Hlast.
    - intros m2 y Hm2 Hy. rewrite testbit_aset_clear in Hy by lia.
      apply andb_prop in Hy. destruct Hy as [Hy Hne].
      destruct (bo_bits q Hb m2 y Hm2 Hy) as (H1 & H2 & H3).
      split; [exact H1 |]. split; [exact H2 |].
      rewrite Htr by exact Hm2.
      destruct ((pend_mnum q <=? m2) && (m2 <? m)) eqn:E; [| exact H3].
      rewrite Hskip, Z.bits_0 in Hy by lia. discriminate.
    - rewrite (popcount_aset_clear (results q) m x ltac:(lia) ltac:(lia) Hx). lia.
    - intros m2 Hm2. rewrite Htr by exact Hm2.
      destruct ((pend_mnum q <=? m2) && (m2 <? m)); [lia | apply (bo_tried q Hb); exact Hm2].
    - intros _. split; [destruct (Z.eqb_spec m (pend_mnum q)); lia |].
      split; [lia |].
      assert (Hmm : (if m =? pend_mnum q then pend_mnum q else m) = m)
        by (destruct (Z.eqb_spec m (pend_mnum q)); congruence).
      rewrite Hmm. split.
      + rewrite Htr by lia. replace ((pend_mnum q <=? m) && (m <? m)) with false by lia.
        exact Hxt.
      + split.
        * intros m2 Hm2. rewrite Htr by lia.
          destruct ((pend_mnum q <=? m2) && (m2 <? m)) eqn:E; [reflexivity |].
          apply Hlow. lia.
        * rewrite aget_aset_same. intros y Hy. rewrite Z.clearbit_eqb, Hcx by lia. reflexivity. }
  assert (Hl1 : legal w1) by (constructor; assumption).
  destruct (aget (f_actions qf) m) as [action |] eqn:Ea;
    [| exfalso; apply (Hacts m ltac:(lia) Hbit); exact Ea].
  exists w1, m, x, p, action, (f_file_info qf).
  split.
  { unfold qps_dispatch_next.
    rewrite (validate_legal w Hl (legal_has_record w Hl Hn)). cbn [bind]. fold q.
    replace (pend_count q =? 0) with false by lia.
    rewrite ensure_true.
    2:{ unfold qps_mnum_count. repeat (apply andb_true_intro; split); lia. }
    cbn [bind]. rewrite Hnp. cbn [bind fst snd]. fold q1. fold w1.
    rewrite <- Hfd. rewrite (lookup_fd_found w1 p qf Hf1 Hp Hh). cbn [bind fst snd].
    unfold deref_item, deref. change (heap w1) with (heap w). rewrite Hh. cbn [bind].
    rewrite ensure_true.
    2:{ apply andb_true_intro. split; [apply andb_true_intro; split |].
        - apply negb_true_iff, Z.eqb_neq. intros E. rewrite E, Z.bits_0 in Hbit. discriminate.
        - apply negb_true_iff, Z.eqb_neq. unfold qps_mbit. rewrite Z.shiftl_1_l.
          apply Z.pow_nonzero; lia.
        - apply bool_decide_eq_true_2. apply Hacts; [lia | exact Hbit]. }
    cbn [bind]. rewrite Ea. reflexivity. }
  split; [exact Hl1 |].
  split; [reflexivity |].
  split; [split; [cbn; lia | exact Hx] |].
  split.
  { intros [m2 y] [Hm2 Hy]. cbn [fst snd] in *. unfold event_le, event_lt. cbn [fst snd].
    destruct (Z_lt_ge_dec m2 (pend_mnum q)) as [L | G].
    { rewrite Hbelow, Z.bits_0 in Hy by lia. discriminate. }
    destruct (Z.lt_trichotomy m m2) as [L | [E | G']].
    - left. left. exact L.
    - subst m2. destruct (Z.lt_trichotomy x y) as [L | [E | G']].
      + left. right. split; [reflexivity | exact L].
      + right. subst y. reflexivity.
      + rewrite Hcx in Hy by (destruct (bo_bits q Hb m y Hm2 Hy); lia). discriminate.
    - rewrite Hskip, Z.bits_0 in Hy by lia. discriminate. }
  intros [m2 y]. unfold pending, w1, q1.
  cbn [fst snd sel set_sel results with_batch]. fold q. split.
  - intros [Hm2 Hy]. rewrite testbit_aset_clear in Hy by lia.
    apply andb_prop in Hy. destruct Hy as [Hy Hne]. split; [split; assumption |].
    intros Heq. injection Heq as E1 E2. subst m2 y. rewrite !Z.eqb_refl in Hne. discriminate.
  - intros [[Hm2 Hy] Hne]. split; [exact Hm2 |].
    rewrite testbit_aset_clear by lia. rewrite Hy. simpl.
    apply negb_true_iff. apply andb_false_iff.
    destruct (Z.eqb_spec m m2) as [Em | Nm]; [| left; reflexivity].
    destruct (Z.eqb_spec x y) as [Ex | Nx]; [| right; reflexivity].
    subst m2 y. contradiction.
Qed.

Lemma dispatch_step (e : environment) (w : world) :
  actions_mutate_nothing e -> legal w -> pend_count (sel w) <> 0 ->
  exists w' m x,
    qps_dispatch_next e w = Ok (w', pend_count (sel w) - 1, Some (m, x))
    /\ legal w'
    /\ pend_count (sel w') = pend_count (sel w) - 1
    /\ pending (sel w) (m, x)
    /\ (forall ev, pending (sel w) ev -> event_le (m, x) ev)
    /\ (forall ev, pending (sel w') ev <-> pending (sel w) ev /\ ev <> (m, x)).
Proof.
  intros Hact Hl Hn.
  destruct (dispatch_step_pre e w Hl Hn) as (w1 & m & x & p & action & info & E & R).
  exists w1, m, x. split; [| exact R].
  rewrite E, Hact. cbn [bind]. destruct R as (_ & -> & _). reflexivity.
Qed.

(** ** A whole batch *)

Lemma dispatch_batch (e : environment) :
  actions_mutate_nothing e ->
  forall (n : nat) (w : world),
    legal w -> pend_count (sel w) = Z.of_nat n ->
    exists w' tr,
      dispatch_all e n w = Ok (w', tr)
      /\ legal w' /\ pend_count (sel w') = 0
      /\ length tr = n
      /\ Forall (pending (sel w)) tr
      /\ StronglySorted event_lt tr.
Proof.
  intros Hact. induction n as [| k IH]; intros w Hl Hn.
  - exists w, []. split; [reflexivity |]. split; [exact Hl |]. split; [exact Hn |].
    split; [reflexivity |]. split; [apply Forall_nil_2 | apply SSorted_nil].
  - destruct (dispatch_step e w Hact Hl ltac:(lia))
      as (w1 & m & x & Hd & Hl1 & Hc1 & Hp & Hmin & Hrest).
    destruct (IH w1 Hl1 ltac:(lia)) as (w2 & tr & Hall & Hl2 & Hc2 & Hlen & Hpend & Hsort).
    exists w2, ((m, x) :: tr).
    cbn [dispatch_all]. rewrite Hd. cbn [bind fst snd]. rewrite Hall. cbn [bind fst snd].
    split; [reflexivity |]. split; [exact Hl2 |]. split; [exact Hc2 |].
    split; [simpl; lia |]. split.
    + constructor; [exact Hp |].
      eapply Forall_impl; [exact Hpend |]. intros ev Hev. apply Hrest in Hev. tauto.
    + constructor; [exact Hsort |].
      eapply Forall_impl; [exact Hpend |]. intros ev Hev. apply Hrest in Hev.
      destruct Hev as [Hev Hne]. destruct (Hmin ev Hev) as [Hlt | Heq]; [exact Hlt |].
      congruence.
Qed.

(** ** qps_pselect on a legal state *)

Lemma enabled_bits_bounded (w : world) (m x : Z) :
  legal w -> 0 <= m < 3 -> Z.testbit (aget (enabled (sel w)) m) x = true ->
  0 <= x <= fd_last (sel w) /\ x < FD_SETSIZE.
Proof.
  intros [Hf He _] Hm Hx. apply (eo_bits w He m x Hm) in Hx.
  destruct Hx as (p & qf & Hp & Hh & Hfd & _).
  destruct (fo_heap w Hf p Hp) as (qf' & Hh' & _ & Hr & _).
  assert (qf' = qf) by congruence. subst qf'.
  destruct (fo_last w Hf) as [Hub _]. specialize (Hub p Hp).
  rewrite (fd_of_some _ _ _ Hh) in Hub. lia.
Qed.

Lemma memcpy_bytes_all (s : fd_super_set) (n : Z) :
  0 <= n -> (forall x, Z.testbit s x = true -> x < 8 * n) -> memcpy_bytes 0 s n = s.
Proof.
  intros Hn Hb. unfold memcpy_bytes. apply Z.bits_inj'. intros x Hx.
  rewrite Z.lor_spec, Z.land_spec, Z.ldiff_spec, Z.bits_0, Z.testbit_ones by lia.
  simpl. rewrite orb_false_r.
  destruct (Z.testbit s x) eqn:E; [| reflexivity].
  specialize (Hb x E). simpl. replace (0 <=? x) with true by lia.
  replace (x <? 8 * n) with true by lia. reflexivity.
Qed.

Lemma enabled_count_zero (w : world) (m : Z) :
  legal w -> 0 <= m < 3 -> aget (enabled_count (sel w)) m = 0 ->
  aget (enabled (sel w)) m = 0.
Proof.
  intros Hl Hm H0. rewrite (eo_count w (l_enabled w Hl) m Hm) in H0.
  apply popcount_zero_inv; [| exact H0].
  intros x Hx. destruct (enabled_bits_bounded w m x Hl Hm Hx). lia.
Qed.

(** What qps_pselect hands to pselect on a legal state: for each mode the
    enabled set, or NULL when nothing is enabled in the mode. *)
Lemma arr3_ext {A : Type} (a b : arr3 A) :
  (forall m, 0 <= m < 3 -> aget a m = aget b m) -> a = b.
Proof.
  intros H. destruct a as [a0 a1 a2], b as [b0 b1 b2].
  pose proof (H 0 ltac:(lia)) as H0. pose proof (H 1 ltac:(lia)) as H1.
  pose proof (H 2 ltac:(lia)) as H2. cbn in H0, H1, H2. congruence.
Qed.

Lemma prepare_mode_fds (q : qps_selection) (n : Z) (pr : prepared) (k : Z) :
  p_fds (prepare_mode q n pr k)
  = aset (p_fds pr) k (negb (aget (enabled_count q) k =? 0))
  /\ p_pend_mnum (prepare_mode q n pr k)
     = (if negb (aget (enabled_count q) k =? 0) && (k <? p_pend_mnum pr) then k
        else p_pend_mnum pr)
  /\ p_tried (prepare_mode q n pr k) = aset (p_tried pr) k (aget (enabled_count q) k)
  /\ p_results (prepare_mode q n pr k)
     = (if negb (aget (enabled_count q) k =? 0)
        then aset (p_results pr) k
                  (memcpy_bytes (aget (p_results pr) k) (aget (enabled q) k) n)
        else p_results pr).
Proof.
  unfold prepare_mode. rewrite aget_aset_same.
  destruct (aget (enabled_count q) k =? 0); cbn [negb andb p_fds p_pend_mnum p_tried p_results];
    auto.
Qed.

Lemma modes_step (q : qps_selection) (n : Z) (pr : prepared) (k : Z) :
  0 <= k < 3 -> modes_upto q k pr -> modes_upto q (k + 1) (prepare_mode q n pr k).
Proof.
  intros Hk [Hfds Hpm]. unfold modes_upto.
  destruct (prepare_mode_fds q n pr k) as (-> & -> & _).
  unfold qps_mnum_count in *. split.
  - intros m Hm. destruct (Z.eq_dec m k) as [-> | Hne].
    + apply aget_aset_same.
    + rewrite aget_aset_other by lia. apply Hfds. lia.
  - destruct (Z.eqb_spec (aget (enabled_count q) k) 0) as [E | N]; cbn [negb andb].
    + destruct Hpm as [[E3 Hz] | (Hr & Hnz & Hlow)].
      * left. split; [exact E3 |]. intros m Hm.
        destruct (Z.eq_dec m k) as [-> | Hne]; [exact E | apply Hz; lia].
      * right. split; [lia |]. split; assumption.
    + destruct Hpm as [[E3 Hz] | (Hr & Hnz & Hlow)].
      * right. rewrite E3. replace (k <? 3) with true by lia.
        split; [lia |]. split; [exact N |]. intros m Hm. apply Hz. lia.
      * right. replace (k <? p_pend_mnum pr) with false by lia.
        split; [lia |]. split; assumption.
Qed.

Lemma copied_step (q : qps_selection) (n : Z) (pr : prepared) (k : Z) :
  0 <= k < 3 ->
  memcpy_bytes 0 (aget (enabled q) k) n = aget (enabled q) k ->
  (aget (enabled_count q) k = 0 -> aget (enabled q) k = 0) ->
  copied_upto q k pr -> copied_upto q (k + 1) (prepare_mode q n pr k).
Proof.
  intros Hk Hcopy Hzero (Htr & Hres & Hrest). unfold copied_upto.
  destruct (prepare_mode_fds q n pr k) as (_ & _ & -> & ->).
  split; [| split].
  - intros m Hm. destruct (Z.eq_dec m k) as [-> | Hne].
    + apply aget_aset_same.
    + rewrite aget_aset_other by lia. apply Htr. lia.
  - intros m Hm. destruct (Z.eqb_spec (aget (enabled_count q) k) 0) as [E | N]; cbn [negb].
    + destruct (Z.eq_dec m k) as [-> | Hne].
      * rewrite (Hzero E). apply Hrest. lia.
      * apply Hres. lia.
    + destruct (Z.eq_dec m k) as [-> | Hne].
      * rewrite aget_aset_same, (Hrest k) by lia. exact Hcopy.
      * rewrite aget_aset_other by lia. apply Hres. lia.
  - intros m Hm. destruct (Z.eqb_spec (aget (enabled_count q) k) 0) as [E | N]; cbn [negb].
    + apply Hrest. lia.
    + rewrite aget_aset_other by lia. apply Hrest. lia.
Qed.

Lemma prepare_unfold (q : qps_selection) :
  prepare q
  = prepare_mode q (fd_byte_count (fd_last q))
      (prepare_mode q (fd_byte_count (fd_last q))
         (prepare_mode q (fd_byte_count (fd_last q))
            (Prepared (tried_count q)
                      (if negb (pend_count q =? 0) then qps_super_set_zero else results q)
                      (afill false) qps_mnum_count) 0) 1) 2.
Proof. reflexivity. Qed.

(** Which sets qps_pselect passes on, whatever the state. *)
Lemma prepare_modes (q : qps_selection) : modes_upto q 3 (prepare q).
Proof.
  rewrite prepare_unfold.
  apply (modes_step q _ _ 2); [lia |]. apply (modes_step q _ _ 1); [lia |].
  apply (modes_step q _ _ 0); [lia |].
  split; [intros m Hm; lia | left; split; [reflexivity | intros m Hm; lia]].
Qed.

Lemma prepare_spec (w : world) :
  legal w ->
  let pr := prepare (sel w) in
  p_tried pr = enabled_count (sel w)
  /\ p_results pr = enabled (sel w)
  /\ (forall m, 0 <= m < 3 ->
                aget (p_fds pr) m = negb (aget (enabled_count (sel w)) m =? 0))
  /\ ((p_pend_mnum pr = 3 /\ forall m, 0 <= m < 3 -> aget (enabled_count (sel w)) m = 0)
      \/ (0 <= p_pend_mnum pr < 3
          /\ aget (enabled_count (sel w)) (p_pend_mnum pr) <> 0
          /\ forall m, 0 <= m < p_pend_mnum pr -> aget (enabled_count (sel w)) m = 0)).
Proof.
  intros Hl. pose proof Hl as [Hf He Hb].
  assert (Hres0 : (if negb (pend_count (sel w) =? 0) then qps_super_set_zero
                   else results (sel w)) = qps_super_set_zero).
  { destruct (Z.eqb_spec (pend_count (sel w)) 0) as [E | N]; [| reflexivity].
    simpl. apply batch_idle_results; assumption. }
  assert (Hcopy : forall m, 0 <= m < 3 ->
            memcpy_bytes 0 (aget (enabled (sel w)) m) (fd_byte_count (fd_last (sel w)))
            = aget (enabled (sel w)) m).
  { intros m Hm.
    destruct (Z.eq_dec (aget (enabled (sel w)) m) 0) as [E | N].
    - rewrite E. unfold memcpy_bytes. rewrite Z.land_0_l, Z.ldiff_0_l. reflexivity.
    - assert (Hex : exists x, Z.testbit (aget (enabled (sel w)) m) x = true).
      { destruct (popcount_exists (aget (enabled (sel w)) m)) as (x & _ & Hx); [| eauto].
        intros E. apply N. apply popcount_zero_inv; [| exact E].
        intros x Hx. destruct (enabled_bits_bounded w m x Hl Hm Hx). lia. }
      destruct Hex as (x0 & Hx0).
      destruct (enabled_bits_bounded w m x0 Hl Hm Hx0) as [Hr0 _].
      apply memcpy_bytes_all.
      + unfold fd_byte_count, fd_byte_map. divmod.
      + intros x Hx. destruct (enabled_bits_bounded w m x Hl Hm Hx) as [Hr _].
        unfold fd_byte_count, fd_byte_map. divmod. }
  assert (Hcp : copied_upto (sel w) 3 (prepare (sel w))).
  { rewrite prepare_unfold, Hres0.
    apply (copied_step (sel w) _ _ 2); [lia | apply Hcopy; lia | apply enabled_count_zero; [exact Hl | lia] |].
    apply (copied_step (sel w) _ _ 1); [lia | apply Hcopy; lia | apply enabled_count_zero; [exact Hl | lia] |].
    apply (copied_step (sel w) _ _ 0); [lia | apply Hcopy; lia | apply enabled_count_zero; [exact Hl | lia] |].
    split; [intros m Hm; lia |]. split; [intros m Hm; lia |].
    intros m Hm. destruct (mode_cases m Hm) as [-> | [-> | ->]]; reflexivity. }
  destruct Hcp as (Htr & Hres & _).
  destruct (prepare_modes (sel w)) as [Hfds Hpm].
  cbv zeta. split; [apply arr3_ext; exact Htr |]. split; [apply arr3_ext; exact Hres |].
  split; [exact Hfds | exact Hpm].
Qed.

Lemma testbit_true_nonneg (s x : Z) : Z.testbit s x = true -> 0 <= x.
Proof.
  intros H. destruct (Z_lt_ge_dec x 0) as [L | G]; [| lia].
  rewrite Z.testbit_neg_r in H by exact L. discriminate.
Qed.

Lemma batch_ok_idle (q : qps_selection) (tried : arr3 Z) (mnum : Z) :
  0 <= fd_last q < FD_SETSIZE ->
  (forall m, 0 <= m < 3 -> 0 <= aget tried m) ->
  batch_ok (with_batch q (fd_last q) tried qps_super_set_zero 0 mnum 0).
Proof.
  intros Hl Ht. constructor; cbn [tried_fd_last results enabled tried_count pend_count
                                  pend_mnum pend_fd with_batch].
  - exact Hl.
  - intros m x Hm Hx. exfalso.
    destruct (mode_cases m Hm) as [-> | [-> | ->]]; cbn in Hx; rewrite Z.bits_0 in Hx;
      discriminate.
  - cbn. rewrite popcount_zero. reflexivity.
  - exact Ht.
  - intros H. contradiction.
Qed.

Lemma pselect_results_get (pr : prepared) (r : pselect_ret) (m : Z) :
  0 <= m < 3 ->
  aget (pselect_results pr r) m
  = if aget (p_fds pr) m then aget (Arr3 (r_errorfds r) (r_readfds r) (r_writefds r)) m
    else aget (p_results pr) m.
Proof. intros Hm. destruct (mode_cases m Hm) as [-> | [-> | ->]]; reflexivity. Qed.

(** qps_pselect keeps a legal state legal, when pselect keeps its contract. *)
Lemma pselect_legal (e : environment) (w w1 : world) (timeout n : Z) :
  legal w ->
  pselect_contract (pselect_call e (sel w) timeout)
                   (pselect e (pselect_call e (sel w) timeout)) ->
  qps_pselect e w timeout = Ok (w1, n) ->
  legal w1
  /\ n = r_n (pselect e (pselect_call e (sel w) timeout))
  /\ pend_count (sel w1) = (if n >? 0 then n else 0).
Proof.
  intros Hl Hc H. pose proof Hl as [Hf He Hb].
  destruct (prepare_spec w Hl) as (Htr & Hres & Hfds & Hpm).
  unfold qps_pselect in H. inv_ok.
  set (r := pselect e (pselect_call e (sel w) timeout)) in *.
  set (pr := prepare (sel w)) in *.
  assert (Htried : forall m, 0 <= m < 3 -> 0 <= aget (p_tried pr) m).
  { intros m Hm. rewrite Htr, (eo_count w He m Hm). apply popcount_nonneg. }
  destruct (Z.gtb_spec (r_n r) 0) as [Hpos | Hneg].
  - inv_ok. subst w1 n.
    replace (r_n r >? 0) with true by lia.
    split; [| split; reflexivity].
    constructor.
    + apply (files_ok_frame w); try reflexivity. exact Hf.
    + apply (enabled_ok_frame w); try reflexivity. exact He.
    + unfold pselect_contract, pselect_call in Hc. fold pr in Hc. fold r in Hc.
      cbn [a_nfds a_readfds a_writefds a_errorfds] in Hc.
      specialize (Hc ltac:(lia)). destruct Hc as (Hrd & Hwr & Her & Hn).
      unfold qps_read_mnum, qps_write_mnum, qps_error_mnum in Hrd, Hwr, Her, Hn.
      assert (Hmode : forall m s, 0 <= m < 3 ->
                (if aget (p_fds pr) m then Some (aget (p_results pr) m) else None) = Some s ->
                s = aget (enabled (sel w)) m /\ aget (enabled_count (sel w)) m <> 0).
      { intros m s Hm Hs. rewrite Hfds in Hs by exact Hm.
        destruct (Z.eqb_spec (aget (enabled_count (sel w)) m) 0) as [E | N];
          [discriminate |]. simpl in Hs. injection Hs as <-. rewrite Hres. auto. }
      assert (Hoff : forall m, 0 <= m < 3 -> aget (p_fds pr) m = false ->
                aget (p_results pr) m = 0).
      { intros m Hm Hoff. rewrite Hfds in Hoff by exact Hm.
        apply negb_false_iff, Z.eqb_eq in Hoff. rewrite Hres.
        apply enabled_count_zero; assumption. }
      constructor; cbn [sel set_sel tried_fd_last results enabled tried_count pend_count
                        pend_mnum pend_fd with_batch].
      * lia.
      * intros m x Hm Hx. pose proof (testbit_true_nonneg _ _ Hx) as Hx0.
        rewrite pselect_results_get in Hx by exact Hm.
        assert (Hw : set_within (fd_last (sel w) + 1) (fds_arg pr m)
                                (aget (Arr3 (r_errorfds r) (r_readfds r) (r_writefds r)) m)).
        { destruct (mode_cases m Hm) as [-> | [-> | ->]]; assumption. }
        unfold fds_arg in Hw. rewrite Htr.
        destruct (aget (p_fds pr) m) eqn:F.
        -- destruct (Hmode m _ Hm ltac:(rewrite F; reflexivity)) as [Hs Hnz].
           simpl in Hw. destruct (Hw x Hx) as [H1 H2]. rewrite Hs in H1.
           split; [lia | split; assumption].
        -- rewrite (Hoff m Hm F), Z.bits_0 in Hx. discriminate.
      * rewrite Hn. unfold pselect_results, count_within, fds_arg,
          qps_read_mnum, qps_write_mnum, qps_error_mnum. cbn [at0 at1 at2].
        pose proof (Hoff 0 ltac:(lia)) as O0. pose proof (Hoff 1 ltac:(lia)) as O1.
        pose proof (Hoff 2 ltac:(lia)) as O2.
        destruct (aget (p_fds pr) 0); destruct (aget (p_fds pr) 1);
          destruct (aget (p_fds pr) 2);
          repeat match goal with
                 | Ho : false = false -> _ |- _ => specialize (Ho eq_refl)
                 | Ho : true = false -> _ |- _ => clear Ho
                 end;
          unfold aget in *; simpl in *; rewrite ?O0, ?O1, ?O2, ?popcount_zero; lia.
      * exact Htried.
      * intros _. destruct Hpm as [[E3 _] | (Hr3 & Hnz & Hlow)];
          [unfold qps_mnum_count in *; lia |].
        split; [exact Hr3 |]. split; [lia |]. rewrite Htr.
        split; [exact Hnz |]. split; [exact Hlow |]. intros y Hy. lia.
  - destruct ((r_n r =? 0) || (r_errno r =? EINTR)); [| discriminate].
    inv_ok. subst w1 n.
    replace (r_n r >? 0) with false by lia.
    split; [| split; reflexivity].
    constructor.
    + apply (files_ok_frame w); try reflexivity. exact Hf.
    + apply (enabled_ok_frame w); try reflexivity. exact He.
    + cbn [sel set_sel]. apply batch_ok_idle; [lia | exact Htried].
Qed.

(** ** Changing a record *)

Lemma item_key_ext (h h' : gmap file_ptr qps_file) (v : vector) :
  (forall q, Some q ∈ v -> fd_of h' q = fd_of h q) ->
  item_key h' <$> v = item_key h <$> v.
Proof.
  intros H. apply list_fmap_ext. intros i item Hi.
  destruct item as [q |]; [| reflexivity]. simpl. apply H.
  eapply list_elem_of_lookup_2. exact Hi.
Qed.

Lemma shape_ext (h h' : gmap file_ptr qps_file) (v : vector) (direct : bool) :
  (forall q, Some q ∈ v -> fd_of h' q = fd_of h q) ->
  (if direct then dense_shape h v else sparse_shape h v) ->
  (if direct then dense_shape h' v else sparse_shape h' v).
Proof.
  intros H. destruct direct.
  - intros [Hidx Hl]. split; [| exact Hl]. intros i p Hi.
    rewrite H by (eapply list_elem_of_lookup_2; exact Hi). apply Hidx. exact Hi.
  - intros [Hnn Hs]. split; [exact Hnn |]. rewrite (item_key_ext h h' v H). exact Hs.
Qed.

Lemma largest_fd_ext (h h' : gmap file_ptr qps_file) (v : vector) (x : Z) :
  (forall q, Some q ∈ v -> fd_of h' q = fd_of h q) ->
  largest_fd h v x -> largest_fd h' v x.
Proof.
  intros H [Hub Hw]. split.
  - intros p Hp. rewrite H by exact Hp. apply Hub. exact Hp.
  - destruct Hw as [(p & Hp & Hk) | Hnil]; [| right; exact Hnil].
    left. exists p. split; [exact Hp |]. rewrite H by exact Hp. exact Hk.
Qed.

(** A record is replaced by one with the same descriptor and selection. *)
Lemma files_ok_update (w : world) (q' : qps_selection) (p : file_ptr) (qf qf' : qps_file) :
  files_ok w -> heap w !! p = Some qf ->
  f_fd qf' = f_fd qf -> f_selection qf' = f_selection qf ->
  (Some p ∈ files (sel w) -> file_ok (this w) qf') ->
  files q' = files (sel w) -> fd_count q' = fd_count (sel w) ->
  fd_direct q' = fd_direct (sel w) -> fd_last q' = fd_last (sel w) ->
  files_ok (World (this w) q' (<[p := qf']> (heap w))).
Proof.
  intros Hf Hh Hfd Hsel Hok Hv Hc Hd Hl.
  assert (Hk : forall q, fd_of (<[p := qf']> (heap w)) q = fd_of (heap w) q).
  { intros q. unfold fd_of. destruct (decide (p = q)) as [<- | Hne].
    - rewrite lookup_insert_eq, Hh. exact Hfd.
    - rewrite lookup_insert_ne by exact Hne. reflexivity. }
  constructor; cbn [this sel heap]; rewrite ?Hv, ?Hc, ?Hd, ?Hl.
  - intros q Hq. destruct (decide (p = q)) as [<- | Hne].
    + exists qf'. split; [apply lookup_insert_eq | apply Hok; exact Hq].
    + rewrite lookup_insert_ne by exact Hne. apply (fo_heap w Hf). exact Hq.
  - intros q f Hq Hs. destruct (decide (p = q)) as [<- | Hne].
    + rewrite lookup_insert_eq in Hq. injection Hq as <-.
      apply (fo_back w Hf p qf Hh). congruence.
    + rewrite lookup_insert_ne in Hq by exact Hne. apply (fo_back w Hf q f Hq Hs).
  - apply (shape_ext (heap w)); [intros q _; apply Hk | apply (fo_shape w Hf)].
  - apply (fo_count w Hf).
  - apply (largest_fd_ext (heap w)); [intros q _; apply Hk | apply (fo_last w Hf)].
Qed.

Lemma attached_in_files (w : world) (p : file_ptr) (qf : qps_file) :
  files_ok w -> heap w !! p = Some qf -> same_selection w (f_selection qf) = true ->
  Some p ∈ files (sel w) /\ file_ok (this w) qf.
Proof.
  intros Hf Hh Hs. unfold same_selection in Hs.
  destruct (f_selection qf) as [a |] eqn:E; [| discriminate].
  apply bool_decide_eq_true_1 in Hs. subst a.
  pose proof (fo_back w Hf p qf Hh E) as Hp. split; [exact Hp |].
  destruct (fo_heap w Hf p Hp) as (qf' & Hh' & Hok). congruence.
Qed.

(** ** qps_set_action *)

Lemma set_action_legal (w w' : world) (p : file_ptr) (mnum : Z) (action : option qps_action) :
  legal w -> qps_set_action w p mnum action = Ok w' -> legal w'.
Proof.
  intros [Hf He Hb] H. unfold qps_set_action, deref in H.
  destruct (heap w !! p) as [qf |] eqn:Hh; [| discriminate]. cbn [bind] in H.
  inv_ok. subst w'. unfold set_file.
  set (qf' := with_file_actions qf (aset (f_actions qf) mnum action)).
  assert (Hbits : forall m, 0 <= m < 3 -> Z.testbit (f_enabled_bits qf) m = true ->
                            aget (f_actions qf) m <> None ->
                            aget (f_actions qf') m <> None).
  { intros m Hm Hbit Hold. unfold qf'. cbn [f_actions with_file_actions].
    destruct (Z.eq_dec mnum m) as [-> | Hne].
    - rewrite aget_aset_same. destruct action as [act |]; [discriminate |].
      apply ensure_ok in Ha0. pose proof (land_mbit (f_enabled_bits qf) m ltac:(lia)) as Hl.
      rewrite Ha0, Hbit in Hl. discriminate.
    - rewrite aget_aset_other by (lia || exact Hne). exact Hold. }
  constructor.
  - apply (files_ok_update w (sel w) p qf qf'); try reflexivity; try assumption.
    intros Hp. destruct (fo_heap w Hf p Hp) as (qf0 & Hh0 & Hs & Hfd & Hbr & Hacts).
    assert (qf0 = qf) by congruence. subst qf0.
    split; [exact Hs |]. split; [exact Hfd |]. split; [exact Hbr |].
    intros m Hm Hbit. apply Hbits; auto.
  - constructor; cbn [this sel heap].
    + intros m x Hm. rewrite (eo_bits w He m x Hm). split.
      * intros (q & f & Hq & Hqh & Hrest). destruct (decide (p = q)) as [<- | Hne].
        -- exists p, qf'. split; [exact Hq |]. split; [apply lookup_insert_eq |].
           assert (f = qf) by congruence. subst f. exact Hrest.
        -- exists q, f. split; [exact Hq |]. rewrite lookup_insert_ne by exact Hne. auto.
      * intros (q & f & Hq & Hqh & Hrest). destruct (decide (p = q)) as [<- | Hne].
        -- rewrite lookup_insert_eq in Hqh. injection Hqh as <-.
           exists p, qf. auto.
        -- rewrite lookup_insert_ne in Hqh by exact Hne. exists q, f. auto.
    + apply (eo_count w He).
  - exact Hb.
Qed.

(** ** qps_enable_mode *)

Lemma mbit_testbit (m k : Z) : 0 <= m -> Z.testbit (qps_mbit m) k = (m =? k).
Proof. intros Hm. unfold qps_mbit. rewrite Z.shiftl_1_l. apply Z.pow2_bits_eqb. exact Hm. Qed.

Lemma bits_cases (b : Z) :
  0 <= b <= 7 -> b = 0 \/ b = 1 \/ b = 2 \/ b = 3 \/ b = 4 \/ b = 5 \/ b = 6 \/ b = 7.
Proof. lia. Qed.

Lemma lor_mbit_range (b m : Z) :
  0 <= b <= 7 -> 0 <= m < 3 -> 0 <= Z.lor b (qps_mbit m) <= 7.
Proof.
  intros Hb Hm.
  destruct (bits_cases b Hb) as [-> | [-> | [-> | [-> | [-> | [-> | [-> | ->]]]]]]];
    destruct (mode_cases m Hm) as [-> | [-> | ->]]; vm_compute; split; discriminate.
Qed.

Lemma enable_mode_legal (w w' : world) (p : file_ptr) (mnum : Z) (action : option qps_action) :
  legal w -> qps_enable_mode w p mnum action = Ok w' -> legal w'.
Proof.
  intros [Hf He Hb] H. unfold qps_enable_mode, deref in H.
  destruct (heap w !! p) as [qf |] eqn:Hh; [| discriminate]. cbn [bind] in H.
  apply bind_ok in H. destruct H as (u1 & _ & H).
  apply bind_ok in H. destruct H as (u2 & _ & H).
  apply bind_ok in H. destruct H as (u3 & Hmi & H). apply mode_index_ok in Hmi.
  apply bind_ok in H. destruct H as (qf1 & Hqf1 & H).
  assert (Hq1 : f_fd qf1 = f_fd qf /\ f_selection qf1 = f_selection qf
                /\ f_enabled_bits qf1 = f_enabled_bits qf
                /\ aget (f_actions qf1) mnum <> None
                /\ forall m, 0 <= m < 3 -> m <> mnum ->
                             aget (f_actions qf1) m = aget (f_actions qf) m).
  { destruct action as [act |].
    - injection Hqf1 as <-. cbn [f_fd f_selection f_enabled_bits f_actions with_file_actions].
      repeat split; try reflexivity.
      + rewrite aget_aset_same. discriminate.
      + intros m Hm Hne. apply aget_aset_other; [exact Hmi | exact Hm | congruence].
    - apply bind_ok in Hqf1. destruct Hqf1 as (u4 & Hact & Hqf1). injection Hqf1 as <-.
      apply ensure_ok, bool_decide_eq_true_1 in Hact. repeat split; try reflexivity.
      exact Hact. }
  destruct Hq1 as (Hfd1 & Hsel1 & Hbits1 & Hact1 & Hother1).
  destruct (same_selection w (f_selection qf)) eqn:Hsame; [| discriminate]. cbn [negb] in H.
  destruct (attached_in_files w p qf Hf Hh Hsame) as [Hp (Hs & Hfdr & Hbr & Hacts)].
  apply bind_ok in H. destruct H as (u5 & _ & H).
  rewrite Hbits1, Hfd1 in H.
  rewrite land_mbit in H by lia. rewrite negb_involutive in H.
  destruct (Z.testbit (f_enabled_bits qf) mnum) eqn:Hbit.
  - (* the mode is enabled already *)
    apply bind_ok in H. destruct H as (u6 & _ & H). injection H as <-. unfold set_file.
    assert (Hok1 : file_ok (this w) qf1).
    { split; [congruence |]. split; [lia |]. split; [lia |].
      intros m Hm Hbm. destruct (Z.eq_dec m mnum) as [-> | Hne]; [exact Hact1 |].
      rewrite Hother1 by assumption. apply Hacts; [exact Hm | congruence]. }
    constructor.
    + apply (files_ok_update w (sel w) p qf qf1); try reflexivity; try assumption.
      intros _. exact Hok1.
    + constructor; cbn [this sel heap].
      * intros m x Hm. rewrite (eo_bits w He m x Hm). split.
        -- intros (q & f & Hq & Hqh & Hrest). destruct (decide (p = q)) as [<- | Hne].
           ++ exists p, qf1. split; [exact Hq |]. split; [apply lookup_insert_eq |].
              assert (f = qf) by congruence. subst f. rewrite Hfd1, Hbits1. exact Hrest.
           ++ exists q, f. split; [exact Hq |]. rewrite lookup_insert_ne by exact Hne. auto.
        -- intros (q & f & Hq & Hqh & Hrest). destruct (decide (p = q)) as [<- | Hne].
           ++ rewrite lookup_insert_eq in Hqh. injection Hqh as <-.
              exists p, qf. rewrite Hfd1, Hbits1 in Hrest. auto.
           ++ rewrite lookup_insert_ne in Hqh by exact Hne. exists q, f. auto.
      * apply (eo_count w He).
    + exact Hb.
  - (* the mode becomes enabled *)
    apply bind_ok in H. destruct H as (u6 & Hnew & H). injection H as <-.
    apply ensure_ok, negb_true_iff in Hnew. unfold FD_ISSET in Hnew. unfold set_file, set_sel.
    cbn [this sel heap].
    set (qf2 := with_file_enabled qf1 (Z.lor (f_enabled_bits qf) (qps_mbit mnum))).
    set (q2 := with_enabled (sel w)
                 (aset (enabled_count (sel w)) mnum (aget (enabled_count (sel w)) mnum + 1))
                 (aset (enabled (sel w)) mnum
                       (FD_SET (f_fd qf) (aget (enabled (sel w)) mnum)))).
    assert (Hb2 : forall m, Z.testbit (f_enabled_bits qf2) m
                            = Z.testbit (f_enabled_bits qf) m || (mnum =? m)).
    { intros m. unfold qf2. cbn [f_enabled_bits with_file_enabled].
      rewrite Z.lor_spec, mbit_testbit by lia. reflexivity. }
    assert (Hok2 : file_ok (this w) qf2).
    { split; [unfold qf2; cbn; congruence |]. split; [unfold qf2; cbn; lia |].
      split; [unfold qf2; cbn [f_enabled_bits with_file_enabled];
              apply lor_mbit_range; assumption |].
      intros m Hm Hbm. rewrite Hb2 in Hbm. unfold qf2. cbn [f_actions with_file_enabled].
      destruct (Z.eqb_spec mnum m) as [<- | Hne]; [exact Hact1 |].
      rewrite orb_false_r in Hbm. rewrite Hother1 by (assumption || congruence).
      apply Hacts; assumption. }
    constructor.
    + apply (files_ok_update w q2 p qf qf2); try reflexivity; try assumption;
        try (unfold qf2; cbn; assumption); try (intros _; exact Hok2).
    + constructor; cbn [this sel heap]; unfold q2;
        cbn [enabled enabled_count files with_enabled].
      * intros m x Hm. destruct (Z.eq_dec mnum m) as [<- | Hnm].
        -- rewrite aget_aset_same. unfold FD_SET. rewrite Z.setbit_eqb by lia.
           rewrite orb_true_iff, (eo_bits w He mnum x Hmi). split.
           ++ intros [Ex | (q & f & Hq & Hqh & Hk & Hbq)].
              ** exists p, qf2. split; [exact Hp |]. split; [apply lookup_insert_eq |].
                 split; [unfold qf2; cbn; lia |]. rewrite Hb2, Z.eqb_refl. apply orb_true_r.
              ** destruct (decide (p = q)) as [<- | Hne]; [congruence |].
                 exists q, f. split; [exact Hq |]. rewrite lookup_insert_ne by exact Hne. auto.
           ++ intros (q & f & Hq & Hqh & Hk & Hbq). destruct (decide (p = q)) as [<- | Hne].
              ** rewrite lookup_insert_eq in Hqh. injection Hqh as <-.
                 left. unfold qf2 in Hk. cbn in Hk. lia.
              ** rewrite lookup_insert_ne in Hqh by exact Hne. right. exists q, f. auto.
        -- rewrite aget_aset_other by (lia || exact Hnm).
           rewrite (eo_bits w He m x Hm). split.
           ++ intros (q & f & Hq & Hqh & Hk & Hbq). destruct (decide (p = q)) as [<- | Hne].
              ** assert (f = qf) by congruence. subst f.
                 exists p, qf2. split; [exact Hq |]. split; [apply lookup_insert_eq |].
                 split; [unfold qf2; cbn; lia |]. rewrite Hb2, Hbq. reflexivity.
              ** exists q, f. split; [exact Hq |]. rewrite lookup_insert_ne by exact Hne. auto.
           ++ intros (q & f & Hq & Hqh & Hk & Hbq). destruct (decide (p = q)) as [<- | Hne].
              ** rewrite lookup_insert_eq in Hqh. injection Hqh as <-.
                 exists p, qf. split; [exact Hq |]. split; [exact Hh |].
                 split; [unfold qf2 in Hk; cbn in Hk; lia |].
                 rewrite Hb2 in Hbq. replace (mnum =? m) with false in Hbq by lia.
                 rewrite orb_false_r in Hbq. exact Hbq.
              ** rewrite lookup_insert_ne in Hqh by exact Hne. exists q, f. auto.
      * intros m Hm. destruct (Z.eq_dec mnum m) as [<- | Hnm].
        -- rewrite !aget_aset_same. unfold FD_SET.
           rewrite popcount_setbit by assumption. rewrite (eo_count w He mnum Hmi). reflexivity.
        -- rewrite !aget_aset_other by (lia || exact Hnm). apply (eo_count w He m Hm).
    + constructor; unfold q2;
        cbn [sel tried_fd_last results enabled tried_count pend_count pend_mnum pend_fd
             with_enabled].
      * apply (bo_last _ Hb).
      * intros m x Hm Hx. destruct (bo_bits _ Hb m x Hm Hx) as (H1 & H2 & H3).
        split; [exact H1 |]. split; [| exact H3].
        destruct (Z.eq_dec mnum m) as [<- | Hnm].
        -- rewrite aget_aset_same. unfold FD_SET. rewrite Z.setbit_eqb by lia.
           rewrite H2. apply orb_true_r.
        -- rewrite aget_aset_other by (lia || exact Hnm). exact H2.
      * apply (bo_count _ Hb).
      * apply (bo_tried _ Hb).
      * apply (bo_cursor _ Hb).
Qed.

(** ** qps_disable_modes *)

Lemma first_mnum_spec (mbits : Z) :
  0 < mbits <= 7 ->
  let m := qps_first_mnum mbits in
  0 <= m < 3 /\ Z.testbit mbits m = true
  /\ 0 <= Z.lxor mbits (qps_mbit m) <= 7
  /\ forall k, 0 <= k < 3 ->
               Z.testbit (Z.lxor mbits (qps_mbit m)) k = Z.testbit mbits k && negb (m =? k).
Proof.
  intros Hb.
  assert (Hc : mbits = 1 \/ mbits = 2 \/ mbits = 3 \/ mbits = 4 \/ mbits = 5
               \/ mbits = 6 \/ mbits = 7) by lia.
  destruct Hc as [-> | [-> | [-> | [-> | [-> | [-> | ->]]]]]]; cbv zeta;
    (split; [vm_compute; split; [discriminate | reflexivity] |]; split; [reflexivity |];
     split; [vm_compute; split; discriminate |];
     intros k Hk; destruct (mode_cases k Hk) as [-> | [-> | ->]]; reflexivity).
Qed.

(** One turn of the loop keeps the batch in order. *)
Lemma batch_ok_disable (q : qps_selection) (mnum fd : Z) :
  batch_ok q -> 0 <= mnum < 3 -> 0 <= fd < FD_SETSIZE ->
  let q1 := with_enabled q
              (aset (enabled_count q) mnum (aget (enabled_count q) mnum - 1))
              (aset (enabled q) mnum (FD_CLR fd (aget (enabled q) mnum))) in
  batch_ok
    (if negb (pend_count q1 =? 0) && negb (aget (tried_count q1) mnum =? 0)
        && FD_ISSET fd (aget (results q1) mnum)
     then with_batch q1 (tried_fd_last q1) (tried_count q1)
                     (aset (results q1) mnum (FD_CLR fd (aget (results q1) mnum)))
                     (pend_count q1 - 1) (pend_mnum q1) (pend_fd q1)
     else q1).
Proof.
  intros Hb Hm Hfd q1. unfold q1.
  cbn [tried_fd_last results enabled tried_count pend_count pend_mnum pend_fd with_enabled].
  unfold FD_ISSET, FD_CLR.
  assert (Hen : forall m x, 0 <= m < 3 -> (m <> mnum \/ x <> fd) ->
                  Z.testbit (aget (enabled q) m) x = true ->
                  Z.testbit (aget (aset (enabled q) mnum
                                        (Z.clearbit (aget (enabled q) mnum) fd)) m) x = true).
  { intros m x Hm' Hne Hx. destruct (Z.eq_dec mnum m) as [<- | Hnm].
    - rewrite aget_aset_same, Z.clearbit_eqb, Hx. simpl. apply negb_true_iff. lia.
    - rewrite aget_aset_other by (lia || exact Hnm). exact Hx. }
  destruct (Z.testbit (aget (results q) mnum) fd) eqn:Hres.
  - destruct (bo_bits q Hb mnum fd Hm Hres) as (_ & _ & Htr).
    assert (Hpc : pend_count q <> 0).
    { pose proof (bo_count q Hb) as Hc.
      pose proof (popcount_pos _ fd Hfd Hres) as Hp.
      pose proof (popcount_nonneg (at0 (results q))).
      pose proof (popcount_nonneg (at1 (results q))).
      pose proof (popcount_nonneg (at2 (results q))).
      destruct (mode_cases mnum Hm) as [-> | [-> | ->]]; unfold aget in Hp; simpl in Hp; lia. }
    replace (pend_count q =? 0) with false by lia.
    replace (aget (tried_count q) mnum =? 0) with false by lia. cbn [negb andb].
    constructor;
      cbn [tried_fd_last results enabled tried_count pend_count pend_mnum pend_fd
           with_enabled with_batch].
    + apply (bo_last q Hb).
    + intros m x Hm' Hx. rewrite testbit_aset_clear in Hx by lia.
      apply andb_prop in Hx. destruct Hx as [Hx Hne].
      destruct (bo_bits q Hb m x Hm' Hx) as (H1 & H2 & H3).
      split; [exact H1 |]. split; [| exact H3]. apply Hen; [exact Hm' | | exact H2].
      apply negb_true_iff, andb_false_iff in Hne. destruct Hne as [Hne | Hne]; lia.
    + rewrite (popcount_aset_clear (results q) mnum fd Hm Hfd Hres).
      rewrite (bo_count q Hb). reflexivity.
    + apply (bo_tried q Hb).
    + intros Hn. destruct (bo_cursor q Hb Hpc) as (C1 & C2 & C3 & C4 & C5).
      split; [exact C1 |]. split; [exact C2 |]. split; [exact C3 |]. split; [exact C4 |].
      intros y Hy. rewrite testbit_aset_clear by lia. rewrite C5 by exact Hy. reflexivity.
  - rewrite andb_false_r.
    constructor;
      cbn [tried_fd_last results enabled tried_count pend_count pend_mnum pend_fd
           with_enabled].
    + apply (bo_last q Hb).
    + intros m x Hm' Hx. destruct (bo_bits q Hb m x Hm' Hx) as (H1 & H2 & H3).
      split; [exact H1 |]. split; [| exact H3]. apply Hen; [exact Hm' | | exact H2].
      destruct (Z.eq_dec m mnum) as [-> | Hne]; [| left; exact Hne].
      right. intros ->. congruence.
    + apply (bo_count q Hb).
    + apply (bo_tried q Hb).
    + apply (bo_cursor q Hb).
Qed.

Lemma disable_loop_spec (h : gmap file_ptr qps_file) (v : vector) (fd : Z) :
  forall (fuel : nat) (q q' : qps_selection) (mbits : Z),
    0 <= mbits <= 7 ->
    modes_given_up h v fd mbits ->
    enabled_with h v q fd mbits ->
    (forall m, 0 <= m < 3 -> aget (enabled_count q) m = popcount (aget (enabled q) m)) ->
    batch_ok q ->
    disable_loop fuel fd q mbits = Ok q' ->
    enabled_with h v q' fd 0
    /\ (forall m, 0 <= m < 3 -> aget (enabled_count q') m = popcount (aget (enabled q') m))
    /\ batch_ok q'
    /\ files q' = files q /\ fd_count q' = fd_count q
    /\ fd_direct q' = fd_direct q /\ fd_last q' = fd_last q.
Proof.
  induction fuel as [| k IH]; intros q q' mbits Hr Hg He Hc Hb H.
  - simpl in H. destruct (Z.eqb_spec mbits 0) as [-> | N]; [| discriminate].
    injection H as <-.
    split; [exact He |]. split; [exact Hc |]. split; [exact Hb |]. repeat split; reflexivity.
  - cbn [disable_loop] in H. destruct (Z.eqb_spec mbits 0) as [-> | N].
    { injection H as <-.
      split; [exact He |]. split; [exact Hc |]. split; [exact Hb |]. repeat split; reflexivity. }
    destruct (first_mnum_spec mbits ltac:(lia)) as (Hm & Hbit & Hr' & Hbits').
    set (mnum := qps_first_mnum mbits) in *.
    apply bind_ok in H. destruct H as (u1 & _ & H).
    apply bind_ok in H. destruct H as (u2 & _ & H).
    apply bind_ok in H. destruct H as (u3 & Hfd & H). apply fd_index_ok in Hfd.
    apply bind_ok in H. destruct H as (u4 & Hset & H). apply ensure_ok in Hset.
    unfold FD_ISSET in Hset.
    pose proof (batch_ok_disable q mnum fd Hb Hm Hfd) as Hb2. cbv zeta in Hb2.
    match type of H with disable_loop k fd ?qq _ = _ => set (q2 := qq) in * end.
    assert (Hen2 : enabled q2 = aset (enabled q) mnum (FD_CLR fd (aget (enabled q) mnum))).
    { unfold q2. match goal with |- context [if ?c then _ else _] => destruct c end;
        reflexivity. }
    assert (Hcn2 : enabled_count q2
                   = aset (enabled_count q) mnum (aget (enabled_count q) mnum - 1)).
    { unfold q2. match goal with |- context [if ?c then _ else _] => destruct c end;
        reflexivity. }
    assert (Hfr2 : files q2 = files q /\ fd_count q2 = fd_count q
                   /\ fd_direct q2 = fd_direct q /\ fd_last q2 = fd_last q).
    { unfold q2. match goal with |- context [if ?c then _ else _] => destruct c end;
        repeat split; reflexivity. }
    destruct (IH q2 q' (Z.lxor mbits (qps_mbit mnum))) as (R1 & R2 & R3 & R4 & R5 & R6 & R7).
    + exact Hr'.
    + intros p qf m Hp Hh Hk Hm' Hbm. rewrite Hbits' in Hbm by exact Hm'.
      apply andb_prop in Hbm. apply (Hg p qf m Hp Hh Hk Hm'). tauto.
    + intros m x Hm'. rewrite Hen2. rewrite Hbits' by exact Hm'.
      destruct (Z.eq_dec mnum m) as [<- | Hnm].
      * rewrite aget_aset_same. unfold FD_CLR. rewrite Z.clearbit_eqb, andb_true_iff.
        rewrite (He mnum x Hm), Z.eqb_refl, andb_false_r. split.
        -- intros [[Hl | [-> _]] Hne]; [left; exact Hl |].
           rewrite Z.eqb_refl in Hne. discriminate.
        -- intros [(p & qf & Hp & Hh & Hk & Hbq) | [_ Hf]]; [| discriminate].
           split; [left; exists p, qf; auto |].
           apply negb_true_iff, Z.eqb_neq. intros ->.
           rewrite (Hg p qf mnum Hp Hh Hk Hm Hbit) in Hbq. discriminate.
      * rewrite aget_aset_other by (lia || exact Hnm). rewrite (He m x Hm').
        replace (mnum =? m) with false by lia. rewrite andb_true_r. reflexivity.
    + intros m Hm'. rewrite Hen2, Hcn2. destruct (Z.eq_dec mnum m) as [<- | Hnm].
      * rewrite !aget_aset_same. unfold FD_CLR.
        rewrite popcount_clearbit by assumption. rewrite (Hc mnum Hm). reflexivity.
      * rewrite !aget_aset_other by (lia || exact Hnm). apply Hc. exact Hm'.
    + exact Hb2.
    + exact H.
    + destruct Hfr2 as (F1 & F2 & F3 & F4).
      split; [exact R1 |]. split; [exact R2 |]. split; [exact R3 |].
      repeat split; congruence.
Qed.

Lemma land_bits_range (a b : Z) : 0 <= a <= 7 -> 0 <= b <= 7 -> 0 <= Z.land a b <= 7.
Proof.
  intros Ha Hb.
  destruct (bits_cases a Ha) as [-> | [-> | [-> | [-> | [-> | [-> | [-> | ->]]]]]]];
    destruct (bits_cases b Hb) as [-> | [-> | [-> | [-> | [-> | [-> | [-> | ->]]]]]]];
    vm_compute; split; discriminate.
Qed.

Lemma lxor_land_range (a b : Z) :
  0 <= a <= 7 -> 0 <= b <= 7 -> 0 <= Z.lxor b (Z.land a b) <= 7.
Proof.
  intros Ha Hb.
  destruct (bits_cases a Ha) as [-> | [-> | [-> | [-> | [-> | [-> | [-> | ->]]]]]]];
    destruct (bits_cases b Hb) as [-> | [-> | [-> | [-> | [-> | [-> | [-> | ->]]]]]]];
    vm_compute; split; discriminate.
Qed.

Lemma lxor_land_testbit (a b k : Z) :
  Z.testbit (Z.lxor b (Z.land a b)) k = Z.testbit b k && negb (Z.testbit a k).
Proof.
  rewrite Z.lxor_spec, Z.land_spec.
  destruct (Z.testbit a k); destruct (Z.testbit b k); reflexivity.
Qed.

Lemma with_file_enabled_same (qf : qps_file) : with_file_enabled qf (f_enabled_bits qf) = qf.
Proof. destruct qf. reflexivity. Qed.

(** qps_disable_modes, unfolded. *)
Lemma disable_modes_unfold (w w' : world) (p : file_ptr) (mbits : Z) (qf : qps_file) :
  heap w !! p = Some qf -> qps_disable_modes w p mbits = Ok w' ->
  0 <= mbits <= 7
  /\ this w' = this w
  /\ heap w' = <[p := with_file_enabled qf (Z.lxor (f_enabled_bits qf)
                                               (Z.land mbits (f_enabled_bits qf)))]> (heap w)
  /\ ((Z.land mbits (f_enabled_bits qf) = 0 /\ sel w' = sel w)
      \/ (Z.land mbits (f_enabled_bits qf) <> 0
          /\ same_selection w (f_selection qf) = true
          /\ disable_loop 3 (f_fd qf) (sel w) (Z.land mbits (f_enabled_bits qf))
             = Ok (sel w'))).
Proof.
  intros Hh H. unfold qps_disable_modes, deref in H. rewrite Hh in H. cbn [bind] in H.
  apply bind_ok in H. destruct H as (u & Hr & H). apply ensure_ok in Hr.
  unfold qps_all_mbits in Hr. split; [lia |].
  destruct (Z.eqb_spec (Z.land mbits (f_enabled_bits qf)) 0) as [E | N].
  - injection H as <-. split; [reflexivity |]. split; [reflexivity |]. left. auto.
  - unfold same_selection at 1 in H. cbn [this set_file] in H.
    fold (same_selection w (f_selection qf)) in H.
    destruct (same_selection w (f_selection qf)) eqn:Hs; [| discriminate].
    apply bind_ok in H. destruct H as (q' & Hloop & H). injection H as <-.
    split; [reflexivity |]. split; [reflexivity |]. right.
    split; [exact N |]. split; [reflexivity |]. exact Hloop.
Qed.

Lemma disable_modes_legal (w w' : world) (p : file_ptr) (mbits : Z) :
  legal w -> qps_disable_modes w p mbits = Ok w' -> legal w'.
Proof.
  intros Hl H. pose proof Hl as [Hf He Hb].
  destruct (heap w !! p) as [qf |] eqn:Hh;
    [| unfold qps_disable_modes, deref in H; rewrite Hh in H; discriminate].
  destruct (disable_modes_unfold w w' p mbits qf Hh H) as (Hr & Ht & Hheap & Hcase).
  set (mb := Z.land mbits (f_enabled_bits qf)) in *.
  set (qf' := with_file_enabled qf (Z.lxor (f_enabled_bits qf) mb)) in *.
  destruct Hcase as [[E Hsel] | (N & Hsame & Hloop)].
  - assert (w' = w) as ->; [| exact Hl].
    destruct w' as [t' q' h']. destruct w as [t q h]. cbn in *. subst t' q' h'.
    f_equal. unfold qf'. rewrite E, Z.lxor_0_r, with_file_enabled_same.
    apply insert_id. exact Hh.
  - destruct (attached_in_files w p qf Hf Hh Hsame) as [Hp (Hs & Hfdr & Hbr & Hacts)].
    unfold qps_all_mbits in Hbr.
    assert (Hmb : 0 <= mb <= 7) by (apply land_bits_range; assumption).
    assert (Hb' : forall k, Z.testbit (f_enabled_bits qf') k
                            = Z.testbit (f_enabled_bits qf) k && negb (Z.testbit mbits k)).
    { intros k. unfold qf', mb. cbn [f_enabled_bits with_file_enabled].
      apply lxor_land_testbit. }
    assert (Hmbk : forall k, Z.testbit mb k = Z.testbit mbits k && Z.testbit (f_enabled_bits qf) k).
    { intros k. unfold mb. apply Z.land_spec. }
    assert (Hok' : file_ok (this w) qf').
    { split; [exact Hs |]. split; [exact Hfdr |].
      split; [unfold qf', mb; cbn [f_enabled_bits with_file_enabled]; unfold qps_all_mbits;
              apply lxor_land_range; assumption |].
      intros m Hm Hbm. rewrite Hb' in Hbm. apply andb_prop in Hbm.
      apply Hacts; tauto. }
    destruct (disable_loop_spec (<[p := qf']> (heap w)) (files (sel w)) (f_fd qf)
                                3 (sel w) (sel w') mb Hmb)
      as (R1 & R2 & R3 & R4 & R5 & R6 & R7).
    + intros q f m Hq Hqh Hk Hm Hbm. destruct (decide (p = q)) as [<- | Hne].
      * rewrite lookup_insert_eq in Hqh. injection Hqh as <-.
        rewrite Hb'. rewrite Hmbk in Hbm. apply andb_prop in Hbm. destruct Hbm as [-> _].
        apply andb_false_r.
      * rewrite lookup_insert_ne in Hqh by exact Hne. exfalso. apply Hne.
        apply (files_key_inj w p q Hf Hp Hq).
        rewrite (fd_of_some _ _ _ Hh), (fd_of_some _ _ _ Hqh). congruence.
    + intros m x Hm. rewrite (eo_bits w He m x Hm). split.
      * intros (q & f & Hq & Hqh & Hk & Hbq). destruct (decide (p = q)) as [<- | Hne].
        -- assert (f = qf) by congruence. subst f.
           destruct (Z.testbit mbits m) eqn:Hmm.
           ++ right. split; [congruence |]. rewrite Hmbk, Hmm, Hbq. reflexivity.
           ++ left. exists p, qf'. split; [exact Hq |]. split; [apply lookup_insert_eq |].
              split; [exact Hk |]. rewrite Hb', Hbq, Hmm. reflexivity.
        -- left. exists q, f. split; [exact Hq |]. rewrite lookup_insert_ne by exact Hne. auto.
      * intros [(q & f & Hq & Hqh & Hk & Hbq) | [-> Hbm]].
        -- destruct (decide (p = q)) as [<- | Hne].
           ++ rewrite lookup_insert_eq in Hqh. injection Hqh as <-.
              rewrite Hb' in Hbq. apply andb_prop in Hbq.
              exists p, qf. split; [exact Hq |]. split; [exact Hh |]. split; [exact Hk | tauto].
           ++ rewrite lookup_insert_ne in Hqh by exact Hne. exists q, f. auto.
        -- rewrite Hmbk in Hbm. apply andb_prop in Hbm.
           exists p, qf. split; [exact Hp |]. split; [exact Hh |]. split; [reflexivity | tauto].
    + apply (eo_count w He).
    + exact Hb.
    + exact Hloop.
    + destruct w' as [t' q' h']. cbn [this sel heap] in *. subst t' h'.
      constructor.
      * apply (files_ok_update w q' p qf qf'); try assumption; try reflexivity.
        intros _. exact Hok'.
      * constructor; cbn [this sel heap].
        -- intros m x Hm. rewrite (R1 m x Hm). rewrite R4. split.
           ++ intros [Hleft | [_ Hz]]; [exact Hleft | rewrite Z.bits_0 in Hz; discriminate].
           ++ intros Hleft. left. exact Hleft.
        -- exact R2.
      * exact R3.
Qed.

(** ** Inserting into and deleting from the vector *)

Lemma elem_take_drop {A} (x : A) (n : nat) (l : list A) :
  x ∈ l <-> x ∈ take n l \/ x ∈ drop n l.
Proof. rewrite <- elem_of_app, take_drop. reflexivity. Qed.

Lemma records_take_drop (n : nat) (v : vector) :
  length (records v) = (length (records (take n v)) + length (records (drop n v)))%nat.
Proof. rewrite <- length_app, <- records_app, take_drop. reflexivity. Qed.

Lemma sparse_insert_at (h : gmap file_ptr qps_file) (v : vector) (n : nat) (p : file_ptr) :
  sparse_shape h v ->
  Forall (fun k => k < fd_of h p) (item_key h <$> take n v) ->
  Forall (fun k => fd_of h p < k) (item_key h <$> drop n v) ->
  sparse_shape h (take n v ++ Some p :: drop n v)
  /\ (forall q, Some q ∈ take n v ++ Some p :: drop n v <-> q = p \/ Some q ∈ v)
  /\ length (records (take n v ++ Some p :: drop n v)) = S (length (records v)).
Proof.
  intros [Hnn Hs] Hlo Hhi.
  rewrite <- (take_drop n v) in Hs. rewrite fmap_app in Hs.
  apply StronglySorted_app in Hs. destruct Hs as (Hcross & Hs1 & Hs2).
  split; [split |].
  - intros Hin. apply elem_of_app in Hin. destruct Hin as [Hin | Hin].
    + apply Hnn. eapply subseteq_take. exact Hin.
    + apply elem_of_cons in Hin. destruct Hin as [Hin | Hin]; [discriminate |].
      apply Hnn. eapply subseteq_drop. exact Hin.
  - rewrite fmap_app, fmap_cons. apply StronglySorted_app. split; [| split].
    + intros x1 x2 H1 H2. apply elem_of_cons in H2. destruct H2 as [-> | H2].
      * rewrite Forall_forall in Hlo. apply Hlo. exact H1.
      * apply Hcross; assumption.
    + exact Hs1.
    + apply SSorted_cons; [exact Hs2 | exact Hhi].
  - split.
    + intros q. rewrite elem_of_app, elem_of_cons, (elem_take_drop (Some q) n v). split.
      * intros [H | [[= ->] | H]]; auto.
      * intros [-> | [H | H]]; auto.
    + rewrite (records_take_drop n v), !records_app. simpl.
      rewrite !length_app. simpl. lia.
Qed.

Lemma vector_insert_item_le (v : vector) (n : nat) (x : option file_ptr) :
  (n <= length v)%nat -> vector_insert_item v n x = take n v ++ x :: drop n v.
Proof. intros H. unfold vector_insert_item. rewrite vector_extend_le by exact H. reflexivity. Qed.

(** The insert of qps_file_lookup_fd into the list form. *)
Lemma sparse_insert_here (h : gmap file_ptr qps_file) (v : vector) (i : nat) (ret : Z)
      (p : file_ptr) :
  sparse_shape h v ->
  (ret > 0 /\ (i < length v)%nat
   /\ Forall (fun k => k < fd_of h p) (item_key h <$> take (S i) v)
   /\ Forall (fun k => fd_of h p < k) (item_key h <$> drop (S i) v))
  \/ (ret < 0 /\ i = O /\ Forall (fun k => fd_of h p < k) (item_key h <$> v)) ->
  sparse_shape h (vector_insert_item_here v i ret (Some p))
  /\ (forall q, Some q ∈ vector_insert_item_here v i ret (Some p) <-> q = p \/ Some q ∈ v)
  /\ length (records (vector_insert_item_here v i ret (Some p))) = S (length (records v)).
Proof.
  intros Hs [(Hr & Hi & Hlo & Hhi) | (Hr & -> & Hall)]; unfold vector_insert_item_here.
  - replace (ret =? 0) with false by lia. replace (ret >? 0) with true by lia.
    rewrite vector_insert_item_le by lia. apply sparse_insert_at; assumption.
  - replace (ret =? 0) with false by lia. replace (ret >? 0) with false by lia.
    rewrite vector_insert_item_le by lia. apply sparse_insert_at; [exact Hs | |].
    + rewrite take_0. constructor.
    + rewrite drop_0. exact Hall.
Qed.

(** The set of qps_file_lookup_fd into the array form, at a free slot. *)
Lemma dense_set_item (h : gmap file_ptr qps_file) (v : vector) (i : nat) (p : file_ptr) :
  dense_shape h v -> fd_of h p = Z.of_nat i ->
  (forall q, v !! i <> Some (Some q)) ->
  dense_shape h (vector_set_item v i (Some p))
  /\ (forall q, Some q ∈ vector_set_item v i (Some p) <-> q = p \/ Some q ∈ v)
  /\ length (records (vector_set_item v i (Some p))) = S (length (records v)).
Proof.
  intros [Hidx Hlast] Hk Hfree. split; [split |].
  - intros j q Hj. apply vector_set_item_lookup in Hj.
    destruct Hj as [[<- [= <-]] | [_ Hj]]; [exact Hk | apply Hidx; exact Hj].
  - rewrite last_lookup, vector_set_item_length.
    destruct (decide (pred (Nat.max (length v) (S i)) = i)) as [E | N].
    + rewrite E. unfold vector_set_item.
      rewrite list_lookup_insert_eq by (rewrite vector_extend_length; lia). discriminate.
    + unfold vector_set_item. rewrite list_lookup_insert_ne by congruence.
      assert (Hlen : (S i < length v)%nat) by lia.
      replace (Nat.max (length v) (S i)) with (length v) by lia.
      rewrite vector_extend_lookup. rewrite decide_True by lia.
      rewrite <- last_lookup. exact Hlast.
  - split.
    + intros q. rewrite !list_elem_of_lookup. split.
      * intros [j Hj]. apply vector_set_item_lookup in Hj.
        destruct Hj as [[_ [= <-]] | [_ Hj]]; [left; reflexivity | right; eauto].
      * intros [-> | [j Hj]].
        -- exists i. apply vector_set_item_lookup. left. auto.
        -- exists j. apply vector_set_item_lookup. right. split; [| exact Hj].
           intros <-. apply (Hfree q). exact Hj.
    + unfold vector_set_item. rewrite records_insert_vacant; [rewrite records_extend; reflexivity |].
      rewrite vector_extend_lookup. destruct (decide (i < length v)%nat) as [L | G].
      * destruct (lookup_lt_is_Some_2 v i L) as [[q |] Hq]; [| exact Hq].
        exfalso. apply (Hfree q). exact Hq.
      * rewrite decide_True by lia. reflexivity.
Qed.

Lemma sparse_delete (h : gmap file_ptr qps_file) (v : vector) (i : nat) (p : file_ptr) :
  sparse_shape h v -> v !! i = Some (Some p) ->
  sparse_shape h (delete i v)
  /\ (forall q, Some q ∈ delete i v <-> Some q ∈ v /\ q <> p)
  /\ S (length (records (delete i v))) = length (records v).
Proof.
  intros [Hnn Hs] Hi.
  pose proof (take_drop_middle v i (Some p) Hi) as Hv.
  rewrite delete_take_drop.
  assert (Hs' : StronglySorted Z.lt (item_key h <$> take i v ++ Some p :: drop (S i) v))
    by (rewrite Hv; exact Hs).
  rewrite fmap_app, fmap_cons in Hs'. apply StronglySorted_app in Hs'.
  destruct Hs' as (Hcross & Hs1 & Hs2). apply StronglySorted_cons in Hs2.
  destruct Hs2 as [Hgt Hs2].
  assert (Hmem : forall q, Some q ∈ v <-> Some q ∈ take i v \/ q = p \/ Some q ∈ drop (S i) v).
  { intros q. rewrite <- Hv at 1. rewrite elem_of_app, elem_of_cons.
    split; [intros [H | [[= ->] | H]]; auto | intros [H | [-> | H]]; auto]. }
  assert (Hnp : Some p ∉ take i v ++ drop (S i) v).
  { intros Hin. apply elem_of_app in Hin. destruct Hin as [Hin | Hin].
    - pose proof (Hcross (item_key h (Some p)) (item_key h (Some p))
                         (list_elem_of_fmap_2 _ _ _ Hin) (list_elem_of_here _ _)). lia.
    - rewrite Forall_forall in Hgt.
      pose proof (Hgt _ (list_elem_of_fmap_2 (item_key h) _ _ Hin)). simpl in *. lia. }
  split; [split |].
  - intros Hin. apply Hnn. rewrite <- Hv. apply elem_of_app in Hin.
    apply elem_of_app. destruct Hin as [Hin | Hin]; [left; exact Hin |].
    right. apply list_elem_of_further. exact Hin.
  - rewrite fmap_app. apply StronglySorted_app. split; [| split; assumption].
    intros x1 x2 H1 H2. apply Hcross; [exact H1 |]. apply list_elem_of_further. exact H2.
  - split.
    + intros q. rewrite Hmem, elem_of_app. split.
      * intros H. split; [tauto |]. intros ->. apply Hnp. apply elem_of_app. exact H.
      * intros [[H | [-> | H]] Hne]; [auto | contradiction | auto].
    + assert (Hc : length (records v)
                   = length (records (take i v ++ Some p :: drop (S i) v)))
        by (rewrite Hv; reflexivity).
      rewrite Hc, !records_app. simpl. rewrite !length_app. simpl. lia.
Qed.

Lemma dense_unset (h : gmap file_ptr qps_file) (v : vector) (i : nat) (p : file_ptr) :
  dense_shape h v -> v !! i = Some (Some p) ->
  dense_shape h (vector_trim (<[i := None]> v))
  /\ (forall q, Some q ∈ vector_trim (<[i := None]> v) <-> Some q ∈ v /\ q <> p)
  /\ S (length (records (vector_trim (<[i := None]> v)))) = length (records v).
Proof.
  intros [Hidx Hlast] Hi.
  assert (Hil : (i < length v)%nat) by (eapply lookup_lt_Some; exact Hi).
  assert (Hlk : forall j q, <[i := None]> v !! j = Some (Some q)
                            <-> v !! j = Some (Some q) /\ j <> i).
  { intros j q. destruct (decide (i = j)) as [<- | Hne].
    - rewrite list_lookup_insert_eq by exact Hil. split; [discriminate | intros [_ H]; contradiction].
    - rewrite list_lookup_insert_ne by exact Hne. split; [intros H; auto | tauto]. }
  split; [split |].
  - intros j q Hj. apply vector_trim_lookup_some, Hlk in Hj. apply Hidx. tauto.
  - apply vector_trim_last.
  - split.
    + intros q. rewrite vector_trim_elem, !list_elem_of_lookup. split.
      * intros [j Hj]. apply Hlk in Hj. destruct Hj as [Hj Hne]. split; [eauto |].
        intros ->. apply Hne. pose proof (Hidx _ _ Hj). pose proof (Hidx _ _ Hi). lia.
      * intros [[j Hj] Hne]. exists j. apply Hlk. split; [exact Hj |].
        intros ->. congruence.
    + rewrite vector_trim_records. apply (records_insert_occupied v i p Hi).
Qed.

(** ** The change from the list form to the array form *)

Lemma move_to_direct_spec (w : world) :
  forall (tmp : vector) (fuel : nat) (acc : vector),
    (length tmp < fuel)%nat ->
    sparse_shape (heap w) tmp ->
    (forall q, Some q ∈ tmp -> exists qf, heap w !! q = Some qf /\ 0 <= f_fd qf) ->
    dense_shape (heap w) acc ->
    (forall q i r, Some q ∈ tmp -> acc !! i = Some (Some r) -> fd_of (heap w) q < Z.of_nat i) ->
    exists acc',
      move_to_direct fuel w tmp acc = Ok acc'
      /\ dense_shape (heap w) acc'
      /\ (forall q, Some q ∈ acc' <-> Some q ∈ acc \/ Some q ∈ tmp)
      /\ length (records acc') = (length (records acc) + length (records tmp))%nat.
Proof.
  induction tmp as [| x t IH] using rev_ind; intros fuel acc Hfuel Hs Hex Hd Hab.
  - destruct fuel as [| k]; [simpl in Hfuel; lia |]. exists acc. simpl.
    split; [reflexivity | split; [exact Hd | split]].
    + intros q. split; [auto | intros [H | H]; [exact H | inversion H]].
    + lia.
  - destruct Hs as [Hnn Hsort].
    destruct x as [p |]; [| exfalso; apply Hnn; apply elem_of_app; right; constructor].
    destruct fuel as [| k]; [simpl in Hfuel; lia |].
    rewrite length_app in Hfuel. simpl in Hfuel.
    destruct (Hex p) as (qf & Hp & Hfd); [apply elem_of_app; right; constructor |].
    pose proof (fd_of_some _ _ _ Hp) as Hkp.
    rewrite fmap_app in Hsort. apply StronglySorted_app in Hsort.
    destruct Hsort as (Hcross & Hs1 & _).
    assert (Hfree : forall r, acc !! Z.to_nat (f_fd qf) <> Some (Some r)).
    { intros r Hr. pose proof (Hab p _ r ltac:(apply elem_of_app; right; constructor) Hr). lia. }
    destruct (dense_set_item (heap w) acc (Z.to_nat (f_fd qf)) p Hd ltac:(lia) Hfree)
      as (Hd' & Hmem' & Hcnt').
    destruct (IH k (vector_set_item acc (Z.to_nat (f_fd qf)) (Some p))) as (acc' & E & Hd2 & Hm2 & Hc2).
    + lia.
    + split; [intros Hin; apply Hnn; apply elem_of_app; left; exact Hin | exact Hs1].
    + intros q Hq. apply Hex. apply elem_of_app. left. exact Hq.
    + exact Hd'.
    + intros q i r Hq Hi. apply vector_set_item_lookup in Hi.
      destruct Hi as [[<- _] | [_ Hi]].
      * pose proof (Hcross (item_key (heap w) (Some q)) (item_key (heap w) (Some p))
                           (list_elem_of_fmap_2 _ _ _ Hq)
                           ltac:(simpl; apply list_elem_of_here)) as Hlt.
        simpl in Hlt. lia.
      * apply (Hab q i r); [apply elem_of_app; left; exact Hq | exact Hi].
    + exists acc'. split; [| split; [exact Hd2 | split]].
      * cbn [move_to_direct]. unfold vector_pop_item.
        rewrite vector_trim_id by (rewrite last_snoc; discriminate).
        rewrite last_snoc, removelast_last. cbn [default id].
        unfold deref. rewrite Hp. cbn [bind].
        replace (f_fd qf <? 0) with false by lia. exact E.
      * intros q. rewrite Hm2, Hmem', elem_of_app, list_elem_of_singleton.
        split; [intros [[-> | H] | H]; auto | intros [H | [H | [= ->]]]; auto].
      * rewrite Hc2, Hcnt', records_snoc_some, length_app. simpl. lia.
Qed.

(** ** Attach keeps the state legal *)

Lemma batch_ok_membership (q : qps_selection) (n : Z) (direct : bool) (v : vector) (x : Z) :
  batch_ok q -> batch_ok (with_membership q n direct v x).
Proof. intros [H1 H2 H3 H4 H5]. constructor; assumption. Qed.

Lemma attach_legal (w : world) (p : file_ptr) (qf newrec : qps_file) (v' : vector)
      (direct' : bool) :
  legal w -> heap w !! p = Some qf -> f_selection qf = None ->
  file_ok (this w) newrec -> f_enabled_bits newrec = 0 ->
  (if direct' then dense_shape (<[p := newrec]> (heap w)) v'
   else sparse_shape (<[p := newrec]> (heap w)) v') ->
  (forall q, Some q ∈ v' <-> q = p \/ Some q ∈ files (sel w)) ->
  length (records v') = S (length (records (files (sel w)))) ->
  legal (World (this w)
               (with_membership (sel w) (fd_count (sel w) + 1) direct' v'
                  (if f_fd newrec >? fd_last (sel w) then f_fd newrec else fd_last (sel w)))
               (<[p := newrec]> (heap w))).
Proof.
  intros [Hf He Hb] Hp Hsel Hnew Hbits Hshape Hmem Hcnt.
  assert (Hnotin : Some p ∉ files (sel w)).
  { intros Hin. destruct (fo_heap _ Hf p Hin) as (qf' & Hq' & Hok & _). congruence. }
  assert (Hother : forall q, Some q ∈ files (sel w) -> q <> p) by (intros q Hq ->; auto).
  assert (Hkp : fd_of (<[p := newrec]> (heap w)) p = f_fd newrec).
  { unfold fd_of. rewrite lookup_insert_eq. reflexivity. }
  assert (Hko : forall q, q <> p -> fd_of (<[p := newrec]> (heap w)) q = fd_of (heap w) q).
  { intros q Hq. unfold fd_of. rewrite lookup_insert_ne by congruence. reflexivity. }
  split.
  - constructor; cbn [sel heap this files fd_count fd_direct fd_last with_membership].
    + intros q Hq. apply Hmem in Hq. destruct Hq as [-> | Hq].
      * exists newrec. rewrite lookup_insert_eq. auto.
      * rewrite lookup_insert_ne by (apply not_eq_sym, Hother; exact Hq).
        apply (fo_heap _ Hf). exact Hq.
    + intros q qf' Hq Hs. apply Hmem. destruct (decide (q = p)) as [-> | Hne]; [auto |].
      right. rewrite lookup_insert_ne in Hq by congruence. eapply (fo_back _ Hf); eassumption.
    + exact Hshape.
    + rewrite Hcnt, (fo_count _ Hf). lia.
    + destruct (fo_last _ Hf) as [Hle Hex]. split.
      * intros q Hq. apply Hmem in Hq. destruct Hq as [-> | Hq].
        -- rewrite Hkp. destruct (f_fd newrec >? fd_last (sel w)) eqn:E; lia.
        -- rewrite Hko by (apply Hother; exact Hq). pose proof (Hle q Hq).
           destruct (f_fd newrec >? fd_last (sel w)) eqn:E; lia.
      * left. destruct (f_fd newrec >? fd_last (sel w)) eqn:E.
        -- exists p. split; [apply Hmem; auto | exact Hkp].
        -- destruct Hex as [(q & Hq & Hk) | [H0 Hnil]].
           ++ exists q. split; [apply Hmem; auto |]. rewrite Hko by (apply Hother; exact Hq).
              exact Hk.
           ++ exists p. split; [apply Hmem; auto |]. rewrite Hkp.
              destruct Hnew as (_ & Hr & _). lia.
  - constructor; cbn [sel heap this files enabled enabled_count with_membership].
    + intros m x Hm. rewrite (eo_bits _ He m x Hm). split.
      * intros (q & qf' & Hq & Hh & Hx & Ht). exists q, qf'.
        split; [apply Hmem; auto |].
        rewrite lookup_insert_ne by (apply not_eq_sym, Hother; exact Hq). auto.
      * intros (q & qf' & Hq & Hh & Hx & Ht). apply Hmem in Hq.
        destruct Hq as [-> | Hq].
        -- rewrite lookup_insert_eq in Hh. injection Hh as <-.
           rewrite Hbits, Z.bits_0 in Ht. discriminate.
        -- exists q, qf'. rewrite lookup_insert_ne in Hh by (apply not_eq_sym, Hother; exact Hq).
           auto.
    + apply (eo_count _ He).
  - apply batch_ok_membership. exact Hb.
Qed.

Lemma deref_ok (w : world) (p : file_ptr) (qf : qps_file) :
  deref w p = Ok qf -> heap w !! p = Some qf.
Proof. unfold deref. destruct (heap w !! p); [intros [= ->]; reflexivity | discriminate]. Qed.

Lemma attached_record_ok (a : sel_ptr) (fd info : Z) (qf : qps_file) :
  0 <= fd < FD_SETSIZE -> file_ok a (attached_record a fd info qf).
Proof.
  intros Hfd. unfold file_ok, attached_record, qps_all_mbits. cbn.
  split; [reflexivity | split; [exact Hfd | split; [lia |]]].
  intros m _ H. rewrite Z.bits_0 in H. discriminate.
Qed.

(** What qps_add_file does to a state whose files vector is in order. *)
Lemma add_file_unfold (w w' : world) (p : file_ptr) (fd info : Z) :
  files_ok w -> qps_add_file w p fd info = Ok w' ->
  exists qf v',
    heap w !! p = Some qf /\ f_selection qf = None /\ 0 <= fd < FD_SETSIZE
    /\ w' = World (this w) (attached_selection (sel w) fd v')
                  (<[p := attached_record (this w) fd info qf]> (heap w))
    /\ (if fd_direct (attached_selection (sel w) fd v')
        then dense_shape (<[p := attached_record (this w) fd info qf]> (heap w)) v'
        else sparse_shape (<[p := attached_record (this w) fd info qf]> (heap w)) v')
    /\ (forall q, Some q ∈ v' <-> q = p \/ Some q ∈ files (sel w))
    /\ length (records v') = S (length (records (files (sel w))))
    /\ (fd_direct (sel w) = true ->
        v' = vector_set_item (files (sel w)) (Z.to_nat fd) (Some p)
        /\ forall q, files (sel w) !! Z.to_nat fd <> Some (Some q))
    /\ (fd_direct (sel w) = false -> fd_count (sel w) <= 9 ->
        exists n, (n <= length (files (sel w)))%nat
                  /\ v' = take n (files (sel w)) ++ Some p :: drop n (files (sel w))
                  /\ Forall (fun k => k < fd) (item_key (heap w) <$> take n (files (sel w)))
                  /\ Forall (fun k => fd < k) (item_key (heap w) <$> drop n (files (sel w)))).
Proof.
  intros Hf H. unfold qps_add_file in H.
  apply bind_ok in H. destruct H as (qf & Hd & H). apply deref_ok in Hd.
  apply bind_ok in H. destruct H as (u & Hn & H). apply ensure_ok in Hn.
  apply bool_decide_eq_true in Hn.
  apply bind_ok in H. destruct H as (r & Hl & H). injection H as <-.
  fold (attached_record (this w) fd info qf) in Hl.
  set (newrec := attached_record (this w) fd info qf) in *.
  set (h1 := <[p := newrec]> (heap w)).
  set (w1 := set_file w p newrec) in *.
  assert (Hnotin : Some p ∉ files (sel w)).
  { intros Hin. destruct (fo_heap _ Hf p Hin) as (qf' & Hq' & Hok & _). congruence. }
  assert (Hkp : fd_of h1 p = fd).
  { unfold fd_of, h1. rewrite lookup_insert_eq. reflexivity. }
  assert (Hko : forall q, Some q ∈ files (sel w) -> fd_of h1 q = fd_of (heap w) q).
  { intros q Hq. unfold fd_of, h1. rewrite lookup_insert_ne by (intros ->; auto). reflexivity. }
  pose proof (shape_ext (heap w) h1 (files (sel w)) (fd_direct (sel w)) Hko (fo_shape _ Hf))
    as Hshape1.
  unfold qps_file_lookup_fd in Hl.
  apply bind_ok in Hl. destruct Hl as (u1 & Hr & Hl). apply ensure_ok in Hr.
  assert (Hfd : 0 <= fd < FD_SETSIZE) by lia. clear Hr.
  apply bind_ok in Hl. destruct Hl as ([i ret] & Hir & Hl).
  apply bind_ok in Hl. destruct Hl as (wq & Hwq & Hl).
  apply bind_ok in Hl. destruct Hl as (u2 & _ & Hl). injection Hl as <-.
  cbn [fst snd] in Hwq.
  apply bind_ok in Hwq. destruct Hwq as (u3 & Hnull & Hwq). apply ensure_ok in Hnull.
  apply bind_ok in Hwq. destruct Hwq as (cv & Hcv & Hwq). injection Hwq as <-.
  cbn [fst snd]. change (sel w1) with (sel w) in *. change (heap w1) with h1 in *.
  exists qf. 
  destruct (fd_direct (sel w)) eqn:Hdir.
  - (* the array form *)
    injection Hir as <- <-. cbn [negb andb] in Hcv. injection Hcv as <-. cbn [fst snd].
    cbn [Z.eqb] in Hnull.
    assert (Hfree : forall q, files (sel w) !! Z.to_nat fd <> Some (Some q)).
    { apply vector_get_item_none. destruct (vector_get_item (files (sel w)) (Z.to_nat fd));
        [discriminate | reflexivity]. }
    destruct (dense_set_item h1 (files (sel w)) (Z.to_nat fd) p Hshape1 ltac:(lia) Hfree)
      as (Hd' & Hm' & Hc').
    exists (vector_set_item (files (sel w)) (Z.to_nat fd) (Some p)).
    unfold attached_selection. rewrite Hdir. cbn [orb fd_direct with_membership].
    split; [exact Hd |]. split; [exact Hn |]. split; [exact Hfd |].
    split; [reflexivity |]. split; [exact Hd' |]. split; [exact Hm' |]. split; [exact Hc' |].
    split; [intros _; split; [reflexivity | exact Hfree] | discriminate].
  - (* the list form *)
    assert (Hex1 : items_exist h1 (files (sel w))).
    { intros item Hin. destruct item as [q |]; [| destruct Hshape1 as [Hnn _]; contradiction].
      destruct (fo_heap _ Hf q Hin) as (qf' & Hq' & _). exists q, qf'.
      split; [reflexivity |]. unfold h1. rewrite lookup_insert_ne by (intros ->; auto). exact Hq'. }
    destruct (vector_bsearch_spec w1 fd (files (sel w)) Hex1 (proj2 Hshape1))
      as (i' & ret' & Hbs & Hcases).
    rewrite Hbs in Hir. injection Hir as -> ->.
    destruct Hcases as [[-> Hhit] | Hmiss].
    { exfalso. cbn [Z.eqb] in Hnull. rewrite list_lookup_fmap in Hhit.
      destruct (files (sel w) !! i) as [[q |] |] eqn:Hi; try discriminate.
      - apply vector_get_item_some in Hi. rewrite Hi in Hnull. discriminate.
      - destruct Hshape1 as [Hnn _]. apply Hnn. eapply list_elem_of_lookup_2. exact Hi. }
    assert (Hins := sparse_insert_here h1 (files (sel w)) i ret p Hshape1).
    rewrite Hkp in Hins. specialize (Hins Hmiss). destruct Hins as (Hs' & Hm' & Hc').
    assert (Hfresh : forall q, Some q ∈ files (sel w) -> fd_of h1 q <> fd).
    { intros q Hq. apply (elem_take_drop _ (S i)) in Hq.
      destruct Hmiss as [(_ & _ & Hlo & Hhi) | (_ & _ & Hall)].
      - rewrite Forall_forall in Hlo, Hhi. destruct Hq as [Hq | Hq].
        + pose proof (Hlo _ (list_elem_of_fmap_2 (item_key h1) _ _ Hq)). simpl in *. lia.
        + pose proof (Hhi _ (list_elem_of_fmap_2 (item_key h1) _ _ Hq)). simpl in *. lia.
      - rewrite Forall_forall in Hall. apply elem_take_drop in Hq.
        pose proof (Hall _ (list_elem_of_fmap_2 (item_key h1) _ _ Hq)). simpl in *. lia. }
    cbn [negb andb] in Hcv.
    destruct (fd_count (sel w) >? 9) eqn:Hbig.
    + (* change to the array form first *)
      apply bind_ok in Hcv. destruct Hcv as (v2 & Hmv & Hcv). injection Hcv as <-.
      cbn [fst snd].
      destruct (move_to_direct_spec w1 (files (sel w)) (S (length (files (sel w)))) [])
        as (acc' & E & Hd2 & Hm2 & Hc2).
      * lia.
      * exact Hshape1.
      * intros q Hq. destruct (fo_heap _ Hf q Hq) as (qf' & Hq' & _ & Hrange & _).
        exists qf'. split; [| lia]. change (heap w1) with h1. unfold h1.
        rewrite lookup_insert_ne by (intros ->; auto). exact Hq'.
      * split; [intros j q Hj; rewrite lookup_nil in Hj; discriminate | discriminate].
      * intros q j r _ Hj. rewrite lookup_nil in Hj. discriminate.
      * rewrite E in Hmv. injection Hmv as ->. change (heap w1) with h1 in *.
        assert (Hfree : forall q, v2 !! Z.to_nat fd <> Some (Some q)).
        { intros q Hq. pose proof (proj1 Hd2 _ _ Hq) as Hk.
          apply (Hfresh q); [| lia].
          destruct (proj1 (Hm2 q)) as [Hin | Hin];
            [eapply list_elem_of_lookup_2; exact Hq | inversion Hin | exact Hin]. }
        destruct (dense_set_item h1 v2 (Z.to_nat fd) p Hd2 ltac:(lia) Hfree) as (Hd' & Hm'' & Hc'').
        exists (vector_insert_item_here v2 (Z.to_nat fd) 0 (Some p)).
        unfold attached_selection. rewrite Hdir, Hbig. cbn [negb andb orb fd_direct with_membership].
        unfold vector_insert_item_here. cbn [Z.eqb].
        split; [exact Hd |]. split; [exact Hn |]. split; [exact Hfd |].
        split; [reflexivity |]. split; [exact Hd' |].
        split; [| split; [| split; [discriminate | intros _ Hc; lia]]].
        -- intros q. rewrite Hm'', Hm2. split; [intros [H | [H | H]]; auto; inversion H | intros [H | H]; auto].
        -- rewrite Hc'', Hc2. reflexivity.
    + injection Hcv as <-. cbn [fst snd].
      exists (vector_insert_item_here (files (sel w)) i ret (Some p)).
      unfold attached_selection. rewrite Hdir, Hbig. cbn [negb andb orb fd_direct with_membership].
      split; [exact Hd |]. split; [exact Hn |]. split; [exact Hfd |].
      split; [reflexivity |]. split; [exact Hs' |]. split; [exact Hm' |]. split; [exact Hc' |].
      split; [discriminate |]. intros _ _.
      assert (Hkeys : item_key h1 <$> files (sel w) = item_key (heap w) <$> files (sel w))
        by (apply item_key_ext; exact Hko).
      assert (Hkt : forall n, item_key h1 <$> take n (files (sel w))
                              = item_key (heap w) <$> take n (files (sel w))).
      { intros n. apply item_key_ext. intros q Hq. apply Hko. eapply subseteq_take. exact Hq. }
      assert (Hkd : forall n, item_key h1 <$> drop n (files (sel w))
                              = item_key (heap w) <$> drop n (files (sel w))).
      { intros n. apply item_key_ext. intros q Hq. apply Hko. eapply subseteq_drop. exact Hq. }
      unfold vector_insert_item_here.
      destruct Hmiss as [(Hr & Hi & Hlo & Hhi) | (Hr & -> & Hall)].
      * replace (ret =? 0) with false by lia. replace (ret >? 0) with true by lia.
        exists (S i). rewrite vector_insert_item_le by lia. rewrite <- Hkt, <- Hkd.
        split; [lia | auto].
      * replace (ret =? 0) with false by lia. replace (ret >? 0) with false by lia.
        exists O. rewrite vector_insert_item_le by lia. rewrite <- Hkt, <- Hkd.
        rewrite take_0, drop_0. split; [lia | split; [reflexivity | split; [constructor | exact Hall]]].
Qed.

Lemma add_file_legal (w w' : world) (p : file_ptr) (fd info : Z) :
  legal w -> qps_add_file w p fd info = Ok w' -> legal w'.
Proof.
  intros Hl H. destruct (add_file_unfold w w' p fd info (l_files _ Hl) H)
    as (qf & v' & Hp & Hsel & Hfd & -> & Hshape & Hmem & Hcnt & _).
  apply (attach_legal w p qf (attached_record (this w) fd info qf) v' _ Hl Hp Hsel).
  - apply attached_record_ok. exact Hfd.
  - reflexivity.
  - exact Hshape.
  - exact Hmem.
  - exact Hcnt.
Qed.

(** ** Detach *)

Lemma removed_item_spec (h : gmap file_ptr qps_file) (direct : bool) (v : vector) (i : nat)
      (p : file_ptr) :
  (if direct then dense_shape h v else sparse_shape h v) ->
  v !! i = Some (Some p) ->
  (if direct then dense_shape h (removed_item direct v i)
   else sparse_shape h (removed_item direct v i))
  /\ (forall q, Some q ∈ removed_item direct v i <-> Some q ∈ v /\ q <> p)
  /\ S (length (records (removed_item direct v i))) = length (records v).
Proof.
  destruct direct; unfold removed_item; intros Hs Hi;
    [apply dense_unset | apply sparse_delete]; assumption.
Qed.

Lemma last_some_key (h : gmap file_ptr qps_file) (v : vector) (p : file_ptr) :
  last v = Some (Some p) -> last_key h v = fd_of h p /\ records v <> [].
Proof.
  intros H. apply last_Some in H. destruct H as [t ->]. split.
  - apply last_key_snoc_some.
  - rewrite records_snoc_some. intros E. apply app_eq_nil in E. destruct E; discriminate.
Qed.

Lemma largest_fd_nil (h : gmap file_ptr qps_file) : largest_fd h [] 0.
Proof. split; [intros p Hp; inversion Hp | right; split; reflexivity]. Qed.

(** What qps_file_remove does up to its call of qps_disable_modes. *)
Lemma file_remove_unfold (w w' : world) (p : file_ptr) (qf : qps_file) :
  files_ok w -> heap w !! p = Some qf -> qps_file_remove w p = Ok w' ->
  f_selection qf = Some (this w)
  /\ exists i x w2 qf2,
      files (sel w) !! i = Some (Some p)
      /\ largest_fd (heap w) (removed_item (fd_direct (sel w)) (files (sel w)) i) x
      /\ qps_disable_modes
           (set_sel w (with_membership (sel w) (fd_count (sel w) - 1) (fd_direct (sel w))
                         (removed_item (fd_direct (sel w)) (files (sel w)) i) x))
           p qps_all_mbits = Ok w2
      /\ heap w2 !! p = Some qf2
      /\ w' = set_file w2 p (with_file_selection qf2 None).
Proof.
  intros Hf Hp H. unfold qps_file_remove in H.
  unfold deref in H. rewrite Hp in H. cbn [bind] in H.
  apply bind_ok in H. destruct H as (u & Hr & H). apply ensure_ok in Hr.
  apply andb_prop in Hr. destruct Hr as [Hr Hs]. apply bool_decide_eq_true in Hs.
  split; [exact Hs |].
  pose proof (fo_back _ Hf p qf Hp Hs) as Hin.
  pose proof (fd_of_some _ _ _ Hp) as Hkp.
  destruct (fo_heap _ Hf p Hin) as (qf' & Hq' & _ & Hrange & _).
  assert (qf' = qf) by congruence. subst qf'. clear Hq'.
  apply bind_ok in H. destruct H as (r & Hrem & H).
  apply bind_ok in H. destruct H as (u1 & Hqfd & H). apply ensure_ok in Hqfd.
  apply bool_decide_eq_true in Hqfd.
  apply bind_ok in H. destruct H as (u2 & Hcnt & H).
  apply bind_ok in H. destruct H as (u3 & Hagree & H).
  apply bind_ok in H. destruct H as (w2 & Hdis & H).
  apply bind_ok in H. destruct H as (qf2 & Hd2 & H). apply deref_ok in Hd2.
  injection H as <-.
  pose proof (fo_shape _ Hf) as Hshape.
  destruct (lookup_item_found w (f_fd qf) p Hf Hin Hkp ltac:(lia)) as (i & ret & Hlk & -> & Hi).
  destruct (removed_item_spec (heap w) (fd_direct (sel w)) (files (sel w)) i p Hshape Hi)
    as (Hshape' & Hmem' & Hcnt').
  exists i, (if snd r >=? 0 then snd r else 0), w2, qf2.
  split; [exact Hi |].
  assert (Hv : snd (fst r) = removed_item (fd_direct (sel w)) (files (sel w)) i
               /\ largest_fd (heap w) (removed_item (fd_direct (sel w)) (files (sel w)) i)
                             (if snd r >=? 0 then snd r else 0)).
  { destruct (fd_direct (sel w)) eqn:Hdir.
    - injection Hlk as <-. injection Hrem as <-. cbn [fst snd vector_unset_item].
      unfold removed_item in *. split; [reflexivity |].
      set (v' := vector_trim (<[Z.to_nat (f_fd qf) := None]> (files (sel w)))) in *.
      unfold vector_end.
      destruct (last v') as [[pl |] |] eqn:Hlast.
      + destruct (last_some_key (heap w) v' pl Hlast) as [Hk Hne].
        pose proof (last_key_largest (heap w) v' true Hshape' Hne) as Hlg.
        rewrite last_lookup in Hlast. apply (proj1 Hshape') in Hlast.
        assert (Hlen : v' <> []) by (intros E; rewrite E in Hne; apply Hne; reflexivity).
        assert (0 < length v')%nat by (destruct v'; [contradiction | simpl; lia]).
        rewrite Hk, Hlast in Hlg.
        replace (Z.of_nat (length v') - 1 >=? 0) with true by lia.
        replace (Z.of_nat (length v') - 1) with (Z.of_nat (pred (length v'))) by lia.
        exact Hlg.
      + exfalso. apply (proj2 Hshape'). exact Hlast.
      + apply last_None in Hlast. rewrite Hlast. cbn. apply largest_fd_nil.
    - rewrite Hlk in Hrem. cbn [bind fst snd Z.eqb vector_delete_item] in Hrem.
      unfold removed_item in *. set (v' := delete i (files (sel w))) in *.
      unfold vector_get_last_item in Hrem.
      destruct (last v') as [[pl |] |] eqn:Hlast; cbn [default] in Hrem.
      + apply bind_ok in Hrem. destruct Hrem as (ql & Hdl & Hrem). apply deref_ok in Hdl.
        injection Hrem as <-. cbn [fst snd]. split; [reflexivity |].
        destruct (last_some_key (heap w) v' pl Hlast) as [Hk Hne].
        pose proof (last_key_largest (heap w) v' false Hshape' Hne) as Hlg.
        rewrite Hk, (fd_of_some _ _ _ Hdl) in Hlg.
        assert (Hpl : Some pl ∈ files (sel w)).
        { apply (Hmem' pl). apply last_Some in Hlast. destruct Hlast as [t ->].
          apply elem_of_app. right. constructor. }
        destruct (fo_heap _ Hf pl Hpl) as (ql' & Hql' & _ & Hrl & _).
        assert (ql' = ql) by congruence. subst ql'.
        replace (f_fd ql >=? 0) with true by lia. exact Hlg.
      + exfalso. apply (proj1 Hshape'). apply last_Some in Hlast. destruct Hlast as [t ->].
        apply elem_of_app. right. constructor.
      + injection Hrem as <-. cbn [fst snd]. split; [reflexivity |].
        apply last_None in Hlast. rewrite Hlast. cbn. apply largest_fd_nil. }
  destruct Hv as [Hv Hlg]. rewrite Hv in Hdis.
  split; [exact Hlg |]. split; [exact Hdis |]. split; [exact Hd2 | reflexivity].
Qed.

Lemma all_mbits_testbit (m : Z) : 0 <= m < 3 -> Z.testbit qps_all_mbits m = true.
Proof. intros H. destruct (mode_cases m H) as [-> | [-> | ->]]; reflexivity. Qed.

Lemma file_remove_legal (w w' : world) (p : file_ptr) :
  legal w -> qps_file_remove w p = Ok w' -> legal w'.
Proof.
  intros Hl H. pose proof Hl as [Hf He Hb].
  destruct (heap w !! p) as [qf |] eqn:Hp;
    [| unfold qps_file_remove, deref in H; rewrite Hp in H; discriminate].
  destruct (file_remove_unfold w w' p qf Hf Hp H)
    as (Hs & i & x & w2 & qf2 & Hi & Hlg & Hdis & Hd2 & ->).
  pose proof (fo_back _ Hf p qf Hp Hs) as Hin.
  destruct (removed_item_spec (heap w) (fd_direct (sel w)) (files (sel w)) i p
                              (fo_shape _ Hf) Hi) as (Hshape' & Hmem' & Hcnt').
  set (v' := removed_item (fd_direct (sel w)) (files (sel w)) i) in *.
  set (q1 := with_membership (sel w) (fd_count (sel w) - 1) (fd_direct (sel w)) v' x) in *.
  destruct (disable_modes_unfold (set_sel w q1) w2 p qps_all_mbits qf Hp Hdis)
    as (_ & Ht & Hheap & Hcase).
  cbn [this heap sel set_sel] in Ht, Hheap, Hcase.
  set (mb := Z.land qps_all_mbits (f_enabled_bits qf)) in *.
  set (qf0 := with_file_enabled qf (Z.lxor (f_enabled_bits qf) mb)) in *.
  assert (qf2 = qf0) as ->
      by (rewrite Hheap, lookup_insert_eq in Hd2; injection Hd2 as <-; reflexivity).
  set (hf := <[p := with_file_selection qf0 None]> (heap w2)).
  assert (Hfp : hf !! p = Some (with_file_selection qf0 None)) by apply lookup_insert_eq.
  assert (Hfo : forall q, q <> p -> hf !! q = heap w !! q).
  { intros q Hq. unfold hf. rewrite Hheap, !lookup_insert_ne by congruence. reflexivity. }
  assert (Hko : forall q, Some q ∈ v' -> fd_of hf q = fd_of (heap w) q).
  { intros q Hq. apply Hmem' in Hq. unfold fd_of. rewrite Hfo by tauto. reflexivity. }
  destruct (fo_heap _ Hf p Hin) as (qf' & Hq' & _ & Hrange & Hbr & _).
  assert (qf' = qf) by congruence. subst qf'. clear Hq'. unfold qps_all_mbits in Hbr.
  assert (Hmbk : forall m, 0 <= m < 3 -> Z.testbit mb m = Z.testbit (f_enabled_bits qf) m).
  { intros m Hm. unfold mb. rewrite Z.land_spec, all_mbits_testbit by exact Hm. reflexivity. }
  assert (Hmb : 0 <= mb <= 7) by (apply land_bits_range; [unfold qps_all_mbits; lia | exact Hbr]).
  assert (Hew : enabled_with hf v' q1 (f_fd qf) mb).
  { intros m y Hm. change (enabled q1) with (enabled (sel w)).
    rewrite (eo_bits w He m y Hm). split.
    - intros (q & f & Hq & Hqh & Hk & Hbq). destruct (decide (q = p)) as [-> | Hne].
      + right. assert (f = qf) by congruence. subst f. rewrite Hmbk by exact Hm. auto.
      + left. exists q, f. split; [apply Hmem'; auto |]. rewrite Hfo by exact Hne. auto.
    - intros [(q & f & Hq & Hqh & Hk & Hbq) | [-> Hbm]].
      + apply Hmem' in Hq. destruct Hq as [Hq Hne]. rewrite Hfo in Hqh by exact Hne.
        exists q, f. auto.
      + rewrite Hmbk in Hbm by exact Hm. exists p, qf. auto. }
  assert (Hres : enabled_with hf v' (sel w2) (f_fd qf) 0
                 /\ (forall m, 0 <= m < 3 ->
                       aget (enabled_count (sel w2)) m = popcount (aget (enabled (sel w2)) m))
                 /\ batch_ok (sel w2)
                 /\ files (sel w2) = v' /\ fd_count (sel w2) = fd_count (sel w) - 1
                 /\ fd_direct (sel w2) = fd_direct (sel w) /\ fd_last (sel w2) = x).
  { destruct Hcase as [[E ->] | (N & _ & Hloop)].
    - rewrite E in Hew. split; [exact Hew |]. split; [apply (eo_count w He) |].
      split; [apply batch_ok_membership; exact Hb |]. repeat split; reflexivity.
    - destruct (disable_loop_spec hf v' (f_fd qf) 3 q1 (sel w2) mb Hmb)
        as (R1 & R2 & R3 & R4 & R5 & R6 & R7).
      + intros q f m Hq Hqh Hk Hm Hbm. exfalso. apply Hmem' in Hq. destruct Hq as [Hq Hne].
        rewrite Hfo in Hqh by exact Hne. apply Hne. symmetry.
        apply (files_key_inj w p q Hf Hin Hq).
        rewrite (fd_of_some _ _ _ Hp), (fd_of_some _ _ _ Hqh). congruence.
      + exact Hew.
      + apply (eo_count w He).
      + apply batch_ok_membership. exact Hb.
      + exact Hloop.
      + split; [exact R1 |]. split; [exact R2 |]. split; [exact R3 |].
        rewrite R4, R5, R6, R7. repeat split; reflexivity. }
  destruct Hres as (R1 & R2 & R3 & R4 & R5 & R6 & R7).
  unfold set_file. fold hf. rewrite Ht.
  constructor; [constructor | constructor |]; cbn [this sel heap].
  - intros q Hq. rewrite R4 in Hq. apply Hmem' in Hq. destruct Hq as [Hq Hne].
    rewrite Hfo by exact Hne. apply (fo_heap _ Hf). exact Hq.
  - intros q f Hqh Hsq. rewrite R4. apply Hmem'. destruct (decide (q = p)) as [-> | Hne].
    + rewrite Hfp in Hqh. injection Hqh as <-. discriminate Hsq.
    + rewrite Hfo in Hqh by exact Hne. split; [| exact Hne].
      eapply (fo_back _ Hf); eassumption.
  - rewrite R4, R6. apply (shape_ext (heap w) hf v' _ Hko). exact Hshape'.
  - rewrite R4, R5, (fo_count _ Hf). lia.
  - rewrite R4, R7. apply (largest_fd_ext (heap w) hf v' x Hko). exact Hlg.
  - intros m y Hm. rewrite (R1 m y Hm), R4. split.
    + intros [Hleft | [_ Hz]]; [exact Hleft | rewrite Z.bits_0 in Hz; discriminate].
    + intros Hleft. left. exact Hleft.
  - exact R2.
  - exact R3.
Qed.

Lemma remove_file_legal (w w' : world) (p : file_ptr) :
  legal w -> qps_remove_file w p = Ok w' -> legal w'.
Proof.
  intros Hl H. unfold qps_remove_file in H.
  apply bind_ok in H. destruct H as (qf & _ & H).
  destruct (f_selection qf) as [a |]; [| injection H as <-; exact Hl].
  destruct (bool_decide (a = this w)); [| discriminate].
  eapply file_remove_legal; eassumption.
Qed.

(** ** The remaining operations *)

Lemma legal_zero (w : world) :
  no_file_attached w -> legal (set_sel w zero_selection).
Proof.
  intros Hno. constructor; [constructor | constructor | constructor];
    cbn [sel set_sel heap this zero_selection files fd_count fd_direct fd_last enabled
         enabled_count tried_fd_last tried_count results pend_count pend_mnum pend_fd].
  - intros p Hp. inversion Hp.
  - intros p qf Hp Hs. exfalso. exact (Hno p qf Hp Hs).
  - split; [intros H; inversion H | constructor].
  - reflexivity.
  - apply largest_fd_nil.
  - intros m x Hm. destruct (mode_cases m Hm) as [-> | [-> | ->]]; cbn; rewrite Z.bits_0;
      (split; [discriminate | intros (p & qf & Hp & _); inversion Hp]).
  - intros m Hm. destruct (mode_cases m Hm) as [-> | [-> | ->]]; cbn;
      rewrite popcount_zero; reflexivity.
  - unfold FD_SETSIZE. lia.
  - intros m x Hm Hx. exfalso.
    destruct (mode_cases m Hm) as [-> | [-> | ->]]; cbn in Hx; rewrite Z.bits_0 in Hx;
      discriminate.
  - cbn. rewrite popcount_zero. reflexivity.
  - intros m Hm. destruct (mode_cases m Hm) as [-> | [-> | ->]]; cbn; lia.
  - intros H. exfalso. apply H. reflexivity.
Qed.

(** A change of the records that are not in the selection. *)
Lemma legal_heap_frame (w : world) (h' : gmap file_ptr qps_file) :
  legal w ->
  (forall q, Some q ∈ files (sel w) -> h' !! q = heap w !! q) ->
  (forall q qf, h' !! q = Some qf -> f_selection qf = Some (this w) ->
                heap w !! q = Some qf) ->
  legal (World (this w) (sel w) h').
Proof.
  intros [Hf He Hb] Hsame Hback.
  assert (Hko : forall q, Some q ∈ files (sel w) -> fd_of h' q = fd_of (heap w) q).
  { intros q Hq. unfold fd_of. rewrite Hsame by exact Hq. reflexivity. }
  constructor; [constructor | constructor |]; cbn [this sel heap].
  - intros q Hq. rewrite Hsame by exact Hq. apply (fo_heap _ Hf). exact Hq.
  - intros q qf Hq Hs. eapply (fo_back _ Hf); [apply Hback |]; eassumption.
  - apply (shape_ext (heap w) h' _ _ Hko). apply (fo_shape _ Hf).
  - apply (fo_count _ Hf).
  - apply (largest_fd_ext (heap w) h' _ _ Hko). apply (fo_last _ Hf).
  - intros m x Hm. rewrite (eo_bits _ He m x Hm). split.
    + intros (q & qf & Hq & Hh & R). exists q, qf. rewrite Hsame by exact Hq. auto.
    + intros (q & qf & Hq & Hh & R). exists q, qf. rewrite Hsame in Hh by exact Hq. auto.
  - apply (eo_count _ He).
  - exact Hb.
Qed.

Lemma batch_ok_signal (q : qps_selection) (sig mask : Z) :
  batch_ok q -> batch_ok (with_signal q sig mask).
Proof. intros [H1 H2 H3 H4 H5]. constructor; assumption. Qed.

Lemma with_signal_legal (w : world) (sig mask : Z) :
  legal w -> legal (set_sel w (with_signal (sel w) sig mask)).
Proof.
  intros [Hf He Hb]. constructor.
  - apply (files_ok_frame w); try reflexivity. exact Hf.
  - apply (enabled_ok_frame w); try reflexivity. exact He.
  - apply batch_ok_signal. exact Hb.
Qed.

Lemma set_signal_legal (w w' : world) (sig mask : Z) :
  legal w -> qps_set_signal w sig mask = Ok w' -> legal w'.
Proof.
  intros Hl H. unfold qps_set_signal in H. destruct (negb (sig =? 0)).
  - apply bind_ok in H. destruct H as (u & _ & H). injection H as <-.
    apply (with_signal_legal w sig (sigdelset mask sig)) in Hl. exact Hl.
  - injection H as <-. apply (with_signal_legal w sig (sigmask (sel w))). exact Hl.
Qed.

Lemma file_free_legal (w w' : world) (p : file_ptr) :
  legal w -> qps_file_free w p = Ok w' -> legal w'.
Proof.
  intros Hl H. unfold qps_file_free in H.
  apply bind_ok in H. destruct H as (qf & Hd & H). apply deref_ok in Hd.
  apply bind_ok in H. destruct H as (u & Hn & H). apply ensure_ok in Hn.
  apply bool_decide_eq_true in Hn. injection H as <-.
  apply legal_heap_frame; [exact Hl | |].
  - intros q Hq. apply lookup_delete_ne. intros ->.
    destruct (fo_heap _ (l_files _ Hl) _ Hq) as (qf' & Hq' & Hs & _). congruence.
  - intros q qf' Hq _. apply lookup_delete_Some in Hq. tauto.
Qed.

Lemma file_init_new_legal (w w' : world) (qf template : option file_ptr) (p : file_ptr) :
  legal w -> wipes_unused (OpFileInitNew qf template) w ->
  qps_file_init_new w qf template = Ok (w', p) -> legal w'.
Proof.
  intros Hl Hun H. unfold qps_file_init_new in H.
  apply bind_ok in H. destruct H as (p' & Hp' & H).
  apply bind_ok in H. destruct H as (acts & _ & H). injection H as <- <-.
  assert (Hfree : forall f, heap w !! p' = Some f -> f_selection f <> Some (this w)).
  { destruct qf as [p0 |].
    - apply bind_ok in Hp'. destruct Hp' as (f0 & _ & Hp'). injection Hp' as <-. exact Hun.
    - injection Hp' as <-. intros f Hf. exfalso.
      apply (is_fresh (dom (heap w))). apply elem_of_dom. eauto. }
  unfold set_file. cbn [this sel heap].
  apply legal_heap_frame; [exact Hl | |].
  - intros q Hq. rewrite !lookup_insert_ne; [reflexivity | |];
      intros ->; destruct (fo_heap _ (l_files _ Hl) _ Hq) as (qf' & Hq' & Hs & _);
      apply (Hfree qf' Hq'); exact Hs.
  - intros q f Hq Hs. destruct (decide (p' = q)) as [<- | Hne].
    + rewrite lookup_insert_eq in Hq. injection Hq as <-. discriminate Hs.
    + rewrite !lookup_insert_ne in Hq by exact Hne. exact Hq.
Qed.

(** qps_file_remove on a record that is not in the files vector fails. *)
Lemma file_remove_absent (w w' : world) (p : file_ptr) :
  Some p ∉ files (sel w) -> qps_file_remove w p <> Ok w'.
Proof.
  intros Hnot H. unfold qps_file_remove in H.
  apply bind_ok in H. destruct H as (qf & _ & H).
  apply bind_ok in H. destruct H as (u & _ & H).
  apply bind_ok in H. destruct H as (r & Hrem & H).
  apply bind_ok in H. destruct H as (u1 & Hqfd & _). apply ensure_ok in Hqfd.
  apply bool_decide_eq_true in Hqfd.
  assert (Hget : forall i, vector_get_item (files (sel w)) i <> Some p).
  { intros i Hi. apply vector_get_item_some in Hi. apply Hnot.
    eapply list_elem_of_lookup_2. exact Hi. }
  destruct (fd_direct (sel w)).
  - injection Hrem as <-. cbn [fst snd vector_unset_item] in Hqfd. exact (Hget _ Hqfd).
  - apply bind_ok in Hrem. destruct Hrem as (ir & _ & Hrem).
    destruct (snd ir =? 0); cbn [vector_delete_item fst snd] in Hrem.
    + destruct (vector_get_last_item _) as [pl |].
      * apply bind_ok in Hrem. destruct Hrem as (ql & _ & Hrem). injection Hrem as <-.
        cbn [fst snd] in Hqfd. exact (Hget _ Hqfd).
      * injection Hrem as <-. cbn [fst snd] in Hqfd. exact (Hget _ Hqfd).
    + destruct (vector_get_last_item _) as [pl |].
      * apply bind_ok in Hrem. destruct Hrem as (ql & _ & Hrem). injection Hrem as <-.
        cbn [fst snd] in Hqfd. discriminate.
      * injection Hrem as <-. cbn [fst snd] in Hqfd. discriminate.
Qed.

(** The record that is popped is not among the ones left. *)
Lemma popped_not_left (h : gmap file_ptr qps_file) (direct : bool) (v : vector)
      (p : file_ptr) :
  (if direct then dense_shape h v else sparse_shape h v) ->
  fst (vector_pop_item v) = Some p -> Some p ∉ snd (vector_pop_item v).
Proof.
  intros Hshape Hpop Hin. unfold vector_pop_item in *. cbn [fst snd] in *.
  destruct (last (vector_trim v)) as [[p' |] |] eqn:Hlast; cbn in Hpop; try discriminate.
  injection Hpop as ->.
  apply last_Some in Hlast. destruct Hlast as [t Ht]. rewrite Ht in Hin.
  rewrite removelast_last in Hin.
  apply list_elem_of_lookup in Hin. destruct Hin as [j Hj].
  assert (Hjl : (j < length t)%nat) by (eapply lookup_lt_Some; exact Hj).
  assert (H1 : v !! j = Some (Some p)).
  { apply vector_trim_lookup_some. rewrite Ht, lookup_app_l by exact Hjl. exact Hj. }
  assert (H2 : v !! length t = Some (Some p)).
  { apply vector_trim_lookup_some. rewrite Ht. apply list_lookup_middle. reflexivity. }
  destruct direct.
  - pose proof (proj1 Hshape _ _ H1). pose proof (proj1 Hshape _ _ H2). lia.
  - pose proof (sorted_lookup_inj _ j (length t) _ (proj2 Hshape)
                                  (sparse_key_lookup h v j p H1)
                                  (sparse_key_lookup h v (length t) p H2)). lia.
Qed.

Lemma pop_none_empty (v : vector) :
  fst (vector_pop_item v) = None -> forall p, Some p ∉ v.
Proof.
  unfold vector_pop_item. cbn [fst]. intros H.
  apply records_nil. rewrite <- vector_trim_records.
  destruct (last (vector_trim v)) as [[p' |] |] eqn:Hlast; cbn in H; try discriminate.
  - exfalso. exact (vector_trim_last v Hlast).
  - apply last_None in Hlast. rewrite Hlast. reflexivity.
Qed.

(** qps_selection_ream returns only for the empty selection, which it
    leaves zeroed. *)
Lemma selection_ream_unfold (w w' : world) (free_structure : bool) (r : option file_ptr) :
  legal w -> qps_selection_ream w free_structure = Ok (w', r) ->
  r = None /\ w' = set_sel w zero_selection /\ no_file_attached w.
Proof.
  intros Hl H. unfold qps_selection_ream in H. unfold vector_ream_keep in H.
  destruct (fst (vector_pop_item (files (sel w)))) as [p |] eqn:Hpop.
  - exfalso. apply bind_ok in H. destruct H as (w2 & Hrem & _).
    apply (file_remove_absent _ _ _) in Hrem; [exact Hrem |].
    cbn [sel set_sel files with_files].
    apply (popped_not_left (heap w) (fd_direct (sel w))); [| exact Hpop].
    apply (fo_shape _ (l_files _ Hl)).
  - apply bind_ok in H. destruct H as (u & _ & H). injection H as <- <-.
    split; [reflexivity |]. split; [reflexivity |].
    intros p qf Hp Hs. apply (pop_none_empty _ Hpop p).
    eapply (fo_back _ (l_files _ Hl)); eassumption.
Qed.

Lemma selection_ream_legal (w w' : world) (free_structure : bool) (r : option file_ptr) :
  legal w -> qps_selection_ream w free_structure = Ok (w', r) -> legal w'.
Proof.
  intros Hl H. destruct (selection_ream_unfold w w' free_structure r Hl H) as (_ & -> & Hno).
  apply legal_zero. exact Hno.
Qed.

Lemma dispatch_next_legal (e : environment) (w w' : world) (n : Z) (ev : option event) :
  actions_keep_legal e -> legal w -> qps_dispatch_next e w = Ok (w', n, ev) -> legal w'.
Proof.
  intros Hact Hl H. destruct (Z.eq_dec (pend_count (sel w)) 0) as [E | N].
  - unfold qps_dispatch_next in H. apply bind_ok in H. destruct H as (u & _ & H).
    rewrite E in H. cbn in H. injection H as <- _ _. exact Hl.
  - destruct (dispatch_step_pre e w Hl N) as (w1 & m & x & p & action & info & Eq & Hl1 & _).
    rewrite Eq in H. apply bind_ok in H. destruct H as (w2 & Hrun & H).
    injection H as <- _ _. eapply Hact; eassumption.
Qed.

Lemma legal_batch_invariant (w : world) : legal w -> batch_invariant (sel w).
Proof.
  intros [_ _ Hb]. split.
  - apply batch_idle_results. exact Hb.
  - intros Hpos. destruct (bo_cursor _ Hb ltac:(lia)) as (_ & _ & _ & Hlow & Hclr).
    split; [intros m x Hm Hx; apply (bo_bits _ Hb m x Hm Hx) |].
    split; [intros m x Hm Hx; apply (bo_bits _ Hb m x Hm Hx) |].
    split; [exact Hclr |]. split; [exact Hlow | apply (bo_count _ Hb)].
Qed.

(** Every exposed operation leaves a legal state legal. *)
Lemma exec_legal (e : environment) (o : operation) (w w' : world) :
  actions_keep_legal e -> legal w -> wipes_unused o w -> poll_keeps_contract e o w ->
  exec e o w = Ok w' -> legal w'.
Proof.
  intros Hact Hl Hun Hpoll H. destruct o; cbn [exec] in H.
  - injection H as <-. apply legal_zero. exact Hun.
  - eapply set_signal_legal; eassumption.
  - apply bind_ok in H. destruct H as ([w1 r] & Hr & H). injection H as <-.
    eapply selection_ream_legal; eassumption.
  - apply bind_ok in H. destruct H as ([w1 r] & Hr & H). injection H as <-.
    eapply file_init_new_legal; eassumption.
  - eapply file_free_legal; eassumption.
  - eapply add_file_legal; eassumption.
  - eapply remove_file_legal; eassumption.
  - eapply enable_mode_legal; eassumption.
  - eapply set_action_legal; eassumption.
  - eapply disable_modes_legal; eassumption.
  - apply bind_ok in H. destruct H as ([w1 n] & Hr & H). injection H as <-.
    apply (pselect_legal e w w1 timeout n Hl Hpoll Hr).
  - apply bind_ok in H. destruct H as ([[w1 n] ev] & Hr & H). injection H as <-.
    eapply dispatch_next_legal; eassumption.
Qed.

(** ** The example states are legal *)

Lemma example_heap_lookup (n : nat) (p : file_ptr) (qf : qps_file) :
  example_heap n !! p = Some qf -> qf = example_file.
Proof.
  unfold example_heap. intros H. apply elem_of_list_to_map_2 in H.
  apply list_elem_of_In, in_map_iff in H. destruct H as (i & [= _ <-] & _). reflexivity.
Qed.

Lemma example_start_legal (n : nat) : legal (example_start n).
Proof.
  change (example_start n) with (set_sel (example_start n) zero_selection).
  apply legal_zero. intros p qf Hp. apply example_heap_lookup in Hp. subst qf. discriminate.
Qed.

Lemma attach_all_legal (l : list (file_ptr * Z)) :
  forall w w', legal w -> attach_all l w = Ok w' -> legal w'.
Proof.
  unfold attach_all. induction l as [| [p fd] l IH]; intros w w' Hl H; simpl in H.
  - injection H as <-. exact Hl.
  - apply bind_ok in H. destruct H as (w1 & H1 & H). apply (IH w1 w'); [| exact H].
    eapply add_file_legal; eassumption.
Qed.

Lemma world_of_legal (r : result world) :
  (forall w, r = Ok w -> legal w) -> legal (world_of r).
Proof.
  intros H. destruct r as [w | |]; simpl; [apply H; reflexivity | |];
    apply (example_start_legal 0).
Qed.

Lemma example_nine_legal : legal example_nine.
Proof.
  apply world_of_legal. intros w H.
  apply (attach_all_legal _ _ _ (example_start_legal 12) H).
Qed.

Lemma example_ten_legal : legal example_ten.
Proof.
  apply world_of_legal. intros w H. apply (add_file_legal _ _ _ _ _ example_nine_legal H).
Qed.

Lemma example_one_legal : legal example_one.
Proof.
  apply world_of_legal. intros w H.
  apply (add_file_legal _ _ _ _ _ (example_start_legal 2) H).
Qed.

(** ** The example environments *)

Lemma quiet_contract (a : pselect_args) : pselect_contract a (pselect quiet_environment a).
Proof. intros H. cbn in H. lia. Qed.

Lemma quiet_actions : actions_mutate_nothing quiet_environment.
Proof. intros a p info w. reflexivity. Qed.

Lemma eager_actions : actions_mutate_nothing eager_environment.
Proof. intros a p info w. reflexivity. Qed.

Lemma mutate_nothing_keep_legal (e : environment) :
  actions_mutate_nothing e -> actions_keep_legal e.
Proof. intros H a p info w w' Hl Hr. rewrite H in Hr. injection Hr as <-. exact Hl. Qed.

Lemma eager_contract (w : world) (timeout : Z) :
  legal w ->
  pselect_contract (pselect_call eager_environment (sel w) timeout)
                   (pselect eager_environment (pselect_call eager_environment (sel w) timeout)).
Proof.
  intros Hl _. destruct (prepare_spec w Hl) as (_ & Hres & Hfds & _).
  unfold pselect_call. cbn [pselect eager_environment all_ready a_nfds a_readfds a_writefds
                            a_errorfds r_n r_readfds r_writefds r_errorfds].
  set (pr := prepare (sel w)) in *.
  assert (Hw : forall m, 0 <= m < 3 ->
            set_within (fd_last (sel w) + 1) (fds_arg pr m) (default 0 (fds_arg pr m))
            /\ popcount (default 0 (fds_arg pr m))
               = count_within (fds_arg pr m) (default 0 (fds_arg pr m))).
  { intros m Hm. unfold fds_arg.
    destruct (aget (p_fds pr) m); cbn [default id set_within count_within].
    - split; [| reflexivity]. intros x Hx. split; [exact Hx |]. rewrite Hres in Hx.
      destruct (enabled_bits_bounded w m x Hl Hm Hx). lia.
    - split; [exact I | apply popcount_zero]. }
  destruct (Hw 0 ltac:(lia)) as [W0 P0]. destruct (Hw 1 ltac:(lia)) as [W1 P1].
  destruct (Hw 2 ltac:(lia)) as [W2 P2].
  unfold qps_read_mnum, qps_write_mnum, qps_error_mnum.
  split; [exact W1 |]. split; [exact W2 |]. split; [exact W0 |]. lia.
Qed.

(** ** C5: when attach changes the form of the files vector *)

(** C5, refuted as stated: attaching the tenth record to a selection in the
    list form leaves ten records in and the selection still in the list
    form; qps_file_lookup_fd tests fd_count before it inserts. *)
Lemma attach_tenth_stays_sparse : ~ attach_converts_claim example_nine 10%positive 4 0.
Proof.
  intros H.
  assert (E : fd_direct (sel example_ten) = true).
  { apply (H example_ten); vm_compute; reflexivity. }
  vm_compute in E. discriminate E.
Qed.

(** C5, amended: an attach into a selection in the list form that returns
    has put one more record in, and has changed the selection to the array
    form exactly when more than nine records were in before, that is when
    more than ten are in now: it is the eleventh record that brings the
    change.  From a legal state the files vector then is in the array form
    in fact: every record, the new one and the ones that were in the list,
    is the item at the index of its descriptor, and the last item is not
    NULL; when ten or fewer are in, the vector is still the list in
    descriptor order, with no NULL. *)
Theorem qps_add_file_converts_above_ten (w w' : world) (p : file_ptr) (fd info : Z) :
  fd_direct (sel w) = false ->
  qps_add_file w p fd info = Ok w' ->
  (fd_count (sel w') = fd_count (sel w) + 1
   /\ fd_direct (sel w') = (fd_count (sel w') >? 10))
  /\ (legal w ->
      (if fd_count (sel w') >? 10 then dense_shape (heap w') (files (sel w'))
       else sparse_shape (heap w') (files (sel w')))
      /\ (forall q, Some q ∈ files (sel w') <-> q = p \/ Some q ∈ files (sel w))
      /\ (fd_count (sel w') > 10 ->
          forall q, Some q ∈ files (sel w') ->
                    files (sel w') !! Z.to_nat (fd_of (heap w') q) = Some (Some q))
      /\ legal w').
Proof.
  intros Hdir H.
  assert (Hfirst : fd_count (sel w') = fd_count (sel w) + 1
                   /\ fd_direct (sel w') = (fd_count (sel w') >? 10)).
  { unfold qps_add_file in H.
    apply bind_ok in H. destruct H as (qf & _ & H).
    apply bind_ok in H. destruct H as (u & _ & H).
    apply bind_ok in H. destruct H as (r & Hl & H). injection H as <-.
    unfold qps_file_lookup_fd in Hl.
    apply bind_ok in Hl. destruct Hl as (u1 & _ & Hl).
    apply bind_ok in Hl. destruct Hl as (ir & _ & Hl).
    apply bind_ok in Hl. destruct Hl as (wq & Hwq & Hl).
    apply bind_ok in Hl. destruct Hl as (u2 & _ & Hl). injection Hl as <-.
    apply bind_ok in Hwq. destruct Hwq as (u3 & _ & Hwq).
    apply bind_ok in Hwq. destruct Hwq as (cv & _ & Hwq). injection Hwq as <-.
    cbn [fst snd sel set_sel set_file fd_count fd_direct with_membership].
    rewrite Hdir. cbn [negb andb orb]. split; [reflexivity |].
    destruct (Z.gtb_spec (fd_count (sel w)) 9); destruct (Z.gtb_spec (fd_count (sel w) + 1) 10);
      try reflexivity; lia. }
  split; [exact Hfirst |]. intros Hl. destruct Hfirst as [Hcnt Hform].
  pose proof (add_file_legal w w' p fd info Hl H) as Hl'.
  destruct (add_file_unfold w w' p fd info (l_files _ Hl) H)
    as (qf & v' & _ & _ & _ & Ew & _ & Hmem & _).
  assert (Hfiles : files (sel w') = v') by (rewrite Ew; reflexivity).
  pose proof (fo_shape _ (l_files _ Hl')) as Hshape. rewrite Hform in Hshape.
  split; [exact Hshape |].
  split; [rewrite Hfiles; exact Hmem |].
  split; [| exact Hl'].
  intros Hmany q Hq. replace (fd_count (sel w') >? 10) with true in Hshape by lia.
  apply list_elem_of_lookup in Hq. destruct Hq as [i Hi].
  rewrite (proj1 Hshape i q Hi), Nat2Z.id. exact Hi.
Qed.

(** The amended C5 at the eleventh record, attached with descriptor 30 to
    ten records in the list form: the vector is in the array form. *)
Lemma qps_add_file_converts_above_ten_witness :
  fd_count (sel (world_of (qps_add_file example_ten 11%positive 30 0)))
  = fd_count (sel example_ten) + 1
  /\ fd_direct (sel (world_of (qps_add_file example_ten 11%positive 30 0))) = true
  /\ dense_shape (heap (world_of (qps_add_file example_ten 11%positive 30 0)))
                 (files (sel (world_of (qps_add_file example_ten 11%positive 30 0)))).
Proof.
  destruct (qps_add_file_converts_above_ten example_ten
              (world_of (qps_add_file example_ten 11%positive 30 0)) 11%positive 30 0)
    as [[Hc Hd] Hrest].
  - vm_compute. reflexivity.
  - vm_compute. reflexivity.
  - destruct (Hrest example_ten_legal) as (Hshape & _).
    assert (E : (fd_count (sel (world_of (qps_add_file example_ten 11%positive 30 0))) >? 10)
                = true) by (vm_compute; reflexivity).
    rewrite E in Hshape, Hd. split; [exact Hc |]. split; [exact Hd | exact Hshape].
Defined.

(** ** C8: attach, then detach *)

Lemma vector_trim_nulls (n : nat) : vector_trim (replicate n None) = [].
Proof. induction n as [| n IH]; simpl; [reflexivity | rewrite IH; reflexivity]. Qed.

Lemma vector_trim_extend (v : vector) (n : nat) :
  vector_trim (vector_extend v n) = vector_trim v.
Proof.
  unfold vector_extend. generalize (n - length v)%nat as k. intros k.
  induction v as [| x v IH]; simpl.
  - apply vector_trim_nulls.
  - rewrite IH. reflexivity.
Qed.

Lemma dense_set_unset (v : vector) (k : nat) (p : file_ptr) :
  last v <> Some None -> (forall q, v !! k <> Some (Some q)) ->
  vector_trim (<[k := None]> (vector_set_item v k (Some p))) = v.
Proof.
  intros Hlast Hfree. unfold vector_set_item.
  rewrite list_insert_insert_eq.
  rewrite list_insert_id.
  - rewrite vector_trim_extend. apply vector_trim_id. exact Hlast.
  - rewrite vector_extend_lookup. destruct (decide (k < length v)%nat) as [L | G].
    + destruct (lookup_lt_is_Some_2 v k L) as [[q |] Hq]; [| exact Hq].
      exfalso. exact (Hfree q Hq).
    + rewrite decide_True by lia. reflexivity.
Qed.

Lemma sparse_insert_delete (v : vector) (n i : nat) (p : file_ptr) :
  (n <= length v)%nat -> Some p ∉ v ->
  (take n v ++ Some p :: drop n v) !! i = Some (Some p) ->
  delete i (take n v ++ Some p :: drop n v) = v.
Proof.
  intros Hn Hnot Hi.
  assert (Hlen : length (take n v) = n) by (rewrite length_take; lia).
  assert (i = n) as ->.
  { destruct (Nat.lt_trichotomy i n) as [L | [E | G]]; [| exact E |]; exfalso; apply Hnot.
    - rewrite lookup_app_l in Hi by lia. eapply subseteq_take.
      eapply list_elem_of_lookup_2. exact Hi.
    - rewrite lookup_app_r in Hi by lia. rewrite Hlen in Hi.
      destruct (i - n)%nat as [| j] eqn:Ej; [lia |]. simpl in Hi.
      eapply subseteq_drop. eapply list_elem_of_lookup_2. exact Hi. }
  rewrite <- Hlen at 1. rewrite delete_middle. apply take_drop.
Qed.

Lemma largest_fd_unique (h : gmap file_ptr qps_file) (v : vector) (x y : Z) :
  largest_fd h v x -> largest_fd h v y -> x = y.
Proof.
  intros [Hx Ex] [Hy Ey].
  destruct Ex as [(p & Hp & Kp) | [-> Nx]]; destruct Ey as [(q & Hq & Kq) | [-> Ny]].
  - pose proof (Hx q Hq). pose proof (Hy p Hp). lia.
  - exfalso. apply (proj1 (records_nil v) Ny p). exact Hp.
  - exfalso. apply (proj1 (records_nil v) Nx q). exact Hq.
  - reflexivity.
Qed.

Lemma with_membership_back (q : qps_selection) (n : Z) (d : bool) (v : vector) (x : Z) :
  with_membership (with_membership q n d v x) (fd_count q) (fd_direct q) (files q) (fd_last q)
  = q.
Proof. destruct q. reflexivity. Qed.

(** The records of a vector in either form are in descriptor order. *)
Lemma records_sorted_of_mono (R : file_ptr -> file_ptr -> Prop) (v : vector) :
  (forall i j p q, (i < j)%nat -> v !! i = Some (Some p) -> v !! j = Some (Some q) -> R p q) ->
  StronglySorted R (records v).
Proof.
  induction v as [| x v IH]; intros Hm; [constructor |].
  assert (Htail : StronglySorted R (records v)).
  { apply IH. intros i j p q Hij Hi Hj. apply (Hm (S i) (S j) p q); [lia | exact Hi | exact Hj]. }
  destruct x as [p |]; cbn [records]; [| exact Htail].
  constructor; [exact Htail |]. apply Forall_forall. intros q Hq.
  apply records_elem, list_elem_of_lookup in Hq. destruct Hq as [j Hj].
  apply (Hm O (S j) p q); [lia | reflexivity | exact Hj].
Qed.

Lemma records_sorted (h : gmap file_ptr qps_file) (direct : bool) (v : vector) :
  (if direct then dense_shape h v else sparse_shape h v) ->
  StronglySorted (fun a b => fd_of h a < fd_of h b) (records v).
Proof.
  intros Hs. apply records_sorted_of_mono. intros i j p q Hij Hi Hj.
  exact (shape_index_mono h v direct i j p q Hs Hi Hj Hij).
Qed.

Lemma sorted_strict_NoDup (k : file_ptr -> Z) (l : list file_ptr) :
  StronglySorted (fun a b => k a < k b) l -> NoDup l.
Proof.
  induction 1 as [| x l Hs IH Hx]; constructor; [| exact IH].
  intros Hin. rewrite Forall_forall in Hx. specialize (Hx x Hin). lia.
Qed.

(** With the descriptors of the records given, the records of a vector are
    fixed by which records are in it, whatever its form. *)
Lemma records_determined (h : gmap file_ptr qps_file) (d1 d2 : bool) (v1 v2 : vector) :
  (if d1 then dense_shape h v1 else sparse_shape h v1) ->
  (if d2 then dense_shape h v2 else sparse_shape h v2) ->
  (forall q, Some q ∈ v1 <-> Some q ∈ v2) ->
  records v1 = records v2.
Proof.
  intros H1 H2 Hmem.
  pose proof (records_sorted h d1 v1 H1) as S1. pose proof (records_sorted h d2 v2 H2) as S2.
  apply (StronglySorted_unique_strong (fun a b => fd_of h a < fd_of h b)); [| exact S1 | exact S2 |].
  - intros x1 x2 _ _ L1 L2. lia.
  - apply NoDup_Permutation.
    + exact (sorted_strict_NoDup _ _ S1).
    + exact (sorted_strict_NoDup _ _ S2).
    + intros q. rewrite !records_elem. apply Hmem.
Qed.

Lemma sparse_files_records (v : vector) : None ∉ v -> (Some <$> records v) = v.
Proof.
  induction v as [| x v IH]; intros Hn; [reflexivity |].
  assert (Hv : None ∉ v) by (intros H; apply Hn; right; exact H).
  destruct x as [p |]; cbn [records fmap list_fmap].
  - change (Some p :: (Some <$> records v) = Some p :: v). rewrite (IH Hv). reflexivity.
  - exfalso. apply Hn. left.
Qed.

(** The field called fd_direct goes one way: attach sets it once more than
    nine records were in, detach never clears it.  After an eleventh record
    has been attached and detached the ten records are in the array form,
    so the selection is not the same record of fields as before. *)
Lemma attach_detach_changes_form : ~ attach_detach_claim example_ten 11%positive 30 0.
Proof.
  intros H.
  set (w1 := world_of (qps_add_file example_ten 11%positive 30 0)).
  set (w2 := world_of (qps_remove_file w1 11%positive)).
  assert (E : sel w2 = sel example_ten).
  { apply (H w1 w2); vm_compute; reflexivity. }
  apply (f_equal fd_direct) in E. vm_compute in E. discriminate E.
Qed.

(** The selection attach and then detach leave. *)
Lemma attach_detach_unfold (w w1 w2 : world) (p : file_ptr) (fd info : Z) :
  legal w ->
  qps_add_file w p fd info = Ok w1 ->
  qps_remove_file w1 p = Ok w2 ->
  exists qf v' i x,
    heap w !! p = Some qf /\ f_selection qf = None
    /\ (Some p ∉ files (sel w))
    /\ (if fd_direct (attached_selection (sel w) fd v')
        then dense_shape (<[p := attached_record (this w) fd info qf]> (heap w)) v'
        else sparse_shape (<[p := attached_record (this w) fd info qf]> (heap w)) v')
    /\ (forall q, Some q ∈ v' <-> q = p \/ Some q ∈ files (sel w))
    /\ v' !! i = Some (Some p)
    /\ largest_fd (<[p := attached_record (this w) fd info qf]> (heap w))
                  (removed_item (fd_direct (attached_selection (sel w) fd v')) v' i) x
    /\ sel w2
       = with_membership (attached_selection (sel w) fd v')
                         (fd_count (attached_selection (sel w) fd v') - 1)
                         (fd_direct (attached_selection (sel w) fd v'))
                         (removed_item (fd_direct (attached_selection (sel w) fd v')) v' i) x
    /\ (fd_direct (sel w) = true ->
        v' = vector_set_item (files (sel w)) (Z.to_nat fd) (Some p)
        /\ forall q, files (sel w) !! Z.to_nat fd <> Some (Some q))
    /\ (fd_direct (sel w) = false -> fd_count (sel w) <= 9 ->
        exists n, (n <= length (files (sel w)))%nat
                  /\ v' = take n (files (sel w)) ++ Some p :: drop n (files (sel w)))
    /\ (forall q, q <> p -> heap w2 !! q = heap w !! q).
Proof.
  intros Hl Hadd Hrem.
  pose proof (add_file_legal _ _ _ _ _ Hl Hadd) as Hl1.
  destruct (add_file_unfold w w1 p fd info (l_files _ Hl) Hadd)
    as (qf & v' & Hp & Hsel & Hfd & -> & Hshape & Hmem & Hcnt & Hdense & Hsparse).
  set (newrec := attached_record (this w) fd info qf) in *.
  set (h1 := <[p := newrec]> (heap w)) in *.
  set (q1 := attached_selection (sel w) fd v') in *.
  assert (Hnotin : Some p ∉ files (sel w)).
  { intros Hin. destruct (fo_heap _ (l_files _ Hl) p Hin) as (qf' & Hq' & Hok & _). congruence. }
  assert (Hp1 : h1 !! p = Some newrec) by apply lookup_insert_eq.
  unfold qps_remove_file, deref in Hrem. cbn [heap this] in Hrem. rewrite Hp1 in Hrem.
  cbn [bind f_selection newrec attached_record] in Hrem.
  rewrite bool_decide_eq_true_2 in Hrem by reflexivity.
  destruct (file_remove_unfold _ w2 p newrec (l_files _ Hl1) Hp1 Hrem)
    as (_ & i & x & w3 & qf3 & Hi & Hlg & Hdis & _ & ->).
  cbn [sel set_file this heap] in *.
  match type of Hdis with
  | qps_disable_modes ?ww _ _ = _ =>
      destruct (disable_modes_unfold ww w3 p qps_all_mbits newrec Hp1 Hdis)
        as (_ & _ & Hh3 & Hcase)
  end.
  destruct Hcase as [[_ Hs3] | (N & _)];
    [| exfalso; apply N; cbn; apply Z.land_0_r].
  exists qf, v', i, x.
  split; [exact Hp |]. split; [exact Hsel |]. split; [exact Hnotin |].
  split; [exact Hshape |]. split; [exact Hmem |].
  split; [exact Hi |]. split; [exact Hlg |].
  split; [rewrite Hs3; reflexivity |].
  split; [exact Hdense |].
  split.
  { intros Hd Hle. destruct (Hsparse Hd Hle) as (n & Hn & Hv & _). exists n. auto. }
  intros q Hq. rewrite lookup_insert_ne by congruence. rewrite Hh3.
  cbn [heap set_sel]. rewrite lookup_insert_ne by congruence.
  unfold h1. rewrite lookup_insert_ne by congruence. reflexivity.
Qed.

(** ** C9: fd_last under the membership operations *)

(** C9: attach, detach and ream, when they return, leave fd_last the
    largest descriptor in the files vector, or 0 when no record is in; this
    in the list form and in the array form alike, whichever record is
    detached.  The state before is a legal one, and so is the state after. *)
Theorem membership_keeps_fd_last (e : environment) (o : operation) (w w' : world) :
  legal w -> is_membership o = true -> exec e o w = Ok w' ->
  fd_last_invariant w' /\ legal w'.
Proof.
  intros Hl Hm H.
  assert (Hl' : legal w').
  { destruct o; try discriminate Hm; cbn [exec] in H.
    - apply bind_ok in H. destruct H as ([w1 r] & Hr & H). injection H as <-.
      eapply selection_ream_legal; eassumption.
    - eapply add_file_legal; eassumption.
    - eapply remove_file_legal; eassumption. }
  split; [apply (fo_last _ (l_files _ Hl')) | exact Hl'].
Qed.

Lemma membership_keeps_fd_last_witness :
  fd_last_invariant (world_of (qps_remove_file example_ten 3%positive))
  /\ legal (world_of (qps_remove_file example_ten 3%positive)).
Proof.
  apply (membership_keeps_fd_last quiet_environment (OpRemoveFile 3%positive) example_ten).
  - exact example_ten_legal.
  - reflexivity.
  - vm_compute. reflexivity.
Defined.

(** ** C2: the batch invariant under the exposed operations *)

Lemma batch_invariant_zero : batch_invariant zero_selection.
Proof. split; [reflexivity | cbn; lia]. Qed.

(** C2: every exposed operation, when it returns, leaves the batch invariant
    in force: from a legal state, with a poll primitive that keeps to its
    contract and actions that leave legal states legal. *)
Theorem exposed_operations_keep_batch_invariant (e : environment) (o : operation)
        (w w' : world) :
  actions_keep_legal e -> legal w -> poll_keeps_contract e o w ->
  exec e o w = Ok w' ->
  batch_invariant (sel w').
Proof.
  intros Hact Hl Hpoll H.
  destruct o;
    try (apply legal_batch_invariant;
         match type of H with
         | exec _ ?o' _ = _ => apply (exec_legal e o' w w' Hact Hl I Hpoll H)
         end).
  - cbn [exec] in H. injection H as <-. apply batch_invariant_zero.
  - cbn [exec] in H. apply bind_ok in H. destruct H as ([w1 p] & Hr & H). injection H as <-.
    assert (sel w1 = sel w) as ->; [| apply legal_batch_invariant; exact Hl].
    unfold qps_file_init_new in Hr.
    apply bind_ok in Hr. destruct Hr as (p' & _ & Hr).
    apply bind_ok in Hr. destruct Hr as (acts & _ & Hr). injection Hr as <- _. reflexivity.
Qed.

Lemma waited_legal (e : environment) (w : world) (timeout : Z) :
  legal w ->
  pselect_contract (pselect_call e (sel w) timeout) (poll_result e w timeout) ->
  legal (waited e w timeout).
Proof.
  intros Hl Hc. unfold waited. destruct (qps_pselect e w timeout) as [[w1 n] | |] eqn:E;
    try exact Hl.
  apply (pselect_legal e w w1 timeout n Hl Hc E).
Qed.

Lemma enable_all_legal (l : list (file_ptr * Z)) :
  forall w w', legal w -> enable_all l w = Ok w' -> legal w'.
Proof.
  unfold enable_all. induction l as [| [p m] l IH]; intros w w' Hl H; simpl in H.
  - injection H as <-. exact Hl.
  - apply bind_ok in H. destruct H as (w1 & H1 & H). apply (IH w1 w'); [| exact H].
    eapply enable_mode_legal; eassumption.
Qed.

Lemma example_armed_legal : legal example_armed.
Proof.
  apply world_of_legal. intros w H. apply (enable_all_legal _ _ _ example_nine_legal H).
Qed.

Lemma example_batch_legal : legal (waited eager_environment example_armed 0).
Proof.
  apply waited_legal; [exact example_armed_legal |].
  apply eager_contract. exact example_armed_legal.
Qed.

Lemma exposed_operations_keep_batch_invariant_witness :
  batch_invariant
    (sel (world_of (qps_disable_modes (waited eager_environment example_armed 0)
                                      1%positive 2))).
Proof.
  apply (exposed_operations_keep_batch_invariant
           eager_environment (OpDisableModes 1%positive 2)
           (waited eager_environment example_armed 0)).
  - apply mutate_nothing_keep_legal. exact eager_actions.
  - exact example_batch_legal.
  - exact I.
  - vm_compute. reflexivity.
Defined.

(** ** C1 and C7: a batch, dispatched *)

(** C1: after a wait that returned n > 0, with actions that change nothing,
    n calls of qps_dispatch_next bring pend_count to zero, and the (mode,
    descriptor) pairs the actions were called for, all of them results of
    the wait, come in strictly ascending order: by mode first, error (0)
    before read (1) before write (2), and by descriptor within a mode. *)
Theorem dispatch_order_ascending (e : environment) (w w1 : world) (timeout n : Z) :
  legal w ->
  pselect_contract (pselect_call e (sel w) timeout) (poll_result e w timeout) ->
  actions_mutate_nothing e ->
  qps_pselect e w timeout = Ok (w1, n) ->
  n > 0 ->
  exists w2 tr,
    dispatch_all e (Z.to_nat n) w1 = Ok (w2, tr)
    /\ pend_count (sel w2) = 0
    /\ length tr = Z.to_nat n
    /\ Forall (pending (sel w1)) tr
    /\ StronglySorted event_lt tr.
Proof.
  intros Hl Hc Hact Hw Hn.
  destruct (pselect_legal e w w1 timeout n Hl Hc Hw) as (Hl1 & _ & Hp).
  replace (n >? 0) with true in Hp by lia.
  destruct (dispatch_batch e Hact (Z.to_nat n) w1 Hl1 ltac:(lia))
    as (w2 & tr & Hd & _ & H0 & Hlen & Hall & Hs).
  exists w2, tr. auto.
Qed.

Lemma dispatch_order_ascending_witness :
  exists w2 tr,
    dispatch_all eager_environment (Z.to_nat 4) (waited eager_environment example_armed 0)
    = Ok (w2, tr)
    /\ pend_count (sel w2) = 0
    /\ length tr = Z.to_nat 4
    /\ Forall (pending (sel (waited eager_environment example_armed 0))) tr
    /\ StronglySorted event_lt tr.
Proof.
  apply (dispatch_order_ascending eager_environment example_armed _ 0 4).
  - exact example_armed_legal.
  - apply eager_contract. exact example_armed_legal.
  - exact eager_actions.
  - vm_compute. reflexivity.
  - lia.
Defined.

(** C7: after a wait that returned n > 0, with actions that change nothing,
    n calls of qps_dispatch_next all return and leave pend_count zero and
    the three results sets empty. *)
Theorem dispatch_count_drains_batch (e : environment) (w w1 : world) (timeout n : Z) :
  legal w ->
  pselect_contract (pselect_call e (sel w) timeout) (poll_result e w timeout) ->
  actions_mutate_nothing e ->
  qps_pselect e w timeout = Ok (w1, n) ->
  n > 0 ->
  exists w2 tr,
    dispatch_all e (Z.to_nat n) w1 = Ok (w2, tr)
    /\ pend_count (sel w2) = 0
    /\ results (sel w2) = qps_super_set_zero.
Proof.
  intros Hl Hc Hact Hw Hn.
  destruct (pselect_legal e w w1 timeout n Hl Hc Hw) as (Hl1 & _ & Hp).
  replace (n >? 0) with true in Hp by lia.
  destruct (dispatch_batch e Hact (Z.to_nat n) w1 Hl1 ltac:(lia))
    as (w2 & tr & Hd & Hl2 & H0 & _).
  exists w2, tr. split; [exact Hd |]. split; [exact H0 |].
  apply batch_idle_results; [apply (l_batch _ Hl2) | exact H0].
Qed.

Lemma dispatch_count_drains_batch_witness :
  exists w2 tr,
    dispatch_all eager_environment (Z.to_nat 4) (waited eager_environment example_armed 0)
    = Ok (w2, tr)
    /\ pend_count (sel w2) = 0
    /\ results (sel w2) = qps_super_set_zero.
Proof.
  apply (dispatch_count_drains_batch eager_environment example_armed _ 0 4).
  - exact example_armed_legal.
  - apply eager_contract. exact example_armed_legal.
  - exact eager_actions.
  - vm_compute. reflexivity.
  - lia.
Defined.

(** ** C3: the outcomes of a wait *)

(** With no mode enabled, qps_pselect gives the poll primitive no set. *)
Lemma prepare_no_mode (q : qps_selection) :
  (p_pend_mnum (prepare q) <? qps_mnum_count) = false ->
  fds_arg (prepare q) 0 = None /\ fds_arg (prepare q) 1 = None
  /\ fds_arg (prepare q) 2 = None.
Proof.
  intros H. destruct (prepare_modes q) as [Hfds Hpm]. unfold qps_mnum_count in *.
  destruct Hpm as [[_ Hz] | (Hr & _)]; [| lia].
  unfold fds_arg. rewrite !Hfds by lia. rewrite !Hz by lia. auto.
Qed.

(** C3: once qps_pselect has got as far as the poll primitive (the state
    has passed qps_selection_validate and fd_last is a descriptor), and the
    primitive keeps to its contract and returns -1 when it fails, the
    outcome is one of four.  The primitive returns n > 0: pend_count is n
    and n is returned.  It returns 0: the three results sets are zeroed,
    pend_count is 0 and 0 is returned.  It fails with EINTR: the same, and
    -1 is returned.  It fails with another error: the process is aborted. *)
Theorem qps_pselect_outcomes (e : environment) (w : world) (timeout : Z) :
  qps_selection_validate w = Ok tt ->
  0 <= fd_last (sel w) < FD_SETSIZE ->
  pselect_contract (pselect_call e (sel w) timeout) (poll_result e w timeout) ->
  -1 <= r_n (poll_result e w timeout) ->
  (r_n (poll_result e w timeout) > 0 ->
   exists w', qps_pselect e w timeout = Ok (w', r_n (poll_result e w timeout))
              /\ pend_count (sel w') = r_n (poll_result e w timeout))
  /\ (r_n (poll_result e w timeout) = 0 ->
      exists w', qps_pselect e w timeout = Ok (w', 0)
                 /\ results (sel w') = qps_super_set_zero /\ pend_count (sel w') = 0)
  /\ (r_n (poll_result e w timeout) < 0 -> r_errno (poll_result e w timeout) = EINTR ->
      exists w', qps_pselect e w timeout = Ok (w', -1)
                 /\ results (sel w') = qps_super_set_zero /\ pend_count (sel w') = 0)
  /\ (r_n (poll_result e w timeout) < 0 -> r_errno (poll_result e w timeout) <> EINTR ->
      qps_pselect e w timeout = Abort "Failed in pselect").
Proof.
  intros Hv Hfd Hc Hmin. unfold poll_result in *.
  set (r := pselect e (pselect_call e (sel w) timeout)) in *.
  assert (Hrun : qps_pselect e w timeout
                 = if r_n r >? 0 then
                     _ <- ensure (p_pend_mnum (prepare (sel w)) <? qps_mnum_count)
                                 "assert(qps->pend_mnum < qps_mnum_count)" ;;
                     Ok (set_sel w (with_batch (sel w) (fd_last (sel w))
                                               (p_tried (prepare (sel w)))
                                               (pselect_results (prepare (sel w)) r)
                                               (r_n r) (p_pend_mnum (prepare (sel w))) 0),
                         r_n r)
                   else if (r_n r =? 0) || (r_errno r =? EINTR) then
                     Ok (set_sel w (with_batch (sel w) (fd_last (sel w))
                                               (p_tried (prepare (sel w)))
                                               qps_super_set_zero 0
                                               (p_pend_mnum (prepare (sel w))) 0), r_n r)
                   else Abort "Failed in pselect").
  { unfold qps_pselect. rewrite Hv. cbn [bind]. unfold fd_index, fd_in_range.
    replace (0 <=? fd_last (sel w)) with true by lia.
    replace (fd_last (sel w) <? FD_SETSIZE) with true by lia. reflexivity. }
  split; [| split; [| split]].
  - intros Hpos. rewrite Hrun. replace (r_n r >? 0) with true by lia.
    destruct (p_pend_mnum (prepare (sel w)) <? qps_mnum_count) eqn:Hm.
    + eexists. split; reflexivity.
    + exfalso. destruct (prepare_no_mode _ Hm) as (A0 & A1 & A2).
      destruct (Hc ltac:(lia)) as (_ & _ & _ & Hsum).
      unfold pselect_call in Hsum. cbn [a_readfds a_writefds a_errorfds] in Hsum.
      unfold qps_read_mnum, qps_write_mnum, qps_error_mnum in Hsum.
      rewrite A0, A1, A2 in Hsum. cbn in Hsum. fold r in Hsum. lia.
  - intros H0. rewrite Hrun, H0. cbn. eexists. split; [reflexivity |]. split; reflexivity.
  - intros Hneg He. rewrite Hrun. replace (r_n r >? 0) with false by lia.
    rewrite He, Z.eqb_refl, orb_true_r. replace (r_n r) with (-1) by lia.
    eexists. split; [reflexivity |]. split; reflexivity.
  - intros Hneg He. rewrite Hrun. replace (r_n r >? 0) with false by lia.
    replace (r_n r =? 0) with false by lia.
    replace (r_errno r =? EINTR) with false by (symmetry; apply Z.eqb_neq; exact He).
    reflexivity.
Qed.

Lemma qps_pselect_outcomes_witness :
  exists w', qps_pselect quiet_environment example_armed 0 = Ok (w', 0)
             /\ results (sel w') = qps_super_set_zero /\ pend_count (sel w') = 0.
Proof.
  apply (qps_pselect_outcomes quiet_environment example_armed 0).
  - vm_compute. reflexivity.
  - vm_compute. split; [discriminate | reflexivity].
  - apply quiet_contract.
  - vm_compute. discriminate.
  - reflexivity.
Defined.

(* ====================================================================== *)
(** * Part III: further properties of the code                             *)
(* ====================================================================== *)

(** ** qps_selection_validate and the empty selection *)

Lemma validate_items_none (w : world) :
  forall (v : vector) (i : nat) (st : vstate),
    (forall p, Some p ∉ v) ->
    validate_items w i v st = Ok st \/ is_abort (validate_items w i v st) = true.
Proof.
  induction v as [| item v IH]; intros i st Hno; [left; reflexivity |].
  destruct item as [p |]; [exfalso; apply (Hno p); constructor |].
  assert (Hno' : forall p, Some p ∉ v).
  { intros p Hp. apply (Hno p). apply list_elem_of_further. exact Hp. }
  cbn [validate_items validate_item]. destruct (fd_direct (sel w)).
  - cbn [bind]. apply IH. exact Hno'.
  - right. reflexivity.
Qed.

Lemma validate_rejects_no_record (w : world) :
  (forall p, Some p ∉ files (sel w)) -> is_abort (qps_selection_validate w) = true.
Proof.
  intros Hno. unfold qps_selection_validate.
  destruct (validate_items_none w (files (sel w)) 0 (VState 0 (-1) (afill 0) (afill 0)) Hno)
    as [-> | Hab].
  - cbn [bind v_n v_fd_last]. change (0 =? 0) with true. cbn [negb andb ensure bind].
    destruct (0 =? fd_count (sel w)); [| reflexivity].
    cbn [ensure bind]. destruct (Z.eqb_spec (fd_last (sel w)) 0) as [E0 | N0].
    + rewrite E0. reflexivity.
    + cbn [negb orb]. destruct (Z.eqb_spec (-1) (fd_last (sel w))); reflexivity.
  - destruct (validate_items w 0 (files (sel w)) _) as [st | msg | why];
      [discriminate | reflexivity | discriminate].
Qed.

(** X1: qps_selection_validate aborts on every selection that holds no
    record: its own fd_last stays -1, which is never the fd_last of the
    selection that check (6) accepts for an empty one.  qps_pselect and
    qps_dispatch_next call it first, unconditionally, so they abort as well:
    a wait on a selection with nothing attached stops the process. *)
Theorem empty_selection_aborts (e : environment) (w : world) (timeout : Z) :
  (forall p, Some p ∉ files (sel w)) ->
  is_abort (qps_selection_validate w) = true
  /\ is_abort (qps_pselect e w timeout) = true
  /\ is_abort (qps_dispatch_next e w) = true.
Proof.
  intros Hno. pose proof (validate_rejects_no_record w Hno) as Hv.
  split; [exact Hv |]. unfold qps_pselect, qps_dispatch_next.
  destruct (qps_selection_validate w) as [u | msg | why]; try discriminate Hv.
  split; reflexivity.
Qed.

Lemma empty_selection_aborts_witness :
  is_abort (qps_selection_validate (qps_selection_init_new (example_start 3))) = true
  /\ is_abort (qps_pselect quiet_environment (qps_selection_init_new (example_start 3)) 0)
     = true
  /\ is_abort (qps_dispatch_next quiet_environment (qps_selection_init_new (example_start 3)))
     = true.
Proof.
  apply (empty_selection_aborts quiet_environment (qps_selection_init_new (example_start 3)) 0).
  intros p Hp. inversion Hp.
Defined.

(** ** The check passes after every operation *)

(** X2: from a legal state, whatever exposed operation returns leaves a
    state that qps_selection_validate accepts, so long as a record is still
    attached: none of the seventeen checks fires between operations. *)
Theorem operations_keep_validate_passing (e : environment) (o : operation) (w w' : world) :
  actions_keep_legal e -> legal w -> wipes_unused o w -> poll_keeps_contract e o w ->
  exec e o w = Ok w' ->
  records (files (sel w')) <> [] ->
  qps_selection_validate w' = Ok tt.
Proof.
  intros Hact Hl Hun Hpoll H Hne.
  apply validate_legal; [| exact Hne].
  eapply exec_legal; eassumption.
Qed.

Lemma operations_keep_validate_passing_witness :
  qps_selection_validate (world_of (qps_remove_file example_armed 1%positive)) = Ok tt.
Proof.
  apply (operations_keep_validate_passing quiet_environment (OpRemoveFile 1%positive)
                                          example_armed).
  - apply mutate_nothing_keep_legal. exact quiet_actions.
  - exact example_armed_legal.
  - exact I.
  - exact I.
  - vm_compute. reflexivity.
  - vm_compute. discriminate.
Defined.

(** ** qps_super_set_count *)

(** [w & (w - 1)] is [w] without its lowest bit. *)
Lemma land_pred_lowest (p : positive) :
  exists k, 0 <= k /\ Z.testbit (Z.pos p) k = true
            /\ Z.land (Z.pos p) (Z.pos p - 1) = Z.clearbit (Z.pos p) k.
Proof.
  induction p as [q IH | q IH |].
  - exists 0. split; [lia |]. split; [reflexivity |].
    apply Z.bits_inj'. intros n Hn.
    rewrite Z.land_spec, Z.clearbit_eqb.
    replace (Z.pos q~1 - 1) with (2 * Z.pos q) by lia.
    replace (Z.pos q~1) with (2 * Z.pos q + 1) by lia.
    destruct (Z.eq_dec n 0) as [-> | Hne].
    + rewrite Z.testbit_even_0, andb_false_r. reflexivity.
    + replace n with (Z.succ (n - 1)) by lia.
      rewrite Z.testbit_odd_succ, Z.testbit_even_succ by lia.
      destruct (Z.eqb_spec 0 (Z.succ (n - 1))) as [E | _]; [lia |].
      rewrite andb_diag, andb_true_r. reflexivity.
  - destruct IH as (k & Hk & Hbit & Heq). exists (Z.succ k).
    replace (Z.pos q~0) with (2 * Z.pos q) by lia.
    split; [lia |]. split; [rewrite Z.testbit_even_succ by lia; exact Hbit |].
    apply Z.bits_inj'. intros n Hn.
    rewrite Z.land_spec, Z.clearbit_eqb.
    replace (2 * Z.pos q - 1) with (2 * (Z.pos q - 1) + 1) by lia.
    destruct (Z.eq_dec n 0) as [-> | Hne].
    + rewrite Z.testbit_even_0. reflexivity.
    + replace n with (Z.succ (n - 1)) by lia.
      rewrite Z.testbit_odd_succ, Z.testbit_even_succ by lia.
      rewrite <- Z.land_spec, Heq, Z.clearbit_eqb.
      destruct (Z.eqb_spec (Z.succ k) (Z.succ (n - 1)));
        destruct (Z.eqb_spec k (n - 1)); try reflexivity; lia.
  - exists 0. split; [lia |]. split; reflexivity.
Qed.

(** The inner loop of qps_super_set_count counts the bits of a word. *)
Lemma count_word_spec (l : list Z) :
  NoDup l ->
  forall (fuel : nat) (w : Z),
    0 <= w -> (forall n, Z.testbit w n = true -> n ∈ l) ->
    count_set w l <= Z.of_nat fuel ->
    count_word fuel w = count_set w l.
Proof.
  intros Hnd. induction fuel as [| k IH]; intros w Hw Hin Hc.
  - simpl. pose proof (count_set_nonneg w l). lia.
  - cbn [count_word]. destruct (Z.eqb_spec w 0) as [-> | Hne].
    + rewrite count_set_zero. reflexivity.
    + destruct w as [| p | p]; [contradiction | | lia].
      destruct (land_pred_lowest p) as (j & Hj & Hbit & Heq).
      pose proof (count_set_clearbit (Z.pos p) l j Hnd) as Hclr.
      rewrite bool_decide_eq_true_2, Hbit in Hclr by (apply Hin; exact Hbit).
      cbn [andb] in Hclr.
      rewrite Heq, IH.
      * rewrite Hclr. lia.
      * rewrite <- Heq. apply Z.land_nonneg. left. lia.
      * intros n Hn. rewrite Z.clearbit_eqb in Hn. apply andb_prop in Hn. apply Hin. tauto.
      * lia.
Qed.

Lemma count_set_app (s : fd_super_set) (l1 l2 : list Z) :
  count_set s (l1 ++ l2) = count_set s l1 + count_set s l2.
Proof. induction l1 as [| x l1 IH]; simpl; [reflexivity | rewrite IH; lia]. Qed.

Lemma count_set_length (s : fd_super_set) (l : list Z) : count_set s l <= Z.of_nat (length l).
Proof. induction l as [| x l IH]; simpl; [lia |]. destruct (Z.testbit s x); lia. Qed.

Lemma count_set_shift (s : fd_super_set) (i : Z) (l : list Z) :
  0 <= i -> (forall j, j ∈ l -> 0 <= j < 32) ->
  count_set (words s i) l = count_set s ((fun j => i * 32 + j) <$> l).
Proof.
  intros Hi. induction l as [| j l IH]; intros Hl; [reflexivity |].
  cbn [count_set fmap list_fmap]. rewrite IH by (intros x Hx; apply Hl; now apply list_elem_of_further).
  pose proof (Hl j (list_elem_of_here _ _)) as Hj.
  unfold words, FD_WORD_BITS. rewrite chunk_testbit by lia.
  replace (j <? 32) with true by lia. rewrite andb_true_r. reflexivity.
Qed.

Lemma count_word_words (s : fd_super_set) (i : Z) :
  0 <= i -> count_word 32 (words s i) = count_set s (seqZ (i * 32) 32).
Proof.
  intros Hi.
  rewrite (count_word_spec (seqZ 0 32) (NoDup_seqZ _ _)).
  - rewrite count_set_shift; [| exact Hi | intros j Hj; apply elem_of_seqZ in Hj; lia].
    change (fun j => i * 32 + j) with (Z.add (i * 32)).
    rewrite fmap_add_seqZ, Z.add_0_r. reflexivity.
  - unfold words, FD_WORD_BITS. apply Z.land_nonneg. right. rewrite Z.ones_equiv.
    pose proof (Z.pow_pos_nonneg 2 32). lia.
  - intros n Hn. pose proof (testbit_true_nonneg _ _ Hn) as Hn0.
    unfold words, FD_WORD_BITS in Hn. rewrite chunk_testbit in Hn by lia.
    apply andb_prop in Hn. apply elem_of_seqZ. lia.
  - pose proof (count_set_length (words s i) (seqZ 0 32)). rewrite length_seqZ in H. lia.
Qed.

Lemma super_set_count1_upto (s : fd_super_set) (n : nat) :
  fold_left (fun count iw => count + count_word 32 (words s iw)) (seqZ 0 (Z.of_nat n)) 0
  = count_set s (seqZ 0 (32 * Z.of_nat n)).
Proof.
  induction n as [| n IH]; [reflexivity |].
  rewrite seqZ_S, fold_left_app, IH. cbn [fold_left].
  replace (32 * Z.of_nat (S n)) with (32 * Z.of_nat n + 32) by lia.
  rewrite (seqZ_app 0 (32 * Z.of_nat n) 32) by lia. rewrite count_set_app.
  rewrite count_word_words by lia.
  replace ((0 + Z.of_nat n) * 32) with (0 + 32 * Z.of_nat n) by lia. reflexivity.
Qed.

Lemma super_set_count1_popcount (s : fd_super_set) : qps_super_set_count1 s = popcount s.
Proof.
  unfold qps_super_set_count1, popcount, all_fds.
  change FD_SUPER_SET_WORD_SIZE with (Z.of_nat 32).
  rewrite super_set_count1_upto. reflexivity.
Qed.

(** X3: qps_super_set_count returns the number of descriptors held in the
    sets it is given: the [w &= (w - 1)] loop counts each set bit of each
    word once, for one set and for the three sets of a selection alike. *)
Theorem qps_super_set_count_is_popcount (a : arr3 fd_super_set) (s : fd_super_set) :
  qps_super_set_count [s] = popcount s
  /\ qps_super_set_count [at0 a; at1 a; at2 a]
     = popcount (at0 a) + popcount (at1 a) + popcount (at2 a).
Proof.
  unfold qps_super_set_count. cbn [fold_left].
  rewrite !super_set_count1_popcount. split; lia.
Qed.

(** ** Looking a descriptor up *)

(** The look-up of qps_file_lookup_fd: by index in the array form, by
    binary chop in the list form. *)
Lemma search_by_fd (w : world) (fd : Z) :
  (if fd_direct (sel w) then dense_shape (heap w) (files (sel w))
   else sparse_shape (heap w) (files (sel w))) ->
  (forall q, Some q ∈ files (sel w) -> exists qf, heap w !! q = Some qf) ->
  0 <= fd ->
  exists i ret,
    (if fd_direct (sel w) then Ok (Z.to_nat fd, 0)
     else vector_bsearch (qps_fd_cmp w fd) (files (sel w))) = Ok (i, ret)
    /\ ((exists p, ret = 0 /\ files (sel w) !! i = Some (Some p) /\ fd_of (heap w) p = fd)
        \/ ((if ret =? 0 then vector_get_item (files (sel w)) i else None) = None
            /\ forall q, Some q ∈ files (sel w) -> fd_of (heap w) q <> fd)).
Proof.
  intros Hs Hex Hfd. destruct (fd_direct (sel w)) eqn:Hd.
  - exists (Z.to_nat fd), 0. split; [reflexivity |]. cbn [Z.eqb].
    destruct (files (sel w) !! Z.to_nat fd) as [[p |] |] eqn:Hi.
    + left. exists p. split; [reflexivity |]. split; [reflexivity |].
      rewrite (proj1 Hs _ _ Hi). lia.
    + right. split; [unfold vector_get_item; rewrite Hi; reflexivity |].
      intros q Hq Hk. apply list_elem_of_lookup in Hq. destruct Hq as [j Hj].
      pose proof (proj1 Hs _ _ Hj) as E. replace j with (Z.to_nat fd) in Hj by lia. congruence.
    + right. split; [unfold vector_get_item; rewrite Hi; reflexivity |].
      intros q Hq Hk. apply list_elem_of_lookup in Hq. destruct Hq as [j Hj].
      pose proof (proj1 Hs _ _ Hj) as E. replace j with (Z.to_nat fd) in Hj by lia. congruence.
  - destruct Hs as [Hnn Hsort].
    assert (Hie : items_exist (heap w) (files (sel w))).
    { intros item Hin. destruct item as [q |]; [| contradiction].
      destruct (Hex q Hin) as [qf Hq]. exists q, qf. auto. }
    destruct (vector_bsearch_spec w fd (files (sel w)) Hie Hsort) as (i & ret & Hb & Hres).
    exists i, ret. split; [exact Hb |].
    assert (Hmiss : ret <> 0 ->
              Forall (fun k => k <> fd) (item_key (heap w) <$> files (sel w)) ->
              (if ret =? 0 then vector_get_item (files (sel w)) i else None) = None
              /\ forall q, Some q ∈ files (sel w) -> fd_of (heap w) q <> fd).
    { intros Hr Hall. replace (ret =? 0) with false by lia. split; [reflexivity |].
      intros q Hq. rewrite Forall_forall in Hall.
      apply (Hall (item_key (heap w) (Some q))). apply list_elem_of_fmap_2. exact Hq. }
    destruct Hres as [[-> Hi] | [(Hr & Hil & Hlo & Hhi) | (Hr & -> & Hall)]].
    + left. rewrite list_lookup_fmap in Hi.
      destruct (files (sel w) !! i) as [[p |] |] eqn:E; try discriminate.
      * exists p. injection Hi as Hi. auto.
      * exfalso. apply Hnn. eapply list_elem_of_lookup_2. exact E.
    + right. apply Hmiss; [lia |].
      rewrite <- (take_drop (S i) (files (sel w))), fmap_app. apply Forall_app. split.
      * eapply Forall_impl; [exact Hlo | intros k Hk; cbv beta in Hk; lia].
      * eapply Forall_impl; [exact Hhi | intros k Hk; cbv beta in Hk; lia].
    + right. apply Hmiss; [lia |].
      eapply Forall_impl; [exact Hall | intros k Hk; cbv beta in Hk; lia].
Qed.

(** X4: on a legal state, the look-up of a descriptor (qps_file_lookup_fd
    with nothing to insert) always returns and leaves the state alone; it
    returns the record attached with that descriptor, and NULL exactly when
    no attached record has it.  This is so in the list form and in the array
    form. *)
Theorem lookup_finds_the_attached (w : world) (fd : Z) :
  legal w -> 0 <= fd < FD_SETSIZE ->
  exists r,
    qps_file_lookup_fd w fd None = Ok (w, r)
    /\ forall p, r = Some p <-> (Some p ∈ files (sel w) /\ fd_of (heap w) p = fd).
Proof.
  intros Hl Hfd. pose proof (l_files _ Hl) as Hf.
  destruct (search_by_fd w fd (fo_shape _ Hf)) as (i & ret & Hs & Hcase).
  { intros q Hq. destruct (fo_heap _ Hf q Hq) as (qf & Hq' & _). eauto. }
  { lia. }
  unfold qps_file_lookup_fd.
  rewrite ensure_true by (apply andb_true_intro; split; lia). cbn [bind].
  rewrite Hs. cbn [bind fst snd].
  destruct Hcase as [(p & -> & Hi & Hk) | [Hnone Hfree]].
  - cbn [Z.eqb]. rewrite (proj2 (vector_get_item_some _ i p) Hi). cbn [fst snd].
    assert (Hin : Some p ∈ files (sel w)) by (eapply list_elem_of_lookup_2; exact Hi).
    destruct (fo_heap _ Hf p Hin) as (qf & Hq & Hsel & _).
    unfold deref. rewrite Hq. cbn [bind].
    rewrite (fd_of_some _ _ _ Hq) in Hk.
    rewrite ensure_true
      by (apply andb_true_intro; split; [apply bool_decide_eq_true_2; exact Hsel | lia]).
    exists (Some p). split; [reflexivity |]. intros p'. split.
    + intros [= <-]. split; [exact Hin |]. rewrite (fd_of_some _ _ _ Hq). exact Hk.
    + intros [Hin' Hk']. f_equal. apply (files_key_inj w p p' Hf Hin Hin').
      rewrite (fd_of_some _ _ _ Hq). congruence.
  - rewrite Hnone. cbn [fst snd bind]. exists None. split; [reflexivity |].
    intros p. split; [discriminate |]. intros [Hin Hk]. exfalso. exact (Hfree p Hin Hk).
Qed.

Lemma lookup_finds_the_attached_witness :
  exists r,
    qps_file_lookup_fd example_ten 20 None = Ok (example_ten, r)
    /\ forall p, r = Some p
                 <-> (Some p ∈ files (sel example_ten) /\ fd_of (heap example_ten) p = 20).
Proof.
  apply (lookup_finds_the_attached example_ten 20).
  - exact example_ten_legal.
  - unfold FD_SETSIZE. lia.
Defined.

(** ** Attach *)

Lemma add_file_search (w : world) (p : file_ptr) (qf : qps_file) (fd info : Z) :
  legal w -> heap w !! p = Some qf -> f_selection qf = None -> 0 <= fd ->
  let w1 := set_file w p (attached_record (this w) fd info qf) in
  (Some p ∉ files (sel w))
  /\ (forall q, Some q ∈ files (sel w) -> fd_of (heap w1) q = fd_of (heap w) q)
  /\ exists i ret,
      (if fd_direct (sel w1) then Ok (Z.to_nat fd, 0)
       else vector_bsearch (qps_fd_cmp w1 fd) (files (sel w1))) = Ok (i, ret)
      /\ ((exists q, ret = 0 /\ files (sel w) !! i = Some (Some q) /\ fd_of (heap w) q = fd)
          \/ ((if ret =? 0 then vector_get_item (files (sel w)) i else None) = None
              /\ forall q, Some q ∈ files (sel w) -> fd_of (heap w) q <> fd)).
Proof.
  intros Hl Hp Hsel Hfd w1. pose proof (l_files _ Hl) as Hf.
  assert (Hnotin : Some p ∉ files (sel w)).
  { intros Hin. destruct (fo_heap _ Hf p Hin) as (qf' & Hq' & Hok & _). congruence. }
  assert (Hko : forall q, Some q ∈ files (sel w) -> fd_of (heap w1) q = fd_of (heap w) q).
  { intros q Hq. unfold fd_of, w1. cbn [heap set_file].
    rewrite lookup_insert_ne by (intros ->; auto). reflexivity. }
  split; [exact Hnotin |]. split; [exact Hko |].
  destruct (search_by_fd w1 fd) as (i & ret & Hs & Hcase).
  - apply (shape_ext (heap w) (heap w1) _ _ Hko). apply (fo_shape _ Hf).
  - intros q Hq. destruct (fo_heap _ Hf q Hq) as (qf' & Hq' & _). exists qf'.
    unfold w1. cbn [heap set_file]. rewrite lookup_insert_ne by (intros ->; auto). exact Hq'.
  - exact Hfd.
  - exists i, ret. split; [exact Hs |]. change (sel w1) with (sel w) in Hcase.
    destruct Hcase as [(q & Hr & Hi & Hk) | [Hnone Hfree]].
    + left. exists q. split; [exact Hr |]. split; [exact Hi |].
      rewrite <- Hko; [exact Hk | eapply list_elem_of_lookup_2; exact Hi].
    + right. split; [exact Hnone |]. intros q Hq. rewrite <- (Hko q Hq). apply Hfree. exact Hq.
Qed.

Lemma add_file_run (w : world) (p : file_ptr) (qf : qps_file) (fd info : Z) :
  heap w !! p = Some qf -> f_selection qf = None ->
  qps_add_file w p fd info
  = (r <- qps_file_lookup_fd (set_file w p (attached_record (this w) fd info qf)) fd (Some p) ;;
     Ok (fst r)).
Proof.
  intros Hp Hsel. unfold qps_add_file, deref. rewrite Hp. cbn [bind].
  rewrite ensure_true by (apply bool_decide_eq_true_2; exact Hsel). reflexivity.
Qed.

Lemma add_file_returns (w : world) (p : file_ptr) (qf : qps_file) (fd info : Z) :
  legal w -> heap w !! p = Some qf -> f_selection qf = None ->
  0 <= fd < FD_SETSIZE ->
  (forall q, Some q ∈ files (sel w) -> fd_of (heap w) q <> fd) ->
  exists w', qps_add_file w p fd info = Ok w'.
Proof.
  intros Hl Hp Hsel Hfd Hfree. pose proof (l_files _ Hl) as Hf.
  destruct (add_file_search w p qf fd info Hl Hp Hsel ltac:(lia))
    as (Hnotin & Hko & i & ret & Hs & Hcase).
  set (newrec := attached_record (this w) fd info qf) in *.
  set (w1 := set_file w p newrec) in *.
  destruct Hcase as [(q & _ & Hi & Hk) | [Hnone _]].
  { exfalso. apply (Hfree q); [eapply list_elem_of_lookup_2; exact Hi | exact Hk]. }
  rewrite (add_file_run w p qf fd info Hp Hsel). fold newrec. fold w1.
  unfold qps_file_lookup_fd.
  rewrite ensure_true by (apply andb_true_intro; split; lia). cbn [bind].
  rewrite Hs. cbn [bind fst snd]. change (sel w1) with (sel w). rewrite Hnone.
  cbn [is_null ensure bind].
  assert (Hcheck : forall q',
            (f <- deref (set_sel w1 q') p ;;
             ensure (bool_decide (f_selection f = Some (this (set_sel w1 q'))) && (fd =? f_fd f))
                    "dassert( (qf == NULL) || ((qps == qf->selection) && (fd == qf->fd)) )")
            = Ok tt).
  { intros q'. unfold deref. cbn [heap set_sel set_file w1]. rewrite lookup_insert_eq.
    cbn [bind this newrec attached_record f_selection f_fd].
    rewrite bool_decide_eq_true_2 by reflexivity. rewrite Z.eqb_refl. reflexivity. }
  destruct (negb (fd_direct (sel w)) && (fd_count (sel w) >? 9)) eqn:Hc.
  - apply andb_prop in Hc. destruct Hc as [Hd _]. apply negb_true_iff in Hd.
    destruct (move_to_direct_spec w1 (files (sel w)) (S (length (files (sel w)))) [])
      as (acc' & E & _).
    + lia.
    + pose proof (fo_shape _ Hf) as Hsh. rewrite Hd in Hsh.
      apply (shape_ext (heap w) (heap w1) _ false Hko). exact Hsh.
    + intros q Hq. destruct (fo_heap _ Hf q Hq) as (qf' & Hq' & _ & Hrange & _).
      exists qf'. split; [| lia]. unfold w1. cbn [heap set_file].
      rewrite lookup_insert_ne by (intros ->; auto). exact Hq'.
    + split; [intros j q Hj; rewrite lookup_nil in Hj; discriminate | discriminate].
    + intros q j r _ Hj. rewrite lookup_nil in Hj. discriminate.
    + rewrite E. cbn [bind fst snd]. rewrite Hcheck. cbn [bind]. eexists. reflexivity.
  - cbn [bind fst snd]. rewrite Hcheck. cbn [bind]. eexists. reflexivity.
Qed.

(** X5: attaching a record that is in no selection, with a descriptor of
    0 .. FD_SETSIZE-1 that no attached record has, always returns: the
    record is in the files vector with the records that were there, fd_count
    is one more, the state is legal again, and a look-up of the descriptor
    finds the record; this includes the attach that changes the selection
    from the list form to the array form. *)
Theorem attach_free_descriptor (w : world) (p : file_ptr) (qf : qps_file) (fd info : Z) :
  legal w -> heap w !! p = Some qf -> f_selection qf = None ->
  0 <= fd < FD_SETSIZE ->
  (forall q, Some q ∈ files (sel w) -> fd_of (heap w) q <> fd) ->
  exists w',
    qps_add_file w p fd info = Ok w'
    /\ legal w'
    /\ (forall q, Some q ∈ files (sel w') <-> q = p \/ Some q ∈ files (sel w))
    /\ fd_count (sel w') = fd_count (sel w) + 1
    /\ heap w' = <[p := attached_record (this w) fd info qf]> (heap w)
    /\ qps_file_lookup_fd w' fd None = Ok (w', Some p).
Proof.
  intros Hl Hp Hsel Hfd Hfree.
  destruct (add_file_returns w p qf fd info Hl Hp Hsel Hfd Hfree) as [w' H].
  exists w'. split; [exact H |].
  pose proof (add_file_legal _ _ _ _ _ Hl H) as Hl'. split; [exact Hl' |].
  destruct (add_file_unfold w w' p fd info (l_files _ Hl) H)
    as (qf' & v' & Hp' & _ & _ & Hw' & _ & Hmem & _).
  assert (qf' = qf) by congruence. subst qf'.
  assert (Hfiles : files (sel w') = v') by (rewrite Hw'; reflexivity).
  split; [rewrite Hfiles; exact Hmem |].
  split; [rewrite Hw'; reflexivity |]. split; [rewrite Hw'; reflexivity |].
  assert (Hin : Some p ∈ files (sel w')) by (rewrite Hfiles; apply Hmem; auto).
  assert (Hh : heap w' !! p = Some (attached_record (this w) fd info qf))
    by (rewrite Hw'; apply lookup_insert_eq).
  apply (lookup_fd_found w' p _ (l_files _ Hl') Hin Hh).
Qed.

Lemma attach_free_descriptor_witness :
  exists w',
    qps_add_file example_ten 11%positive 30 7 = Ok w'
    /\ legal w'
    /\ (forall q, Some q ∈ files (sel w') <-> q = 11%positive \/ Some q ∈ files (sel example_ten))
    /\ fd_count (sel w') = fd_count (sel example_ten) + 1
    /\ heap w' = <[11%positive := attached_record (this example_ten) 30 7 example_file]>
                   (heap example_ten)
    /\ qps_file_lookup_fd w' 30 None = Ok (w', Some 11%positive).
Proof.
  apply (attach_free_descriptor example_ten 11%positive example_file 30 7).
  - exact example_ten_legal.
  - vm_compute. reflexivity.
  - reflexivity.
  - unfold FD_SETSIZE. lia.
  - intros q Hq. apply (proj1 (records_elem _ _)) in Hq || apply records_elem in Hq.
    vm_compute in Hq.
    repeat (apply elem_of_cons in Hq; destruct Hq as [-> | Hq]; [vm_compute; discriminate |]).
    inversion Hq.
Defined.

(** X6: attaching with a descriptor that an attached record already has
    is fatal: qps_file_lookup_fd finds the record and stops the process
    through zabort, in the list form and in the array form alike. *)
Theorem attach_same_descriptor_aborts (w : world) (p q : file_ptr) (qf : qps_file)
        (info : Z) :
  legal w -> heap w !! p = Some qf -> f_selection qf = None ->
  Some q ∈ files (sel w) ->
  qps_add_file w p (fd_of (heap w) q) info
  = Abort "File with given fd already exists in qps_selection".
Proof.
  intros Hl Hp Hsel Hq. pose proof (l_files _ Hl) as Hf.
  destruct (fo_heap _ Hf q Hq) as (qq & Hqq & _ & Hrange & _).
  rewrite (fd_of_some _ _ _ Hqq).
  destruct (add_file_search w p qf (f_fd qq) info Hl Hp Hsel ltac:(lia))
    as (Hnotin & Hko & i & ret & Hs & Hcase).
  destruct Hcase as [(q' & -> & Hi & Hk) | [_ Hfree]].
  2:{ exfalso. apply (Hfree q Hq). apply fd_of_some. exact Hqq. }
  rewrite (add_file_run w p qf (f_fd qq) info Hp Hsel). unfold qps_file_lookup_fd.
  rewrite ensure_true by (apply andb_true_intro; split; lia). cbn [bind].
  rewrite Hs. cbn [bind fst snd Z.eqb sel set_file].
  rewrite (proj2 (vector_get_item_some _ i q') Hi). reflexivity.
Qed.

Lemma attach_same_descriptor_aborts_witness :
  qps_add_file example_ten 11%positive (fd_of (heap example_ten) 3%positive) 0
  = Abort "File with given fd already exists in qps_selection".
Proof.
  apply (attach_same_descriptor_aborts example_ten 11%positive 3%positive example_file 0).
  - exact example_ten_legal.
  - vm_compute. reflexivity.
  - reflexivity.
  - apply records_elem. vm_compute.
    repeat (first [apply list_elem_of_here | apply list_elem_of_further]).
Defined.

(** ** qps_disable_modes *)

Lemma first_mnum_halves (mbits : Z) :
  0 < mbits <= 7 -> Z.lxor mbits (qps_mbit (qps_first_mnum mbits)) <= mbits / 2.
Proof.
  intros Hb.
  assert (Hc : mbits = 1 \/ mbits = 2 \/ mbits = 3 \/ mbits = 4 \/ mbits = 5
               \/ mbits = 6 \/ mbits = 7) by lia.
  destruct Hc as [-> | [-> | [-> | [-> | [-> | [-> | ->]]]]]]; vm_compute; discriminate.
Qed.

(** The loop of qps_disable_modes runs to its end, and takes the descriptor
    out of the enabled and the results sets of the modes of [mbits]. *)
Lemma disable_loop_run (fd : Z) :
  forall (fuel : nat) (q : qps_selection) (mbits : Z),
    0 <= mbits <= 7 -> mbits < 2 ^ Z.of_nat fuel -> 0 <= fd < FD_SETSIZE ->
    (forall m, 0 <= m < 3 -> Z.testbit mbits m = true ->
               Z.testbit (aget (enabled q) m) fd = true) ->
    (forall m, 0 <= m < 3 -> aget (enabled_count q) m = popcount (aget (enabled q) m)) ->
    batch_ok q ->
    exists q',
      disable_loop fuel fd q mbits = Ok q'
      /\ (forall m x, 0 <= m < 3 ->
            Z.testbit (aget (enabled q') m) x
            = Z.testbit (aget (enabled q) m) x && negb (Z.testbit mbits m && (x =? fd)))
      /\ (forall m x, 0 <= m < 3 ->
            Z.testbit (aget (results q') m) x
            = Z.testbit (aget (results q) m) x && negb (Z.testbit mbits m && (x =? fd)))
      /\ (forall m, 0 <= m < 3 -> aget (enabled_count q') m = popcount (aget (enabled q') m))
      /\ batch_ok q'
      /\ same_membership q q' /\ same_cursor q q'.
Proof.
  induction fuel as [| k IH]; intros q mbits Hr Hlt Hfd Hin Hc Hb.
  - assert (mbits = 0) as -> by (simpl in Hlt; lia).
    exists q. split; [reflexivity |].
    split; [intros m x Hm; rewrite Z.bits_0, andb_true_r; reflexivity |].
    split; [intros m x Hm; rewrite Z.bits_0, andb_true_r; reflexivity |].
    split; [exact Hc |]. split; [exact Hb |]. split; repeat split; reflexivity.
  - cbn [disable_loop]. destruct (Z.eqb_spec mbits 0) as [-> | N].
    { exists q. split; [reflexivity |].
      split; [intros m x Hm; rewrite Z.bits_0, andb_true_r; reflexivity |].
      split; [intros m x Hm; rewrite Z.bits_0, andb_true_r; reflexivity |].
      split; [exact Hc |]. split; [exact Hb |]. split; repeat split; reflexivity. }
    destruct (first_mnum_spec mbits ltac:(lia)) as (Hm & Hbit & Hr' & Hbits').
    pose proof (first_mnum_halves mbits ltac:(lia)) as Hhalf.
    set (mnum := qps_first_mnum mbits) in *.
    rewrite (mode_index_in mnum Hm). cbn [bind].
    pose proof (Hin mnum Hm Hbit) as Hset.
    rewrite ensure_true.
    2:{ rewrite (Hc mnum Hm). pose proof (popcount_pos _ fd Hfd Hset). lia. }
    cbn [bind]. rewrite (fd_index_in fd Hfd). cbn [bind].
    rewrite ensure_true by exact Hset. cbn [bind].
    pose proof (batch_ok_disable q mnum fd Hb Hm Hfd) as Hb2. cbv zeta in Hb2.
    match goal with |- context [disable_loop k fd ?qq _] => set (q2 := qq) in * end.
    assert (Hen2 : enabled q2 = aset (enabled q) mnum (Z.clearbit (aget (enabled q) mnum) fd)).
    { unfold q2. match goal with |- context [if ?c then _ else _] => destruct c end;
        reflexivity. }
    assert (Hcn2 : enabled_count q2
                   = aset (enabled_count q) mnum (aget (enabled_count q) mnum - 1)).
    { unfold q2. match goal with |- context [if ?c then _ else _] => destruct c end;
        reflexivity. }
    assert (Hfr2 : same_membership q q2 /\ same_cursor q q2).
    { unfold q2. match goal with |- context [if ?c then _ else _] => destruct c end;
        split; repeat split; reflexivity. }
    assert (Hres2 : forall m x, 0 <= m < 3 ->
              Z.testbit (aget (results q2) m) x
              = Z.testbit (aget (results q) m) x && negb ((mnum =? m) && (fd =? x))).
    { intros m x Hm'. unfold q2.
      cbn [pend_count tried_count results with_enabled]. unfold FD_ISSET, FD_CLR.
      destruct (Z.testbit (aget (results q) mnum) fd) eqn:Hres.
      - destruct (bo_bits q Hb mnum fd Hm Hres) as (_ & _ & Htr).
        assert (Hpc : pend_count q <> 0).
        { intros E. pose proof (batch_idle_results q Hb E) as Hz.
          rewrite Hz in Hres. unfold qps_super_set_zero in Hres.
          destruct (mode_cases mnum Hm) as [-> | [-> | ->]]; cbn in Hres;
            rewrite Z.bits_0 in Hres; discriminate. }
        replace (pend_count q =? 0) with false by lia.
        replace (aget (tried_count q) mnum =? 0) with false by lia.
        cbn [negb andb results with_batch with_enabled].
        apply testbit_aset_clear; assumption.
      - rewrite andb_false_r. cbn [results with_enabled].
        destruct ((mnum =? m) && (fd =? x)) eqn:E; [| rewrite andb_true_r; reflexivity].
        apply andb_prop in E. destruct E as [E1 E2].
        apply Z.eqb_eq in E1. apply Z.eqb_eq in E2. subst m x.
        rewrite Hres. reflexivity. }
    destruct (IH q2 (Z.lxor mbits (qps_mbit mnum))) as (q' & E & R1 & R2 & R3 & R4 & R5 & R6).
    + exact Hr'.
    + assert (mbits / 2 < 2 ^ Z.of_nat k); [| lia].
      apply Z.div_lt_upper_bound; [lia |].
      replace (2 * 2 ^ Z.of_nat k) with (2 ^ Z.of_nat (S k)); [exact Hlt |].
      rewrite Nat2Z.inj_succ, Z.pow_succ_r by lia. reflexivity.
    + exact Hfd.
    + intros m Hm' Hbm. rewrite Hbits' in Hbm by exact Hm'. apply andb_prop in Hbm.
      destruct Hbm as [Hbm Hne]. rewrite Hen2, aget_aset_other by lia.
      apply Hin; assumption.
    + intros m Hm'. rewrite Hen2, Hcn2. destruct (Z.eq_dec mnum m) as [<- | Hnm].
      * rewrite !aget_aset_same. rewrite popcount_clearbit by assumption.
        rewrite (Hc mnum Hm). reflexivity.
      * rewrite !aget_aset_other by (lia || exact Hnm). apply Hc. exact Hm'.
    + exact Hb2.
    + exists q'. split; [exact E |].
      assert (Hbool : forall (a bm : bool) m x, 0 <= m < 3 -> Z.testbit mbits m = bm ->
                a && negb ((mnum =? m) && (fd =? x))
                  && negb (bm && negb (mnum =? m) && (x =? fd))
                = a && negb (bm && (x =? fd))).
      { intros a bm m x Hm' Hbm.
        destruct (Z.eqb_spec mnum m) as [<- | Hne]; destruct (Z.eqb_spec fd x) as [<- | Hnx];
          rewrite ?Z.eqb_refl; try replace (x =? fd) with false by lia;
          destruct a; destruct bm; try reflexivity; congruence. }
      split.
      { intros m x Hm'. rewrite R1, Hen2 by exact Hm'.
        rewrite testbit_aset_clear by assumption. rewrite Hbits' by exact Hm'.
        apply Hbool; [exact Hm' | reflexivity]. }
      split.
      { intros m x Hm'. rewrite R2, Hres2 by exact Hm'. rewrite Hbits' by exact Hm'.
        apply Hbool; [exact Hm' | reflexivity]. }
      split; [exact R3 |]. split; [exact R4 |].
      destruct Hfr2 as [(F1 & F2 & F3 & F4 & F5 & F6) (G1 & G2 & G3 & G4)].
      destruct R5 as (A1 & A2 & A3 & A4 & A5 & A6). destruct R6 as (B1 & B2 & B3 & B4).
      split; repeat split; congruence.
Qed.

Lemma popcount_without (s s' : fd_super_set) (fd : Z) (b : bool) :
  0 <= fd < FD_SETSIZE ->
  (forall x, Z.testbit s' x = Z.testbit s x && negb (b && (x =? fd))) ->
  popcount s' = popcount s - (if b && Z.testbit s fd then 1 else 0).
Proof.
  intros Hfd H. destruct (b && Z.testbit s fd) eqn:E.
  - apply andb_prop in E. destruct E as [-> Hs].
    rewrite <- (popcount_clearbit s fd Hfd Hs). apply popcount_ext. intros x _.
    rewrite H, Z.clearbit_eqb. cbn [andb]. rewrite (Z.eqb_sym fd x). reflexivity.
  - rewrite Z.sub_0_r. apply popcount_ext. intros x _. rewrite H.
    destruct b; [| rewrite andb_true_r; reflexivity]. cbn [andb] in *.
    destruct (Z.eqb_spec x fd) as [-> | Hne]; [rewrite E; reflexivity |].
    rewrite andb_true_r. reflexivity.
Qed.

(** A mode that is off for an attached record: its descriptor is in neither
    set of the mode. *)
Lemma mode_off_absent (w : world) (p : file_ptr) (qf : qps_file) (m : Z) :
  legal w -> heap w !! p = Some qf -> f_selection qf = Some (this w) ->
  0 <= m < 3 -> Z.testbit (f_enabled_bits qf) m = false ->
  Z.testbit (aget (enabled (sel w)) m) (f_fd qf) = false
  /\ Z.testbit (aget (results (sel w)) m) (f_fd qf) = false.
Proof.
  intros Hl Hp Hs Hm Hoff. pose proof Hl as [Hf He Hb].
  pose proof (fo_back _ Hf p qf Hp Hs) as Hin.
  assert (Hen : Z.testbit (aget (enabled (sel w)) m) (f_fd qf) = false).
  { destruct (Z.testbit (aget (enabled (sel w)) m) (f_fd qf)) eqn:E; [| reflexivity].
    apply (eo_bits _ He m _ Hm) in E. destruct E as (q & f & Hq & Hqh & Hk & Hbq).
    assert (p = q).
    { apply (files_key_inj w p q Hf Hin Hq).
      rewrite (fd_of_some _ _ _ Hp), (fd_of_some _ _ _ Hqh). congruence. }
    subst q. assert (f = qf) by congruence. subst f. congruence. }
  split; [exact Hen |].
  destruct (Z.testbit (aget (results (sel w)) m) (f_fd qf)) eqn:E; [| reflexivity].
  destruct (bo_bits _ Hb m _ Hm E) as (_ & H2 & _). congruence.
Qed.

(** X7: qps_disable_modes on an attached record of a legal state, with
    any mask of 0 .. 7, always returns.  Afterwards the record has the modes
    of the mask off, its descriptor is out of the enabled set of each of
    those modes, and any event pending for it in those modes is retracted:
    the descriptor is out of the results sets and pend_count is down by the
    number of events retracted.  Every other descriptor, the membership and
    the place the dispatch has reached are as before. *)
Theorem disable_modes_retracts (w : world) (p : file_ptr) (qf : qps_file) (mbits : Z) :
  legal w -> heap w !! p = Some qf -> f_selection qf = Some (this w) ->
  0 <= mbits <= qps_all_mbits ->
  exists w',
    qps_disable_modes w p mbits = Ok w'
    /\ legal w'
    /\ heap w' = <[p := with_file_enabled qf (Z.lxor (f_enabled_bits qf)
                                               (Z.land mbits (f_enabled_bits qf)))]> (heap w)
    /\ (forall m, Z.testbit (Z.lxor (f_enabled_bits qf) (Z.land mbits (f_enabled_bits qf))) m
                  = Z.testbit (f_enabled_bits qf) m && negb (Z.testbit mbits m))
    /\ (forall m x, 0 <= m < 3 ->
          Z.testbit (aget (enabled (sel w')) m) x
          = Z.testbit (aget (enabled (sel w)) m) x
            && negb (Z.testbit mbits m && (x =? f_fd qf)))
    /\ (forall m x, 0 <= m < 3 ->
          Z.testbit (aget (results (sel w')) m) x
          = Z.testbit (aget (results (sel w)) m) x
            && negb (Z.testbit mbits m && (x =? f_fd qf)))
    /\ pend_count (sel w') = pend_count (sel w) - pending_of (sel w) (f_fd qf) mbits
    /\ same_membership (sel w) (sel w') /\ same_cursor (sel w) (sel w').
Proof.
  intros Hl Hp Hs Hr. unfold qps_all_mbits in Hr. pose proof Hl as [Hf He Hb].
  pose proof (fo_back _ Hf p qf Hp Hs) as Hin.
  destruct (fo_heap _ Hf p Hin) as (qf' & Hq' & _ & Hfd & Hbr & _).
  assert (qf' = qf) by congruence. subst qf'. clear Hq'. unfold qps_all_mbits in Hbr.
  set (mb := Z.land mbits (f_enabled_bits qf)).
  assert (Hmb : 0 <= mb <= 7) by (apply land_bits_range; assumption).
  assert (Hmbk : forall k, Z.testbit mb k = Z.testbit mbits k && Z.testbit (f_enabled_bits qf) k)
    by (intros k; apply Z.land_spec).
  (* the selection the loop leaves *)
  assert (Hloop : exists q',
            (if mb =? 0 then Ok (sel w) else disable_loop 3 (f_fd qf) (sel w) mb) = Ok q'
            /\ (forall m x, 0 <= m < 3 ->
                  Z.testbit (aget (enabled q') m) x
                  = Z.testbit (aget (enabled (sel w)) m) x
                    && negb (Z.testbit mb m && (x =? f_fd qf)))
            /\ (forall m x, 0 <= m < 3 ->
                  Z.testbit (aget (results q') m) x
                  = Z.testbit (aget (results (sel w)) m) x
                    && negb (Z.testbit mb m && (x =? f_fd qf)))
            /\ same_membership (sel w) q' /\ same_cursor (sel w) q').
  { destruct (Z.eqb_spec mb 0) as [E | N].
    - exists (sel w). split; [reflexivity |]. rewrite E.
      split; [intros m x _; rewrite Z.bits_0, andb_true_r; reflexivity |].
      split; [intros m x _; rewrite Z.bits_0, andb_true_r; reflexivity |].
      split; repeat split; reflexivity.
    - destruct (disable_loop_run (f_fd qf) 3 (sel w) mb Hmb ltac:(simpl; lia) Hfd)
        as (q' & E & R1 & R2 & _ & _ & R5 & R6).
      + intros m Hm Hbm. rewrite Hmbk in Hbm. apply andb_prop in Hbm.
        apply (eo_bits _ He m _ Hm). exists p, qf. tauto.
      + apply (eo_count _ He).
      + exact Hb.
      + exists q'. auto. }
  destruct Hloop as (q' & Hrun & R1 & R2 & R5 & R6).
  set (qf1 := with_file_enabled qf (Z.lxor (f_enabled_bits qf) mb)).
  assert (Hok : qps_disable_modes w p mbits = Ok (World (this w) q' (<[p := qf1]> (heap w)))).
  { unfold qps_disable_modes, deref. rewrite Hp. cbn [bind].
    rewrite ensure_true by (unfold qps_all_mbits; apply andb_true_intro; split; lia).
    cbn [bind]. fold mb. fold qf1.
    destruct (Z.eqb_spec mb 0) as [E | N].
    - injection Hrun as <-. reflexivity.
    - unfold same_selection. rewrite Hs. rewrite bool_decide_eq_true_2 by reflexivity.
      cbn [sel set_file]. rewrite Hrun. reflexivity. }
  exists (World (this w) q' (<[p := qf1]> (heap w))).
  split; [exact Hok |]. split; [eapply disable_modes_legal; eassumption |].
  pose proof (disable_modes_legal _ _ _ _ Hl Hok) as Hl'.
  cbn [sel heap]. split; [reflexivity |].
  split; [intros m; apply lxor_land_testbit |].
  assert (Hcharm : forall (s s' : fd_super_set) m x, 0 <= m < 3 ->
            (Z.testbit (f_enabled_bits qf) m = false -> Z.testbit s (f_fd qf) = false) ->
            Z.testbit s' x = Z.testbit s x && negb (Z.testbit mb m && (x =? f_fd qf)) ->
            Z.testbit s' x = Z.testbit s x && negb (Z.testbit mbits m && (x =? f_fd qf))).
  { intros s s' m x Hm Hoff ->. rewrite Hmbk.
    destruct (Z.testbit (f_enabled_bits qf) m) eqn:Hbm; [rewrite andb_true_r; reflexivity |].
    rewrite andb_false_r. cbn [andb negb]. rewrite andb_true_r.
    destruct (Z.testbit mbits m); [| rewrite andb_true_r; reflexivity]. cbn [andb].
    destruct (Z.eqb_spec x (f_fd qf)) as [-> | Hne]; [| rewrite andb_true_r; reflexivity].
    rewrite Hoff by reflexivity. reflexivity. }
  assert (Hen' : forall m x, 0 <= m < 3 ->
            Z.testbit (aget (enabled q') m) x
            = Z.testbit (aget (enabled (sel w)) m) x
              && negb (Z.testbit mbits m && (x =? f_fd qf))).
  { intros m x Hm. apply (Hcharm _ _ m x Hm); [| apply R1; exact Hm].
    intros Hoff. apply (mode_off_absent w p qf m Hl Hp Hs Hm Hoff). }
  assert (Hres' : forall m x, 0 <= m < 3 ->
            Z.testbit (aget (results q') m) x
            = Z.testbit (aget (results (sel w)) m) x
              && negb (Z.testbit mbits m && (x =? f_fd qf))).
  { intros m x Hm. apply (Hcharm _ _ m x Hm); [| apply R2; exact Hm].
    intros Hoff. apply (mode_off_absent w p qf m Hl Hp Hs Hm Hoff). }
  split; [exact Hen' |]. split; [exact Hres' |].
  split; [| split; assumption].
  pose proof (bo_count _ (l_batch _ Hl')) as Hc'. cbn [sel] in Hc'.
  pose proof (bo_count _ Hb) as Hc.
  rewrite <- Hc', <- Hc. unfold pending_of.
  rewrite (popcount_without (at0 (results (sel w))) (at0 (results q')) (f_fd qf)
                            (Z.testbit mbits 0) Hfd (fun x => Hres' 0 x ltac:(lia))).
  rewrite (popcount_without (at1 (results (sel w))) (at1 (results q')) (f_fd qf)
                            (Z.testbit mbits 1) Hfd (fun x => Hres' 1 x ltac:(lia))).
  rewrite (popcount_without (at2 (results (sel w))) (at2 (results q')) (f_fd qf)
                            (Z.testbit mbits 2) Hfd (fun x => Hres' 2 x ltac:(lia))).
  lia.
Qed.

Lemma disable_modes_retracts_witness :
  exists w',
    qps_disable_modes (waited eager_environment example_armed 0) 1%positive 6 = Ok w'
    /\ pend_count (sel w')
       = pend_count (sel (waited eager_environment example_armed 0))
         - pending_of (sel (waited eager_environment example_armed 0)) 5 6.
Proof.
  destruct (disable_modes_retracts
              (waited eager_environment example_armed 0) 1%positive
              (with_file_enabled (attached_record 1%positive 5 0 example_file) 6) 6)
    as (w' & H & _ & _ & _ & _ & _ & Hpc & _).
  - exact example_batch_legal.
  - vm_compute. reflexivity.
  - reflexivity.
  - unfold qps_all_mbits. lia.
  - exists w'. split; [exact H | exact Hpc].
Defined.

(** ** Detach *)

(** qps_disable_modes, from what it relies on: the record is in the
    selection at [this], and the enabled sets hold its descriptor for the
    modes it has on. *)
Lemma disable_modes_run (w : world) (p : file_ptr) (qf : qps_file) (mbits : Z) :
  heap w !! p = Some qf -> f_selection qf = Some (this w) ->
  0 <= mbits <= 7 -> 0 <= f_fd qf < FD_SETSIZE -> 0 <= f_enabled_bits qf <= 7 ->
  (forall m, 0 <= m < 3 -> Z.testbit (f_enabled_bits qf) m = true ->
             Z.testbit (aget (enabled (sel w)) m) (f_fd qf) = true) ->
  (forall m, 0 <= m < 3 ->
             aget (enabled_count (sel w)) m = popcount (aget (enabled (sel w)) m)) ->
  batch_ok (sel w) ->
  exists q',
    qps_disable_modes w p mbits
    = Ok (World (this w) q'
                (<[p := with_file_enabled qf (Z.lxor (f_enabled_bits qf)
                                               (Z.land mbits (f_enabled_bits qf)))]> (heap w)))
    /\ (forall m x, 0 <= m < 3 ->
          Z.testbit (aget (enabled q') m) x
          = Z.testbit (aget (enabled (sel w)) m) x
            && negb (Z.testbit (Z.land mbits (f_enabled_bits qf)) m && (x =? f_fd qf)))
    /\ (forall m x, 0 <= m < 3 ->
          Z.testbit (aget (results q') m) x
          = Z.testbit (aget (results (sel w)) m) x
            && negb (Z.testbit (Z.land mbits (f_enabled_bits qf)) m && (x =? f_fd qf)))
    /\ same_membership (sel w) q' /\ same_cursor (sel w) q'
    /\ (forall m, 0 <= m < 3 -> aget (enabled_count q') m = popcount (aget (enabled q') m))
    /\ batch_ok q'.
Proof.
  intros Hp Hs Hr Hfd Hbr Hin Hc Hb.
  set (mb := Z.land mbits (f_enabled_bits qf)).
  assert (Hmb : 0 <= mb <= 7) by (apply land_bits_range; assumption).
  assert (Hloop : exists q',
            (if mb =? 0 then Ok (sel w) else disable_loop 3 (f_fd qf) (sel w) mb) = Ok q'
            /\ (forall m x, 0 <= m < 3 ->
                  Z.testbit (aget (enabled q') m) x
                  = Z.testbit (aget (enabled (sel w)) m) x
                    && negb (Z.testbit mb m && (x =? f_fd qf)))
            /\ (forall m x, 0 <= m < 3 ->
                  Z.testbit (aget (results q') m) x
                  = Z.testbit (aget (results (sel w)) m) x
                    && negb (Z.testbit mb m && (x =? f_fd qf)))
            /\ same_membership (sel w) q' /\ same_cursor (sel w) q'
            /\ (forall m, 0 <= m < 3 ->
                  aget (enabled_count q') m = popcount (aget (enabled q') m))
            /\ batch_ok q').
  { destruct (Z.eqb_spec mb 0) as [E | N].
    - exists (sel w). split; [reflexivity |]. rewrite E.
      split; [intros m x _; rewrite Z.bits_0, andb_true_r; reflexivity |].
      split; [intros m x _; rewrite Z.bits_0, andb_true_r; reflexivity |].
      split; [repeat split; reflexivity |]. split; [repeat split; reflexivity |].
      split; [exact Hc | exact Hb].
    - destruct (disable_loop_run (f_fd qf) 3 (sel w) mb Hmb ltac:(simpl; lia) Hfd)
        as (q' & E & R1 & R2 & R3 & R4 & R5 & R6).
      + intros m Hm Hbm. unfold mb in Hbm. rewrite Z.land_spec in Hbm.
        apply andb_prop in Hbm. apply Hin; tauto.
      + exact Hc.
      + exact Hb.
      + exists q'. repeat (split; [assumption |]). assumption. }
  destruct Hloop as (q' & Hrun & R). exists q'. split; [| exact R].
  unfold qps_disable_modes, deref. rewrite Hp. cbn [bind].
  rewrite ensure_true by (unfold qps_all_mbits; apply andb_true_intro; split; lia).
  cbn [bind]. fold mb.
  destruct (Z.eqb_spec mb 0) as [E | N].
  - injection Hrun as <-. reflexivity.
  - unfold same_selection. rewrite Hs. rewrite bool_decide_eq_true_2 by reflexivity.
    cbn [sel set_file]. rewrite Hrun. reflexivity.
Qed.

Lemma all_modes_off (b : Z) :
  0 <= b <= 7 -> Z.lxor b (Z.land qps_all_mbits b) = 0.
Proof.
  intros Hb. destruct (bits_cases b Hb) as [-> | [-> | [-> | [-> | [-> | [-> | [-> | ->]]]]]]];
    reflexivity.
Qed.

(** The value qps_file_remove has for fd_last once item [i] is out. *)
Lemma removed_last (w : world) (i : nat) (p : file_ptr) :
  files_ok w -> files (sel w) !! i = Some (Some p) ->
  exists last,
    (if fd_direct (sel w) then
       Ok (vector_get_item (files (sel w)) i,
           removed_item true (files (sel w)) i,
           vector_end (removed_item true (files (sel w)) i) - 1)
     else
       match vector_get_last_item (removed_item false (files (sel w)) i) with
       | Some pl => qf_last <- deref w pl ;;
                    Ok (vector_get_item (files (sel w)) i,
                        removed_item false (files (sel w)) i, f_fd qf_last)
       | None => Ok (vector_get_item (files (sel w)) i,
                     removed_item false (files (sel w)) i, -1)
       end)
    = Ok (Some p, removed_item (fd_direct (sel w)) (files (sel w)) i, last)
    /\ ((records (removed_item (fd_direct (sel w)) (files (sel w)) i) <> [] /\ 0 <= last)
        \/ (records (removed_item (fd_direct (sel w)) (files (sel w)) i) = [] /\ last < 0)).
Proof.
  intros Hf Hi.
  destruct (removed_item_spec (heap w) (fd_direct (sel w)) (files (sel w)) i p
                              (fo_shape _ Hf) Hi) as (Hshape' & Hmem' & _).
  rewrite (proj2 (vector_get_item_some _ i p) Hi).
  destruct (fd_direct (sel w)) eqn:Hd.
  - set (v' := removed_item true (files (sel w)) i) in *.
    exists (vector_end v' - 1). split; [reflexivity |]. unfold vector_end.
    destruct (last v') as [[pl |] |] eqn:Hlast.
    + left. destruct (last_some_key (heap w) v' pl Hlast) as [_ Hne]. split; [exact Hne |].
      destruct v'; [discriminate | simpl; lia].
    + exfalso. apply (proj2 Hshape'). exact Hlast.
    + right. apply last_None in Hlast. rewrite Hlast. split; [reflexivity | simpl; lia].
  - set (v' := removed_item false (files (sel w)) i) in *.
    unfold vector_get_last_item.
    destruct (last v') as [[pl |] |] eqn:Hlast; cbn [default id].
    + assert (Hpl : Some pl ∈ files (sel w)).
      { apply (Hmem' pl). apply last_Some in Hlast. destruct Hlast as [t ->].
        apply elem_of_app. right. constructor. }
      destruct (fo_heap _ Hf pl Hpl) as (ql & Hql & _ & Hrl & _).
      unfold deref. rewrite Hql. cbn [bind id]. exists (f_fd ql). split; [reflexivity |].
      left. destruct (last_some_key (heap w) v' pl Hlast) as [_ Hne]. split; [exact Hne | lia].
    + exfalso. apply (proj1 Hshape'). apply last_Some in Hlast. destruct Hlast as [t ->].
      apply elem_of_app. right. constructor.
    + exists (-1). split; [reflexivity |]. right. apply last_None in Hlast. rewrite Hlast.
      split; [reflexivity | lia].
Qed.

(** X8: detaching a record that is attached always returns, in the list
    form and in the array form.  The record is then in no selection with no
    mode on; the files vector holds the other records and fd_count is one
    less; the descriptor is out of the three enabled sets and of the three
    results sets, pend_count is down by the events retracted, and the state
    is legal again.  The other records are untouched. *)
Theorem detach_attached_record (w : world) (p : file_ptr) (qf : qps_file) :
  legal w -> heap w !! p = Some qf -> f_selection qf = Some (this w) ->
  exists w',
    qps_remove_file w p = Ok w'
    /\ legal w'
    /\ heap w' = <[p := with_file_selection (with_file_enabled qf 0) None]> (heap w)
    /\ (forall q, Some q ∈ files (sel w') <-> Some q ∈ files (sel w) /\ q <> p)
    /\ fd_count (sel w') = fd_count (sel w) - 1
    /\ fd_direct (sel w') = fd_direct (sel w)
    /\ (forall m x, 0 <= m < 3 ->
          Z.testbit (aget (enabled (sel w')) m) x
          = Z.testbit (aget (enabled (sel w)) m) x && negb (x =? f_fd qf))
    /\ (forall m x, 0 <= m < 3 ->
          Z.testbit (aget (results (sel w')) m) x
          = Z.testbit (aget (results (sel w)) m) x && negb (x =? f_fd qf))
    /\ pend_count (sel w')
       = pend_count (sel w) - pending_of (sel w) (f_fd qf) qps_all_mbits
    /\ same_cursor (sel w) (sel w').
Proof.
  intros Hl Hp Hs. pose proof Hl as [Hf He Hb].
  pose proof (fo_back _ Hf p qf Hp Hs) as Hin.
  destruct (fo_heap _ Hf p Hin) as (qf' & Hq' & _ & Hfd & Hbr & _).
  assert (qf' = qf) by congruence. subst qf'. clear Hq'. unfold qps_all_mbits in Hbr.
  destruct (lookup_item_found w (f_fd qf) p Hf Hin (fd_of_some _ _ _ Hp) ltac:(lia))
    as (i & ret & Hlk & -> & Hi).
  destruct (removed_item_spec (heap w) (fd_direct (sel w)) (files (sel w)) i p
                              (fo_shape _ Hf) Hi) as (Hshape' & Hmem' & Hcnt').
  destruct (removed_last w i p Hf Hi) as (last & Hlast & Hagree).
  set (v' := removed_item (fd_direct (sel w)) (files (sel w)) i) in *.
  set (q1 := with_membership (sel w) (fd_count (sel w) - 1) (fd_direct (sel w)) v'
                             (if last >=? 0 then last else 0)).
  destruct (disable_modes_run (set_sel w q1) p qf qps_all_mbits Hp Hs
                              ltac:(unfold qps_all_mbits; lia) Hfd Hbr)
    as (q' & Hdis & R1 & R2 & R5 & R6 & _).
  { intros m Hm Hbm. apply (eo_bits _ He m _ Hm). exists p, qf. auto. }
  { apply (eo_count _ He). }
  { apply batch_ok_membership. exact Hb. }
  cbn [this heap sel set_sel] in Hdis, R1, R2, R5, R6.
  rewrite (all_modes_off _ Hbr) in Hdis.
  set (qf0 := with_file_enabled qf 0) in *.
  set (w' := World (this w) q' (<[p := with_file_selection qf0 None]> (heap w))).
  assert (Hok : qps_remove_file w p = Ok w').
  { unfold qps_remove_file, deref. rewrite Hp. cbn [bind]. rewrite Hs.
    rewrite bool_decide_eq_true_2 by reflexivity.
    unfold qps_file_remove, deref. rewrite Hp. cbn [bind].
    rewrite ensure_true.
    2:{ apply andb_true_intro. split; [apply andb_true_intro; split |].
        - lia.
        - pose proof (proj1 (fo_last _ Hf) p Hin) as Hle.
          rewrite (fd_of_some _ _ _ Hp) in Hle. lia.
        - apply bool_decide_eq_true_2. exact Hs. }
    cbn [bind].
    assert (Hr : (if fd_direct (sel w) then
                    let u := vector_unset_item (files (sel w)) (Z.to_nat (f_fd qf)) in
                    Ok (fst u, snd u, vector_end (snd u) - 1)
                  else
                    ir <- vector_bsearch (qps_fd_cmp w (f_fd qf)) (files (sel w)) ;;
                    let d := if snd ir =? 0 then vector_delete_item (files (sel w)) (fst ir)
                             else (None, files (sel w)) in
                    match vector_get_last_item (snd d) with
                    | Some pl => qf_last <- deref w pl ;; Ok (fst d, snd d, f_fd qf_last)
                    | None => Ok (fst d, snd d, -1)
                    end) = Ok (Some p, v', last)).
    { rewrite <- Hlast. unfold v'. destruct (fd_direct (sel w)).
      - injection Hlk as <-. reflexivity.
      - rewrite Hlk. reflexivity. }
    unfold deref in Hr. rewrite Hr. cbn [bind fst snd].
    rewrite ensure_true by (apply bool_decide_eq_true_2; reflexivity). cbn [bind].
    assert (Hn : fd_count (sel w) - 1 = Z.of_nat (length (records v'))).
    { rewrite (fo_count _ Hf). lia. }
    rewrite ensure_true by (rewrite (fo_count _ Hf); lia). cbn [bind].
    rewrite ensure_true.
    2:{ rewrite Hn. destruct Hagree as [[Hne Hl0] | [Hnil Hl0]].
        - apply orb_true_intro. left. apply andb_true_intro. split; [| lia].
          apply negb_true_iff, Z.eqb_neq. destruct (records v'); [contradiction | simpl; lia].
        - apply orb_true_intro. right. rewrite Hnil. apply andb_true_intro. split; [reflexivity | lia]. }
    cbn [bind]. fold q1. rewrite Hdis. cbn [bind].
    unfold deref. cbn [heap]. rewrite lookup_insert_eq. cbn [bind].
    unfold set_file. cbn [this sel heap]. rewrite insert_insert_eq. reflexivity. }
  exists w'. split; [exact Hok |].
  pose proof (remove_file_legal _ _ _ Hl Hok) as Hl'. split; [exact Hl' |].
  destruct R5 as (F1 & F2 & F3 & F4 & F5 & F6). cbn [sel heap w'].
  cbn [files fd_count fd_direct q1 with_membership] in F1, F2, F3.
  split; [reflexivity |]. split; [rewrite F1; exact Hmem' |].
  split; [exact F2 |]. split; [exact F3 |].
  assert (Hchar : forall (s s' : fd_super_set) m x, 0 <= m < 3 ->
            (Z.testbit (f_enabled_bits qf) m = false -> Z.testbit s (f_fd qf) = false) ->
            Z.testbit s' x
            = Z.testbit s x
              && negb (Z.testbit (Z.land qps_all_mbits (f_enabled_bits qf)) m && (x =? f_fd qf)) ->
            Z.testbit s' x = Z.testbit s x && negb (x =? f_fd qf)).
  { intros s s' m x Hm Hoff ->. rewrite Z.land_spec, all_mbits_testbit by exact Hm.
    cbn [andb].
    destruct (Z.testbit (f_enabled_bits qf) m) eqn:Hbm; [reflexivity |]. cbn [andb negb].
    rewrite andb_true_r.
    destruct (Z.eqb_spec x (f_fd qf)) as [-> | Hne]; [| rewrite andb_true_r; reflexivity].
    rewrite Hoff by reflexivity. reflexivity. }
  assert (Hen' : forall m x, 0 <= m < 3 ->
            Z.testbit (aget (enabled q') m) x
            = Z.testbit (aget (enabled (sel w)) m) x && negb (x =? f_fd qf)).
  { intros m x Hm. apply (Hchar _ _ m x Hm); [| apply (R1 m x Hm)].
    intros Hoff. apply (mode_off_absent w p qf m Hl Hp Hs Hm Hoff). }
  assert (Hres' : forall m x, 0 <= m < 3 ->
            Z.testbit (aget (results q') m) x
            = Z.testbit (aget (results (sel w)) m) x && negb (x =? f_fd qf)).
  { intros m x Hm. apply (Hchar _ _ m x Hm); [| apply (R2 m x Hm)].
    intros Hoff. apply (mode_off_absent w p qf m Hl Hp Hs Hm Hoff). }
  split; [exact Hen' |]. split; [exact Hres' |]. split; [| exact R6].
  pose proof (bo_count _ (l_batch _ Hl')) as Hc'. cbn [sel w'] in Hc'.
  pose proof (bo_count _ Hb) as Hc.
  rewrite <- Hc', <- Hc. unfold pending_of.
  rewrite (popcount_without (at0 (results (sel w))) (at0 (results q')) (f_fd qf) true Hfd
                            (fun x => Hres' 0 x ltac:(lia))).
  rewrite (popcount_without (at1 (results (sel w))) (at1 (results q')) (f_fd qf) true Hfd
                            (fun x => Hres' 1 x ltac:(lia))).
  rewrite (popcount_without (at2 (results (sel w))) (at2 (results q')) (f_fd qf) true Hfd
                            (fun x => Hres' 2 x ltac:(lia))).
  change (Z.testbit qps_all_mbits 0) with true.
  change (Z.testbit qps_all_mbits 1) with true.
  change (Z.testbit qps_all_mbits 2) with true.
  lia.
Qed.

Lemma detach_attached_record_witness :
  exists w',
    qps_remove_file (waited eager_environment example_armed 0) 1%positive = Ok w'
    /\ fd_count (sel w') = fd_count (sel (waited eager_environment example_armed 0)) - 1
    /\ pend_count (sel w')
       = pend_count (sel (waited eager_environment example_armed 0))
         - pending_of (sel (waited eager_environment example_armed 0)) 5 qps_all_mbits.
Proof.
  destruct (detach_attached_record
              (waited eager_environment example_armed 0) 1%positive
              (with_file_enabled (attached_record 1%positive 5 0 example_file) 6))
    as (w' & H & _ & _ & _ & Hn & _ & _ & _ & Hpc & _).
  - exact example_batch_legal.
  - vm_compute. reflexivity.
  - reflexivity.
  - exists w'. split; [exact H | split; [exact Hn | exact Hpc]].
Defined.

(** ** Enabling a mode *)

Lemma aset_aset_same {A : Type} (a : arr3 A) (i : Z) (x : A) :
  aset (aset a i x) i x = aset a i x.
Proof. unfold aset. destruct (i =? 0); [reflexivity |]. destruct (i =? 1); reflexivity. Qed.

Lemma lor_mbit_on (b m : Z) :
  0 <= m -> Z.testbit b m = true -> Z.lor b (qps_mbit m) = b.
Proof.
  intros Hm Hb. apply Z.bits_inj'. intros k _. rewrite Z.lor_spec, mbit_testbit by exact Hm.
  destruct (Z.eqb_spec m k) as [<- | _]; [rewrite Hb; reflexivity | apply orb_false_r].
Qed.

(** qps_enable_mode on a record of the selection at [this], when the
    enabled set of the mode agrees with the record's bit. *)
Lemma enable_mode_run (w : world) (p : file_ptr) (qf : qps_file) (m : Z)
      (action : option qps_action) :
  heap w !! p = Some qf -> f_selection qf = Some (this w) -> 0 <= m < 3 ->
  0 <= f_fd qf < FD_SETSIZE ->
  (action <> None \/ aget (f_actions qf) m <> None) ->
  Z.testbit (aget (enabled (sel w)) m) (f_fd qf) = Z.testbit (f_enabled_bits qf) m ->
  qps_enable_mode w p m action
  = Ok (World (this w)
          (if Z.testbit (f_enabled_bits qf) m then sel w
           else with_enabled (sel w)
                  (aset (enabled_count (sel w)) m (aget (enabled_count (sel w)) m + 1))
                  (aset (enabled (sel w)) m (FD_SET (f_fd qf) (aget (enabled (sel w)) m))))
          (<[p := with_file_enabled
                    match action with
                    | Some a => with_file_actions qf (aset (f_actions qf) m (Some a))
                    | None => qf
                    end
                    (Z.lor (f_enabled_bits qf) (qps_mbit m))]> (heap w))).
Proof.
  intros Hp Hs Hm Hfd Hact Hset.
  unfold qps_enable_mode, deref. rewrite Hp. cbn [bind].
  rewrite ensure_true by (apply bool_decide_eq_true_2; rewrite Hs; discriminate). cbn [bind].
  rewrite ensure_true by (unfold qps_mnum_count; apply andb_true_intro; split; lia).
  cbn [bind].
  assert (Hmi : mode_index m = Ok tt).
  { unfold mode_index, qps_mnum_count.
    replace ((0 <=? m) && (m <? 3)) with true; [reflexivity |].
    symmetry. apply andb_true_intro. split; lia. }
  rewrite Hmi. cbn [bind].
  set (qf1 := match action with
              | Some a => with_file_actions qf (aset (f_actions qf) m (Some a))
              | None => qf
              end).
  assert (Hq : match action with
               | Some a => Ok (with_file_actions qf (aset (f_actions qf) m (Some a)))
               | None =>
                   _ <- ensure (bool_decide (aget (f_actions qf) m <> None))
                               "dassert(qf->actions[mnum] != NULL)" ;;
                   Ok qf
               end = Ok qf1).
  { unfold qf1. destruct action as [a |]; [reflexivity |].
    rewrite ensure_true; [reflexivity |]. apply bool_decide_eq_true_2.
    destruct Hact as [Hn | Ha]; [contradiction | exact Ha]. }
  rewrite Hq. cbn [bind].
  assert (Hfd1 : f_fd qf1 = f_fd qf) by (unfold qf1; destruct action; reflexivity).
  assert (Hb1 : f_enabled_bits qf1 = f_enabled_bits qf)
    by (unfold qf1; destruct action; reflexivity).
  unfold same_selection. rewrite Hs. rewrite bool_decide_eq_true_2 by reflexivity.
  cbn [negb]. rewrite Hfd1, Hb1.
  rewrite (fd_index_in _ Hfd). cbn [bind].
  rewrite land_mbit by lia. rewrite negb_involutive. unfold FD_ISSET. rewrite Hset.
  destruct (Z.testbit (f_enabled_bits qf) m) eqn:Hbit; cbn [negb ensure bind].
  - unfold set_file. rewrite (lor_mbit_on _ _ (proj1 Hm) Hbit).
    rewrite <- Hb1. rewrite with_file_enabled_same. reflexivity.
  - reflexivity.
Qed.

(** X9: enabling mode m (0, 1 or 2) for an attached record, with an action
    given or one set before, always returns: the descriptor is in the
    enabled set of that mode and of no other mode it was not in,
    enabled_count of the mode grows by one exactly when the mode was off,
    the record has the mode's bit and (when one is given) the new action,
    the batch and the membership are as they were and the state is legal.
    Enabling the same mode again changes nothing. *)
Theorem enable_mode_effect (w : world) (p : file_ptr) (qf : qps_file) (m : Z)
        (action : option qps_action) :
  legal w -> heap w !! p = Some qf -> f_selection qf = Some (this w) -> 0 <= m < 3 ->
  (action <> None \/ aget (f_actions qf) m <> None) ->
  exists w',
    qps_enable_mode w p m action = Ok w'
    /\ legal w'
    /\ heap w' = <[p := with_file_enabled
                          match action with
                          | Some a => with_file_actions qf (aset (f_actions qf) m (Some a))
                          | None => qf
                          end
                          (Z.lor (f_enabled_bits qf) (qps_mbit m))]> (heap w)
    /\ (forall m' x, 0 <= m' < 3 ->
          Z.testbit (aget (enabled (sel w')) m') x
          = Z.testbit (aget (enabled (sel w)) m') x || ((m' =? m) && (x =? f_fd qf)))
    /\ (forall m', 0 <= m' < 3 ->
          aget (enabled_count (sel w')) m'
          = aget (enabled_count (sel w)) m'
            + (if (m' =? m) && negb (Z.testbit (f_enabled_bits qf) m) then 1 else 0))
    /\ results (sel w') = results (sel w)
    /\ pend_count (sel w') = pend_count (sel w)
    /\ same_membership (sel w) (sel w') /\ same_cursor (sel w) (sel w')
    /\ qps_enable_mode w' p m action = Ok w'.
Proof.
  intros Hl Hp Hs Hm Hact. pose proof Hl as [Hf He Hb].
  pose proof (fo_back _ Hf p qf Hp Hs) as Hin.
  destruct (fo_heap _ Hf p Hin) as (qf' & Hq' & _ & Hfd & Hbr & _).
  assert (qf' = qf) by congruence. subst qf'. clear Hq'.
  assert (Hset : Z.testbit (aget (enabled (sel w)) m) (f_fd qf)
                 = Z.testbit (f_enabled_bits qf) m).
  { destruct (Z.testbit (f_enabled_bits qf) m) eqn:Hbit.
    - apply (eo_bits _ He m _ Hm). exists p, qf. auto.
    - apply (mode_off_absent w p qf m Hl Hp Hs Hm Hbit). }
  pose proof (enable_mode_run w p qf m action Hp Hs Hm Hfd Hact Hset) as Hrun.
  set (qf1 := match action with
              | Some a => with_file_actions qf (aset (f_actions qf) m (Some a))
              | None => qf
              end) in *.
  set (qf2 := with_file_enabled qf1 (Z.lor (f_enabled_bits qf) (qps_mbit m))) in *.
  set (q' := if Z.testbit (f_enabled_bits qf) m then sel w
             else with_enabled (sel w)
                    (aset (enabled_count (sel w)) m (aget (enabled_count (sel w)) m + 1))
                    (aset (enabled (sel w)) m (FD_SET (f_fd qf) (aget (enabled (sel w)) m))))
    in *.
  set (w' := World (this w) q' (<[p := qf2]> (heap w))) in *.
  exists w'. split; [exact Hrun |]. split; [exact (enable_mode_legal _ _ _ _ _ Hl Hrun) |].
  cbn [sel heap w'].
  assert (Hen : forall m' x, 0 <= m' < 3 ->
            Z.testbit (aget (enabled q') m') x
            = Z.testbit (aget (enabled (sel w)) m') x || ((m' =? m) && (x =? f_fd qf))).
  { intros m' x Hm'. unfold q'.
    destruct (Z.eqb_spec m' m) as [-> | Hne]; cbn [andb].
    - destruct (Z.testbit (f_enabled_bits qf) m) eqn:Hbit.
      + destruct (Z.eqb_spec x (f_fd qf)) as [-> | _]; [| rewrite orb_false_r; reflexivity].
        rewrite Hset. reflexivity.
      + cbn [enabled with_enabled]. rewrite aget_aset_same. unfold FD_SET.
        rewrite Z.setbit_eqb by lia. rewrite orb_comm. rewrite (Z.eqb_sym x). reflexivity.
    - rewrite orb_false_r. destruct (Z.testbit (f_enabled_bits qf) m); [reflexivity |].
      cbn [enabled with_enabled]. rewrite aget_aset_other by (lia || congruence). reflexivity. }
  split; [reflexivity |]. split; [exact Hen |].
  split.
  { intros m' Hm'. unfold q'. destruct (Z.testbit (f_enabled_bits qf) m); cbn [negb].
    - rewrite andb_false_r. lia.
    - rewrite andb_true_r. cbn [enabled_count with_enabled].
      destruct (Z.eqb_spec m' m) as [-> | Hne].
      + rewrite aget_aset_same. reflexivity.
      + rewrite aget_aset_other by (lia || congruence). lia. }
  split; [unfold q'; destruct (Z.testbit (f_enabled_bits qf) m); reflexivity |].
  split; [unfold q'; destruct (Z.testbit (f_enabled_bits qf) m); reflexivity |].
  split; [unfold q'; destruct (Z.testbit (f_enabled_bits qf) m); repeat split; reflexivity |].
  split; [unfold q'; destruct (Z.testbit (f_enabled_bits qf) m); repeat split; reflexivity |].
  (* the second call *)
  assert (Hb2 : Z.testbit (f_enabled_bits qf2) m = true).
  { unfold qf2. cbn [f_enabled_bits with_file_enabled].
    rewrite Z.lor_spec, mbit_testbit by lia. rewrite Z.eqb_refl. apply orb_true_r. }
  assert (Hfd2 : f_fd qf2 = f_fd qf) by (unfold qf2, qf1; destruct action; reflexivity).
  assert (Hrun2 := enable_mode_run w' p qf2 m action).
  cbn [this sel heap w'] in Hrun2. rewrite Hb2, Hfd2 in Hrun2.
  rewrite Hrun2.
  - unfold w'. f_equal. rewrite insert_insert_eq. f_equal.
    rewrite (lor_mbit_on _ _ (proj1 Hm) Hb2).
    assert (E : match action with
                | Some a => with_file_actions qf2 (aset (f_actions qf2) m (Some a))
                | None => qf2
                end = qf2).
    { destruct action as [a |]; [| reflexivity].
      unfold qf2, qf1. cbn [f_actions with_file_actions with_file_enabled].
      unfold with_file_actions, with_file_enabled. cbn. rewrite aset_aset_same. reflexivity. }
    rewrite E, with_file_enabled_same. reflexivity.
  - apply lookup_insert_eq.
  - unfold qf2, qf1. destruct action; exact Hs.
  - exact Hm.
  - exact Hfd.
  - destruct action as [a |]; [left; discriminate | right].
    unfold qf2, qf1. cbn [f_actions with_file_enabled].
    destruct Hact as [Hn | Ha]; [contradiction | exact Ha].
  - rewrite Hen by exact Hm. rewrite !Z.eqb_refl. apply orb_true_r.
Qed.

Lemma enable_mode_effect_witness :
  exists w',
    qps_enable_mode example_nine 4%positive 1 (Some 9%nat) = Ok w'
    /\ aget (enabled_count (sel w')) 1 = aget (enabled_count (sel example_nine)) 1 + 1
    /\ qps_enable_mode w' 4%positive 1 (Some 9%nat) = Ok w'.
Proof.
  destruct (enable_mode_effect example_nine 4%positive
              (attached_record 1%positive 7 0 example_file) 1 (Some 9%nat))
    as (w' & H & _ & _ & _ & Hc & _ & _ & _ & _ & Hagain).
  - exact example_nine_legal.
  - vm_compute. reflexivity.
  - reflexivity.
  - lia.
  - left. discriminate.
  - exists w'. split; [exact H |]. split; [exact (Hc 1 ltac:(lia)) | exact Hagain].
Defined.

(** ** Enable, then disable *)

Lemma selection_ext (q q' : qps_selection) :
  same_membership q q' -> same_enabled q q' -> same_cursor q q' ->
  results q' = results q -> pend_count q' = pend_count q -> q' = q.
Proof.
  intros (A1 & A2 & A3 & A4 & A5 & A6) (B1 & B2) (C1 & C2 & C3 & C4) D1 D2.
  destruct q, q'. cbn in *. subst. reflexivity.
Qed.

Lemma mbit_range (m : Z) : 0 <= m < 3 -> 0 <= qps_mbit m <= 7.
Proof. intros Hm. destruct (mode_cases m Hm) as [-> | [-> | ->]]; vm_compute; split; discriminate. Qed.

Lemma lor_then_off (b m : Z) :
  0 <= m -> Z.testbit b m = false ->
  Z.lxor (Z.lor b (qps_mbit m)) (Z.land (qps_mbit m) (Z.lor b (qps_mbit m))) = b.
Proof.
  intros Hm Hb. apply Z.bits_inj'. intros k _.
  rewrite Z.lxor_spec, Z.land_spec, Z.lor_spec, mbit_testbit by exact Hm.
  destruct (Z.eqb_spec m k) as [<- | _].
  - rewrite Hb. reflexivity.
  - rewrite orb_false_r. cbn [andb]. apply xorb_false_r.
Qed.

(** X10: enabling a mode that is off for an attached record and then
    disabling that mode gives back the selection as it was, field by field
    (enabled sets and counts, results, pend_count, cursor, membership); the
    record is as it was except for the action the enable call stored.  With
    no action passed the whole state is the one before. *)
Theorem enable_then_disable_restores (w : world) (p : file_ptr) (qf : qps_file) (m : Z)
        (action : option qps_action) :
  legal w -> heap w !! p = Some qf -> f_selection qf = Some (this w) -> 0 <= m < 3 ->
  Z.testbit (f_enabled_bits qf) m = false ->
  (action <> None \/ aget (f_actions qf) m <> None) ->
  exists w1,
    qps_enable_mode w p m action = Ok w1
    /\ qps_disable_modes w1 p (qps_mbit m)
       = Ok (set_file w p match action with
                          | Some a => with_file_actions qf (aset (f_actions qf) m (Some a))
                          | None => qf
                          end)
    /\ (action = None -> qps_disable_modes w1 p (qps_mbit m) = Ok w).
Proof.
  intros Hl Hp Hs Hm Hbit Hact. pose proof Hl as [Hf He Hb].
  pose proof (fo_back _ Hf p qf Hp Hs) as Hin.
  destruct (fo_heap _ Hf p Hin) as (qf' & Hq' & _ & Hfd & Hbr & _).
  assert (qf' = qf) by congruence. subst qf'. clear Hq'.
  destruct (mode_off_absent w p qf m Hl Hp Hs Hm Hbit) as [Hset Hres].
  pose proof (enable_mode_run w p qf m action Hp Hs Hm Hfd Hact ltac:(congruence)) as Hrun.
  rewrite Hbit in Hrun.
  set (qf1 := match action with
              | Some a => with_file_actions qf (aset (f_actions qf) m (Some a))
              | None => qf
              end) in *.
  set (qf2 := with_file_enabled qf1 (Z.lor (f_enabled_bits qf) (qps_mbit m))) in *.
  set (q1 := with_enabled (sel w)
               (aset (enabled_count (sel w)) m (aget (enabled_count (sel w)) m + 1))
               (aset (enabled (sel w)) m (FD_SET (f_fd qf) (aget (enabled (sel w)) m))))
    in *.
  set (w1 := World (this w) q1 (<[p := qf2]> (heap w))) in *.
  pose proof (enable_mode_legal _ _ _ _ _ Hl Hrun) as [Hf1 He1 Hb1].
  assert (Hp1 : heap w1 !! p = Some qf2) by apply lookup_insert_eq.
  assert (Hs1 : f_selection qf2 = Some (this w1))
    by (unfold qf2, qf1; destruct action; exact Hs).
  assert (Hfd1 : f_fd qf2 = f_fd qf) by (unfold qf2, qf1; destruct action; reflexivity).
  assert (Hbits1 : f_enabled_bits qf2 = Z.lor (f_enabled_bits qf) (qps_mbit m)) by reflexivity.
  assert (Hb1q : f_enabled_bits qf1 = f_enabled_bits qf)
    by (unfold qf1; destruct action; reflexivity).
  destruct (disable_modes_run w1 p qf2 (qps_mbit m) Hp1 Hs1 (mbit_range m Hm))
    as (q' & Hdis & R1 & R2 & R5 & R6 & R3 & R4).
  { rewrite Hfd1. exact Hfd. }
  { rewrite Hbits1. apply lor_mbit_range; assumption. }
  { intros m' Hm' Hbm. apply (eo_bits _ He1 m' _ Hm'). exists p, qf2.
    split; [| auto]. apply (fo_back _ Hf1 p qf2 Hp1 Hs1). }
  { apply (eo_count _ He1). }
  { exact Hb1. }
  rewrite Hbits1, Hfd1 in *. cbn [this sel heap w1] in *.
  rewrite (lor_then_off _ _ (proj1 Hm) Hbit) in Hdis.
  assert (Hmask : forall m', Z.testbit (Z.land (qps_mbit m) (Z.lor (f_enabled_bits qf) (qps_mbit m))) m'
                             = (m =? m')).
  { intros m'. rewrite Z.land_spec, Z.lor_spec, mbit_testbit by lia.
    destruct (m =? m'); [apply orb_true_r | reflexivity]. }
  assert (Hen : enabled q' = enabled (sel w)).
  { apply arr3_ext. intros m' Hm'. apply Z.bits_inj'. intros x _.
    rewrite (R1 m' x Hm'), Hmask. unfold q1. cbn [enabled with_enabled].
    destruct (Z.eqb_spec m m') as [<- | Hne]; cbn [andb].
    - rewrite aget_aset_same. unfold FD_SET. rewrite Z.setbit_eqb by lia.
      rewrite (Z.eqb_sym x). destruct (Z.eqb_spec (f_fd qf) x) as [<- | _]; cbn [orb negb].
      + rewrite Hset. reflexivity.
      + apply andb_true_r.
    - rewrite aget_aset_other by (lia || congruence). apply andb_true_r. }
  assert (Hrs : results q' = results (sel w)).
  { apply arr3_ext. intros m' Hm'. apply Z.bits_inj'. intros x _.
    rewrite (R2 m' x Hm'), Hmask. unfold q1. cbn [results with_enabled].
    destruct (Z.eqb_spec m m') as [<- | Hne]; cbn [andb]; [| apply andb_true_r].
    destruct (Z.eqb_spec x (f_fd qf)) as [-> | _]; cbn [negb]; [| apply andb_true_r].
    rewrite Hres. reflexivity. }
  assert (Hq : q' = sel w).
  { apply selection_ext.
    - exact R5.
    - split; [exact Hen |]. apply arr3_ext. intros m' Hm'.
      rewrite (R3 m' Hm'), Hen. symmetry. apply (eo_count _ He m' Hm').
    - exact R6.
    - exact Hrs.
    - rewrite <- (bo_count _ R4), <- (bo_count _ Hb), Hrs. reflexivity. }
  assert (Hrec : with_file_enabled qf2 (f_enabled_bits qf) = qf1).
  { unfold qf2. rewrite <- Hb1q. destruct qf1. reflexivity. }
  rewrite Hq, Hrec, insert_insert_eq in Hdis.
  exists w1. split; [exact Hrun |]. split; [exact Hdis |].
  intros ->. rewrite Hdis. unfold qf1. rewrite (insert_id _ _ _ Hp). destruct w. reflexivity.
Qed.

Lemma enable_then_disable_restores_witness :
  exists w1,
    qps_enable_mode example_armed 4%positive 2 None = Ok w1
    /\ qps_disable_modes w1 4%positive (qps_mbit 2) = Ok example_armed.
Proof.
  destruct (enable_then_disable_restores example_armed 4%positive
              (attached_record 1%positive 7 0 example_file) 2 None)
    as (w1 & H1 & _ & H2).
  - exact example_armed_legal.
  - vm_compute. reflexivity.
  - reflexivity.
  - lia.
  - reflexivity.
  - right. discriminate.
  - exists w1. split; [exact H1 | exact (H2 eq_refl)].
Defined.

(** ** The call of pselect *)

Lemma fds_arg_legal (w : world) (m : Z) :
  legal w -> 0 <= m < 3 ->
  fds_arg (prepare (sel w)) m
  = if aget (enabled_count (sel w)) m =? 0 then None else Some (aget (enabled (sel w)) m).
Proof.
  intros Hl Hm. destruct (prepare_spec w Hl) as (_ & Hres & Hfds & _).
  unfold fds_arg. rewrite (Hfds m Hm), Hres.
  destruct (aget (enabled_count (sel w)) m =? 0); reflexivity.
Qed.

Lemma legal_fd_last (w : world) : legal w -> 0 <= fd_last (sel w) < FD_SETSIZE.
Proof.
  intros [Hf _ _]. destruct (fo_last _ Hf) as [_ [(p & Hp & E) | [E _]]].
  - destruct (fo_heap _ Hf p Hp) as (qf & Hh & _ & Hr & _).
    rewrite (fd_of_some _ _ _ Hh) in E. lia.
  - rewrite E. unfold FD_SETSIZE. lia.
Qed.

Lemma wrap64_small (z : Z) : - 2 ^ 63 <= z < 2 ^ 63 -> wrap64 z = z.
Proof.
  intros Hz. unfold wrap64. rewrite Z.mod_small; lia.
Qed.

(** X11: from a legal state with a record attached qps_pselect gets as far
    as the call of pselect (the check passes, fd_last is a descriptor), and
    this is what it passes: nfds is fd_last + 1; for read, write and error
    the set passed is NULL when no descriptor is enabled for the mode and
    otherwise holds exactly the descriptors enabled for it, whatever an
    unfinished batch left in results, all of them below nfds; the timeout is
    the deadline less the clock as 64-bit arithmetic leaves it, and 0 when
    that is negative, which is max(0, deadline - now) when the difference
    fits 64 bits; the signal mask is passed exactly when signum is not 0. *)
Theorem pselect_call_arguments (e : environment) (w : world) (timeout : Z) :
  legal w -> records (files (sel w)) <> [] ->
  qps_selection_validate w = Ok tt
  /\ fd_index (fd_last (sel w)) = Ok tt
  /\ a_nfds (pselect_call e (sel w) timeout) = fd_last (sel w) + 1
  /\ a_readfds (pselect_call e (sel w) timeout)
     = (if aget (enabled_count (sel w)) qps_read_mnum =? 0 then None
        else Some (aget (enabled (sel w)) qps_read_mnum))
  /\ a_writefds (pselect_call e (sel w) timeout)
     = (if aget (enabled_count (sel w)) qps_write_mnum =? 0 then None
        else Some (aget (enabled (sel w)) qps_write_mnum))
  /\ a_errorfds (pselect_call e (sel w) timeout)
     = (if aget (enabled_count (sel w)) qps_error_mnum =? 0 then None
        else Some (aget (enabled (sel w)) qps_error_mnum))
  /\ (forall m x, 0 <= m < 3 -> Z.testbit (aget (enabled (sel w)) m) x = true ->
                  0 <= x < a_nfds (pselect_call e (sel w) timeout))
  /\ (forall m, 0 <= m < 3 ->
        (aget (enabled_count (sel w)) m = 0
         <-> forall x, Z.testbit (aget (enabled (sel w)) m) x = false))
  /\ a_timeout (pselect_call e (sel w) timeout)
     = Z.max 0 (wrap64 (timeout - qt_get_monotonic e))
  /\ (- 2 ^ 63 <= timeout - qt_get_monotonic e < 2 ^ 63 ->
      a_timeout (pselect_call e (sel w) timeout) = Z.max 0 (timeout - qt_get_monotonic e))
  /\ a_sigmask (pselect_call e (sel w) timeout)
     = (if signum (sel w) =? 0 then None else Some (sigmask (sel w))).
Proof.
  intros Hl Hrec.
  split; [exact (validate_legal w Hl Hrec) |].
  split; [exact (fd_index_in _ (legal_fd_last w Hl)) |].
  assert (Ht : a_timeout (pselect_call e (sel w) timeout)
               = Z.max 0 (wrap64 (timeout - qt_get_monotonic e))).
  { unfold pselect_call. cbn [a_timeout].
    destruct (Z.ltb_spec (wrap64 (timeout - qt_get_monotonic e)) 0); lia. }
  unfold pselect_call in *.
  cbn [a_nfds a_readfds a_writefds a_errorfds a_timeout a_sigmask] in *.
  split; [reflexivity |].
  split; [apply fds_arg_legal; [exact Hl | unfold qps_read_mnum; lia] |].
  split; [apply fds_arg_legal; [exact Hl | unfold qps_write_mnum; lia] |].
  split; [apply fds_arg_legal; [exact Hl | unfold qps_error_mnum; lia] |].
  split.
  { intros m x Hm Hx. destruct (enabled_bits_bounded w m x Hl Hm Hx). lia. }
  split.
  { intros m Hm. split.
    - intros H0 x. rewrite (enabled_count_zero w m Hl Hm H0). apply Z.bits_0.
    - intros Hz. rewrite (eo_count _ (l_enabled _ Hl) m Hm).
      replace (aget (enabled (sel w)) m) with 0; [reflexivity |].
      apply Z.bits_inj'. intros x _. rewrite Hz, Z.bits_0. reflexivity. }
  split; [exact Ht |].
  split; [intros Hfit; rewrite Ht, (wrap64_small _ Hfit); reflexivity |].
  destruct (signum (sel w) =? 0); reflexivity.
Qed.

(** X11 on nine records with three modes enabled, with the clock at 1000 and
    the deadline at 400: the timeout passed is 0. *)
Lemma pselect_call_arguments_witness :
  a_readfds (pselect_call (Env all_ready 1000 (fun _ _ _ w => Ok w)) (sel example_armed) 400)
  = (if aget (enabled_count (sel example_armed)) qps_read_mnum =? 0 then None
     else Some (aget (enabled (sel example_armed)) qps_read_mnum))
  /\ a_timeout (pselect_call (Env all_ready 1000 (fun _ _ _ w => Ok w))
                             (sel example_armed) 400)
     = Z.max 0 (400 - 1000).
Proof.
  destruct (pselect_call_arguments (Env all_ready 1000 (fun _ _ _ w => Ok w))
                                   example_armed 400)
    as (_ & _ & _ & Hr & _ & _ & _ & _ & _ & Ht & _).
  - exact example_armed_legal.
  - vm_compute. discriminate.
  - split; [exact Hr |]. apply Ht. cbn [qt_get_monotonic]. lia.
Defined.

(** X12: a wait on a legal selection with a record in it, when pselect
    keeps to its contract and reports n > 0 descriptors: the call returns n;
    results holds, mode by mode, what pselect wrote (error set for mode 0,
    read set for mode 1, write set for mode 2) and nothing for a mode with no
    descriptor enabled; tried_count is a copy of enabled_count, tried_fd_last
    of fd_last, pend_fd is 0 and pend_mnum the lowest mode with a descriptor
    enabled.  The records, the membership and the enabled sets are not
    touched. *)
Theorem wait_captures_poll_result (e : environment) (w : world) (timeout : Z) :
  legal w -> records (files (sel w)) <> [] ->
  pselect_contract (pselect_call e (sel w) timeout) (poll_result e w timeout) ->
  r_n (poll_result e w timeout) > 0 ->
  exists w',
    qps_pselect e w timeout = Ok (w', r_n (poll_result e w timeout))
    /\ legal w'
    /\ heap w' = heap w
    /\ same_membership (sel w) (sel w') /\ same_enabled (sel w) (sel w')
    /\ results (sel w')
       = Arr3 (if aget (enabled_count (sel w)) 0 =? 0 then 0
               else r_errorfds (poll_result e w timeout))
              (if aget (enabled_count (sel w)) 1 =? 0 then 0
               else r_readfds (poll_result e w timeout))
              (if aget (enabled_count (sel w)) 2 =? 0 then 0
               else r_writefds (poll_result e w timeout))
    /\ pend_count (sel w') = r_n (poll_result e w timeout)
    /\ tried_count (sel w') = enabled_count (sel w)
    /\ tried_fd_last (sel w') = fd_last (sel w)
    /\ pend_fd (sel w') = 0
    /\ 0 <= pend_mnum (sel w') < 3
    /\ aget (enabled_count (sel w)) (pend_mnum (sel w')) <> 0
    /\ (forall m, 0 <= m < pend_mnum (sel w') -> aget (enabled_count (sel w)) m = 0).
Proof.
  intros Hl Hne Hc Hn. unfold poll_result in *.
  set (r := pselect e (pselect_call e (sel w) timeout)) in *.
  destruct (prepare_spec w Hl) as (Htr & Hres & Hfds & Hpm). cbv zeta in Htr, Hres, Hfds, Hpm.
  assert (Hpm' : 0 <= p_pend_mnum (prepare (sel w)) < 3
                 /\ aget (enabled_count (sel w)) (p_pend_mnum (prepare (sel w))) <> 0
                 /\ forall m, 0 <= m < p_pend_mnum (prepare (sel w)) ->
                              aget (enabled_count (sel w)) m = 0).
  { destruct Hpm as [[_ Hall] | H]; [| exact H]. exfalso.
    destruct (Hc Hn) as (_ & _ & _ & Hsum). unfold pselect_call in Hsum.
    cbn [a_readfds a_writefds a_errorfds] in Hsum.
    rewrite !fds_arg_legal in Hsum by (exact Hl || (unfold qps_read_mnum, qps_write_mnum, qps_error_mnum; lia)).
    rewrite !Hall in Hsum by (unfold qps_read_mnum, qps_write_mnum, qps_error_mnum; lia).
    cbn in Hsum. fold r in Hsum. lia. }
  set (w' := set_sel w (with_batch (sel w) (fd_last (sel w)) (p_tried (prepare (sel w)))
                                   (pselect_results (prepare (sel w)) r)
                                   (r_n r) (p_pend_mnum (prepare (sel w))) 0)).
  assert (Hrun : qps_pselect e w timeout = Ok (w', r_n r)).
  { unfold qps_pselect. rewrite (validate_legal w Hl Hne). cbn [bind].
    rewrite (fd_index_in _ (legal_fd_last w Hl)). cbn [bind]. fold r.
    replace (r_n r >? 0) with true by lia.
    rewrite ensure_true by (unfold qps_mnum_count; lia). reflexivity. }
  exists w'. split; [exact Hrun |].
  split; [exact (proj1 (pselect_legal e w w' timeout (r_n r) Hl Hc Hrun)) |].
  cbn [sel heap set_sel w' results pend_count tried_count tried_fd_last pend_fd pend_mnum
       with_batch].
  split; [reflexivity |]. split; [repeat split; reflexivity |].
  split; [repeat split; reflexivity |].
  split.
  { unfold pselect_results. unfold qps_error_mnum, qps_read_mnum, qps_write_mnum.
    rewrite !Hfds by lia. rewrite Hres.
    f_equal.
    - destruct (Z.eqb_spec (aget (enabled_count (sel w)) 0) 0) as [E | _]; [| reflexivity].
      cbn [negb]. apply (enabled_count_zero w 0 Hl ltac:(lia) E).
    - destruct (Z.eqb_spec (aget (enabled_count (sel w)) 1) 0) as [E | _]; [| reflexivity].
      cbn [negb]. apply (enabled_count_zero w 1 Hl ltac:(lia) E).
    - destruct (Z.eqb_spec (aget (enabled_count (sel w)) 2) 0) as [E | _]; [| reflexivity].
      cbn [negb]. apply (enabled_count_zero w 2 Hl ltac:(lia) E). }
  split; [reflexivity |]. split; [exact Htr |]. split; [reflexivity |].
  split; [reflexivity |]. exact Hpm'.
Qed.

Lemma wait_captures_poll_result_witness :
  exists w',
    qps_pselect eager_environment example_armed 0
    = Ok (w', r_n (poll_result eager_environment example_armed 0))
    /\ tried_count (sel w') = enabled_count (sel example_armed)
    /\ pend_fd (sel w') = 0.
Proof.
  destruct (wait_captures_poll_result eager_environment example_armed 0)
    as (w' & H & _ & _ & _ & _ & _ & _ & Ht & _ & Hp & _).
  - exact example_armed_legal.
  - vm_compute. discriminate.
  - apply eager_contract. exact example_armed_legal.
  - vm_compute. reflexivity.
  - exists w'. split; [exact H | split; [exact Ht | exact Hp]].
Defined.

(** ** One call of qps_dispatch_next *)

Lemma validate_legal_empty (w : world) :
  legal w -> records (files (sel w)) = [] ->
  qps_selection_validate w = Abort "The last fd does not tally".
Proof.
  intros [Hf _ _] Hnil.
  assert (Hv : files (sel w) = []).
  { pose proof (fo_shape _ Hf) as Hsh.
    destruct (last (files (sel w))) as [[p |] |] eqn:Hlast.
    - destruct (last_some_key (heap w) _ p Hlast) as [_ Hne]. contradiction.
    - exfalso. destruct (fd_direct (sel w)); [exact (proj2 Hsh Hlast) |].
      apply (proj1 Hsh). apply last_Some in Hlast. destruct Hlast as [t ->].
      apply elem_of_app. right. constructor.
    - apply last_None in Hlast. exact Hlast. }
  assert (Hc : fd_count (sel w) = 0) by (rewrite (fo_count _ Hf), Hnil; reflexivity).
  assert (Hl : fd_last (sel w) = 0).
  { destruct (fo_last _ Hf) as [_ [(p & Hp & _) | [E _]]]; [| exact E].
    rewrite Hv in Hp. inversion Hp. }
  unfold qps_selection_validate. rewrite Hv, Hc, Hl. reflexivity.
Qed.

(** X13: qps_dispatch_next on a legal selection.  With no record attached
    it stops in qps_selection_validate, which does not pass an empty
    selection.  With a record attached and nothing pending it returns 0,
    calls no action and leaves the state as it is.  With
    something pending it takes the least pending event (mode, fd), error
    before read before write and then by descriptor, and calls the action
    that the attached record with that descriptor has for that mode, passing
    the record and its file_info.  When the action is called the event is out
    of results and pend_count is one less than before, the state is legal (so
    the action may use the interface), and records, membership and enabled
    sets are as before the call.  The value returned is pend_count as the
    action left it. *)
Theorem dispatch_next_calls_record_action (e : environment) (w : world) :
  legal w ->
  (records (files (sel w)) = [] ->
   qps_dispatch_next e w = Abort "The last fd does not tally")
  /\ (records (files (sel w)) <> [] -> pend_count (sel w) = 0 ->
      qps_dispatch_next e w = Ok (w, 0, None))
  /\ (pend_count (sel w) <> 0 ->
      exists w1 m x p qf action,
        pending (sel w) (m, x)
        /\ (forall ev, pending (sel w) ev -> event_le (m, x) ev)
        /\ Some p ∈ files (sel w) /\ heap w !! p = Some qf /\ f_fd qf = x
        /\ aget (f_actions qf) m = Some action
        /\ qps_dispatch_next e w
           = (w2 <- run_action e action p (f_file_info qf) w1 ;;
              Ok (w2, pend_count (sel w2), Some (m, x)))
        /\ legal w1
        /\ heap w1 = heap w
        /\ same_membership (sel w) (sel w1) /\ same_enabled (sel w) (sel w1)
        /\ pend_count (sel w1) = pend_count (sel w) - 1
        /\ (forall ev, pending (sel w1) ev <-> pending (sel w) ev /\ ev <> (m, x))).
Proof.
  intros Hl. split.
  { intros Hnil. unfold qps_dispatch_next. rewrite (validate_legal_empty w Hl Hnil).
    reflexivity. }
  split.
  { intros Hrec H0. unfold qps_dispatch_next. rewrite (validate_legal w Hl Hrec). cbn [bind].
    rewrite H0. reflexivity. }
  intros Hn.
  pose proof Hl as [Hf He Hb].
  set (q := sel w) in *.
  destruct (bo_cursor q Hb Hn) as (Hpm & Hpf & Hpt & Hlow & Hclr).
  pose proof (bo_last q Hb) as Hlast.
  pose proof (bo_count q Hb) as Hcnt.
  assert (Hpos : pend_count q > 0).
  { pose proof (popcount_nonneg (at0 (results q))).
    pose proof (popcount_nonneg (at1 (results q))).
    pose proof (popcount_nonneg (at2 (results q))). lia. }
  assert (Hbelow : forall m, 0 <= m < pend_mnum q -> aget (results q) m = 0).
  { intros m Hm. apply (batch_results_empty q m Hb); [lia | apply Hlow; exact Hm]. }
  destruct (next_pending_spec 4 q (pend_mnum q) (pend_fd q))
    as (m & x & tried' & Hm & Hx & Hcx & _ & Hskip & Htr & Hnp).
  { lia. }
  { exact Hpm. }
  { exact Hpf. }
  { lia. }
  { intros m2 y Hm2 Hy. destruct (bo_bits q Hb m2 y Hm2 Hy) as (H1 & _ & H3). auto. }
  { exact Hclr. }
  { destruct (batch_has_event q Hb Hn) as (m2 & y & Hm2 & Hy).
    exists m2, y. split; [| exact Hy].
    destruct (Z_lt_ge_dec m2 (pend_mnum q)) as [L | G]; [| lia].
    rewrite Hbelow, Z.bits_0 in Hy by lia. discriminate. }
  destruct (bo_bits q Hb m x ltac:(lia) Hx) as (Hxr & Hxe & Hxt).
  destruct (event_file w m x Hl ltac:(lia) Hx) as (p & qf & Hp & Hh & Hfd & Hbit).
  destruct (fo_heap w Hf p Hp) as (qf' & Hh' & Hsel & Hfdr & Hbr & Hacts).
  assert (qf' = qf) by congruence. subst qf'.
  set (q1 := with_batch q (tried_fd_last q) tried'
                        (aset (results q) m (Z.clearbit (aget (results q) m) x))
                        (pend_count q) (if m =? pend_mnum q then pend_mnum q else m)
                        (pend_fd q)) in *.
  set (w1 := set_sel w (with_batch q1 (tried_fd_last q1) (tried_count q1) (results q1)
                                   (pend_count q1 - 1) (pend_mnum q1) x)).
  assert (Hmn : pend_mnum q1 = m).
  { unfold q1. cbn [pend_mnum with_batch]. destruct (Z.eqb_spec m (pend_mnum q)); congruence. }
  assert (Hf1 : files_ok w1) by (apply (files_ok_frame w w1); try reflexivity; exact Hf).
  assert (He1 : enabled_ok w1) by (apply (enabled_ok_frame w w1); try reflexivity; exact He).
  assert (Hb1 : batch_ok (sel w1)).
  { constructor; unfold w1, q1;
      cbn [sel set_sel tried_fd_last results enabled tried_count pend_count pend_mnum pend_fd
           with_batch].
    - exact Hlast.
    - intros m2 y Hm2 Hy. rewrite testbit_aset_clear in Hy by lia.
      apply andb_prop in Hy. destruct Hy as [Hy Hne].
      destruct (bo_bits q Hb m2 y Hm2 Hy) as (H1 & H2 & H3).
      split; [exact H1 |]. split; [exact H2 |].
      rewrite Htr by exact Hm2.
      destruct ((pend_mnum q <=? m2) && (m2 <? m)) eqn:E; [| exact H3].
      rewrite Hskip, Z.bits_0 in Hy by lia. discriminate.
    - rewrite (popcount_aset_clear (results q) m x ltac:(lia) ltac:(lia) Hx). lia.
    - intros m2 Hm2. rewrite Htr by exact Hm2.
      destruct ((pend_mnum q <=? m2) && (m2 <? m)); [lia | apply (bo_tried q Hb); exact Hm2].
    - intros _. split; [destruct (Z.eqb_spec m (pend_mnum q)); lia |].
      split; [lia |].
      assert (Hmm : (if m =? pend_mnum q then pend_mnum q else m) = m)
        by (destruct (Z.eqb_spec m (pend_mnum q)); congruence).
      rewrite Hmm. split.
      + rewrite Htr by lia. replace ((pend_mnum q <=? m) && (m <? m)) with false by lia.
        exact Hxt.
      + split.
        * intros m2 Hm2. rewrite Htr by lia.
          destruct ((pend_mnum q <=? m2) && (m2 <? m)) eqn:E; [reflexivity |].
          apply Hlow. lia.
        * rewrite aget_aset_same. intros y Hy. rewrite Z.clearbit_eqb, Hcx by lia. reflexivity. }
  assert (Hl1 : legal w1) by (constructor; assumption).
  destruct (aget (f_actions qf) m) as [action |] eqn:Ea;
    [| exfalso; apply (Hacts m ltac:(lia) Hbit); exact Ea].
  exists w1, m, x, p, qf, action.
  split; [split; [cbn; lia | exact Hx] |].
  split.
  { intros [m2 y] [Hm2 Hy]. cbn [fst snd] in *. unfold event_le, event_lt. cbn [fst snd].
    destruct (Z_lt_ge_dec m2 (pend_mnum q)) as [L | G].
    { rewrite Hbelow, Z.bits_0 in Hy by lia. discriminate. }
    destruct (Z.lt_trichotomy m m2) as [L | [E | G']].
    - left. left. exact L.
    - subst m2. destruct (Z.lt_trichotomy x y) as [L | [E | G']].
      + left. right. split; [reflexivity | exact L].
      + right. subst y. reflexivity.
      + rewrite Hcx in Hy by (destruct (bo_bits q Hb m y Hm2 Hy); lia). discriminate.
    - rewrite Hskip, Z.bits_0 in Hy by lia. discriminate. }
  split; [exact Hp |]. split; [exact Hh |]. split; [exact Hfd |]. split; [exact Ea |].
  split.
  { unfold qps_dispatch_next.
    rewrite (validate_legal w Hl (legal_has_record w Hl Hn)). cbn [bind]. fold q.
    replace (pend_count q =? 0) with false by lia.
    rewrite ensure_true.
    2:{ unfold qps_mnum_count. repeat (apply andb_true_intro; split); lia. }
    cbn [bind]. rewrite Hnp. cbn [bind fst snd]. fold q1. fold w1.
    rewrite <- Hfd. rewrite (lookup_fd_found w1 p qf Hf1 Hp Hh). cbn [bind fst snd].
    unfold deref_item, deref. change (heap w1) with (heap w). rewrite Hh. cbn [bind].
    rewrite ensure_true.
    2:{ apply andb_true_intro. split; [apply andb_true_intro; split |].
        - apply negb_true_iff, Z.eqb_neq. intros E. rewrite E, Z.bits_0 in Hbit. discriminate.
        - apply negb_true_iff, Z.eqb_neq. unfold qps_mbit. rewrite Z.shiftl_1_l.
          apply Z.pow_nonzero; lia.
        - apply bool_decide_eq_true_2. apply Hacts; [lia | exact Hbit]. }
    cbn [bind]. rewrite Ea. reflexivity. }
  split; [exact Hl1 |].
  split; [reflexivity |].
  split; [repeat split; reflexivity |].
  split; [repeat split; reflexivity |].
  split; [reflexivity |].
  intros [m2 y]. unfold pending, w1, q1.
  cbn [fst snd sel set_sel results with_batch]. fold q. split.
  - intros [Hm2 Hy]. rewrite testbit_aset_clear in Hy by lia.
    apply andb_prop in Hy. destruct Hy as [Hy Hne]. split; [split; assumption |].
    intros Heq. injection Heq as E1 E2. subst m2 y. rewrite !Z.eqb_refl in Hne. discriminate.
  - intros [[Hm2 Hy] Hne]. split; [exact Hm2 |].
    rewrite testbit_aset_clear by lia. rewrite Hy. simpl.
    apply negb_true_iff. apply andb_false_iff.
    destruct (Z.eqb_spec m m2) as [Em | Nm]; [| left; reflexivity].
    destruct (Z.eqb_spec x y) as [Ex | Nx]; [| right; reflexivity].
    subst m2 y. contradiction.
Qed.

Lemma dispatch_next_calls_record_action_witness :
  exists w1 m x p qf action,
    heap (waited eager_environment example_armed 0) !! p = Some qf
    /\ f_fd qf = x
    /\ aget (f_actions qf) m = Some action
    /\ qps_dispatch_next eager_environment (waited eager_environment example_armed 0)
       = (w2 <- run_action eager_environment action p (f_file_info qf) w1 ;;
          Ok (w2, pend_count (sel w2), Some (m, x))).
Proof.
  destruct (dispatch_next_calls_record_action
              eager_environment (waited eager_environment example_armed 0))
    as (_ & _ & H).
  - exact example_batch_legal.
  - destruct H as (w1 & m & x & p & qf & action & _ & _ & _ & Hh & Hfd & Ha & Hrun & _).
    + vm_compute. discriminate.
    + exists w1, m, x, p, qf, action. auto.
Defined.

(** ** The scan and its table *)

(** X14: the table fd_first_map that step (6) of qps_make_super_set_map
    builds: for every byte value 1 .. 255 the entry is the number of the
    lowest bit set in the byte, and the entry for 0 stays -1. *)
Theorem fd_first_map_lowest_bit (b : Z) :
  0 <= b < 256 ->
  (b = 0 -> fd_first_map b = -1)
  /\ (b <> 0 ->
      0 <= fd_first_map b < 8
      /\ Z.testbit b (fd_first_map b) = true
      /\ forall j, 0 <= j < fd_first_map b -> Z.testbit b j = false).
Proof.
  intros Hb. split.
  - intros ->. reflexivity.
  - intros Hne. destruct (fd_first_map_spec b ltac:(lia)) as (H1 & H2 & H3 & _).
    split; [exact H1 |]. split; [exact H2 | exact H3].
Qed.

Lemma fd_first_map_lowest_bit_witness :
  0 <= fd_first_map 40 < 8
  /\ Z.testbit 40 (fd_first_map 40) = true
  /\ forall j, 0 <= j < fd_first_map 40 -> Z.testbit 40 j = false.
Proof.
  apply (proj2 (fd_first_map_lowest_bit 40 ltac:(lia))). discriminate.
Defined.

(** X15: qps_next_fd_pending on any set, for 0 <= fd <= fd_last <
    FD_SETSIZE.  It looks at whole bytes, from the byte of fd to the byte of
    fd_last.  With no descriptor set there it returns -1 and leaves the set
    alone.  Otherwise, with x the lowest descriptor set there: when x <=
    fd_last it returns x and clears it, also when x is below fd; when x is
    above fd_last it stops at dassert(fd <= fd_last). *)
Theorem scan_looks_at_whole_bytes (s : fd_super_set) (fd fd_last : Z) :
  0 <= fd <= fd_last -> fd_last < FD_SETSIZE ->
  (clear_between s (8 * (fd / 8)) (8 * (fd_last / 8) + 8) ->
   qps_next_fd_pending s fd fd_last = Ok (-1, s))
  /\ (forall x, 8 * (fd / 8) <= x < 8 * (fd_last / 8) + 8 ->
        Z.testbit s x = true -> clear_between s (8 * (fd / 8)) x ->
        qps_next_fd_pending s fd fd_last
        = if x <=? fd_last then Ok (x, Z.clearbit s x) else Abort "dassert(fd <= fd_last)").
Proof.
  intros Hfd Hlast.
  destruct (qps_next_fd_pending_spec s fd fd_last Hfd Hlast)
    as [(Hr & Hc) | (y & Hy & Hset & Hc & Hr)]; split.
  - intros _. exact Hr.
  - intros x Hx Hxs _. rewrite (Hc x Hx) in Hxs. discriminate.
  - intros Hnone. rewrite (Hnone y Hy) in Hset. discriminate.
  - intros x Hx Hxs Hxc.
    assert (y = x) as <-; [| exact Hr].
    destruct (Z.lt_trichotomy y x) as [L | [E | G]]; [| exact E |].
    + rewrite Hxc in Hset; [discriminate | lia].
    + rewrite Hc in Hxs; [discriminate | lia].
Qed.

Lemma scan_looks_at_whole_bytes_witness :
  qps_next_fd_pending 8192 8 12 = Abort "dassert(fd <= fd_last)"
  /\ qps_next_fd_pending 512 10 12 = Ok (9, 0).
Proof.
  split.
  - refine (proj2 (scan_looks_at_whole_bytes 8192 8 12 _ _) 13 _ _ _).
    + lia.
    + vm_compute. reflexivity.
    + vm_compute. split; [discriminate | reflexivity].
    + reflexivity.
    + intros k Hk. change (8 * (8 / 8)) with 8 in Hk.
      assert (k = 8 \/ k = 9 \/ k = 10 \/ k = 11 \/ k = 12) as [-> | [-> | [-> | [-> | ->]]]]
          by lia; reflexivity.
  - refine (proj2 (scan_looks_at_whole_bytes 512 10 12 _ _) 9 _ _ _).
    + lia.
    + vm_compute. reflexivity.
    + vm_compute. split; [discriminate | reflexivity].
    + reflexivity.
    + intros k Hk. change (8 * (10 / 8)) with 8 in Hk.
      assert (k = 8) as -> by lia. reflexivity.
Defined.

(** ** qps_set_signal *)

(** X16: qps_set_signal with a signal number that is not 0.  If the number
    is one sigismember knows and the signal is in the mask given, the
    selection stores the number and the mask without that signal, and the
    next qps_pselect passes that mask to pselect.  If the signal is not in
    the mask the call stops at its assert.  If sigismember does not know the
    number (it answers -1) the assert lets it through and the mask is
    stored as given.  Nothing but signum and sigmask changes. *)
Theorem qps_set_signal_unmasks (e : environment) (w : world) (sig mask timeout : Z) :
  sig <> 0 ->
  (sig_valid sig = true -> Z.testbit mask (sig - 1) = false ->
   qps_set_signal w sig mask = Abort "assert(sigismember(&sigmask, signum))")
  /\ ((sig_valid sig = true -> Z.testbit mask (sig - 1) = true) ->
      exists w',
        qps_set_signal w sig mask = Ok w'
        /\ signum (sel w') = sig
        /\ sigmask (sel w') = (if sig_valid sig then Z.clearbit mask (sig - 1) else mask)
        /\ sigismember (sigmask (sel w')) sig <> 1
        /\ with_signal (sel w') (signum (sel w)) (sigmask (sel w)) = sel w
        /\ heap w' = heap w /\ this w' = this w
        /\ a_sigmask (pselect_call e (sel w') timeout) = Some (sigmask (sel w'))).
Proof.
  intros Hsig. unfold qps_set_signal. replace (sig =? 0) with false by lia. cbn [negb].
  unfold sigismember, sigdelset. split.
  - intros Hv Hbit. rewrite Hv, Hbit. reflexivity.
  - intros Hin. destruct (sig_valid sig) eqn:Hv.
    + rewrite (Hin eq_refl). cbn [Z.eqb negb ensure bind].
      eexists. split; [reflexivity |]. cbn [sel set_sel signum sigmask with_signal].
      split; [reflexivity |]. split; [reflexivity |].
      split; [rewrite Z.clearbit_eqb, Z.eqb_refl; cbn [negb]; rewrite andb_false_r; discriminate |].
      split; [destruct w as [t q h]; destruct q; reflexivity |].
      split; [reflexivity |]. split; [reflexivity |].
      unfold pselect_call. cbn [a_sigmask signum sigmask with_signal].
      replace (sig =? 0) with false by lia. reflexivity.
    + cbn [Z.eqb negb ensure bind].
      eexists. split; [reflexivity |]. cbn [sel set_sel signum sigmask with_signal].
      split; [reflexivity |]. split; [reflexivity |].
      split; [discriminate |].
      split; [destruct w as [t q h]; destruct q; reflexivity |].
      split; [reflexivity |]. split; [reflexivity |].
      unfold pselect_call. cbn [a_sigmask signum sigmask with_signal].
      replace (sig =? 0) with false by lia. reflexivity.
Qed.

Lemma qps_set_signal_unmasks_witness :
  exists w',
    qps_set_signal example_one 10 1536 = Ok w'
    /\ signum (sel w') = 10
    /\ sigmask (sel w') = (if sig_valid 10 then Z.clearbit 1536 (10 - 1) else 1536).
Proof.
  destruct (proj2 (qps_set_signal_unmasks quiet_environment example_one 10 1536 0
                                          ltac:(discriminate)))
    as (w' & H & Hs & Hm & _).
  - intros _. reflexivity.
  - exists w'. split; [exact H | split; [exact Hs | exact Hm]].
Defined.

(** ** File records *)

(** X17: qps_file_init_new returns a record that is in no selection, with
    no descriptor, no mode enabled and no file_info.  Its actions are those
    of the template, and all NULL without one; when the template is the
    record being initialised they are NULL too, since the record is zeroed
    before the copy.  A record asked for with qf = NULL is at an address not
    in use before, and qps_file_free of it gives back the state before.  No
    other record and no field of the selection changes. *)
Theorem file_init_new_copies_actions (w : world) (qf template : option file_ptr) :
  (forall q, qf = Some q -> is_Some (heap w !! q)) ->
  (forall t, template = Some t -> is_Some (heap w !! t)) ->
  exists p w',
    qps_file_init_new w qf template = Ok (w', p)
    /\ match qf with Some q => p = q | None => heap w !! p = None end
    /\ heap w'
       = <[p := with_file_actions zero_file
                  match template with
                  | Some t => if bool_decide (t = p) then afill None
                              else default (afill None) (f_actions <$> heap w !! t)
                  | None => afill None
                  end]> (heap w)
    /\ sel w' = sel w /\ this w' = this w
    /\ (qf = None -> qps_file_free w' p = Ok w).
Proof.
  intros Hq Ht.
  set (p := match qf with Some q => q | None => fresh (dom (heap w)) end).
  assert (Hp : match qf with
               | Some p => _ <- deref w p ;; Ok p
               | None => Ok (fresh (dom (heap w)))
               end = Ok p).
  { unfold p. destruct qf as [q |]; [| reflexivity].
    destruct (Hq q eq_refl) as [f Hf]. unfold deref. rewrite Hf. reflexivity. }
  assert (Hfresh : qf = None -> heap w !! p = None).
  { intros ->. unfold p. apply not_elem_of_dom. apply is_fresh. }
  set (acts := match template with
               | Some t => if bool_decide (t = p) then afill None
                           else default (afill None) (f_actions <$> heap w !! t)
               | None => afill None
               end).
  assert (Ha : match template with
               | Some t => tf <- deref (set_file w p zero_file) t ;; Ok (f_actions tf)
               | None => Ok (afill None)
               end = Ok acts).
  { unfold acts. destruct template as [t |]; [| reflexivity].
    unfold deref, set_file. cbn [heap].
    destruct (decide (t = p)) as [-> | Hne].
    - rewrite lookup_insert_eq, bool_decide_eq_true_2 by reflexivity. reflexivity.
    - rewrite lookup_insert_ne by congruence.
      rewrite bool_decide_eq_false_2 by exact Hne.
      destruct (Ht t eq_refl) as [f Hf]. rewrite Hf. reflexivity. }
  exists p, (World (this w) (sel w) (<[p := with_file_actions zero_file acts]> (heap w))).
  split.
  { unfold qps_file_init_new. rewrite Hp. cbn [bind]. rewrite Ha. cbn [bind].
    unfold set_file. cbn [this sel heap]. rewrite insert_insert_eq. reflexivity. }
  split; [destruct qf; [reflexivity | apply Hfresh; reflexivity] |].
  split; [reflexivity |]. split; [reflexivity |]. split; [reflexivity |].
  intros Hn. unfold qps_file_free, deref. cbn [heap this sel].
  rewrite lookup_insert_eq. cbn [bind].
  rewrite ensure_true by (apply bool_decide_eq_true_2; reflexivity). cbn [bind].
  rewrite delete_insert_id by (apply Hfresh; exact Hn). destruct w. reflexivity.
Qed.

Lemma file_init_new_copies_actions_witness :
  exists p w',
    qps_file_init_new example_nine None (Some 2%positive) = Ok (w', p)
    /\ heap example_nine !! p = None
    /\ qps_file_free w' p = Ok example_nine.
Proof.
  destruct (file_init_new_copies_actions example_nine None (Some 2%positive))
    as (p & w' & H & Hf & _ & _ & _ & Hfree).
  - intros q Hq. discriminate.
  - intros t Ht. injection Ht as <-. vm_compute. eexists. reflexivity.
  - exists p, w'. split; [exact H |]. split; [exact Hf | exact (Hfree eq_refl)].
Defined.

(** ** Reaming *)

(** qps_file_remove on a record that says it is in the selection but is
    not in the files vector stops at passert(qfd == qf). *)
Lemma file_remove_absent_aborts (w : world) (p : file_ptr) (qf : qps_file) :
  heap w !! p = Some qf -> f_selection qf = Some (this w) ->
  0 <= f_fd qf <= fd_last (sel w) ->
  Some p ∉ files (sel w) ->
  (fd_direct (sel w) = false ->
   items_exist (heap w) (files (sel w))
   /\ StronglySorted Z.lt (item_key (heap w) <$> files (sel w))) ->
  qps_file_remove w p = Abort "passert(qfd == qf)".
Proof.
  intros Hp Hs Hfd Hnot Hsp.
  assert (Hget : forall i, vector_get_item (files (sel w)) i <> Some p).
  { intros i Hi. apply vector_get_item_some in Hi. apply Hnot.
    eapply list_elem_of_lookup_2. exact Hi. }
  unfold qps_file_remove.
  replace (deref w p) with (Ok qf) by (unfold deref; rewrite Hp; reflexivity).
  cbn [bind].
  rewrite ensure_true.
  2:{ apply andb_true_intro. split; [apply andb_true_intro; split; lia |].
      apply bool_decide_eq_true_2. exact Hs. }
  cbn [bind].
  assert (Hr : exists x v' l,
            (if fd_direct (sel w) then
               let u := vector_unset_item (files (sel w)) (Z.to_nat (f_fd qf)) in
               Ok (fst u, snd u, vector_end (snd u) - 1)
             else
               ir <- vector_bsearch (qps_fd_cmp w (f_fd qf)) (files (sel w)) ;;
               let d := if snd ir =? 0 then vector_delete_item (files (sel w)) (fst ir)
                        else (None, files (sel w)) in
               match vector_get_last_item (snd d) with
               | Some pl => qf_last <- deref w pl ;; Ok (fst d, snd d, f_fd qf_last)
               | None => Ok (fst d, snd d, -1)
               end) = Ok (x, v', l) /\ x <> Some p).
  { destruct (fd_direct (sel w)) eqn:Hd.
    - eexists _, _, _. split; [reflexivity |]. cbn [fst vector_unset_item]. apply Hget.
    - destruct (Hsp eq_refl) as [Hex Hsorted].
      destruct (vector_bsearch_spec w (f_fd qf) (files (sel w)) Hex Hsorted)
        as (i & ret & Hb & _).
      rewrite Hb. cbn [bind fst snd].
      set (d := if ret =? 0 then vector_delete_item (files (sel w)) i
                else (None, files (sel w))).
      assert (Hsub : forall pl, Some pl ∈ snd d -> Some pl ∈ files (sel w)).
      { intros pl. unfold d. destruct (ret =? 0); cbn [snd vector_delete_item]; [| auto].
        rewrite delete_take_drop. intros Hin. apply elem_of_app in Hin.
        destruct Hin as [Hin | Hin].
        - exact (subseteq_take _ _ _ Hin).
        - exact (subseteq_drop _ _ _ Hin). }
      assert (Hfst : fst d <> Some p).
      { unfold d. destruct (ret =? 0); cbn [fst vector_delete_item]; [apply Hget | discriminate]. }
      unfold vector_get_last_item.
      destruct (last (snd d)) as [[pl |] |] eqn:Hlast; cbn [default id].
      + assert (Hin : Some pl ∈ snd d).
        { apply last_Some in Hlast. destruct Hlast as [t ->]. apply elem_of_app. right.
          constructor. }
        destruct (Hex _ (Hsub pl Hin)) as (p' & f & E & Hf). injection E as <-.
        unfold deref. rewrite Hf. cbn [bind]. eexists _, _, _.
        split; [reflexivity | exact Hfst].
      + eexists _, _, _. split; [reflexivity | exact Hfst].
      + eexists _, _, _. split; [reflexivity | exact Hfst]. }
  destruct Hr as (x & v' & l & Hr & Hx). cbv zeta in Hr. rewrite Hr. cbn [bind fst snd].
  rewrite bool_decide_eq_false_2 by exact Hx. reflexivity.
Qed.

(** X18: qps_selection_ream on a legal selection, with vector_ream_keep
    popping the last record of the files vector.  On a selection with no
    record it returns NULL and leaves the selection zeroed.  On a selection
    with a record it never returns one: the record is popped from the vector
    before qps_file_remove looks for it there, and the call stops at
    passert(qfd == qf), in the list form and in the array form. *)
Theorem ream_stops_on_a_record (w : world) (free_structure : bool) :
  legal w ->
  (records (files (sel w)) = [] ->
   qps_selection_ream w free_structure = Ok (set_sel w zero_selection, None))
  /\ (records (files (sel w)) <> [] ->
      qps_selection_ream w free_structure = Abort "passert(qfd == qf)").
Proof.
  intros Hl. pose proof Hl as [Hf He Hb].
  assert (Htrim : vector_trim (files (sel w)) = files (sel w)).
  { apply vector_trim_id. pose proof (fo_shape _ Hf) as Hsh.
    destruct (fd_direct (sel w)); [exact (proj2 Hsh) |].
    intros Hlast. apply (proj1 Hsh). apply last_Some in Hlast. destruct Hlast as [t ->].
    apply elem_of_app. right. constructor. }
  unfold qps_selection_ream, vector_ream_keep, vector_pop_item. rewrite Htrim.
  cbn [fst snd]. split.
  - intros Hnil.
    assert (Hv : files (sel w) = []).
    { destruct (last (files (sel w))) as [[p |] |] eqn:Hlast.
      - destruct (last_some_key (heap w) _ p Hlast) as [_ Hne]. contradiction.
      - rewrite <- Htrim in Hlast. exfalso. exact (vector_trim_last _ Hlast).
      - apply last_None in Hlast. exact Hlast. }
    rewrite Hv. cbn [last default removelast id].
    rewrite ensure_true; [reflexivity |].
    cbn [sel set_sel fd_count with_files]. rewrite (fo_count _ Hf), Hnil. reflexivity.
  - intros Hne.
    destruct (last (files (sel w))) as [[p |] |] eqn:Hlast.
    + cbn [default id].
      pose proof Hlast as Hsnoc. apply last_Some in Hsnoc. destruct Hsnoc as [t Ht].
      assert (Hin : Some p ∈ files (sel w)).
      { rewrite Ht. apply elem_of_app. right. constructor. }
      destruct (fo_heap _ Hf p Hin) as (qf & Hh & Hs & Hfd & _).
      pose proof (proj1 (fo_last _ Hf) p Hin) as Hle. rewrite (fd_of_some _ _ _ Hh) in Hle.
      set (w1 := set_sel w (with_files (sel w) (removelast (files (sel w))))).
      rewrite (file_remove_absent_aborts w1 p qf); [reflexivity | exact Hh | exact Hs | | |].
      * cbn [sel set_sel w1 fd_last with_files]. lia.
      * cbn [sel set_sel w1 files with_files].
        pose proof (popped_not_left (heap w) (fd_direct (sel w)) (files (sel w)) p
                                    (fo_shape _ Hf)) as Hpop.
        unfold vector_pop_item in Hpop. rewrite Htrim, Hlast in Hpop. cbn [fst snd] in Hpop.
        apply Hpop. reflexivity.
      * cbn [sel set_sel w1 files fd_direct with_files heap]. intros Hd.
        pose proof (fo_shape _ Hf) as Hsh. rewrite Hd in Hsh. destruct Hsh as [Hnn Hso].
        pose proof (sparse_items_exist w Hf Hd) as Hex.
        rewrite Ht in Hex, Hso |- *. rewrite removelast_last. split.
        -- intros item Hitem. apply Hex. apply elem_of_app. left. exact Hitem.
        -- rewrite fmap_app in Hso. apply StronglySorted_app in Hso. tauto.
    + rewrite <- Htrim in Hlast. exfalso. exact (vector_trim_last _ Hlast).
    + apply last_None in Hlast. rewrite Hlast in Hne. contradiction.
Qed.

Lemma ream_stops_on_a_record_witness :
  qps_selection_ream example_ten false = Abort "passert(qfd == qf)".
Proof.
  apply (proj2 (ream_stops_on_a_record example_ten false example_ten_legal)).
  vm_compute. discriminate.
Defined.

(** ** What every operation keeps *)

(** X19: the bookkeeping every exposed operation keeps, from a legal
    state: a descriptor is in the enabled set of a mode exactly when an
    attached record with that descriptor has the mode's bit, enabled_count is
    the size of the set, an attached record has an action for every mode it
    has enabled, no two attached records have the same descriptor, fd_count
    is the number of attached records, and a record points to the selection
    exactly when it is in its files vector. *)
Theorem operations_keep_records_in_step (e : environment) (o : operation) (w w' : world) :
  actions_keep_legal e -> legal w -> wipes_unused o w -> poll_keeps_contract e o w ->
  exec e o w = Ok w' ->
  (forall m x, 0 <= m < 3 ->
     (Z.testbit (aget (enabled (sel w')) m) x = true
      <-> exists p qf, Some p ∈ files (sel w') /\ heap w' !! p = Some qf
                       /\ f_fd qf = x /\ Z.testbit (f_enabled_bits qf) m = true))
  /\ (forall m, 0 <= m < 3 ->
        aget (enabled_count (sel w')) m = popcount (aget (enabled (sel w')) m))
  /\ (forall p qf m, heap w' !! p = Some qf -> f_selection qf = Some (this w') ->
        0 <= m < 3 -> Z.testbit (f_enabled_bits qf) m = true ->
        aget (f_actions qf) m <> None)
  /\ (forall p q, Some p ∈ files (sel w') -> Some q ∈ files (sel w') ->
        fd_of (heap w') p = fd_of (heap w') q -> p = q)
  /\ fd_count (sel w') = Z.of_nat (length (records (files (sel w'))))
  /\ (forall p qf, heap w' !! p = Some qf ->
        (f_selection qf = Some (this w') <-> Some p ∈ files (sel w'))).
Proof.
  intros Hact Hl Hun Hpoll H.
  pose proof (exec_legal e o w w' Hact Hl Hun Hpoll H) as [Hf He Hb].
  split; [exact (eo_bits _ He) |]. split; [exact (eo_count _ He) |].
  split.
  { intros p qf m Hp Hs Hm Hbit.
    destruct (fo_heap _ Hf p (fo_back _ Hf p qf Hp Hs)) as (qf' & Hq' & _ & _ & _ & Hacts).
    assert (qf' = qf) by congruence. subst qf'. apply Hacts; assumption. }
  split; [intros p q Hp Hq E; exact (files_key_inj w' p q Hf Hp Hq E) |].
  split; [exact (fo_count _ Hf) |].
  intros p qf Hp. split.
  - intros Hs. exact (fo_back _ Hf p qf Hp Hs).
  - intros Hin. destruct (fo_heap _ Hf p Hin) as (qf' & Hq' & Hs & _).
    assert (qf' = qf) by congruence. subst qf'. exact Hs.
Qed.

Lemma operations_keep_records_in_step_witness :
  fd_count (sel (world_of (qps_disable_modes example_armed 1%positive 2)))
  = Z.of_nat (length (records (files (sel (world_of
                (qps_disable_modes example_armed 1%positive 2)))))).
Proof.
  apply (operations_keep_records_in_step quiet_environment (OpDisableModes 1%positive 2)
                                         example_armed).
  - apply mutate_nothing_keep_legal. exact quiet_actions.
  - exact example_armed_legal.
  - exact I.
  - exact I.
  - vm_compute. reflexivity.
Defined.

(** ** What a passing check shows *)

(** The inner loop of the check over the modes of one record. *)
Lemma capture_all_inv (qf : qps_file) (st st' : vstate) :
  0 <= f_enabled_bits qf <= qps_all_mbits ->
  foldM (capture_enabled qf) mnums st = Ok st' ->
  v_n st' = v_n st /\ v_fd_last st' = v_fd_last st
  /\ (f_enabled_bits qf <> 0 -> 0 <= f_fd qf < FD_SETSIZE)
  /\ forall m, 0 <= m < 3 ->
       aget (v_enabled st') m
       = (if Z.testbit (f_enabled_bits qf) m
          then Z.setbit (aget (v_enabled st) m) (f_fd qf) else aget (v_enabled st) m)
       /\ aget (v_enabled_count st') m
          = aget (v_enabled_count st) m + (if Z.testbit (f_enabled_bits qf) m then 1 else 0).
Proof.
  intros Hb H. unfold qps_all_mbits in Hb.
  destruct (fd_in_range (f_fd qf)) eqn:Hr.
  - assert (Hfd : 0 <= f_fd qf < FD_SETSIZE).
    { unfold fd_in_range in Hr. apply andb_prop in Hr. lia. }
    destruct (capture_all qf st Hfd) as (st2 & Hcap & Hn & Hl & Hm).
    assert (st2 = st') by congruence. subst st2.
    split; [exact Hn |]. split; [exact Hl |]. split; [intros _; exact Hfd | exact Hm].
  - assert (H0 : f_enabled_bits qf = 0).
    { unfold mnums, foldM, capture_enabled, fd_index in H. rewrite Hr in H.
      destruct (bits_cases _ Hb) as [E | [E | [E | [E | [E | [E | [E | E]]]]]]];
        [exact E | rewrite E in H; cbn in H; discriminate ..]. }
    unfold mnums, foldM, capture_enabled in H. rewrite H0 in H. cbn in H.
    injection H as <-.
    split; [reflexivity |]. split; [reflexivity |]. split; [contradiction |].
    intros m Hm. rewrite H0, Z.bits_0. split; [reflexivity | lia].
Qed.

Lemma scanned_start (w : world) : scanned w [] (VState 0 (-1) (afill 0) (afill 0)).
Proof.
  split; [apply collected_start |]. split; [intros p Hp; inversion Hp |].
  destruct (fd_direct (sel w)).
  - intros i p Hi. rewrite lookup_nil in Hi. discriminate.
  - split; [| intros q Hq; inversion Hq]. split; [intros Hn; inversion Hn | constructor].
Qed.

(** One turn of the loop over the files vector that returns. *)
Lemma validate_item_inv (w : world) (v1 : vector) (item : option file_ptr) (st st' : vstate) :
  scanned w v1 st -> validate_item w (length v1) item st = Ok st' ->
  scanned w (v1 ++ [item]) st'.
Proof.
  intros ((Hn & Hl & Hsets) & Hrec & Hshape) H.
  destruct item as [p |].
  - unfold validate_item, deref in H.
    destruct (heap w !! p) as [qf |] eqn:Hp; [| discriminate]. cbn [bind] in H.
    apply bind_ok in H. destruct H as (u1 & Hord & H).
    apply bind_ok in H. destruct H as (u2 & Hsel & H).
    apply ensure_ok, bool_decide_eq_true_1 in Hsel.
    apply bind_ok in H. destruct H as (u3 & Hbits & H).
    apply ensure_ok, negb_true_iff, orb_false_iff in Hbits.
    assert (Hbr : 0 <= f_enabled_bits qf <= qps_all_mbits) by lia.
    destruct (capture_all_inv qf _ st' Hbr H) as (Hn' & Hl' & Hfd & Hm').
    cbn [v_n v_fd_last v_enabled v_enabled_count] in *.
    assert (Hbelow : forall q, Some q ∈ v1 -> fd_of (heap w) q < f_fd qf).
    { intros q Hq. destruct (fd_direct (sel w)).
      - apply ensure_ok in Hord. apply list_elem_of_lookup in Hq. destruct Hq as [j Hj].
        rewrite (Hshape j q Hj). pose proof (lookup_lt_Some _ _ _ Hj). lia.
      - apply ensure_ok, negb_true_iff in Hord. pose proof (proj2 Hshape q Hq). lia. }
    split; [split; [| split] | split].
    + rewrite Hn', Hn, records_snoc_some, length_app. simpl. lia.
    + rewrite Hl', last_key_snoc_some. symmetry. apply fd_of_some. exact Hp.
    + intros m Hm. destruct (Hm' m Hm) as [He Hc]. destruct (Hsets m Hm) as [Hbit Hcnt].
      assert (Hfresh : Z.testbit (aget (v_enabled st) m) (f_fd qf) = false).
      { destruct (Z.testbit (aget (v_enabled st) m) (f_fd qf)) eqn:E; [| reflexivity].
        apply Hbit in E. destruct E as (q & qf' & Hq & Hq' & Hk & _).
        pose proof (Hbelow q Hq) as Hb. rewrite (fd_of_some _ _ _ Hq') in Hb. lia. }
      split.
      * intros x. rewrite He. destruct (Z.testbit (f_enabled_bits qf) m) eqn:B.
        -- assert (Hr : 0 <= f_fd qf < FD_SETSIZE).
           { apply Hfd. intros E0. rewrite E0, Z.bits_0 in B. discriminate. }
           rewrite Z.setbit_eqb by lia. rewrite orb_true_iff, Hbit. split.
           ++ intros [E | (q & qf' & Hq & Hrest)].
              ** exists p, qf.
                 split; [apply elem_of_app; right; apply list_elem_of_singleton; reflexivity |].
                 split; [exact Hp |]. split; [lia | exact B].
              ** exists q, qf'. split; [apply elem_of_app; left; exact Hq | exact Hrest].
           ++ intros (q & qf' & Hq & Hq' & Hk & Hb).
              apply elem_of_app in Hq. destruct Hq as [Hq | Hq].
              ** right. exists q, qf'. auto.
              ** apply list_elem_of_singleton in Hq. injection Hq as ->.
                 assert (qf' = qf) by congruence. subst qf'. left. lia.
        -- rewrite Hbit. split.
           ++ intros (q & qf' & Hq & Hrest). exists q, qf'.
              split; [apply elem_of_app; left; exact Hq | exact Hrest].
           ++ intros (q & qf' & Hq & Hq' & Hk & Hb).
              apply elem_of_app in Hq. destruct Hq as [Hq | Hq].
              ** exists q, qf'. auto.
              ** apply list_elem_of_singleton in Hq. injection Hq as ->.
                 assert (qf' = qf) by congruence. subst qf'. congruence.
      * rewrite Hc, He, Hcnt. destruct (Z.testbit (f_enabled_bits qf) m) eqn:B.
        -- assert (Hr : 0 <= f_fd qf < FD_SETSIZE).
           { apply Hfd. intros E0. rewrite E0, Z.bits_0 in B. discriminate. }
           rewrite popcount_setbit by (exact Hr || exact Hfresh). reflexivity.
        -- lia.
    + intros q Hq. apply elem_of_app in Hq. destruct Hq as [Hq | Hq]; [exact (Hrec q Hq) |].
      apply list_elem_of_singleton in Hq. injection Hq as ->. exists qf. auto.
    + destruct (fd_direct (sel w)).
      * apply ensure_ok in Hord. intros i q Hi.
        destruct (Nat.lt_ge_cases i (length v1)) as [L | G].
        -- rewrite lookup_app_l in Hi by exact L. exact (Hshape i q Hi).
        -- rewrite lookup_app_r in Hi by exact G.
           destruct (i - length v1)%nat as [| k] eqn:Ek; [| destruct k; discriminate].
           injection Hi as ->. rewrite (fd_of_some _ _ _ Hp). lia.
      * apply ensure_ok, negb_true_iff in Hord. destruct Hshape as [[Hnn Hso] Hle]. split.
        -- split.
           ++ intros Hin. apply elem_of_app in Hin. destruct Hin as [Hin | Hin];
                [exact (Hnn Hin) | apply list_elem_of_singleton in Hin; discriminate].
           ++ rewrite fmap_app. apply StronglySorted_app. split; [| split].
              ** intros x1 x2 H1 H2. apply list_elem_of_singleton in H2. subst x2.
                 apply list_elem_of_fmap in H1. destruct H1 as ([q |] & -> & Hq).
                 --- cbn [item_key]. rewrite (fd_of_some _ _ _ Hp). apply Hbelow. exact Hq.
                 --- contradiction.
              ** exact Hso.
              ** cbn. repeat constructor.
        -- intros q Hq. rewrite Hl'. apply elem_of_app in Hq. destruct Hq as [Hq | Hq].
           ++ pose proof (Hbelow q Hq). lia.
           ++ apply list_elem_of_singleton in Hq. injection Hq as ->.
              rewrite (fd_of_some _ _ _ Hp). lia.
  - unfold validate_item in H. destruct (fd_direct (sel w)) eqn:Hd; [| discriminate].
    injection H as <-.
    split; [split; [| split] | split].
    + rewrite records_snoc_none. exact Hn.
    + rewrite last_key_snoc_none. exact Hl.
    + intros m Hm. destruct (Hsets m Hm) as [Hbit Hcnt]. split; [| exact Hcnt].
      intros x. rewrite Hbit. split; intros (q & qf' & Hq & Hrest); exists q, qf'.
      * split; [apply elem_of_app; left; exact Hq | exact Hrest].
      * split; [| exact Hrest]. apply elem_of_app in Hq. destruct Hq as [Hq | Hq]; [exact Hq |].
        apply list_elem_of_singleton in Hq. discriminate Hq.
    + intros q Hq. apply elem_of_app in Hq. destruct Hq as [Hq | Hq]; [exact (Hrec q Hq) |].
      apply list_elem_of_singleton in Hq. discriminate Hq.
    + rewrite Hd. intros i q Hi. destruct (Nat.lt_ge_cases i (length v1)) as [L | G].
      * rewrite lookup_app_l in Hi by exact L. exact (Hshape i q Hi).
      * rewrite lookup_app_r in Hi by exact G.
        destruct (i - length v1)%nat as [| k] eqn:Ek; [| destruct k; discriminate].
        discriminate.
Qed.

Lemma validate_items_inv (w : world) :
  forall (v2 v1 : vector) (st st' : vstate),
    scanned w v1 st -> validate_items w (length v1) v2 st = Ok st' ->
    scanned w (v1 ++ v2) st'.
Proof.
  induction v2 as [| item v2 IH]; intros v1 st st' Hs H.
  - injection H as <-. rewrite app_nil_r. exact Hs.
  - cbn [validate_items] in H. apply bind_ok in H. destruct H as (st1 & H1 & H).
    pose proof (validate_item_inv w v1 item st st1 Hs H1) as Hs1.
    replace (S (length v1)) with (length (v1 ++ [item])) in H
      by (rewrite length_app; simpl; lia).
    specialize (IH (v1 ++ [item]) st1 st' Hs1 H). rewrite <- app_assoc in IH. exact IH.
Qed.
Lemma validate_results_inv (q : qps_selection) (m : Z) :
  forall (l : list Z) (n n' : Z),
    foldM (validate_result_fd q m) l n = Ok n' ->
    n' = n + count_set (aget (results q) m) l
    /\ forall x, x ∈ l -> Z.testbit (aget (results q) m) x = true ->
                 x <= tried_fd_last q /\ (m = pend_mnum q -> pend_fd q <= x).
Proof.
  induction l as [| y l IH]; intros n n' H.
  - injection H as <-. split; [cbn; lia | intros x Hx; inversion Hx].
  - cbn [foldM] in H. apply bind_ok in H. destruct H as (n1 & H1 & H).
    destruct (IH n1 n' H) as [Hn Hb]. unfold validate_result_fd, FD_ISSET in H1.
    cbn [count_set]. destruct (Z.testbit (aget (results q) m) y) eqn:E.
    + apply bind_ok in H1. destruct H1 as (u1 & Hlast & H1). apply ensure_ok in Hlast.
      apply bind_ok in H1. destruct H1 as (u2 & _ & H1).
      apply bind_ok in H1. destruct H1 as (u3 & Hpf & H1). apply ensure_ok in Hpf.
      injection H1 as <-. split; [lia |].
      intros x Hx Hxs. apply elem_of_cons in Hx. destruct Hx as [-> | Hx]; [| exact (Hb x Hx Hxs)].
      split; [lia |]. intros ->. rewrite Z.eqb_refl in Hpf. cbn [andb] in Hpf. lia.
    + injection H1 as <-. split; [lia |].
      intros x Hx Hxs. apply elem_of_cons in Hx. destruct Hx as [-> | Hx]; [congruence |].
      exact (Hb x Hx Hxs).
Qed.

Lemma validate_results_mode (q : qps_selection) (m n n' : Z) :
  validate_results q m n = Ok n' ->
  n' = n + (if aget (tried_count q) m =? 0 then 0 else popcount (aget (results q) m))
  /\ (aget (tried_count q) m <> 0 ->
      forall x, 0 <= x < FD_SETSIZE -> Z.testbit (aget (results q) m) x = true ->
                x <= tried_fd_last q /\ (m = pend_mnum q -> pend_fd q <= x)).
Proof.
  unfold validate_results. intros H.
  destruct (Z.eqb_spec (aget (tried_count q) m) 0) as [E | N]; cbn [negb] in H.
  - injection H as <-. split; [lia | contradiction].
  - destruct (validate_results_inv q m all_fds n n' H) as [Hn Hb]. split; [exact Hn |].
    intros _ x Hx. apply Hb. apply elem_of_all_fds. exact Hx.
Qed.

Lemma super_set_count_one (s : fd_super_set) : qps_super_set_count [s] = popcount s.
Proof.
  unfold qps_super_set_count. cbn [fold_left]. rewrite super_set_count1_popcount. lia.
Qed.

Lemma super_set_count_three (a b c : fd_super_set) :
  qps_super_set_count [a; b; c] = popcount a + popcount b + popcount c.
Proof.
  unfold qps_super_set_count. cbn [fold_left]. rewrite !super_set_count1_popcount. lia.
Qed.

Lemma validate_untried_mode (q : qps_selection) (m : Z) (u u' : unit) :
  validate_untried q m u = Ok u' ->
  aget (tried_count q) m = 0 -> popcount (aget (results q) m) = 0.
Proof.
  unfold validate_untried. intros H H0. apply ensure_ok in H.
  rewrite H0, super_set_count_one in H. change (0 =? 0) with true in H.
  rewrite andb_true_l in H. apply negb_true_iff, negb_false_iff, Z.eqb_eq in H.
  exact H.
Qed.

Lemma validate_tried_mode (q : qps_selection) (m : Z) (u u' : unit) :
  validate_tried q m u = Ok u' ->
  (m < pend_mnum q -> aget (tried_count q) m = 0)
  /\ (m = pend_mnum q -> 0 < aget (tried_count q) m)
  /\ (pend_mnum q < m -> 0 <= aget (tried_count q) m).
Proof.
  unfold validate_tried. intros H.
  apply bind_ok in H. destruct H as (u1 & H1 & H). apply ensure_ok in H1.
  apply bind_ok in H. destruct H as (u2 & H2 & H). apply ensure_ok in H.
  split; [| split].
  - intros L. replace (m <? pend_mnum q) with true in H1 by lia. cbn [andb] in H1.
    apply negb_true_iff, negb_false_iff, Z.eqb_eq in H1. exact H1.
  - intros E. rewrite <- E in H2. rewrite Z.eqb_refl in H2. apply ensure_ok in H2. lia.
  - intros G. replace (m >? pend_mnum q) with true in H by lia. cbn [andb] in H. lia.
Qed.

(** X20: what qps_selection_validate has established when it returns.
    There is a record attached (the check stops on an empty selection);
    fd_count is the number of records; every record in the files vector
    exists, points to this selection and has valid enabled bits; the vector
    has the shape of its form (array: descriptor = index, last item not NULL;
    list: no NULL, descriptors strictly ascending); fd_last is the
    descriptor of the last record; the enabled sets hold exactly the
    descriptors of the records with the mode's bit, and enabled_count is
    their size; pend_count is the number of descriptors in results; and with
    something pending pend_mnum is a mode that was tried, no lower mode was,
    and every pending descriptor is in a tried mode, not above
    tried_fd_last, and in mode pend_mnum not below pend_fd.  That a pending
    descriptor is enabled is not among these: the check for it compares
    results with itself. *)
Theorem validate_accepts_only_consistent (w : world) :
  qps_selection_validate w = Ok tt ->
  records (files (sel w)) <> []
  /\ fd_count (sel w) = Z.of_nat (length (records (files (sel w))))
  /\ (forall p, Some p ∈ files (sel w) ->
        exists qf, heap w !! p = Some qf /\ f_selection qf = Some (this w)
                   /\ 0 <= f_enabled_bits qf <= qps_all_mbits)
  /\ (if fd_direct (sel w) then dense_shape (heap w) (files (sel w))
      else sparse_shape (heap w) (files (sel w)))
  /\ fd_last (sel w) = last_key (heap w) (files (sel w))
  /\ (forall m x, 0 <= m < 3 ->
        (Z.testbit (aget (enabled (sel w)) m) x = true
         <-> exists p qf, Some p ∈ files (sel w) /\ heap w !! p = Some qf
                          /\ f_fd qf = x /\ Z.testbit (f_enabled_bits qf) m = true))
  /\ (forall m, 0 <= m < 3 ->
        aget (enabled_count (sel w)) m = popcount (aget (enabled (sel w)) m))
  /\ pend_count (sel w)
     = popcount (at0 (results (sel w))) + popcount (at1 (results (sel w)))
       + popcount (at2 (results (sel w)))
  /\ (pend_count (sel w) <> 0 ->
      0 <= pend_mnum (sel w) < 3
      /\ 0 <= pend_fd (sel w) <= tried_fd_last (sel w)
      /\ 0 < aget (tried_count (sel w)) (pend_mnum (sel w))
      /\ (forall m, 0 <= m < pend_mnum (sel w) -> aget (tried_count (sel w)) m = 0)
      /\ (forall m x, 0 <= m < 3 -> 0 <= x < FD_SETSIZE ->
            Z.testbit (aget (results (sel w)) m) x = true ->
            aget (tried_count (sel w)) m <> 0
            /\ x <= tried_fd_last (sel w)
            /\ (m = pend_mnum (sel w) -> pend_fd (sel w) <= x))).
Proof.
  intros H. unfold qps_selection_validate in H.
  apply bind_ok in H. destruct H as (st & Hitems & H).
  pose proof (validate_items_inv w (files (sel w)) [] _ st (scanned_start w) Hitems) as Hsc.
  cbn [app] in Hsc. destruct Hsc as ((Hn & Hl & Hsets) & Hrec & Hshape).
  apply bind_ok in H. destruct H as (u1 & Hnull & H). apply ensure_ok in Hnull.
  apply bind_ok in H. destruct H as (u2 & Hcount & H). apply ensure_ok, Z.eqb_eq in Hcount.
  apply bind_ok in H. destruct H as (u3 & Hlast & H).
  apply ensure_ok, negb_true_iff, orb_false_iff in Hlast. destruct Hlast as [Hl1 Hl2].
  apply negb_false_iff, Z.eqb_eq in Hl2.
  apply bind_ok in H. destruct H as (u4 & Hcounts & H).
  apply bind_ok in H. destruct H as (u5 & Hcmp & H). apply ensure_ok, Z.eqb_eq in Hcmp.
  assert (Hne : records (files (sel w)) <> []).
  { intros E. unfold last_key in Hl. rewrite E in Hl, Hn. cbn in Hl, Hn.
    rewrite Hn in Hl1. cbn [Z.eqb andb] in Hl1. apply negb_false_iff, Z.eqb_eq in Hl1. lia. }
  assert (Hn0 : v_n st <> 0).
  { rewrite Hn. destruct (records (files (sel w))); [contradiction | simpl; lia]. }
  assert (Hen : v_enabled st = enabled (sel w)).
  { unfold qps_super_set_cmp in Hcmp.
    destruct ((at0 (v_enabled st) =? at0 (enabled (sel w)))
              && (at1 (v_enabled st) =? at1 (enabled (sel w)))
              && (at2 (v_enabled st) =? at2 (enabled (sel w)))) eqn:E; [| discriminate].
    apply andb_prop in E. destruct E as [E E2]. apply andb_prop in E. destruct E as [E0 E1].
    destruct (v_enabled st), (enabled (sel w)). cbn in *. f_equal; lia. }
  assert (Hec : forall m, 0 <= m < 3 ->
                          aget (v_enabled_count st) m = aget (enabled_count (sel w)) m).
  { unfold mnums in Hcounts. cbn [foldM] in Hcounts.
    apply bind_ok in Hcounts. destruct Hcounts as (a0 & H0 & Hcounts). apply ensure_ok in H0.
    apply bind_ok in Hcounts. destruct Hcounts as (a1 & H1 & Hcounts). apply ensure_ok in H1.
    apply bind_ok in Hcounts. destruct Hcounts as (a2 & H2 & _). apply ensure_ok in H2.
    intros m Hm. destruct (mode_cases m Hm) as [-> | [-> | ->]]; lia. }
  split; [exact Hne |].
  split; [lia |].
  split; [exact Hrec |].
  split.
  { destruct (fd_direct (sel w)); [| exact (proj1 Hshape)].
    split; [exact Hshape |]. intros Hln.
    replace (v_n st =? 0) with false in Hnull by lia. cbn [negb andb] in Hnull.
    unfold vector_get_last_item in Hnull. rewrite Hln in Hnull. discriminate. }
  split; [lia |].
  split; [intros m x Hm; rewrite <- Hen; exact (proj1 (Hsets m Hm) x) |].
  split; [intros m Hm; rewrite <- Hen, <- (Hec m Hm); exact (proj2 (Hsets m Hm)) |].
  destruct (Z.eqb_spec (pend_count (sel w)) 0) as [E0 | N0].
  - apply ensure_ok, Z.eqb_eq in H. rewrite super_set_count_three in H.
    split; [lia | contradiction].
  - apply bind_ok in H. destruct H as (u6 & Hcur & H).
    apply ensure_ok, negb_true_iff in Hcur.
    apply orb_false_iff in Hcur. destruct Hcur as [Hcur Hc4].
    apply orb_false_iff in Hcur. destruct Hcur as [Hcur Hc3].
    apply orb_false_iff in Hcur. destruct Hcur as [Hc1 Hc2]. unfold qps_mnum_count in Hc2.
    apply bind_ok in H. destruct H as (u7 & Htried & H).
    apply bind_ok in H. destruct H as (u8 & Huntried & H).
    apply bind_ok in H. destruct H as (n & Hres & H). apply ensure_ok, Z.eqb_eq in H.
    unfold mnums in Htried, Huntried, Hres. cbn [foldM] in Htried, Huntried, Hres.
    apply bind_ok in Htried. destruct Htried as (t0 & Ht0 & Htried).
    apply bind_ok in Htried. destruct Htried as (t1 & Ht1 & Htried).
    apply bind_ok in Htried. destruct Htried as (t2 & Ht2 & _).
    apply validate_tried_mode in Ht0, Ht1, Ht2.
    apply bind_ok in Huntried. destruct Huntried as (r0 & Hu0 & Huntried).
    apply bind_ok in Huntried. destruct Huntried as (r1 & Hu1 & Huntried).
    apply bind_ok in Huntried. destruct Huntried as (r2 & Hu2 & _).
    pose proof (validate_untried_mode _ _ _ _ Hu0) as Hz0.
    pose proof (validate_untried_mode _ _ _ _ Hu1) as Hz1.
    pose proof (validate_untried_mode _ _ _ _ Hu2) as Hz2.
    apply bind_ok in Hres. destruct Hres as (n0 & Hr0 & Hres).
    apply bind_ok in Hres. destruct Hres as (n1 & Hr1 & Hres).
    apply bind_ok in Hres. destruct Hres as (n2 & Hr2 & Hres). injection Hres as <-.
    apply validate_results_mode in Hr0, Hr1, Hr2.
    destruct Hr0 as [Hs0 Hb0], Hr1 as [Hs1 Hb1], Hr2 as [Hs2 Hb2].
    change (aget (results (sel w)) 0) with (at0 (results (sel w))) in *.
    change (aget (results (sel w)) 1) with (at1 (results (sel w))) in *.
    change (aget (results (sel w)) 2) with (at2 (results (sel w))) in *.
    assert (Hsum : pend_count (sel w)
                   = popcount (at0 (results (sel w))) + popcount (at1 (results (sel w)))
                     + popcount (at2 (results (sel w)))).
    { rewrite <- H, Hs2, Hs1, Hs0.
      destruct (Z.eqb_spec (aget (tried_count (sel w)) 0) 0) as [T0 | T0];
        destruct (Z.eqb_spec (aget (tried_count (sel w)) 1) 0) as [T1 | T1];
        destruct (Z.eqb_spec (aget (tried_count (sel w)) 2) 0) as [T2 | T2];
        try (specialize (Hz0 T0)); try (specialize (Hz1 T1)); try (specialize (Hz2 T2)); lia. }
    split; [exact Hsum |]. intros _.
    assert (Hpm : 0 <= pend_mnum (sel w) < 3).
    { destruct (Z.eq_dec (pend_mnum (sel w)) 3) as [E3 | N3]; [| lia]. exfalso.
      rewrite (Hz0 (proj1 Ht0 ltac:(lia))), (Hz1 (proj1 Ht1 ltac:(lia))),
        (Hz2 (proj1 Ht2 ltac:(lia))) in Hsum. lia. }
    split; [exact Hpm |]. split; [lia |].
    split.
    { destruct (mode_cases _ Hpm) as [E | [E | E]].
      - rewrite E. apply (proj1 (proj2 Ht0)). lia.
      - rewrite E. apply (proj1 (proj2 Ht1)). lia.
      - rewrite E. apply (proj1 (proj2 Ht2)). lia. }
    split.
    { intros m Hm. assert (Hm3 : 0 <= m < 3) by lia.
      destruct (mode_cases m Hm3) as [-> | [-> | ->]].
      - apply (proj1 Ht0). lia.
      - apply (proj1 Ht1). lia.
      - apply (proj1 Ht2). lia. }
    intros m x Hm Hx Hbit.
    assert (Htm : aget (tried_count (sel w)) m <> 0).
    { intros T. assert (Hz : popcount (aget (results (sel w)) m) = 0).
      { destruct (mode_cases m Hm) as [-> | [-> | ->]]; auto. }
      pose proof (popcount_pos _ x Hx Hbit). lia. }
    split; [exact Htm |].
    destruct (mode_cases m Hm) as [-> | [-> | ->]].
    + exact (Hb0 Htm x Hx Hbit).
    + exact (Hb1 Htm x Hx Hbit).
    + exact (Hb2 Htm x Hx Hbit).
Qed.

Lemma validate_accepts_only_consistent_witness :
  fd_count (sel (waited eager_environment example_armed 0))
  = Z.of_nat (length (records (files (sel (waited eager_environment example_armed 0)))))
  /\ pend_count (sel (waited eager_environment example_armed 0))
     = popcount (at0 (results (sel (waited eager_environment example_armed 0))))
       + popcount (at1 (results (sel (waited eager_environment example_armed 0))))
       + popcount (at2 (results (sel (waited eager_environment example_armed 0)))).
Proof.
  destruct (validate_accepts_only_consistent (waited eager_environment example_armed 0))
    as (_ & Hn & _ & _ & _ & _ & _ & Hp & _).
  - vm_compute. reflexivity.
  - split; [exact Hn | exact Hp].
Defined.

(** ** A check that cannot fire *)

Lemma bind_not_abort {A B : Type} (msg : string) (r : result A) (k : A -> result B) :
  r <> Abort msg -> (forall a, k a <> Abort msg) -> bind r k <> Abort msg.
Proof.
  intros Hr Hk. destruct r as [a | m | m]; cbn [bind].
  - apply Hk.
  - intros E. apply Hr. injection E as ->. reflexivity.
  - discriminate.
Qed.

Lemma ensure_not_abort (c : bool) (msg msg' : string) :
  msg' <> msg -> ensure c msg' <> Abort msg.
Proof.
  intros Hne. destruct c; cbn [ensure]; [discriminate |].
  intros E. apply Hne. injection E as ->. reflexivity.
Qed.

Lemma foldM_not_abort {A B : Type} (msg : string) (f : B -> A -> result A) (l : list B) :
  (forall x a, f x a <> Abort msg) -> forall a, foldM f l a <> Abort msg.
Proof.
  intros Hf. induction l as [| x l IH]; intros a; cbn [foldM]; [discriminate |].
  apply bind_not_abort; [apply Hf | exact IH].
Qed.

Lemma deref_not_abort (w : world) (p : file_ptr) (msg : string) : deref w p <> Abort msg.
Proof. unfold deref. destruct (heap w !! p); discriminate. Qed.

Lemma validate_items_not_abort (w : world) (msg : string) :
  msg = "Found pending fd which is not enabled"%string ->
  forall (v : vector) (i : nat) (st : vstate), validate_items w i v st <> Abort msg.
Proof.
  intros ->. induction v as [| item v IH]; intros i st; cbn [validate_items]; [discriminate |].
  apply bind_not_abort; [| intros a; apply IH].
  unfold validate_item. destruct item as [p |].
  - apply bind_not_abort; [apply deref_not_abort |]. intros qf.
    apply bind_not_abort;
      [destruct (fd_direct (sel w)); apply ensure_not_abort; discriminate |].
    intros _. apply bind_not_abort; [apply ensure_not_abort; discriminate |].
    intros _. apply bind_not_abort; [apply ensure_not_abort; discriminate |].
    intros _. apply foldM_not_abort. intros m a. unfold capture_enabled, fd_index.
    destruct (negb _); [| discriminate]. destruct (fd_in_range _); discriminate.
  - destruct (fd_direct (sel w)); discriminate.
Qed.

(** X21: the check of qps_selection_validate that a pending descriptor is
    enabled cannot fire.  It is made under [if (FD_ISSET(fd, results[mnum]))]
    and tests that same bit of results, not the enabled set, so no state makes
    the check stop with its message. *)
Theorem pending_not_enabled_never_reported (w : world) :
  qps_selection_validate w <> Abort "Found pending fd which is not enabled".
Proof.
  unfold qps_selection_validate.
  apply bind_not_abort; [apply validate_items_not_abort; reflexivity |]. intros st.
  apply bind_not_abort; [apply ensure_not_abort; discriminate |]. intros _.
  apply bind_not_abort; [apply ensure_not_abort; discriminate |]. intros _.
  apply bind_not_abort; [apply ensure_not_abort; discriminate |]. intros _.
  apply bind_not_abort;
    [apply foldM_not_abort; intros m a; apply ensure_not_abort; discriminate |]. intros _.
  apply bind_not_abort; [apply ensure_not_abort; discriminate |]. intros _.
  destruct (pend_count (sel w) =? 0); [apply ensure_not_abort; discriminate |].
  apply bind_not_abort; [apply ensure_not_abort; discriminate |]. intros _.
  apply bind_not_abort.
  { apply foldM_not_abort. intros m a. unfold validate_tried.
    apply bind_not_abort; [apply ensure_not_abort; discriminate |]. intros _.
    apply bind_not_abort;
      [destruct (m =? _); [apply ensure_not_abort |]; discriminate |].
    intros _. apply ensure_not_abort. discriminate. }
  intros _. apply bind_not_abort.
  { apply foldM_not_abort. intros m a. unfold validate_untried.
    apply ensure_not_abort. discriminate. }
  intros _. apply bind_not_abort; [| intros n; apply ensure_not_abort; discriminate].
  apply foldM_not_abort. intros m n. unfold validate_results.
  destruct (negb _); [| discriminate].
  apply foldM_not_abort. intros fd k. unfold validate_result_fd.
  destruct (FD_ISSET fd (aget (results (sel w)) m)) eqn:E; [| discriminate].
  apply bind_not_abort; [apply ensure_not_abort; discriminate |]. intros _.
  cbn [ensure bind].
  apply bind_not_abort; [apply ensure_not_abort; discriminate |]. intros _. discriminate.
Qed.

(** ** Misuse *)

(** X22: the misuses the interface calls fatal stop the call, whatever the
    rest of the state: attaching a record that is in a selection, or with a
    descriptor outside 0 .. FD_SETSIZE - 1; enabling a mode for a record in no
    selection, or with no action given and none set; unsetting the action of
    a mode that is enabled; freeing a record that is in a selection;
    disabling with a mode mask outside 0 .. 7. *)
Theorem misuse_is_fatal (w : world) (p : file_ptr) (qf : qps_file) :
  heap w !! p = Some qf ->
  (f_selection qf <> None ->
   forall fd info, qps_add_file w p fd info = Abort "passert(qf->selection == NULL)")
  /\ (f_selection qf = None ->
      forall fd info, ~ 0 <= fd < FD_SETSIZE ->
        qps_add_file w p fd info = Abort "dassert((fd >= 0) && (fd < FD_SETSIZE))")
  /\ (f_selection qf = None ->
      forall m action, qps_enable_mode w p m action = Abort "dassert(qps != NULL)")
  /\ (f_selection qf <> None ->
      forall m, 0 <= m < 3 -> aget (f_actions qf) m = None ->
        qps_enable_mode w p m None = Abort "dassert(qf->actions[mnum] != NULL)")
  /\ (forall m, 0 <= m < 3 -> Z.testbit (f_enabled_bits qf) m = true ->
        qps_set_action w p m None
        = Abort "passert((qf->enabled_bits & qps_mbit(mnum)) == 0)")
  /\ (f_selection qf <> None ->
      qps_file_free w p = Abort "assert(qf->selection == NULL)")
  /\ (forall mbits, ~ 0 <= mbits <= qps_all_mbits ->
        qps_disable_modes w p mbits
        = Abort "dassert((mbits >= 0) && (mbits <= qps_all_mbits))").
Proof.
  intros Hp. repeat split.
  - intros Hs fd info. unfold qps_add_file, deref. rewrite Hp. cbn [bind].
    rewrite bool_decide_eq_false_2 by exact Hs. reflexivity.
  - intros Hs fd info Hfd. unfold qps_add_file, deref. rewrite Hp. cbn [bind].
    rewrite bool_decide_eq_true_2 by exact Hs. cbn [ensure bind].
    unfold qps_file_lookup_fd.
    replace ((fd >=? 0) && (fd <? FD_SETSIZE)) with false; [reflexivity |].
    symmetry. apply andb_false_iff. lia.
  - intros Hs m action. unfold qps_enable_mode, deref. rewrite Hp. cbn [bind].
    rewrite bool_decide_eq_false_2 by (rewrite Hs; intros E; apply E; reflexivity).
    reflexivity.
  - intros Hs m Hm Ha. unfold qps_enable_mode, deref. rewrite Hp. cbn [bind].
    rewrite bool_decide_eq_true_2 by exact Hs. cbn [ensure bind].
    rewrite ensure_true by (unfold qps_mnum_count; apply andb_true_intro; split; lia).
    cbn [bind]. rewrite (mode_index_in m Hm). cbn [bind].
    rewrite bool_decide_eq_false_2 by (rewrite Ha; intros E; apply E; reflexivity).
    reflexivity.
  - intros m Hm Hbit. unfold qps_set_action, deref. rewrite Hp. cbn [bind].
    rewrite ensure_true by (unfold qps_mnum_count; apply andb_true_intro; split; lia).
    cbn [bind]. rewrite land_mbit by lia. rewrite Hbit. reflexivity.
  - intros Hs. unfold qps_file_free, deref. rewrite Hp. cbn [bind].
    rewrite bool_decide_eq_false_2 by exact Hs. reflexivity.
  - intros mbits Hm. unfold qps_disable_modes, deref. rewrite Hp. cbn [bind].
    replace ((mbits >=? 0) && (mbits <=? qps_all_mbits)) with false; [reflexivity |].
    symmetry. apply andb_false_iff. lia.
Qed.

Lemma misuse_is_fatal_witness :
  qps_file_free example_armed 1%positive = Abort "assert(qf->selection == NULL)"
  /\ qps_set_action example_armed 1%positive 2 None
     = Abort "passert((qf->enabled_bits & qps_mbit(mnum)) == 0)".
Proof.
  destruct (misuse_is_fatal example_armed 1%positive
              (with_file_enabled (attached_record 1%positive 5 0 example_file) 6))
    as (_ & _ & _ & _ & Hset & Hfree & _).
  - vm_compute. reflexivity.
  - split.
    + apply Hfree. discriminate.
    + apply (Hset 2); [lia | reflexivity].
Defined.

(** ** C8: attach, then detach, on every legal selection *)

(** qps_remove_file on an attached record of a legal state returns. *)
Lemma remove_file_returns (w : world) (p : file_ptr) (qf : qps_file) :
  legal w -> heap w !! p = Some qf -> f_selection qf = Some (this w) ->
  exists w', qps_remove_file w p = Ok w'.
Proof.
  intros Hl Hp Hs. pose proof Hl as [Hf He Hb].
  pose proof (fo_back _ Hf p qf Hp Hs) as Hin.
  destruct (fo_heap _ Hf p Hin) as (qf' & Hq' & _ & Hfd & Hbr & _).
  assert (qf' = qf) by congruence. subst qf'. clear Hq'. unfold qps_all_mbits in Hbr.
  destruct (lookup_item_found w (f_fd qf) p Hf Hin (fd_of_some _ _ _ Hp) ltac:(lia))
    as (i & ret & Hlk & -> & Hi).
  destruct (removed_item_spec (heap w) (fd_direct (sel w)) (files (sel w)) i p
                              (fo_shape _ Hf) Hi) as (Hshape' & Hmem' & Hcnt').
  destruct (removed_last w i p Hf Hi) as (last & Hlast & Hagree).
  set (v' := removed_item (fd_direct (sel w)) (files (sel w)) i) in *.
  set (q1 := with_membership (sel w) (fd_count (sel w) - 1) (fd_direct (sel w)) v'
                             (if last >=? 0 then last else 0)).
  destruct (disable_modes_run (set_sel w q1) p qf qps_all_mbits Hp Hs
                              ltac:(unfold qps_all_mbits; lia) Hfd Hbr)
    as (q' & Hdis & R1 & R2 & R5 & R6 & _).
  { intros m Hm Hbm. apply (eo_bits _ He m _ Hm). exists p, qf. auto. }
  { apply (eo_count _ He). }
  { apply batch_ok_membership. exact Hb. }
  cbn [this heap sel set_sel] in Hdis, R1, R2, R5, R6.
  rewrite (all_modes_off _ Hbr) in Hdis.
  set (qf0 := with_file_enabled qf 0) in *.
  set (w' := World (this w) q' (<[p := with_file_selection qf0 None]> (heap w))).
  assert (Hok : qps_remove_file w p = Ok w').
  { unfold qps_remove_file, deref. rewrite Hp. cbn [bind]. rewrite Hs.
    rewrite bool_decide_eq_true_2 by reflexivity.
    unfold qps_file_remove, deref. rewrite Hp. cbn [bind].
    rewrite ensure_true.
    2:{ apply andb_true_intro. split; [apply andb_true_intro; split |].
        - lia.
        - pose proof (proj1 (fo_last _ Hf) p Hin) as Hle.
          rewrite (fd_of_some _ _ _ Hp) in Hle. lia.
        - apply bool_decide_eq_true_2. exact Hs. }
    cbn [bind].
    assert (Hr : (if fd_direct (sel w) then
                    let u := vector_unset_item (files (sel w)) (Z.to_nat (f_fd qf)) in
                    Ok (fst u, snd u, vector_end (snd u) - 1)
                  else
                    ir <- vector_bsearch (qps_fd_cmp w (f_fd qf)) (files (sel w)) ;;
                    let d := if snd ir =? 0 then vector_delete_item (files (sel w)) (fst ir)
                             else (None, files (sel w)) in
                    match vector_get_last_item (snd d) with
                    | Some pl => qf_last <- deref w pl ;; Ok (fst d, snd d, f_fd qf_last)
                    | None => Ok (fst d, snd d, -1)
                    end) = Ok (Some p, v', last)).
    { rewrite <- Hlast. unfold v'. destruct (fd_direct (sel w)).
      - injection Hlk as <-. reflexivity.
      - rewrite Hlk. reflexivity. }
    unfold deref in Hr. rewrite Hr. cbn [bind fst snd].
    rewrite ensure_true by (apply bool_decide_eq_true_2; reflexivity). cbn [bind].
    assert (Hn : fd_count (sel w) - 1 = Z.of_nat (length (records v'))).
    { rewrite (fo_count _ Hf). lia. }
    rewrite ensure_true by (rewrite (fo_count _ Hf); lia). cbn [bind].
    rewrite ensure_true.
    2:{ rewrite Hn. destruct Hagree as [[Hne Hl0] | [Hnil Hl0]].
        - apply orb_true_intro. left. apply andb_true_intro. split; [| lia].
          apply negb_true_iff, Z.eqb_neq. destruct (records v'); [contradiction | simpl; lia].
        - apply orb_true_intro. right. rewrite Hnil. apply andb_true_intro. split; [reflexivity | lia]. }
    cbn [bind]. fold q1. rewrite Hdis. cbn [bind].
    unfold deref. cbn [heap]. rewrite lookup_insert_eq. cbn [bind].
    unfold set_file. cbn [this sel heap]. rewrite insert_insert_eq. reflexivity. }
  exists w'. exact Hok.
Qed.

(** C8: for a legal selection, a record that is in no selection and a
    descriptor in range that no attached record has, the attach and then the
    detach of the record both return, and they leave the selection in a
    state equal to the one before, the form of the files vector apart: the
    same records in the same order, and fd_count, fd_last, the enabled sets
    and counts, the batch and the signal fields equal; the state is legal,
    so the vector is the one the records give in its form, and no other
    record has changed.  The form is the one before unless the attach
    changed the list to the array, which detach does not undo; when it did
    not (the selection was in the array form, or held at most nine records)
    the selection is equal to the one before field by field, and when it
    did, listing the records of the array gives the list that was there
    before. *)
Theorem attach_then_detach_restores (w : world) (p : file_ptr) (qf : qps_file) (fd info : Z) :
  legal w -> heap w !! p = Some qf -> f_selection qf = None ->
  0 <= fd < FD_SETSIZE ->
  (forall q, Some q ∈ files (sel w) -> fd_of (heap w) q <> fd) ->
  exists w1 w2,
    qps_add_file w p fd info = Ok w1
    /\ qps_remove_file w1 p = Ok w2
    /\ same_up_to_form (sel w) (sel w2)
    /\ legal w2
    /\ fd_direct (sel w2) = (fd_direct (sel w) || (fd_count (sel w) >? 9))
    /\ (fd_direct (sel w) = true \/ fd_count (sel w) <= 9 -> sel w2 = sel w)
    /\ (fd_direct (sel w) = false -> (Some <$> records (files (sel w2))) = files (sel w))
    /\ (forall q, q <> p -> heap w2 !! q = heap w !! q).
Proof.
  intros Hl Hp0 Hsel0 Hfd0 Hfree.
  destruct (add_file_returns w p qf fd info Hl Hp0 Hsel0 Hfd0 Hfree) as [w1 Hadd].
  pose proof (add_file_legal _ _ _ _ _ Hl Hadd) as Hl1.
  assert (Hatt : exists qf1, heap w1 !! p = Some qf1 /\ f_selection qf1 = Some (this w1)).
  { destruct (add_file_unfold w w1 p fd info (l_files _ Hl) Hadd)
      as (qf' & v0 & _ & _ & _ & -> & _).
    exists (attached_record (this w) fd info qf'). split; [apply lookup_insert_eq | reflexivity]. }
  destruct Hatt as (qf1 & Hp1 & Hs1).
  destruct (remove_file_returns w1 p qf1 Hl1 Hp1 Hs1) as [w2 Hrem].
  exists w1, w2. split; [exact Hadd |]. split; [exact Hrem |].
  pose proof (remove_file_legal _ _ _ Hl1 Hrem) as Hl2.
  destruct (attach_detach_unfold w w1 w2 p fd info Hl Hadd Hrem)
    as (qf' & v' & i & x & Hp & Hsel & Hnotin & Hshape & Hmem & Hi & Hlg & Hs2 & Hdense
        & Hsparse & Hframe).
  clear qf Hp0 Hsel0. rename qf' into qf.
  set (newrec := attached_record (this w) fd info qf) in *.
  set (h1 := <[p := newrec]> (heap w)) in *.
  set (q1 := attached_selection (sel w) fd v') in *.
  destruct (removed_item_spec h1 (fd_direct q1) v' i p Hshape Hi) as (Hsh2 & Hmem2 & _).
  set (v2 := removed_item (fd_direct q1) v' i) in *.
  assert (Hko : forall q, Some q ∈ files (sel w) -> fd_of h1 q = fd_of (heap w) q).
  { intros q Hq. unfold fd_of, h1. rewrite lookup_insert_ne by (intros ->; auto). reflexivity. }
  assert (Hsame : forall q, Some q ∈ v2 <-> Some q ∈ files (sel w)).
  { intros q. rewrite Hmem2, Hmem. split.
    - intros [[-> | Hq] Hne]; [contradiction | exact Hq].
    - intros Hq. split; [right; exact Hq | intros ->; exact (Hnotin Hq)]. }
  assert (Hrec : records v2 = records (files (sel w))).
  { apply (records_determined h1 (fd_direct q1) (fd_direct (sel w))); [exact Hsh2 | | exact Hsame].
    apply (shape_ext (heap w) h1 _ _ Hko). apply (fo_shape _ (l_files _ Hl)). }
  assert (Hx : x = fd_last (sel w)).
  { apply (largest_fd_unique h1 (files (sel w))).
    - destruct Hlg as [Hub Hw]. split.
      + intros q Hq. apply Hub. apply Hsame. exact Hq.
      + destruct Hw as [(q & Hq & Hk) | [E Hnil]].
        * left. exists q. split; [apply Hsame; exact Hq | exact Hk].
        * right. split; [exact E | rewrite <- Hrec; exact Hnil].
    - apply (largest_fd_ext (heap w) h1 _ _ Hko). apply (fo_last _ (l_files _ Hl)). }
  assert (Hform : fd_direct q1 = (fd_direct (sel w) || (fd_count (sel w) >? 9))).
  { unfold q1, attached_selection. cbn [fd_direct with_membership].
    destruct (fd_direct (sel w)); reflexivity. }
  assert (Hcount : fd_count q1 - 1 = fd_count (sel w)).
  { unfold q1, attached_selection. cbn [fd_count with_membership]. lia. }
  split.
  { rewrite Hs2. unfold same_up_to_form. cbn [files fd_count fd_last with_membership].
    split; [exact Hrec |]. split; [exact Hcount |]. split; [exact Hx |].
    unfold q1, attached_selection. cbn. repeat split; reflexivity. }
  split; [exact Hl2 |].
  split; [rewrite Hs2; cbn [fd_direct with_membership]; exact Hform |].
  split.
  { intros Hkeep.
    assert (Hd1 : fd_direct q1 = fd_direct (sel w)).
    { rewrite Hform. destruct Hkeep as [-> | Hle]; [reflexivity |].
      replace (fd_count (sel w) >? 9) with false by lia. apply orb_false_r. }
    assert (Hv : v2 = files (sel w)).
    { unfold v2. rewrite Hd1. unfold removed_item. destruct (fd_direct (sel w)) eqn:Hdir.
      - destruct (Hdense eq_refl) as [Ev Hfree']. rewrite Ev in Hi |- *.
        assert (i = Z.to_nat fd) as ->.
        { apply vector_set_item_lookup in Hi. destruct Hi as [[E _] | [_ Hi]]; [auto |].
          exfalso. apply Hnotin. eapply list_elem_of_lookup_2. exact Hi. }
        apply dense_set_unset; [| exact Hfree'].
        pose proof (fo_shape _ (l_files _ Hl)) as Hsh0. rewrite Hdir in Hsh0.
        apply (proj2 Hsh0).
      - destruct Hkeep as [Ht | Hle]; [discriminate |].
        destruct (Hsparse eq_refl Hle) as (n & Hn & Ev). rewrite Ev in Hi |- *.
        apply sparse_insert_delete; assumption. }
    rewrite Hs2. fold v2. rewrite Hv, Hx, Hd1, Hcount.
    unfold q1, attached_selection. apply with_membership_back. }
  split; [| exact Hframe].
  intros Hd. rewrite Hs2. cbn [files with_membership]. fold v2. rewrite Hrec.
  apply sparse_files_records.
  pose proof (fo_shape _ (l_files _ Hl)) as Hsh0. rewrite Hd in Hsh0. exact (proj1 Hsh0).
Qed.

(** C8 at an eleventh record: attached with descriptor 30 to ten records in
    the list form and detached again, it leaves the ten records, in the
    array form, and every other field as before. *)
Lemma attach_then_detach_restores_witness :
  exists w1 w2,
    qps_add_file example_ten 11%positive 30 0 = Ok w1
    /\ qps_remove_file w1 11%positive = Ok w2
    /\ same_up_to_form (sel example_ten) (sel w2)
    /\ fd_direct (sel w2) = (fd_direct (sel example_ten) || (fd_count (sel example_ten) >? 9)).
Proof.
  destruct (attach_then_detach_restores example_ten 11%positive example_file 30 0)
    as (w1 & w2 & Ha & Hr & Hsame & _ & Hform & _).
  - exact example_ten_legal.
  - vm_compute. reflexivity.
  - reflexivity.
  - unfold FD_SETSIZE. lia.
  - intros q Hq. apply records_elem in Hq. vm_compute in Hq.
    repeat (apply elem_of_cons in Hq; destruct Hq as [-> | Hq]; [vm_compute; discriminate |]).
    inversion Hq.
  - exists w1, w2. auto.
Defined.
